(** * Online Course Management System: services and dashboard arithmetic

    A shallow embedding of the TypeScript sources of the course-management
    dashboard (collection services, dashboard service, dashboard component
    helpers, enrollment form) together with the properties its
    specification states about them.

    Conventions of the embedding.
    - A JavaScript [number] that the code only counts with or compares as an
      identifier is a [Z] or a [nat].  A [number] the code divides or rounds
      is read in two ways.  The services are embedded over exact rationals
      [Q], for the properties that do not depend on how the arithmetic
      rounds (counts, bounds, orderings, two code paths that compute the
      same value).  The aggregations whose results the specification pins
      to the hundredth, [getEnrollmentStats],
      [calculateCategoryDistribution] and [calculateEnrollmentTrends], are
      embedded a second time over IEEE-754 doubles ([Double],
      [DoublePrecision]), and the properties about their rounded results
      are stated of that embedding.  The special values a division can
      produce ([Infinity], [NaN]) are kept where a property is about
      division by zero ([JsNumber]).
    - A [Date] is its time value in milliseconds on the line of local
      civil time (the zone offset is not modelled), or [None] for an
      invalid date.  What the engine decides, [Date.parse], [toISOString],
      [toLocaleString] and [toLowerCase], is collected in the record
      [Engine] that the services take as a parameter.
    - An [Observable] that wraps one HTTP exchange is run to completion at
      subscription: a computation over the [World] (console, request log,
      service caches, clock) that ends in [Next v] or in [Error e].  The
      backend is an oracle: [backend w n] answers the [n]-th exchange.
    - The sources of a [forkJoin] are subscribed at once, so their requests
      are sent whatever the answers are; the join fails with the first
      failure that arrives and drops the other sources.  The order in
      which the answers arrive is not decided by the program: it is read
      from two more oracles of the [World], [overtakes] and [lingers]. *)

From Stdlib Require Import ZArith QArith Qround Qabs Qpower List String Bool Lia.
From Stdlib Require Import Permutation Sorted DecimalString Lqa SpecFloat.
Import ListNotations.

Set Implicit Arguments.

Open Scope string_scope.
Open Scope list_scope.
Open Scope Q_scope.

(* ================================================================== *)
(** * JavaScript numbers *)
(* ================================================================== *)

Module Js.

(** [Math.round]: the nearest integer, ties towards plus infinity. *)
Definition Math_round (x : Q) : Z := Qfloor (x + (1 # 2)).

(** [Math.round(x * 100) / 100], the idiom the services use to keep two
    decimal places, in exact arithmetic; [Double.round2] is the same on
    doubles. *)
Definition round2 (x : Q) : Q := inject_Z (Math_round (x * 100)) / 100.

(** [array.length] read as a number. *)
Definition len {A : Type} (l : list A) : Q := inject_Z (Z.of_nat (List.length l)).

(** [x || 0] on a number: [0] (and [NaN]) are falsy. *)
Definition or_zero (x : Q) : Q := if Qeq_bool x 0 then 0 else x.

(** [x || 0] on an optional number: [undefined] is falsy too. *)
Definition opt_or_zero (x : option Q) : Q :=
  match x with
  | Some v => or_zero v
  | None => 0
  end.

(** [array.reduce((sum, e) => sum + f(e), 0)]. *)
Definition reduce_sum {A : Type} (f : A -> Q) (l : list A) : Q :=
  fold_left (fun sum e => sum + f e) l 0.

(** [s.includes(term)]. *)
Fixpoint includes (s term : string) : bool :=
  String.prefix term s
  || match s with
     | EmptyString => false
     | String _ s' => includes s' term
     end.

(** An optional string, number or value under [if (v)]: the value when
    it is truthy. *)
Definition truthy_string (v : option string) : option string :=
  match v with
  | Some s => if String.eqb s EmptyString then None else Some s
  | None => None
  end.

Definition truthy_number (v : option Z) : option Z :=
  match v with
  | Some n => if (n =? 0)%Z then None else Some n
  | None => None
  end.

(** [x > y] on numbers. *)
Definition gt (x y : Q) : bool := negb (Qle_bool x y).

(** Results of arithmetic that may divide by zero. *)
Inductive JsNumber : Type :=
| Finite (q : Q)
| PosInfinity
| NegInfinity
| NaN.

(** [x / y] on finite operands. *)
Definition div (x y : Q) : JsNumber :=
  if Qeq_bool y 0 then
    if Qeq_bool x 0 then NaN
    else if Qle_bool 0 x then PosInfinity else NegInfinity
  else Finite (x / y).

(** [v * k] for a finite [k]. *)
Definition mul (v : JsNumber) (k : Q) : JsNumber :=
  match v with
  | Finite q => Finite (q * k)
  | PosInfinity =>
      if Qeq_bool k 0 then NaN else if Qle_bool 0 k then PosInfinity else NegInfinity
  | NegInfinity =>
      if Qeq_bool k 0 then NaN else if Qle_bool 0 k then NegInfinity else PosInfinity
  | NaN => NaN
  end.



Definition isFinite (v : JsNumber) : bool :=
  match v with
  | Finite _ => true
  | _ => false
  end.

End Js.

(* ================================================================== *)
(** * JavaScript numbers in double precision *)
(* ================================================================== *)

(** The numbers of the program are IEEE-754 doubles.  Where a property
    depends on how the arithmetic rounds, the computation is embedded on
    them, with the operations of the Standard Library's specification of
    floating-point arithmetic. *)
Module Double.

(** A JavaScript [number]: zero with its sign, the infinities, [NaN], or
    a finite value [(-1)^s * m * 2^e]. *)
Definition t : Type := spec_float.

(** The format binary64: 53 bits of precision, exponents up to 1024. *)
Definition prec : Z := 53.
Definition emax : Z := 1024.

(** The literal [0]. *)
Definition zero : t := S754_zero false.

(** An integer as a [number]: the nearest double. *)
Definition of_Z (z : Z) : t := binary_normalize prec emax z 0 false.

Definition of_nat (n : nat) : t := of_Z (Z.of_nat n).

(** [x + y], [x * y] and [x / y], rounded to the nearest double, ties to
    the even mantissa. *)
Definition add : t -> t -> t := SFadd prec emax.
Definition mul : t -> t -> t := SFmul prec emax.
Definition div : t -> t -> t := SFdiv prec emax.

(** The [number] that a rational of the embedding stands for: the double
    nearest to it, as a decimal numeral of a JSON body is read. *)
Definition of_Q (q : Q) : t :=
  match Qnum q with
  | Z0 => zero
  | Zpos n => div (S754_finite false n 0) (S754_finite false (Qden q) 0)
  | Zneg n => div (S754_finite true n 0) (S754_finite false (Qden q) 0)
  end.

(** The exact value of a finite [number]. *)
Definition value (x : t) : option Q :=
  match x with
  | S754_zero _ => Some 0
  | S754_finite s m e =>
      Some (inject_Z (if s then Zneg m else Zpos m) * Qpower 2 e)
  | _ => None
  end.

(** [x || 0]: [0], [-0] and [NaN] are falsy. *)
Definition or_zero (x : t) : t :=
  match x with
  | S754_zero _ | S754_nan => zero
  | _ => x
  end.

(** [Math.round(x)]: the integer nearest to [x], the upper one at a tie;
    [floor(x + 1/2)] computed exactly on the mantissa.  A result of
    magnitude zero keeps the sign of [x]; an [x] with no fractional bits,
    an infinity and [NaN] are returned as they are. *)
Definition Math_round (x : t) : t :=
  match x with
  | S754_finite s m e =>
      if (0 <=? e)%Z then x
      else
        let n := (((if s then Zneg m else Zpos m) * 2 + 2 ^ (- e)) / 2 ^ (1 - e))%Z in
        if (n =? 0)%Z then S754_zero s else of_Z n
  | _ => x
  end.

(** [Math.round(x * 100) / 100], two roundings of the arithmetic around
    the one of [Math.round]. *)
Definition round2 (x : t) : t := div (Math_round (mul x (of_Z 100))) (of_Z 100).

(** [l.reduce((sum, x) => sum + x, 0)]. *)
Definition sum (l : list t) : t := fold_left add l zero.

End Double.

(* ================================================================== *)
(** * Dashboard component: percentage helpers
    (features/dashboard/components/dashboard.component.ts) *)
(* ================================================================== *)

Module DashboardComponent.
Import Js.

(** [calculatePercentChange(previous, current)]. *)
Definition calculatePercentChange (previous current : Q) : JsNumber :=
  if Qeq_bool previous 0 then
    if Qeq_bool current 0 then Finite 0
    else if gt current 0 then Finite 100 else Finite (-100)
  else mul (div (current - previous) previous) 100.



End DashboardComponent.

(* ================================================================== *)
(** * Dates *)
(* ================================================================== *)

(** A [Date] object: its time value, [None] when the date is invalid
    (time value [NaN]). *)
Record Date : Type := mkDate { getTime : option Z }.

(** A field declared [Date | string]. *)
Inductive DateOrString : Type :=
| IsDate (d : Date)
| IsString (s : string).

(** [typeof v === 'string']. *)
Definition typeof_string (v : DateOrString) : bool :=
  match v with
  | IsString _ => true
  | IsDate _ => false
  end.

(** Truthiness of a [Date | string] value: every object is truthy, a
    string is truthy unless it is empty. *)
Definition truthy (v : DateOrString) : bool :=
  match v with
  | IsDate _ => true
  | IsString s => negb (String.eqb s EmptyString)
  end.

Open Scope Z_scope.

(** Days from 1970-01-01 to the civil date [y]-[m]-[d], [m] in 1..12
    (proleptic Gregorian calendar). *)
Definition daysFromCivil (y m d : Z) : Z :=
  let y' := if m <=? 2 then y - 1 else y in
  let era := y' / 400 in
  let yoe := y' - era * 400 in
  let mp := if m <=? 2 then m + 9 else m - 3 in
  let doy := (153 * mp + 2) / 5 + d - 1 in
  let doe := yoe * 365 + yoe / 4 - yoe / 100 + doy in
  era * 146097 + doe - 719468.

(** ECMAScript [MakeDay(year, month, date)]: a month index outside 0..11
    carries into the year. *)
Definition MakeDay (year month date : Z) : Z :=
  daysFromCivil (year + month / 12) (month mod 12 + 1) date.

Definition msPerDay : Z := 86400000.

(** [new Date(year, monthIndex, day)] in local time.  A year in 0..99 is
    read as 1900 + year, as the constructor does. *)
Definition Date_local (year month day : Z) : Date :=
  let yr := if (0 <=? year) && (year <=? 99) then 1900 + year else year in
  mkDate (Some (MakeDay yr month day * msPerDay)).

(** [a >= b] and [a < b] on dates: comparison of the time values, false
    as soon as one of them is [NaN]. *)
Definition Date_ge (a b : Date) : bool :=
  match getTime a, getTime b with
  | Some x, Some y => y <=? x
  | _, _ => false
  end.

Definition Date_le (a b : Date) : bool :=
  match getTime a, getTime b with
  | Some x, Some y => x <=? y
  | _, _ => false
  end.

Definition Date_lt (a b : Date) : bool :=
  match getTime a, getTime b with
  | Some x, Some y => x <? y
  | _, _ => false
  end.

Close Scope Z_scope.

(** What the code reads from [now = new Date()]. *)
Record LocalTime : Type := mkLocalTime {
  getFullYear : Z;
  getMonth : Z;
  now_ms : Z
}.

(* ================================================================== *)
(** * Entity models (shared/models) *)
(* ================================================================== *)

Inductive EnrollmentStatus : Type :=
| ENROLLED | IN_PROGRESS | COMPLETED | DROPPED | SUSPENDED | PENDING.

Definition EnrollmentStatus_value (s : EnrollmentStatus) : string :=
  match s with
  | ENROLLED => "Enrolled"
  | IN_PROGRESS => "In Progress"
  | COMPLETED => "Completed"
  | DROPPED => "Dropped"
  | SUSPENDED => "Suspended"
  | PENDING => "Pending"
  end.

(** [a === b] on statuses: equality of the enum's string values. *)
Definition status_eqb (a b : EnrollmentStatus) : bool :=
  String.eqb (EnrollmentStatus_value a) (EnrollmentStatus_value b).

Inductive StudentStatus : Type :=
| ACTIVE | INACTIVE | STUDENT_SUSPENDED | GRADUATED.

Definition StudentStatus_value (s : StudentStatus) : string :=
  match s with
  | ACTIVE => "Active"
  | INACTIVE => "Inactive"
  | STUDENT_SUSPENDED => "Suspended"
  | GRADUATED => "Graduated"
  end.

Record Address : Type := mkAddress {
  street : option string;
  city : string;
  state : option string;
  country : string;
  zipCode : option string
}.

Module Enrollment.
Record t : Type := mk {
  id : Z;
  courseId : Z;
  studentId : Z;
  enrollmentDate : DateOrString;
  completionDate : option DateOrString;
  status : EnrollmentStatus;
  progress : Q;
  grade : option Q;
  certificateIssued : option bool;
  lastAccessedDate : option DateOrString;
  totalHoursSpent : option Q;
  completedModules : option Z;
  totalModules : option Z;
  feedback : option string;
  rating : option Q
}.
End Enrollment.

Module Course.
Record t : Type := mk {
  id : Z;
  title : string;
  description : string;
  category : string;
  level : string;
  duration : Q;
  price : Q;
  instructor : string;
  thumbnail : option string;
  createdAt : DateOrString;
  updatedAt : option DateOrString;
  popularity : Q;
  enrollmentCount : Z;
  isActive : bool;
  tags : option (list string);
  prerequisites : option (list string);
  learningOutcomes : option (list string);
  maxStudents : option Z
}.
End Course.

Module Student.
Record t : Type := mk {
  id : Z;
  name : string;
  email : string;
  phone : option string;
  dateOfBirth : option DateOrString;
  address : option Address;
  enrolledCourses : list Z;
  createdAt : DateOrString;
  updatedAt : option DateOrString;
  status : StudentStatus;
  profileImage : option string;
  bio : option string;
  educationLevel : option string;
  interests : option (list string);
  totalCoursesCompleted : option Z;
  averageGrade : option Q
}.
End Student.

(** [EnrollmentStats] (enrollment.model). *)
Module EnrollmentStats.
Record t : Type := mk {
  totalEnrollments : nat;
  activeEnrollments : nat;
  completedEnrollments : nat;
  droppedEnrollments : nat;
  averageProgress : Q;
  averageGrade : Q;
  completionRate : Q
}.
End EnrollmentStats.

(** [CategoryStats] and [EnrollmentTrend] (common.model). *)
Module CategoryStats.
Record t : Type := mk {
  category : string;
  courseCount : nat;
  enrollmentCount : nat;
  revenue : Q
}.
End CategoryStats.

Module EnrollmentTrend.
Record t : Type := mk {
  month : string;
  enrollments : nat;
  completions : nat;
  revenue : Q
}.
End EnrollmentTrend.

(** [Feedback] and its enumerations (common.model). *)
Module FeedbackCategory.
Inductive t : Type :=
| GENERAL | TECHNICAL_ISSUE | COURSE_CONTENT | FEATURE_REQUEST | BILLING | OTHER.

Definition value (c : t) : string :=
  match c with
  | GENERAL => "General"
  | TECHNICAL_ISSUE => "Technical Issue"
  | COURSE_CONTENT => "Course Content"
  | FEATURE_REQUEST => "Feature Request"
  | BILLING => "Billing"
  | OTHER => "Other"
  end.
End FeedbackCategory.

Module FeedbackPriority.
Inductive t : Type :=
| LOW | MEDIUM | HIGH | URGENT.

Definition value (p : t) : string :=
  match p with
  | LOW => "Low"
  | MEDIUM => "Medium"
  | HIGH => "High"
  | URGENT => "Urgent"
  end.
End FeedbackPriority.

Module FeedbackStatus.
Inductive t : Type :=
| NEW | IN_REVIEW | RESOLVED | CLOSED.

Definition value (s : t) : string :=
  match s with
  | NEW => "New"
  | IN_REVIEW => "In Review"
  | RESOLVED => "Resolved"
  | CLOSED => "Closed"
  end.
End FeedbackStatus.

Module Feedback.
Record t : Type := mk {
  id : Z;
  name : string;
  email : string;
  subject : string;
  message : string;
  category : FeedbackCategory.t;
  priority : FeedbackPriority.t;
  status : FeedbackStatus.t;
  createdAt : DateOrString;
  resolvedAt : option DateOrString;
  response : option string;
  userId : option Z
}.
End Feedback.

(* ================================================================== *)
(** * Arrays and Maps *)
(* ================================================================== *)

Module JsArray.

(** [Array.prototype.sort(compare)]: a stable sort; [x] is moved behind
    [y] only when [compare(x, y) > 0]. *)
Fixpoint insert {A : Type} (compare : A -> A -> Q) (x : A) (l : list A) : list A :=
  match l with
  | [] => [x]
  | y :: l' =>
      if Qle_bool (compare x y) 0 then x :: y :: l'
      else y :: insert compare x l'
  end.

Fixpoint sort {A : Type} (compare : A -> A -> Q) (l : list A) : list A :=
  match l with
  | [] => []
  | x :: l' => insert compare x (sort compare l')
  end.

(** [array.findIndex(p)], [None] for [-1]. *)
Fixpoint findIndex {A : Type} (p : A -> bool) (l : list A) : option nat :=
  match l with
  | [] => None
  | x :: l' => if p x then Some O else option_map S (findIndex p l')
  end.

(** [array[index] = v] for an index inside the array. *)
Fixpoint set_at {A : Type} (l : list A) (index : nat) (v : A) : list A :=
  match l, index with
  | [], _ => []
  | _ :: l', O => v :: l'
  | x :: l', S i => x :: set_at l' i v
  end.

(** [array.slice(0, limit)]. *)
Definition slice0 {A : Type} (limit : nat) (l : list A) : list A := firstn limit l.

End JsArray.

(** A [Map<string, V>]: the entries in insertion order, one per key. *)
Module JsMap.

Definition t (V : Type) : Type := list (string * V).

Definition empty {V : Type} : t V := [].

Definition has {V : Type} (m : t V) (k : string) : bool :=
  existsb (fun kv => String.eqb (fst kv) k) m.

Fixpoint get {V : Type} (m : t V) (k : string) : option V :=
  match m with
  | [] => None
  | (k', v) :: m' => if String.eqb k' k then Some v else get m' k
  end.

(** [map.set(k, v)]: an existing key keeps its place, a new key goes last. *)
Fixpoint set {V : Type} (m : t V) (k : string) (v : V) : t V :=
  match m with
  | [] => [(k, v)]
  | (k', v') :: m' =>
      if String.eqb k' k then (k', v) :: m' else (k', v') :: set m' k v
  end.

(** [Array.from(map.values())]. *)
Definition values {V : Type} (m : t V) : list V := List.map snd m.

Definition keys {V : Type} (m : t V) : list string := List.map fst m.

End JsMap.

(* ================================================================== *)
(** * Request bodies: [Partial<T>] objects *)
(* ================================================================== *)

(** An object with some of the fields of an [Enrollment]. *)
Module PartialEnrollment.
Record t : Type := mk {
  id : option Z;
  courseId : option Z;
  studentId : option Z;
  enrollmentDate : option DateOrString;
  completionDate : option DateOrString;
  status : option EnrollmentStatus;
  progress : option Q;
  grade : option Q;
  certificateIssued : option bool;
  lastAccessedDate : option DateOrString;
  totalHoursSpent : option Q;
  completedModules : option Z;
  totalModules : option Z;
  feedback : option string;
  rating : option Q
}.

(** The object literal [{}]. *)
Definition empty : t :=
  mk None None None None None None None None None None None None None None None.

(** Assignments [updates.field = v] the service performs. *)
Definition set_status (v : EnrollmentStatus) (u : t) : t :=
  mk (id u) (courseId u) (studentId u) (enrollmentDate u) (completionDate u)
     (Some v) (progress u) (grade u) (certificateIssued u) (lastAccessedDate u)
     (totalHoursSpent u) (completedModules u) (totalModules u) (feedback u) (rating u).

Definition set_completionDate (v : DateOrString) (u : t) : t :=
  mk (id u) (courseId u) (studentId u) (enrollmentDate u) (Some v)
     (status u) (progress u) (grade u) (certificateIssued u) (lastAccessedDate u)
     (totalHoursSpent u) (completedModules u) (totalModules u) (feedback u) (rating u).

Definition set_progress (v : Q) (u : t) : t :=
  mk (id u) (courseId u) (studentId u) (enrollmentDate u) (completionDate u)
     (status u) (Some v) (grade u) (certificateIssued u) (lastAccessedDate u)
     (totalHoursSpent u) (completedModules u) (totalModules u) (feedback u) (rating u).

Definition set_lastAccessedDate (v : DateOrString) (u : t) : t :=
  mk (id u) (courseId u) (studentId u) (enrollmentDate u) (completionDate u)
     (status u) (progress u) (grade u) (certificateIssued u) (Some v)
     (totalHoursSpent u) (completedModules u) (totalModules u) (feedback u) (rating u).

Definition set_grade (v : Q) (u : t) : t :=
  mk (id u) (courseId u) (studentId u) (enrollmentDate u) (completionDate u)
     (status u) (progress u) (Some v) (certificateIssued u) (lastAccessedDate u)
     (totalHoursSpent u) (completedModules u) (totalModules u) (feedback u) (rating u).

Definition set_certificateIssued (v : bool) (u : t) : t :=
  mk (id u) (courseId u) (studentId u) (enrollmentDate u) (completionDate u)
     (status u) (progress u) (grade u) (Some v) (lastAccessedDate u)
     (totalHoursSpent u) (completedModules u) (totalModules u) (feedback u) (rating u).

(** The names of the fields an object carries, in the order of the
    interface. *)
Definition opt_key {A : Type} (name : string) (v : option A) : list string :=
  match v with
  | Some _ => [name]
  | None => []
  end.

Definition keys (u : t) : list string :=
  opt_key "id" (id u) ++ opt_key "courseId" (courseId u)
  ++ opt_key "studentId" (studentId u)
  ++ opt_key "enrollmentDate" (enrollmentDate u)
  ++ opt_key "completionDate" (completionDate u)
  ++ opt_key "status" (status u) ++ opt_key "progress" (progress u)
  ++ opt_key "grade" (grade u)
  ++ opt_key "certificateIssued" (certificateIssued u)
  ++ opt_key "lastAccessedDate" (lastAccessedDate u)
  ++ opt_key "totalHoursSpent" (totalHoursSpent u)
  ++ opt_key "completedModules" (completedModules u)
  ++ opt_key "totalModules" (totalModules u)
  ++ opt_key "feedback" (feedback u) ++ opt_key "rating" (rating u).
End PartialEnrollment.

(** An object with some of the fields of a [Course]. *)
Module PartialCourse.
Record t : Type := mk {
  id : option Z;
  title : option string;
  description : option string;
  category : option string;
  level : option string;
  duration : option Q;
  price : option Q;
  instructor : option string;
  thumbnail : option string;
  createdAt : option DateOrString;
  updatedAt : option DateOrString;
  popularity : option Q;
  enrollmentCount : option Z;
  isActive : option bool;
  tags : option (list string);
  prerequisites : option (list string);
  learningOutcomes : option (list string);
  maxStudents : option Z
}.
End PartialCourse.

(** An object with some of the fields of a [Student]. *)
Module PartialStudent.
Record t : Type := mk {
  id : option Z;
  name : option string;
  email : option string;
  phone : option string;
  dateOfBirth : option DateOrString;
  address : option Address;
  enrolledCourses : option (list Z);
  createdAt : option DateOrString;
  updatedAt : option DateOrString;
  status : option StudentStatus;
  profileImage : option string;
  bio : option string;
  educationLevel : option string;
  interests : option (list string);
  totalCoursesCompleted : option Z;
  averageGrade : option Q
}.
End PartialStudent.

(** [StudentRegistration] and [EnrollmentRequest]. *)
(** An object with some of the fields of a [Feedback]: the bodies the
    feedback service sends. *)
Module PartialFeedback.
Record t : Type := mk {
  id : option Z;
  name : option string;
  email : option string;
  subject : option string;
  message : option string;
  category : option FeedbackCategory.t;
  priority : option FeedbackPriority.t;
  status : option FeedbackStatus.t;
  createdAt : option DateOrString;
  resolvedAt : option DateOrString;
  response : option string;
  userId : option Z
}.

Definition empty : t :=
  mk None None None None None None None None None None None None.
End PartialFeedback.

(** [Omit<Feedback, 'id' | 'createdAt' | 'status'>], what the feedback
    form submits. *)
Module FeedbackSubmission.
Record t : Type := mk {
  name : string;
  email : string;
  subject : string;
  message : string;
  category : FeedbackCategory.t;
  priority : FeedbackPriority.t;
  resolvedAt : option DateOrString;
  response : option string;
  userId : option Z
}.
End FeedbackSubmission.

Module StudentRegistration.
Record t : Type := mk {
  name : string;
  email : string;
  phone : option string;
  dateOfBirth : option DateOrString;
  address : option Address;
  educationLevel : option string;
  interests : option (list string)
}.
End StudentRegistration.

(** [CourseFilter], [StudentFilter], [EnrollmentFilter] and
    [StudentSummary]. *)
Module CourseFilter.
Record t : Type := mk {
  category : option string;
  level : option string;
  minPrice : option Q;
  maxPrice : option Q;
  searchTerm : option string;
  isActive : option bool
}.
End CourseFilter.

Module StudentFilter.
Record t : Type := mk {
  status : option StudentStatus;
  searchTerm : option string;
  enrolledInCourse : option Z
}.
End StudentFilter.

Module EnrollmentFilter.
Record t : Type := mk {
  courseId : option Z;
  studentId : option Z;
  status : option EnrollmentStatus;
  dateFrom : option DateOrString;
  dateTo : option DateOrString
}.
End EnrollmentFilter.

Module StudentSummary.
Record t : Type := mk {
  id : Z;
  name : string;
  email : string;
  enrolledCourses : list Z;
  status : StudentStatus
}.
End StudentSummary.

Module EnrollmentRequest.
Record t : Type := mk {
  courseId : Z;
  studentId : Z;
  enrollmentDate : option DateOrString
}.
End EnrollmentRequest.

(* ================================================================== *)
(** * The world of a service call: HTTP backend, console, clock, caches *)
(* ================================================================== *)

(** An error value as the handlers read it: its [message] property,
    [None] when the property is missing. *)
Record ErrorValue : Type := mkErrorValue { message : option string }.

(** [new Error(msg)]. *)
Definition new_Error (msg : string) : ErrorValue := mkErrorValue (Some msg).

(** [error.message || fallback]. *)
Definition message_or (error : ErrorValue) (fallback : string) : string :=
  match message error with
  | Some m => if String.eqb m "" then fallback else m
  | None => fallback
  end.

(** One [console.error(label, error)] line. *)
Record ConsoleEntry : Type := mkConsoleEntry {
  label : string;
  logged : ErrorValue
}.

(** The outcome of one HTTP exchange. *)
Inductive HttpResult (A : Type) : Type :=
| HttpOk (body : A)
| HttpFailure (error : ErrorValue).

Arguments HttpOk {A} body.
Arguments HttpFailure {A} error.

Inductive Body : Type :=
| EnrollmentBody (b : PartialEnrollment.t)
| CourseBody (b : PartialCourse.t)
| StudentBody (b : PartialStudent.t)
| FeedbackBody (b : PartialFeedback.t).

Inductive HttpRequest : Type :=
| GET (url : string) (params : list (string * string))
| POST (url : string) (body : Body)
| PUT (url : string) (body : Body)
| PATCH (url : string) (body : Body)
| DELETE (url : string).

(** What the REST backend answers on one resource. *)
Module Resource.
Record t (E P : Type) : Type := mk {
  query : list (string * string) -> HttpResult (list E);
  item : Z -> HttpResult E;
  create : P -> HttpResult E;
  replace : Z -> P -> HttpResult E;
  modify : Z -> P -> HttpResult E;
  remove : Z -> HttpResult unit
}.
End Resource.

Record Server : Type := mkServer {
  courses : Resource.t Course.t PartialCourse.t;
  students : Resource.t Student.t PartialStudent.t;
  enrollments : Resource.t Enrollment.t PartialEnrollment.t;
  feedback : Resource.t Feedback.t PartialFeedback.t
}.

(** The state a call runs in.  [backend n] is the behaviour of the
    server at the [n]-th exchange and [clock n] the [n]-th reading of
    [new Date()].  [overtakes n] and [lingers n] are about the order in
    which the answers arrive for two sources that were subscribed one
    after the other without waiting, the second one when [n] requests had
    been sent.  When both sources fail, [overtakes n] tells whether the
    failure of the second arrives before the failure of the first.  When
    the failure of the first source is the one that ends a join,
    [lingers n] tells whether it arrives only after the second source has
    sent every request of its run.  The other fields are what the calls
    change. *)
Record World : Type := mkWorld {
  backend : nat -> Server;
  clock : nat -> LocalTime;
  overtakes : nat -> bool;
  lingers : nat -> bool;
  requests : list HttpRequest;
  console : list ConsoleEntry;
  ticks : nat;
  coursesCache : list Course.t;
  studentsCache : list Student.t;
  enrollmentsCache : list Enrollment.t
}.

Definition log_request (r : HttpRequest) (w : World) : World :=
  mkWorld (backend w) (clock w) (overtakes w) (lingers w) (requests w ++ [r]) (console w) (ticks w)
    (coursesCache w) (studentsCache w) (enrollmentsCache w).

(** [console.error(label, error)]. *)
Definition console_error (l : string) (error : ErrorValue) (w : World) : World :=
  mkWorld (backend w) (clock w) (overtakes w) (lingers w) (requests w)
    (console w ++ [mkConsoleEntry l error]) (ticks w)
    (coursesCache w) (studentsCache w) (enrollmentsCache w).

Definition tick (w : World) : World :=
  mkWorld (backend w) (clock w) (overtakes w) (lingers w) (requests w) (console w) (S (ticks w))
    (coursesCache w) (studentsCache w) (enrollmentsCache w).

(** [cache$.next(v)] on each of the three [BehaviorSubject]s. *)
Definition coursesCache_next (v : list Course.t) (w : World) : World :=
  mkWorld (backend w) (clock w) (overtakes w) (lingers w) (requests w) (console w) (ticks w)
    v (studentsCache w) (enrollmentsCache w).

Definition studentsCache_next (v : list Student.t) (w : World) : World :=
  mkWorld (backend w) (clock w) (overtakes w) (lingers w) (requests w) (console w) (ticks w)
    (coursesCache w) v (enrollmentsCache w).

Definition enrollmentsCache_next (v : list Enrollment.t) (w : World) : World :=
  mkWorld (backend w) (clock w) (overtakes w) (lingers w) (requests w) (console w) (ticks w)
    (coursesCache w) (studentsCache w) v.

(** A backend from which no answer arrives: every exchange ends without
    a value. *)
Definition noAnswer {A : Type} : HttpResult A := HttpFailure (mkErrorValue None).

Definition unanswering {E P : Type} : Resource.t E P :=
  Resource.mk (fun _ => noAnswer) (fun _ => noAnswer) (fun _ => noAnswer)
    (fun _ _ => noAnswer) (fun _ _ => noAnswer) (fun _ => noAnswer).

Definition unanswered (w : World) : World :=
  mkWorld (fun _ => mkServer unanswering unanswering unanswering unanswering)
    (clock w) (overtakes w) (lingers w) (requests w) (console w) (ticks w)
    (coursesCache w) (studentsCache w) (enrollmentsCache w).

(** ** Observables *)

Inductive Notification (A : Type) : Type :=
| Next (value : A)
| Error (error : ErrorValue).

Arguments Next {A} value.
Arguments Error {A} error.

(** An observable run to completion at subscription. *)
Definition Observable (A : Type) : Type := World -> Notification A * World.

Module Rx.

(** [of(a)]. *)
Definition of_ {A : Type} (a : A) : Observable A := fun w => (Next a, w).

Definition throwError {A : Type} (e : ErrorValue) : Observable A :=
  fun w => (Error e, w).

Definition map {A B : Type} (f : A -> B) (source : Observable A) : Observable B :=
  fun w =>
    match source w with
    | (Next a, w') => (Next (f a), w')
    | (Error e, w') => (Error e, w')
    end.

(** [map] with a projection that reads the clock while it runs. *)
Definition map_effect {A B : Type} (f : A -> World -> B * World)
    (source : Observable A) : Observable B :=
  fun w =>
    match source w with
    | (Next a, w') => let (b, w'') := f a w' in (Next b, w'')
    | (Error e, w') => (Error e, w')
    end.

Definition tap {A : Type} (f : A -> World -> World) (source : Observable A)
  : Observable A :=
  fun w =>
    match source w with
    | (Next a, w') => (Next a, f a w')
    | (Error e, w') => (Error e, w')
    end.

Definition catchError {A : Type} (handler : ErrorValue -> Observable A)
    (source : Observable A) : Observable A :=
  fun w =>
    match source w with
    | (Next a, w') => (Next a, w')
    | (Error e, w') => handler e w'
    end.

Definition switchMap {A B : Type} (f : A -> Observable B) (source : Observable A)
  : Observable B :=
  fun w =>
    match source w with
    | (Next a, w') => f a w'
    | (Error e, w') => (Error e, w')
    end.

(** A source that was subscribed and then dropped before an answer
    arrived: the requests it sends at subscription are sent, nothing else
    of it happens.  The requests a source sends at subscription do not
    depend on any answer, so they are read off the run in which no answer
    arrives (no error handler of the application sends a request). *)
Definition subscribed {A : Type} (source : Observable A) (w : World) : World :=
  mkWorld (backend w) (clock w) (overtakes w) (lingers w)
    (requests (snd (source (unanswered w)))) (console w) (ticks w)
    (coursesCache w) (studentsCache w) (enrollmentsCache w).

(** The world [w] in which a second source, subscribed in [ws], was
    dropped: of the second source only requests remain, those of its
    subscription or, when it was dropped late, all those of its run. *)
Definition dropped {A : Type} (late : bool) (source : Observable A) (ws w : World)
  : World :=
  mkWorld (backend w) (clock w) (overtakes w) (lingers w)
    (requests (if late then snd (source ws) else subscribed source ws))
    (console w) (ticks w)
    (coursesCache w) (studentsCache w) (enrollmentsCache w).

(** [forkJoin] of two sources.  Both sources are subscribed at once, so
    the requests both send at subscription are sent whatever the answers
    are.  The join emits when both sources have emitted; it fails with
    the first failure that arrives and drops the other source then.  When
    only one source fails, the failure is the same in either order of
    arrival; when both fail, [overtakes] tells which failure arrives
    first.  A second source that is dropped has sent the requests of its
    subscription, or all its requests ([lingers]).  (In the joins of the
    application only the last source of a join sends requests after its
    subscription, and no source changes anything but the request log
    before it ends; a first source is run before the second one here.) *)
Definition forkJoin2 {A B : Type} (a : Observable A) (b : Observable B)
  : Observable (A * B) :=
  fun w =>
    match a w with
    | (Next x, wa) =>
        match b wa with
        | (Next y, wb) => (Next (x, y), wb)
        | (Error e, wb) => (Error e, wb)
        end
    | (Error ea, wa) =>
        let ws := subscribed a w in
        let n := List.length (requests ws) in
        match b ws with
        | (Error eb, wb) =>
            if overtakes w n then (Error eb, wb)
            else (Error ea, dropped (lingers w n) b ws wa)
        | (Next _, _) => (Error ea, dropped (lingers w n) b ws wa)
        end
    end.

(** [forkJoin] of an array of sources (never called with an empty
    array). *)
Fixpoint forkJoin {A : Type} (sources : list (Observable A)) : Observable (list A) :=
  match sources with
  | [] => of_ []
  | s :: rest => map (fun joined => fst joined :: snd joined) (forkJoin2 s (forkJoin rest))
  end.

(** [source.subscribe({ next, error })]. *)
Definition subscribe {A : Type} (source : Observable A)
    (next : A -> World -> World) (error : ErrorValue -> World -> World)
  : World -> World :=
  fun w =>
    match source w with
    | (Next a, w') => next a w'
    | (Error e, w') => error e w'
    end.

End Rx.

(** ** HttpClient *)

(** One exchange: the request is recorded, the backend's answer at this
    point of the run becomes the notification. *)
Definition exchange {A : Type} (request : HttpRequest)
    (answer : Server -> HttpResult A) : Observable A :=
  fun w =>
    let server := backend w (List.length (requests w)) in
    match answer server with
    | HttpOk body => (Next body, log_request request w)
    | HttpFailure e => (Error e, log_request request w)
    end.

(** [params.set(name, value)] under a condition: a parameter that is set
    only when its value is present. *)
Definition param (name : string) (value : option string) : list (string * string) :=
  match value with
  | Some v => [(name, v)]
  | None => []
  end.

Definition Boolean_toString (b : bool) : string := if b then "true" else "false".

(** [new Date()]: the next reading of the clock. *)
Definition Date_now (w : World) : LocalTime * World :=
  (clock w (ticks w), tick w).

(** Template-literal rendering of an integer id. *)
Definition Number_toString (n : Z) : string :=
  DecimalString.NilZero.string_of_int (Z.to_int n).

Definition apiUrl_base : string := "http://localhost:3000".

Definition item_url (apiUrl : string) (id : Z) : string :=
  String.append apiUrl (String.append "/" (Number_toString id)).

(* ================================================================== *)
(** * The JavaScript engine *)
(* ================================================================== *)

(** What the code asks of the engine: [Date.parse] (the time value of
    [new Date(string)], [None] for [NaN]), [Date.prototype.toISOString],
    [toLocaleString('default', { month: 'short', year: 'numeric' })] and
    [String.prototype.toLowerCase]. *)
Record Engine : Type := mkEngine {
  Date_parse : string -> option Z;
  Date_toISOString : Z -> string;
  Date_toLocaleMonthYear : Date -> string;
  toLowerCase : string -> string
}.

(** [new Date(v)] for a [Date | string] value. *)
Definition new_Date (engine : Engine) (v : DateOrString) : Date :=
  match v with
  | IsDate d => mkDate (getTime d)
  | IsString s => mkDate (Date_parse engine s)
  end.

(** [typeof v === 'string' ? new Date(v) : v]. *)
Definition toDate (engine : Engine) (v : DateOrString) : DateOrString :=
  match v with
  | IsString s => IsDate (mkDate (Date_parse engine s))
  | IsDate d => IsDate d
  end.

(** [v && typeof v === 'string' ? new Date(v) : v] for an optional field. *)
Definition toDateOpt (engine : Engine) (v : option DateOrString) : option DateOrString :=
  match v with
  | Some x => if truthy x && typeof_string x then Some (toDate engine x) else Some x
  | None => None
  end.

(** [new Date().toISOString()]: one reading of the clock. *)
Definition now_iso (engine : Engine) (w : World) : string * World :=
  let (now, w') := Date_now w in
  (Date_toISOString engine (now_ms now), w').

(** [source.pipe(op1, op2, ...)] is written [source |> op1 |> op2]. *)
Notation "source |> op" := (op source)
  (at level 45, left associativity, only parsing).

(** [dateB - dateA] on time values as a sort key: a [NaN] difference
    counts as [0] for [sort]. *)
Definition time_diff (b a : Date) : Q :=
  match getTime b, getTime a with
  | Some x, Some y => inject_Z (x - y)
  | _, _ => 0
  end.

(* ================================================================== *)
(** * CourseService (features/courses/services/course.service.ts) *)
(* ================================================================== *)

Module CourseService.
Section WithEngine.

Variable engine : Engine.

Definition apiUrl : string := String.append apiUrl_base "/courses".

(** [transformCourse]: [{ ...course, createdAt: ..., updatedAt: ... }]. *)
Definition transformCourse (course : Course.t) : Course.t :=
  {| Course.id := Course.id course;
     Course.title := Course.title course;
     Course.description := Course.description course;
     Course.category := Course.category course;
     Course.level := Course.level course;
     Course.duration := Course.duration course;
     Course.price := Course.price course;
     Course.instructor := Course.instructor course;
     Course.thumbnail := Course.thumbnail course;
     Course.createdAt := toDate engine (Course.createdAt course);
     Course.updatedAt := toDateOpt engine (Course.updatedAt course);
     Course.popularity := Course.popularity course;
     Course.enrollmentCount := Course.enrollmentCount course;
     Course.isActive := Course.isActive course;
     Course.tags := Course.tags course;
     Course.prerequisites := Course.prerequisites course;
     Course.learningOutcomes := Course.learningOutcomes course;
     Course.maxStudents := Course.maxStudents course |}.

(** [handleError]: log, then [throwError(() => new Error(...))]. *)
Definition handleError {A : Type} (error : ErrorValue) : Observable A :=
  fun w =>
    Rx.throwError (new_Error (message_or error "Server error"))
      (console_error "CourseService Error:" error w).

Definition getAllCourses : Observable (list Course.t) :=
  exchange (GET apiUrl []) (fun s => Resource.query (courses s) [])
  |> Rx.map (List.map transformCourse)
  |> Rx.catchError handleError.

Definition loadAllCourses : World -> World :=
  Rx.subscribe getAllCourses
    (fun courses => coursesCache_next courses)
    (fun error => console_error "Error loading courses:" error).

Definition refreshCache : World -> World := loadAllCourses.

Definition getCourseById (id : Z) : Observable Course.t :=
  exchange (GET (item_url apiUrl id) []) (fun s => Resource.item (courses s) id)
  |> Rx.map transformCourse
  |> Rx.catchError handleError.

(** [{ ...course, createdAt, updatedAt, enrollmentCount: 0, popularity: 0 }]. *)
Definition newCourseBody (course : PartialCourse.t) (createdAt updatedAt : string)
  : PartialCourse.t :=
  {| PartialCourse.id := PartialCourse.id course;
     PartialCourse.title := PartialCourse.title course;
     PartialCourse.description := PartialCourse.description course;
     PartialCourse.category := PartialCourse.category course;
     PartialCourse.level := PartialCourse.level course;
     PartialCourse.duration := PartialCourse.duration course;
     PartialCourse.price := PartialCourse.price course;
     PartialCourse.instructor := PartialCourse.instructor course;
     PartialCourse.thumbnail := PartialCourse.thumbnail course;
     PartialCourse.createdAt := Some (IsString createdAt);
     PartialCourse.updatedAt := Some (IsString updatedAt);
     PartialCourse.popularity := Some 0;
     PartialCourse.enrollmentCount := Some 0%Z;
     PartialCourse.isActive := PartialCourse.isActive course;
     PartialCourse.tags := PartialCourse.tags course;
     PartialCourse.prerequisites := PartialCourse.prerequisites course;
     PartialCourse.learningOutcomes := PartialCourse.learningOutcomes course;
     PartialCourse.maxStudents := PartialCourse.maxStudents course |}.

(** [{ ...course, updatedAt }]. *)
Definition updatedCourseBody (course : PartialCourse.t) (updatedAt : string)
  : PartialCourse.t :=
  {| PartialCourse.id := PartialCourse.id course;
     PartialCourse.title := PartialCourse.title course;
     PartialCourse.description := PartialCourse.description course;
     PartialCourse.category := PartialCourse.category course;
     PartialCourse.level := PartialCourse.level course;
     PartialCourse.duration := PartialCourse.duration course;
     PartialCourse.price := PartialCourse.price course;
     PartialCourse.instructor := PartialCourse.instructor course;
     PartialCourse.thumbnail := PartialCourse.thumbnail course;
     PartialCourse.createdAt := PartialCourse.createdAt course;
     PartialCourse.updatedAt := Some (IsString updatedAt);
     PartialCourse.popularity := PartialCourse.popularity course;
     PartialCourse.enrollmentCount := PartialCourse.enrollmentCount course;
     PartialCourse.isActive := PartialCourse.isActive course;
     PartialCourse.tags := PartialCourse.tags course;
     PartialCourse.prerequisites := PartialCourse.prerequisites course;
     PartialCourse.learningOutcomes := PartialCourse.learningOutcomes course;
     PartialCourse.maxStudents := PartialCourse.maxStudents course |}.

(** The [tap] of [createCourse]: append to the cached array. *)
Definition cache_append (created : Course.t) (w : World) : World :=
  let current := coursesCache w in
  coursesCache_next (current ++ [transformCourse created]) w.

(** The [tap] of [updateCourse] and [patchCourse]: replace the cached
    entry that carries the id, if there is one. *)
Definition cache_replace (id : Z) (updated : Course.t) (w : World) : World :=
  let current := coursesCache w in
  match JsArray.findIndex (fun c => (Course.id c =? id)%Z) current with
  | Some index =>
      coursesCache_next (JsArray.set_at current index (transformCourse updated)) w
  | None => w
  end.

(** The [tap] of [deleteCourse]. *)
Definition cache_remove (id : Z) (w : World) : World :=
  let current := coursesCache w in
  coursesCache_next (filter (fun c => negb (Course.id c =? id)%Z) current) w.

Definition createCourse (course : PartialCourse.t) : Observable Course.t :=
  fun w =>
    let (createdAt, w) := now_iso engine w in
    let (updatedAt, w) := now_iso engine w in
    let newCourse := newCourseBody course createdAt updatedAt in
    (exchange (POST apiUrl (CourseBody newCourse))
       (fun s => Resource.create (courses s) newCourse)
     |> Rx.tap cache_append
     |> Rx.map transformCourse
     |> Rx.catchError handleError) w.

Definition updateCourse (id : Z) (course : PartialCourse.t) : Observable Course.t :=
  fun w =>
    let (updatedAt, w) := now_iso engine w in
    let updatedCourse := updatedCourseBody course updatedAt in
    (exchange (PUT (item_url apiUrl id) (CourseBody updatedCourse))
       (fun s => Resource.replace (courses s) id updatedCourse)
     |> Rx.tap (cache_replace id)
     |> Rx.map transformCourse
     |> Rx.catchError handleError) w.

Definition patchCourse (id : Z) (updates : PartialCourse.t) : Observable Course.t :=
  exchange (PATCH (item_url apiUrl id) (CourseBody updates))
    (fun s => Resource.modify (courses s) id updates)
  |> Rx.tap (cache_replace id)
  |> Rx.map transformCourse
  |> Rx.catchError handleError.

Definition deleteCourse (id : Z) : Observable unit :=
  exchange (DELETE (item_url apiUrl id)) (fun s => Resource.remove (courses s) id)
  |> Rx.tap (fun _ => cache_remove id)
  |> Rx.catchError handleError.

(** [getPopularCourses(limit)]; no [catchError] of its own. *)
Definition getPopularCourses (limit : nat) : Observable (list Course.t) :=
  getAllCourses
  |> Rx.map (fun courses =>
       JsArray.slice0 limit
         (JsArray.sort (fun a b => Course.popularity b - Course.popularity a) courses)).

(** [filterCourses(filter)]: the query parameters, then the filters
    applied on the client. *)
Definition courseParams (filter : CourseFilter.t) : list (string * string) :=
  param "category" (Js.truthy_string (CourseFilter.category filter))
  ++ param "level" (Js.truthy_string (CourseFilter.level filter))
  ++ param "isActive" (option_map Boolean_toString (CourseFilter.isActive filter)).

Definition matchesTerm (term : string) (c : Course.t) : bool :=
  Js.includes (toLowerCase engine (Course.title c)) term
  || Js.includes (toLowerCase engine (Course.description c)) term
  || Js.includes (toLowerCase engine (Course.instructor c)) term.

Definition filterOnClient (filter : CourseFilter.t) (courses : list Course.t)
  : list Course.t :=
  let filtered := List.map transformCourse courses in
  let filtered :=
    match CourseFilter.minPrice filter with
    | Some minPrice => List.filter (fun c => Qle_bool minPrice (Course.price c)) filtered
    | None => filtered
    end in
  let filtered :=
    match CourseFilter.maxPrice filter with
    | Some maxPrice => List.filter (fun c => Qle_bool (Course.price c) maxPrice) filtered
    | None => filtered
    end in
  match Js.truthy_string (CourseFilter.searchTerm filter) with
  | Some searchTerm =>
      let term := toLowerCase engine searchTerm in
      List.filter (matchesTerm term) filtered
  | None => filtered
  end.

Definition filterCourses (filter : CourseFilter.t) : Observable (list Course.t) :=
  let params := courseParams filter in
  exchange (GET apiUrl params) (fun s => Resource.query (courses s) params)
  |> Rx.map (filterOnClient filter)
  |> Rx.catchError handleError.

(** [searchCourses(keyword)]; no [catchError] of its own. *)
Definition searchCourses (keyword : string) : Observable (list Course.t) :=
  getAllCourses
  |> Rx.map (fun courses =>
       let term := toLowerCase engine keyword in
       List.filter
         (fun course =>
            Js.includes (toLowerCase engine (Course.title course)) term
            || Js.includes (toLowerCase engine (Course.description course)) term
            || Js.includes (toLowerCase engine (Course.category course)) term
            || Js.includes (toLowerCase engine (Course.instructor course)) term)
         courses).

Definition getCoursesByCategory (category : string) : Observable (list Course.t) :=
  let params := [("category", category)] in
  exchange (GET apiUrl params) (fun s => Resource.query (courses s) params)
  |> Rx.map (List.map transformCourse)
  |> Rx.catchError handleError.

Definition getCoursesByLevel (level : string) : Observable (list Course.t) :=
  let params := [("level", level)] in
  exchange (GET apiUrl params) (fun s => Resource.query (courses s) params)
  |> Rx.map (List.map transformCourse)
  |> Rx.catchError handleError.

(** [getRecentCourses(limit)]; no [catchError] of its own. *)
Definition getRecentCourses (limit : nat) : Observable (list Course.t) :=
  getAllCourses
  |> Rx.map (fun courses =>
       JsArray.slice0 limit
         (JsArray.sort
            (fun a b =>
               let dateA := new_Date engine (Course.createdAt a) in
               let dateB := new_Date engine (Course.createdAt b) in
               time_diff dateB dateA)
            courses)).

(** [getCoursesByInstructor(instructor)]; no [catchError] of its own. *)
Definition getCoursesByInstructor (instructor : string) : Observable (list Course.t) :=
  getAllCourses
  |> Rx.map (fun courses =>
       List.filter
         (fun c =>
            String.eqb (toLowerCase engine (Course.instructor c))
              (toLowerCase engine instructor))
         courses).

End WithEngine.
End CourseService.

(* ================================================================== *)
(** * StudentService (features/students/services/student.service.ts) *)
(* ================================================================== *)

Module StudentService.
Section WithEngine.

Variable engine : Engine.

Definition apiUrl : string := String.append apiUrl_base "/students".

(** [transformStudent]: [{ ...student, createdAt: ..., updatedAt: ...,
    dateOfBirth: ... }]. *)
Definition transformStudent (student : Student.t) : Student.t :=
  {| Student.id := Student.id student;
     Student.name := Student.name student;
     Student.email := Student.email student;
     Student.phone := Student.phone student;
     Student.dateOfBirth := toDateOpt engine (Student.dateOfBirth student);
     Student.address := Student.address student;
     Student.enrolledCourses := Student.enrolledCourses student;
     Student.createdAt := toDate engine (Student.createdAt student);
     Student.updatedAt := toDateOpt engine (Student.updatedAt student);
     Student.status := Student.status student;
     Student.profileImage := Student.profileImage student;
     Student.bio := Student.bio student;
     Student.educationLevel := Student.educationLevel student;
     Student.interests := Student.interests student;
     Student.totalCoursesCompleted := Student.totalCoursesCompleted student;
     Student.averageGrade := Student.averageGrade student |}.

Definition handleError {A : Type} (error : ErrorValue) : Observable A :=
  fun w =>
    Rx.throwError (new_Error (message_or error "Server error"))
      (console_error "StudentService Error:" error w).

Definition getAllStudents : Observable (list Student.t) :=
  exchange (GET apiUrl []) (fun s => Resource.query (students s) [])
  |> Rx.map (List.map transformStudent)
  |> Rx.catchError handleError.

Definition loadAllStudents : World -> World :=
  Rx.subscribe getAllStudents
    (fun students => studentsCache_next students)
    (fun error => console_error "Error loading students:" error).

Definition refreshCache : World -> World := loadAllStudents.

Definition getStudentById (id : Z) : Observable Student.t :=
  exchange (GET (item_url apiUrl id) []) (fun s => Resource.item (students s) id)
  |> Rx.map transformStudent
  |> Rx.catchError handleError.

(** [{ ...registration, enrolledCourses: [], createdAt, updatedAt,
    status: ACTIVE, totalCoursesCompleted: 0, averageGrade: 0 }]. *)
Definition newStudentBody (registration : StudentRegistration.t)
    (createdAt updatedAt : string) : PartialStudent.t :=
  {| PartialStudent.id := None;
     PartialStudent.name := Some (StudentRegistration.name registration);
     PartialStudent.email := Some (StudentRegistration.email registration);
     PartialStudent.phone := StudentRegistration.phone registration;
     PartialStudent.dateOfBirth := StudentRegistration.dateOfBirth registration;
     PartialStudent.address := StudentRegistration.address registration;
     PartialStudent.enrolledCourses := Some [];
     PartialStudent.createdAt := Some (IsString createdAt);
     PartialStudent.updatedAt := Some (IsString updatedAt);
     PartialStudent.status := Some ACTIVE;
     PartialStudent.profileImage := None;
     PartialStudent.bio := None;
     PartialStudent.educationLevel := StudentRegistration.educationLevel registration;
     PartialStudent.interests := StudentRegistration.interests registration;
     PartialStudent.totalCoursesCompleted := Some 0%Z;
     PartialStudent.averageGrade := Some 0 |}.

(** [{ ...student, updatedAt }]. *)
Definition updatedStudentBody (student : PartialStudent.t) (updatedAt : string)
  : PartialStudent.t :=
  {| PartialStudent.id := PartialStudent.id student;
     PartialStudent.name := PartialStudent.name student;
     PartialStudent.email := PartialStudent.email student;
     PartialStudent.phone := PartialStudent.phone student;
     PartialStudent.dateOfBirth := PartialStudent.dateOfBirth student;
     PartialStudent.address := PartialStudent.address student;
     PartialStudent.enrolledCourses := PartialStudent.enrolledCourses student;
     PartialStudent.createdAt := PartialStudent.createdAt student;
     PartialStudent.updatedAt := Some (IsString updatedAt);
     PartialStudent.status := PartialStudent.status student;
     PartialStudent.profileImage := PartialStudent.profileImage student;
     PartialStudent.bio := PartialStudent.bio student;
     PartialStudent.educationLevel := PartialStudent.educationLevel student;
     PartialStudent.interests := PartialStudent.interests student;
     PartialStudent.totalCoursesCompleted := PartialStudent.totalCoursesCompleted student;
     PartialStudent.averageGrade := PartialStudent.averageGrade student |}.

(** The [tap] of [createStudent]. *)
Definition cache_append (created : Student.t) (w : World) : World :=
  let current := studentsCache w in
  studentsCache_next (current ++ [transformStudent created]) w.

(** The [tap] of [updateStudent] and [patchStudent]. *)
Definition cache_replace (id : Z) (updated : Student.t) (w : World) : World :=
  let current := studentsCache w in
  match JsArray.findIndex (fun s => (Student.id s =? id)%Z) current with
  | Some index =>
      studentsCache_next (JsArray.set_at current index (transformStudent updated)) w
  | None => w
  end.

(** The [tap] of [deleteStudent]. *)
Definition cache_remove (id : Z) (w : World) : World :=
  let current := studentsCache w in
  studentsCache_next (filter (fun s => negb (Student.id s =? id)%Z) current) w.

Definition createStudent (registration : StudentRegistration.t)
  : Observable Student.t :=
  fun w =>
    let (createdAt, w) := now_iso engine w in
    let (updatedAt, w) := now_iso engine w in
    let newStudent := newStudentBody registration createdAt updatedAt in
    (exchange (POST apiUrl (StudentBody newStudent))
       (fun s => Resource.create (students s) newStudent)
     |> Rx.tap cache_append
     |> Rx.map transformStudent
     |> Rx.catchError handleError) w.

Definition updateStudent (id : Z) (student : PartialStudent.t)
  : Observable Student.t :=
  fun w =>
    let (updatedAt, w) := now_iso engine w in
    let updatedStudent := updatedStudentBody student updatedAt in
    (exchange (PUT (item_url apiUrl id) (StudentBody updatedStudent))
       (fun s => Resource.replace (students s) id updatedStudent)
     |> Rx.tap (cache_replace id)
     |> Rx.map transformStudent
     |> Rx.catchError handleError) w.

Definition patchStudent (id : Z) (updates : PartialStudent.t)
  : Observable Student.t :=
  exchange (PATCH (item_url apiUrl id) (StudentBody updates))
    (fun s => Resource.modify (students s) id updates)
  |> Rx.tap (cache_replace id)
  |> Rx.map transformStudent
  |> Rx.catchError handleError.

Definition deleteStudent (id : Z) : Observable unit :=
  exchange (DELETE (item_url apiUrl id)) (fun s => Resource.remove (students s) id)
  |> Rx.tap (fun _ => cache_remove id)
  |> Rx.catchError handleError.

(** [filterStudents(filter)]. *)
Definition studentParams (filter : StudentFilter.t) : list (string * string) :=
  param "status" (option_map StudentStatus_value (StudentFilter.status filter))
  ++ param "enrolledCourses_like"
       (option_map Number_toString
          (Js.truthy_number (StudentFilter.enrolledInCourse filter))).

(** [s.name.toLowerCase().includes(term) || ... ||
    (s.phone && s.phone.toLowerCase().includes(term))]. *)
Definition matchesTerm (term : string) (s : Student.t) : bool :=
  Js.includes (toLowerCase engine (Student.name s)) term
  || Js.includes (toLowerCase engine (Student.email s)) term
  || match Js.truthy_string (Student.phone s) with
     | Some phone => Js.includes (toLowerCase engine phone) term
     | None => false
     end.

Definition filterStudents (filter : StudentFilter.t) : Observable (list Student.t) :=
  let params := studentParams filter in
  exchange (GET apiUrl params) (fun s => Resource.query (students s) params)
  |> Rx.map (fun students =>
       let filtered := List.map transformStudent students in
       match Js.truthy_string (StudentFilter.searchTerm filter) with
       | Some searchTerm =>
           let term := toLowerCase engine searchTerm in
           List.filter (matchesTerm term) filtered
       | None => filtered
       end)
  |> Rx.catchError handleError.

(** [searchStudents(keyword)]; no [catchError] of its own. *)
Definition searchStudents (keyword : string) : Observable (list Student.t) :=
  getAllStudents
  |> Rx.map (fun students =>
       let term := toLowerCase engine keyword in
       List.filter (matchesTerm term) students).

Definition getStudentsByStatus (status : StudentStatus) : Observable (list Student.t) :=
  let params := [("status", StudentStatus_value status)] in
  exchange (GET apiUrl params) (fun s => Resource.query (students s) params)
  |> Rx.map (List.map transformStudent)
  |> Rx.catchError handleError.

(** [array.includes(id)] on course ids. *)
Definition includesId (ids : list Z) (id : Z) : bool :=
  existsb (fun x => (x =? id)%Z) ids.

(** [getStudentsEnrolledInCourse(courseId)]; no [catchError] of its own. *)
Definition getStudentsEnrolledInCourse (courseId : Z) : Observable (list Student.t) :=
  getAllStudents
  |> Rx.map (List.filter (fun s => includesId (Student.enrolledCourses s) courseId)).

(** The fetched student with another array of enrolled courses. *)
Definition withEnrolledCourses (student : Student.t) (ids : list Z) : Student.t :=
  {| Student.id := Student.id student;
     Student.name := Student.name student;
     Student.email := Student.email student;
     Student.phone := Student.phone student;
     Student.dateOfBirth := Student.dateOfBirth student;
     Student.address := Student.address student;
     Student.enrolledCourses := ids;
     Student.createdAt := Student.createdAt student;
     Student.updatedAt := Student.updatedAt student;
     Student.status := Student.status student;
     Student.profileImage := Student.profileImage student;
     Student.bio := Student.bio student;
     Student.educationLevel := Student.educationLevel student;
     Student.interests := Student.interests student;
     Student.totalCoursesCompleted := Student.totalCoursesCompleted student;
     Student.averageGrade := Student.averageGrade student |}.

(** [enrollInCourse] and [unenrollFromCourse] change the fetched record
    only; they issue no write. *)
Definition enrollInCourse (studentId courseId : Z) : Observable Student.t :=
  getStudentById studentId
  |> Rx.map (fun student =>
       if negb (includesId (Student.enrolledCourses student) courseId)
       then withEnrolledCourses student (Student.enrolledCourses student ++ [courseId])
       else student)
  |> Rx.catchError handleError.

Definition unenrollFromCourse (studentId courseId : Z) : Observable Student.t :=
  getStudentById studentId
  |> Rx.map (fun student =>
       withEnrolledCourses student
         (List.filter (fun id => negb (id =? courseId)%Z)
            (Student.enrolledCourses student)))
  |> Rx.catchError handleError.

(** The object literal [{ status }]. *)
Definition statusOnly (status : StudentStatus) : PartialStudent.t :=
  PartialStudent.mk None None None None None None None None None (Some status)
    None None None None None None.

Definition updateStudentStatus (studentId : Z) (status : StudentStatus)
  : Observable Student.t :=
  patchStudent studentId (statusOnly status).

(** [getStudentSummary(id)]; no [catchError] of its own. *)
Definition getStudentSummary (id : Z) : Observable StudentSummary.t :=
  getStudentById id
  |> Rx.map (fun student =>
       {| StudentSummary.id := Student.id student;
          StudentSummary.name := Student.name student;
          StudentSummary.email := Student.email student;
          StudentSummary.enrolledCourses := Student.enrolledCourses student;
          StudentSummary.status := Student.status student |}).

(** [getRecentStudents(limit)] and [getTopStudents(limit)]; no
    [catchError] of their own. *)
Definition getRecentStudents (limit : nat) : Observable (list Student.t) :=
  getAllStudents
  |> Rx.map (fun students =>
       JsArray.slice0 limit
         (JsArray.sort
            (fun a b =>
               let dateA := new_Date engine (Student.createdAt a) in
               let dateB := new_Date engine (Student.createdAt b) in
               time_diff dateB dateA)
            students)).

Definition getTopStudents (limit : nat) : Observable (list Student.t) :=
  getAllStudents
  |> Rx.map (fun students =>
       JsArray.slice0 limit
         (JsArray.sort
            (fun a b =>
               Js.opt_or_zero (Student.averageGrade b)
               - Js.opt_or_zero (Student.averageGrade a))
            (List.filter
               (fun s =>
                  match Student.averageGrade s with
                  | Some _ => true
                  | None => false
                  end)
               students))).

End WithEngine.
End StudentService.

(* ================================================================== *)
(** * EnrollmentService (features/enrollments/services/enrollment.service.ts) *)
(* ================================================================== *)

(** [EnrollmentWithDetails extends Enrollment]. *)
Module EnrollmentWithDetails.
Record t : Type := mk {
  enrollment : Enrollment.t;
  courseName : option string;
  courseCategory : option string;
  studentName : option string;
  studentEmail : option string
}.
End EnrollmentWithDetails.

Module EnrollmentService.
Section WithEngine.

Variable engine : Engine.

Definition apiUrl : string := String.append apiUrl_base "/enrollments".

(** [transformEnrollment]: [{ ...enrollment, enrollmentDate: ...,
    completionDate: ..., lastAccessedDate: ... }]. *)
Definition transformEnrollment (enrollment : Enrollment.t) : Enrollment.t :=
  {| Enrollment.id := Enrollment.id enrollment;
     Enrollment.courseId := Enrollment.courseId enrollment;
     Enrollment.studentId := Enrollment.studentId enrollment;
     Enrollment.enrollmentDate := toDate engine (Enrollment.enrollmentDate enrollment);
     Enrollment.completionDate :=
       toDateOpt engine (Enrollment.completionDate enrollment);
     Enrollment.status := Enrollment.status enrollment;
     Enrollment.progress := Enrollment.progress enrollment;
     Enrollment.grade := Enrollment.grade enrollment;
     Enrollment.certificateIssued := Enrollment.certificateIssued enrollment;
     Enrollment.lastAccessedDate :=
       toDateOpt engine (Enrollment.lastAccessedDate enrollment);
     Enrollment.totalHoursSpent := Enrollment.totalHoursSpent enrollment;
     Enrollment.completedModules := Enrollment.completedModules enrollment;
     Enrollment.totalModules := Enrollment.totalModules enrollment;
     Enrollment.feedback := Enrollment.feedback enrollment;
     Enrollment.rating := Enrollment.rating enrollment |}.

Definition handleError {A : Type} (error : ErrorValue) : Observable A :=
  fun w =>
    Rx.throwError (new_Error (message_or error "Server error"))
      (console_error "EnrollmentService Error:" error w).

Definition getAllEnrollments : Observable (list Enrollment.t) :=
  exchange (GET apiUrl []) (fun s => Resource.query (enrollments s) [])
  |> Rx.map (List.map transformEnrollment)
  |> Rx.catchError handleError.

Definition loadAllEnrollments : World -> World :=
  Rx.subscribe getAllEnrollments
    (fun enrollments => enrollmentsCache_next enrollments)
    (fun error => console_error "Error loading enrollments:" error).

Definition refreshCache : World -> World := loadAllEnrollments.

Definition getEnrollmentById (id : Z) : Observable Enrollment.t :=
  exchange (GET (item_url apiUrl id) []) (fun s => Resource.item (enrollments s) id)
  |> Rx.map transformEnrollment
  |> Rx.catchError handleError.

(** [forkJoin({ enrollment: of(enrollment), course: ..., student: ... })]
    followed by the [map] that adds the names. *)
Definition withDetails (enrollment : Enrollment.t)
  : Observable EnrollmentWithDetails.t :=
  Rx.forkJoin2 (Rx.of_ enrollment)
    (Rx.forkJoin2
       (CourseService.getCourseById engine (Enrollment.courseId enrollment))
       (StudentService.getStudentById engine (Enrollment.studentId enrollment)))
  |> Rx.map (fun '(enrollment, (course, student)) =>
       {| EnrollmentWithDetails.enrollment := enrollment;
          EnrollmentWithDetails.courseName := Some (Course.title course);
          EnrollmentWithDetails.courseCategory := Some (Course.category course);
          EnrollmentWithDetails.studentName := Some (Student.name student);
          EnrollmentWithDetails.studentEmail := Some (Student.email student) |}).

Definition getEnrollmentWithDetails (id : Z) : Observable EnrollmentWithDetails.t :=
  getEnrollmentById id
  |> Rx.switchMap withDetails
  |> Rx.catchError handleError.

Definition getAllEnrollmentsWithDetails : Observable (list EnrollmentWithDetails.t) :=
  getAllEnrollments
  |> Rx.switchMap (fun enrollments =>
       if (List.length enrollments =? 0)%nat then Rx.of_ []
       else Rx.forkJoin (List.map withDetails enrollments))
  |> Rx.catchError handleError.

(** The body [createEnrollment] posts; [enrollmentDate] is
    [request.enrollmentDate || new Date().toISOString()]. *)
Definition newEnrollmentBody (request : EnrollmentRequest.t)
    (enrollmentDate : DateOrString) : PartialEnrollment.t :=
  {| PartialEnrollment.id := None;
     PartialEnrollment.courseId := Some (EnrollmentRequest.courseId request);
     PartialEnrollment.studentId := Some (EnrollmentRequest.studentId request);
     PartialEnrollment.enrollmentDate := Some enrollmentDate;
     PartialEnrollment.completionDate := None;
     PartialEnrollment.status := Some ENROLLED;
     PartialEnrollment.progress := Some 0;
     PartialEnrollment.grade := None;
     PartialEnrollment.certificateIssued := None;
     PartialEnrollment.lastAccessedDate := None;
     PartialEnrollment.totalHoursSpent := None;
     PartialEnrollment.completedModules := None;
     PartialEnrollment.totalModules := None;
     PartialEnrollment.feedback := None;
     PartialEnrollment.rating := None |}.

Definition requestedDate (request : EnrollmentRequest.t) (w : World)
  : DateOrString * World :=
  match EnrollmentRequest.enrollmentDate request with
  | Some d =>
      if truthy d then (d, w)
      else let (iso, w') := now_iso engine w in (IsString iso, w')
  | None => let (iso, w') := now_iso engine w in (IsString iso, w')
  end.

(** [this.courseService.refreshCache(); this.studentService.refreshCache();]:
    the GET of the courses is sent, then the GET of the students, neither
    waiting for an answer.  The answers arrive in either order
    ([overtakes]: the answer for the students first); what the order
    changes is the order of the console lines when both refreshes fail. *)
Definition refreshRelated (w : World) : World :=
  let wc := CourseService.refreshCache engine w in
  let ws := StudentService.refreshCache engine wc in
  if overtakes w (List.length (requests wc)) then
    mkWorld (backend ws) (clock ws) (overtakes ws) (lingers ws) (requests ws)
      (console w
       ++ skipn (List.length (console wc)) (console ws)
       ++ skipn (List.length (console w)) (console wc))
      (ticks ws) (coursesCache ws) (studentsCache ws) (enrollmentsCache ws)
  else ws.

(** The [tap] of [createEnrollment]: append, then refresh the course and
    student caches. *)
Definition cache_append (created : Enrollment.t) (w : World) : World :=
  let current := enrollmentsCache w in
  let w := enrollmentsCache_next (current ++ [transformEnrollment created]) w in
  refreshRelated w.

(** The [tap] of [updateEnrollment] and [patchEnrollment]. *)
Definition cache_replace (id : Z) (updated : Enrollment.t) (w : World) : World :=
  let current := enrollmentsCache w in
  match JsArray.findIndex (fun e => (Enrollment.id e =? id)%Z) current with
  | Some index =>
      enrollmentsCache_next
        (JsArray.set_at current index (transformEnrollment updated)) w
  | None => w
  end.

(** The [tap] of [deleteEnrollment]. *)
Definition cache_remove (id : Z) (w : World) : World :=
  let current := enrollmentsCache w in
  let w :=
    enrollmentsCache_next
      (filter (fun e => negb (Enrollment.id e =? id)%Z) current) w in
  refreshRelated w.

Definition createEnrollment (request : EnrollmentRequest.t)
  : Observable Enrollment.t :=
  fun w =>
    let (enrollmentDate, w) := requestedDate request w in
    let newEnrollment := newEnrollmentBody request enrollmentDate in
    (exchange (POST apiUrl (EnrollmentBody newEnrollment))
       (fun s => Resource.create (enrollments s) newEnrollment)
     |> Rx.tap cache_append
     |> Rx.map transformEnrollment
     |> Rx.catchError handleError) w.

Definition updateEnrollment (id : Z) (enrollment : PartialEnrollment.t)
  : Observable Enrollment.t :=
  exchange (PUT (item_url apiUrl id) (EnrollmentBody enrollment))
    (fun s => Resource.replace (enrollments s) id enrollment)
  |> Rx.tap (cache_replace id)
  |> Rx.map transformEnrollment
  |> Rx.catchError handleError.

Definition patchEnrollment (id : Z) (updates : PartialEnrollment.t)
  : Observable Enrollment.t :=
  exchange (PATCH (item_url apiUrl id) (EnrollmentBody updates))
    (fun s => Resource.modify (enrollments s) id updates)
  |> Rx.tap (cache_replace id)
  |> Rx.map transformEnrollment
  |> Rx.catchError handleError.

Definition deleteEnrollment (id : Z) : Observable unit :=
  exchange (DELETE (item_url apiUrl id)) (fun s => Resource.remove (enrollments s) id)
  |> Rx.tap (fun _ => cache_remove id)
  |> Rx.catchError handleError.

Definition getEnrollmentsByCourse (courseId : Z) : Observable (list Enrollment.t) :=
  let params := [("courseId", Number_toString courseId)] in
  exchange (GET apiUrl params) (fun s => Resource.query (enrollments s) params)
  |> Rx.map (List.map transformEnrollment)
  |> Rx.catchError handleError.

Definition getEnrollmentsByStudent (studentId : Z) : Observable (list Enrollment.t) :=
  let params := [("studentId", Number_toString studentId)] in
  exchange (GET apiUrl params) (fun s => Resource.query (enrollments s) params)
  |> Rx.map (List.map transformEnrollment)
  |> Rx.catchError handleError.

(** [filterEnrollments(filter)]. *)
Definition enrollmentParams (filter : EnrollmentFilter.t) : list (string * string) :=
  param "courseId"
    (option_map Number_toString (Js.truthy_number (EnrollmentFilter.courseId filter)))
  ++ param "studentId"
       (option_map Number_toString
          (Js.truthy_number (EnrollmentFilter.studentId filter)))
  ++ param "status"
       (option_map EnrollmentStatus_value (EnrollmentFilter.status filter)).

(** [v] under [if (v)] for a [Date | string] value. *)
Definition truthy_date (v : option DateOrString) : option DateOrString :=
  match v with
  | Some d => if truthy d then Some d else None
  | None => None
  end.

Definition filterByDates (filter : EnrollmentFilter.t)
    (enrollments : list Enrollment.t) : list Enrollment.t :=
  let filtered := List.map transformEnrollment enrollments in
  let filtered :=
    match truthy_date (EnrollmentFilter.dateFrom filter) with
    | Some dateFrom =>
        let fromDate := new_Date engine dateFrom in
        List.filter
          (fun e => Date_ge (new_Date engine (Enrollment.enrollmentDate e)) fromDate)
          filtered
    | None => filtered
    end in
  match truthy_date (EnrollmentFilter.dateTo filter) with
  | Some dateTo =>
      let toDate := new_Date engine dateTo in
      List.filter
        (fun e => Date_le (new_Date engine (Enrollment.enrollmentDate e)) toDate)
        filtered
  | None => filtered
  end.

Definition filterEnrollments (filter : EnrollmentFilter.t)
  : Observable (list Enrollment.t) :=
  let params := enrollmentParams filter in
  exchange (GET apiUrl params) (fun s => Resource.query (enrollments s) params)
  |> Rx.map (filterByDates filter)
  |> Rx.catchError handleError.

Definition getEnrollmentsByStatus (status : EnrollmentStatus)
  : Observable (list Enrollment.t) :=
  let params := [("status", EnrollmentStatus_value status)] in
  exchange (GET apiUrl params) (fun s => Resource.query (enrollments s) params)
  |> Rx.map (List.map transformEnrollment)
  |> Rx.catchError handleError.

(** [updateProgress(enrollmentId, progress)]. *)
Definition progressUpdates (progress : Q) (w : World) : PartialEnrollment.t * World :=
  let (lastAccessedDate, w) := now_iso engine w in
  let updates :=
    PartialEnrollment.set_lastAccessedDate (IsString lastAccessedDate)
      (PartialEnrollment.set_progress progress PartialEnrollment.empty) in
  if Qeq_bool progress 100 then
    let updates := PartialEnrollment.set_status COMPLETED updates in
    let (completionDate, w) := now_iso engine w in
    (PartialEnrollment.set_completionDate (IsString completionDate) updates, w)
  else if Js.gt progress 0 then
    (PartialEnrollment.set_status IN_PROGRESS updates, w)
  else (updates, w).

Definition updateProgress (enrollmentId : Z) (progress : Q)
  : Observable Enrollment.t :=
  fun w =>
    let (updates, w) := progressUpdates progress w in
    patchEnrollment enrollmentId updates w.

(** [updateStatus(enrollmentId, status)]. *)
Definition statusUpdates (status : EnrollmentStatus) (w : World)
  : PartialEnrollment.t * World :=
  let updates := PartialEnrollment.set_status status PartialEnrollment.empty in
  if status_eqb status COMPLETED then
    let (completionDate, w) := now_iso engine w in
    let updates :=
      PartialEnrollment.set_completionDate (IsString completionDate) updates in
    (PartialEnrollment.set_progress 100 updates, w)
  else (updates, w).

Definition updateStatus (enrollmentId : Z) (status : EnrollmentStatus)
  : Observable Enrollment.t :=
  fun w =>
    let (updates, w) := statusUpdates status w in
    patchEnrollment enrollmentId updates w.

(** [submitGrade(enrollmentId, grade)]:
    [{ grade, certificateIssued: grade >= 70 }]. *)
Definition submitGrade (enrollmentId : Z) (grade : Q) : Observable Enrollment.t :=
  patchEnrollment enrollmentId
    (PartialEnrollment.set_certificateIssued (Qle_bool 70 grade)
       (PartialEnrollment.set_grade grade PartialEnrollment.empty)).

(** [getEnrollmentStats]: the function under [map]. *)
Definition isActive (e : Enrollment.t) : bool :=
  status_eqb (Enrollment.status e) ENROLLED
  || status_eqb (Enrollment.status e) IN_PROGRESS.

Definition grade_defined (e : Enrollment.t) : bool :=
  match Enrollment.grade e with
  | Some _ => true
  | None => false
  end.

Definition enrollmentStats (enrollments : list Enrollment.t) : EnrollmentStats.t :=
  let total := List.length enrollments in
  let active := List.length (filter isActive enrollments) in
  let completed :=
    List.length (filter (fun e => status_eqb (Enrollment.status e) COMPLETED) enrollments) in
  let dropped :=
    List.length (filter (fun e => status_eqb (Enrollment.status e) DROPPED) enrollments) in
  let totalProgress :=
    Js.reduce_sum (fun e => Js.or_zero (Enrollment.progress e)) enrollments in
  let avgProgress :=
    if (0 <? total)%nat then totalProgress / Js.len enrollments else 0 in
  let gradedEnrollments := filter grade_defined enrollments in
  let totalGrade :=
    Js.reduce_sum (fun e => Js.opt_or_zero (Enrollment.grade e)) gradedEnrollments in
  let avgGrade :=
    if (0 <? List.length gradedEnrollments)%nat
    then totalGrade / Js.len gradedEnrollments else 0 in
  let completionRate :=
    if (0 <? total)%nat
    then (inject_Z (Z.of_nat completed) / Js.len enrollments) * 100 else 0 in
  {| EnrollmentStats.totalEnrollments := total;
     EnrollmentStats.activeEnrollments := active;
     EnrollmentStats.completedEnrollments := completed;
     EnrollmentStats.droppedEnrollments := dropped;
     EnrollmentStats.averageProgress := Js.round2 avgProgress;
     EnrollmentStats.averageGrade := Js.round2 avgGrade;
     EnrollmentStats.completionRate := Js.round2 completionRate |}.

Definition getEnrollmentStats : Observable EnrollmentStats.t :=
  getAllEnrollments
  |> Rx.map enrollmentStats
  |> Rx.catchError handleError.

(** [getRecentEnrollments(limit)]; no [catchError] of its own. *)
Definition getRecentEnrollments (limit : nat)
  : Observable (list EnrollmentWithDetails.t) :=
  getAllEnrollmentsWithDetails
  |> Rx.map (fun enrollments =>
       JsArray.slice0 limit
         (JsArray.sort
            (fun a b =>
               let dateA :=
                 new_Date engine
                   (Enrollment.enrollmentDate (EnrollmentWithDetails.enrollment a)) in
               let dateB :=
                 new_Date engine
                   (Enrollment.enrollmentDate (EnrollmentWithDetails.enrollment b)) in
               time_diff dateB dateA)
            enrollments)).

End WithEngine.
End EnrollmentService.

(* ================================================================== *)
(** * FeedbackService (features/feedback/services/feedback.service.ts) *)
(* ================================================================== *)

Module FeedbackService.
Section WithEngine.

Variable engine : Engine.

Definition apiUrl : string := String.append apiUrl_base "/feedback".

(** [transformFeedback]: [{ ...feedback, createdAt: ..., resolvedAt: ... }]. *)
Definition transformFeedback (feedback : Feedback.t) : Feedback.t :=
  {| Feedback.id := Feedback.id feedback;
     Feedback.name := Feedback.name feedback;
     Feedback.email := Feedback.email feedback;
     Feedback.subject := Feedback.subject feedback;
     Feedback.message := Feedback.message feedback;
     Feedback.category := Feedback.category feedback;
     Feedback.priority := Feedback.priority feedback;
     Feedback.status := Feedback.status feedback;
     Feedback.createdAt := toDate engine (Feedback.createdAt feedback);
     Feedback.resolvedAt := toDateOpt engine (Feedback.resolvedAt feedback);
     Feedback.response := Feedback.response feedback;
     Feedback.userId := Feedback.userId feedback |}.

(** [handleError]: log, then [throwError(() => new Error(...))]. *)
Definition handleError {A : Type} (error : ErrorValue) : Observable A :=
  fun w =>
    Rx.throwError (new_Error (message_or error "Server error"))
      (console_error "FeedbackService Error:" error w).

Definition getAllFeedback : Observable (list Feedback.t) :=
  exchange (GET apiUrl []) (fun s => Resource.query (feedback s) [])
  |> Rx.map (List.map transformFeedback)
  |> Rx.catchError handleError.

Definition getFeedbackById (id : Z) : Observable Feedback.t :=
  exchange (GET (item_url apiUrl id) []) (fun s => Resource.item (feedback s) id)
  |> Rx.map transformFeedback
  |> Rx.catchError handleError.

(** [{ ...feedback, createdAt: new Date().toISOString(), status: NEW }]. *)
Definition newFeedbackBody (submission : FeedbackSubmission.t) (createdAt : string)
  : PartialFeedback.t :=
  {| PartialFeedback.id := None;
     PartialFeedback.name := Some (FeedbackSubmission.name submission);
     PartialFeedback.email := Some (FeedbackSubmission.email submission);
     PartialFeedback.subject := Some (FeedbackSubmission.subject submission);
     PartialFeedback.message := Some (FeedbackSubmission.message submission);
     PartialFeedback.category := Some (FeedbackSubmission.category submission);
     PartialFeedback.priority := Some (FeedbackSubmission.priority submission);
     PartialFeedback.status := Some FeedbackStatus.NEW;
     PartialFeedback.createdAt := Some (IsString createdAt);
     PartialFeedback.resolvedAt := FeedbackSubmission.resolvedAt submission;
     PartialFeedback.response := FeedbackSubmission.response submission;
     PartialFeedback.userId := FeedbackSubmission.userId submission |}.

Definition submitFeedback (submission : FeedbackSubmission.t) : Observable Feedback.t :=
  fun w =>
    let (createdAt, w) := now_iso engine w in
    let newFeedback := newFeedbackBody submission createdAt in
    (exchange (POST apiUrl (FeedbackBody newFeedback))
       (fun s => Resource.create (feedback s) newFeedback)
     |> Rx.map transformFeedback
     |> Rx.catchError handleError) w.

(** [{ status }], with [resolvedAt] added for a resolved or closed
    feedback. *)
Definition feedbackStatusUpdates (status : FeedbackStatus.t) (w : World)
  : PartialFeedback.t * World :=
  let updates :=
    PartialFeedback.mk None None None None None None None (Some status)
      None None None None in
  match status with
  | FeedbackStatus.RESOLVED | FeedbackStatus.CLOSED =>
      let (resolvedAt, w) := now_iso engine w in
      (PartialFeedback.mk None None None None None None None (Some status)
         None (Some (IsString resolvedAt)) None None, w)
  | _ => (updates, w)
  end.

Definition updateFeedbackStatus (id : Z) (status : FeedbackStatus.t)
  : Observable Feedback.t :=
  fun w =>
    let (updates, w) := feedbackStatusUpdates status w in
    (exchange (PATCH (item_url apiUrl id) (FeedbackBody updates))
       (fun s => Resource.modify (feedback s) id updates)
     |> Rx.map transformFeedback
     |> Rx.catchError handleError) w.

(** [{ response, status: RESOLVED, resolvedAt: new Date().toISOString() }]. *)
Definition respondToFeedback (id : Z) (response : string) : Observable Feedback.t :=
  fun w =>
    let (resolvedAt, w) := now_iso engine w in
    let updates :=
      PartialFeedback.mk None None None None None None None
        (Some FeedbackStatus.RESOLVED) None (Some (IsString resolvedAt))
        (Some response) None in
    (exchange (PATCH (item_url apiUrl id) (FeedbackBody updates))
       (fun s => Resource.modify (feedback s) id updates)
     |> Rx.map transformFeedback
     |> Rx.catchError handleError) w.

Definition deleteFeedback (id : Z) : Observable unit :=
  exchange (DELETE (item_url apiUrl id)) (fun s => Resource.remove (feedback s) id)
  |> Rx.catchError handleError.

(** [getFeedbackByStatus], [getFeedbackByCategory] and
    [getHighPriorityFeedback]; no [catchError] of their own. *)
Definition getFeedbackByStatus (status : FeedbackStatus.t)
  : Observable (list Feedback.t) :=
  getAllFeedback
  |> Rx.map (List.filter
               (fun fb =>
                  String.eqb (FeedbackStatus.value (Feedback.status fb))
                    (FeedbackStatus.value status))).

Definition getFeedbackByCategory (category : FeedbackCategory.t)
  : Observable (list Feedback.t) :=
  getAllFeedback
  |> Rx.map (List.filter
               (fun fb =>
                  String.eqb (FeedbackCategory.value (Feedback.category fb))
                    (FeedbackCategory.value category))).

Definition priorityOrder (p : FeedbackPriority.t) : Q :=
  match p with
  | FeedbackPriority.URGENT => 4
  | FeedbackPriority.HIGH => 3
  | FeedbackPriority.MEDIUM => 2
  | FeedbackPriority.LOW => 1
  end.

Definition getHighPriorityFeedback : Observable (list Feedback.t) :=
  getAllFeedback
  |> Rx.map (fun feedbacks =>
       JsArray.sort
         (fun a b =>
            priorityOrder (Feedback.priority b) - priorityOrder (Feedback.priority a))
         (List.filter
            (fun fb =>
               match Feedback.priority fb with
               | FeedbackPriority.HIGH | FeedbackPriority.URGENT => true
               | _ => false
               end)
            feedbacks)).

End WithEngine.
End FeedbackService.

(* ================================================================== *)
(** * DashboardService (features/dashboard/services/dashboard.service.ts) *)
(* ================================================================== *)

Module CourseSummary.
Record t : Type := mk {
  id : Z;
  title : string;
  category : string;
  enrollmentCount : Z;
  rating : option Q
}.
End CourseSummary.

Module EnrollmentSummary.
Record t : Type := mk {
  id : Z;
  studentName : string;
  courseName : string;
  enrollmentDate : DateOrString;
  status : string
}.
End EnrollmentSummary.

Module DashboardStats.
Record t : Type := mk {
  totalCourses : nat;
  totalStudents : nat;
  totalEnrollments : nat;
  activeEnrollments : nat;
  completedEnrollments : nat;
  totalRevenue : Q;
  averageRating : Q;
  newStudentsThisMonth : nat;
  popularCourses : list CourseSummary.t;
  recentEnrollments : list EnrollmentSummary.t;
  categoryDistribution : list CategoryStats.t;
  enrollmentTrends : list EnrollmentTrend.t;
  courses : option (list Course.t);
  students : option (list Student.t);
  allEnrollments : option (list Enrollment.t)
}.
End DashboardStats.

(** The objects [getCoursePerformance] and [getStudentPerformance] return. *)
Module CoursePerformance.
Record t : Type := mk {
  course : Course.t;
  totalEnrollments : nat;
  completed : nat;
  inProgress : nat;
  dropped : nat;
  completionRate : Q;
  averageProgress : Q;
  averageGrade : Q;
  averageRating : Q;
  revenue : Q
}.
End CoursePerformance.

Module StudentPerformance.
Record t : Type := mk {
  student : Student.t;
  totalCourses : nat;
  completed : nat;
  inProgress : nat;
  completionRate : Q;
  averageProgress : Q;
  averageGrade : Q;
  totalHoursSpent : Q;
  certificatesEarned : nat
}.
End StudentPerformance.

Module DashboardService.
Section WithEngine.

Variable engine : Engine.

(** ** calculateCategoryDistribution *)

(** The body of [courses.forEach]: one course folded into the map. *)
Definition addCourse (enrollments : list Enrollment.t)
    (categoryMap : JsMap.t CategoryStats.t) (course : Course.t)
  : JsMap.t CategoryStats.t :=
  let category := Course.category course in
  let categoryMap :=
    if negb (JsMap.has categoryMap category)
    then JsMap.set categoryMap category
           {| CategoryStats.category := category;
              CategoryStats.courseCount := 0;
              CategoryStats.enrollmentCount := 0;
              CategoryStats.revenue := 0 |}
    else categoryMap in
  match JsMap.get categoryMap category with
  | None => categoryMap
  | Some stats =>
      let courseEnrollments :=
        filter (fun e => (Enrollment.courseId e =? Course.id course)%Z) enrollments in
      JsMap.set categoryMap category
        {| CategoryStats.category := CategoryStats.category stats;
           CategoryStats.courseCount := S (CategoryStats.courseCount stats);
           CategoryStats.enrollmentCount :=
             CategoryStats.enrollmentCount stats + List.length courseEnrollments;
           CategoryStats.revenue :=
             CategoryStats.revenue stats
             + Js.len courseEnrollments * Course.price course |}
  end.

Definition calculateCategoryDistribution
    (courses : list Course.t) (enrollments : list Enrollment.t)
  : list CategoryStats.t :=
  let categoryMap := fold_left (addCourse enrollments) courses JsMap.empty in
  List.map
    (fun stat =>
       {| CategoryStats.category := CategoryStats.category stat;
          CategoryStats.courseCount := CategoryStats.courseCount stat;
          CategoryStats.enrollmentCount := CategoryStats.enrollmentCount stat;
          CategoryStats.revenue := Js.round2 (CategoryStats.revenue stat) |})
    (JsArray.sort
       (fun a b =>
          inject_Z (Z.of_nat (CategoryStats.enrollmentCount b))
          - inject_Z (Z.of_nat (CategoryStats.enrollmentCount a)))
       (JsMap.values categoryMap)).

(** ** calculateEnrollmentTrends *)

(** [course ? course.price : 0] for
    [course = courses.find(c => c.id === enrollment.courseId)]. *)
Definition priceOf (courses : list Course.t) (enrollment : Enrollment.t) : Q :=
  match find (fun c => (Course.id c =? Enrollment.courseId enrollment)%Z) courses with
  | Some course => Course.price course
  | None => 0
  end.

(** The body of the loop for one value of [i]. *)
Definition trendOfMonth (now : LocalTime)
    (enrollments : list Enrollment.t) (courses : list Course.t) (i : nat)
  : EnrollmentTrend.t :=
  let monthDate := Date_local (getFullYear now) (getMonth now - Z.of_nat i)%Z 1 in
  let nextMonthDate :=
    Date_local (getFullYear now) (getMonth now - Z.of_nat i + 1)%Z 1 in
  let monthName := Date_toLocaleMonthYear engine monthDate in
  let monthEnrollments :=
    filter
      (fun e =>
         let enrollDate := new_Date engine (Enrollment.enrollmentDate e) in
         Date_ge enrollDate monthDate && Date_lt enrollDate nextMonthDate)
      enrollments in
  let completions :=
    List.length
      (filter
         (fun e => String.eqb (EnrollmentStatus_value (Enrollment.status e)) "Completed")
         monthEnrollments) in
  let revenue :=
    fold_left (fun sum enrollment => sum + priceOf courses enrollment)
      monthEnrollments 0 in
  {| EnrollmentTrend.month := monthName;
     EnrollmentTrend.enrollments := List.length monthEnrollments;
     EnrollmentTrend.completions := completions;
     EnrollmentTrend.revenue := Js.round2 revenue |}.

(** [for (let i = ...; i >= 0; i--) trends.push(...)]. *)
Fixpoint trendsLoop (now : LocalTime)
    (enrollments : list Enrollment.t) (courses : list Course.t)
    (i : nat) (trends : list EnrollmentTrend.t) : list EnrollmentTrend.t :=
  let trends := trends ++ [trendOfMonth now enrollments courses i] in
  match i with
  | O => trends
  | S i' => trendsLoop now enrollments courses i' trends
  end.

(** [calculateEnrollmentTrends(enrollments, courses)]: [now] is read from
    the clock, the loop starts at [i = 5] with an empty array. *)
Definition calculateEnrollmentTrends
    (enrollments : list Enrollment.t) (courses : list Course.t) (w : World)
  : list EnrollmentTrend.t * World :=
  let (now, w) := Date_now w in
  (trendsLoop now enrollments courses 5 [], w).

(** ** getDashboardStats *)

(** [getEmptyDashboardStats()], the fallback value. *)
Definition getEmptyDashboardStats : DashboardStats.t :=
  {| DashboardStats.totalCourses := 0;
     DashboardStats.totalStudents := 0;
     DashboardStats.totalEnrollments := 0;
     DashboardStats.activeEnrollments := 0;
     DashboardStats.completedEnrollments := 0;
     DashboardStats.totalRevenue := 0;
     DashboardStats.averageRating := 0;
     DashboardStats.newStudentsThisMonth := 0;
     DashboardStats.popularCourses := [];
     DashboardStats.recentEnrollments := [];
     DashboardStats.categoryDistribution := [];
     DashboardStats.enrollmentTrends := [];
     DashboardStats.courses := None;
     DashboardStats.students := None;
     DashboardStats.allEnrollments := None |}.

(** [s || 'Unknown']. *)
Definition or_unknown (s : option string) : string :=
  match s with
  | Some v => if String.eqb v "" then "Unknown" else v
  | None => "Unknown"
  end.

Definition rating_defined (e : Enrollment.t) : bool :=
  match Enrollment.rating e with
  | Some _ => true
  | None => false
  end.

(** What [forkJoin] hands to the projection. *)
Definition Joined : Type :=
  (list Course.t * (list Student.t * (list Enrollment.t * (EnrollmentStats.t
   * (list Course.t * list EnrollmentWithDetails.t)))))%type.

(** The projection under [map]. *)
Definition dashboardStatsOf (joined : Joined) (w : World) : DashboardStats.t * World :=
  let '(courses, (students, (enrollments, (enrollmentStats,
        (popularCourses, recentEnrollments))))) := joined in
  let totalRevenue :=
    fold_left (fun sum enrollment => sum + priceOf courses enrollment) enrollments 0 in
  let ratedEnrollments := filter rating_defined enrollments in
  let avgRating :=
    if (0 <? List.length ratedEnrollments)%nat
    then Js.reduce_sum (fun e => Js.opt_or_zero (Enrollment.rating e)) ratedEnrollments
         / Js.len ratedEnrollments
    else 0 in
  let (now, w) := Date_now w in
  let firstDayOfMonth := Date_local (getFullYear now) (getMonth now) 1 in
  let newStudentsThisMonth :=
    List.length
      (filter
         (fun s => Date_ge (new_Date engine (Student.createdAt s)) firstDayOfMonth)
         students) in
  let categoryDistribution := calculateCategoryDistribution courses enrollments in
  let (enrollmentTrends, w) := calculateEnrollmentTrends enrollments courses w in
  ({| DashboardStats.totalCourses := List.length courses;
      DashboardStats.totalStudents := List.length students;
      DashboardStats.totalEnrollments := EnrollmentStats.totalEnrollments enrollmentStats;
      DashboardStats.activeEnrollments :=
        EnrollmentStats.activeEnrollments enrollmentStats;
      DashboardStats.completedEnrollments :=
        EnrollmentStats.completedEnrollments enrollmentStats;
      DashboardStats.totalRevenue := Js.round2 totalRevenue;
      DashboardStats.averageRating := Js.round2 avgRating;
      DashboardStats.newStudentsThisMonth := newStudentsThisMonth;
      DashboardStats.popularCourses :=
        List.map
          (fun c =>
             {| CourseSummary.id := Course.id c;
                CourseSummary.title := Course.title c;
                CourseSummary.category := Course.category c;
                CourseSummary.enrollmentCount := Course.enrollmentCount c;
                CourseSummary.rating := None |})
          popularCourses;
      DashboardStats.recentEnrollments :=
        List.map
          (fun e =>
             let base := EnrollmentWithDetails.enrollment e in
             {| EnrollmentSummary.id := Enrollment.id base;
                EnrollmentSummary.studentName :=
                  or_unknown (EnrollmentWithDetails.studentName e);
                EnrollmentSummary.courseName :=
                  or_unknown (EnrollmentWithDetails.courseName e);
                EnrollmentSummary.enrollmentDate := Enrollment.enrollmentDate base;
                EnrollmentSummary.status :=
                  EnrollmentStatus_value (Enrollment.status base) |})
          recentEnrollments;
      DashboardStats.categoryDistribution := categoryDistribution;
      DashboardStats.enrollmentTrends := enrollmentTrends;
      DashboardStats.courses := Some courses;
      DashboardStats.students := Some students;
      DashboardStats.allEnrollments := Some enrollments |}, w).

(** [forkJoin({ courses, students, enrollments, enrollmentStats,
    popularCourses, recentEnrollments })]. *)
Definition joinedSources : Observable Joined :=
  Rx.forkJoin2 (CourseService.getAllCourses engine)
    (Rx.forkJoin2 (StudentService.getAllStudents engine)
       (Rx.forkJoin2 (EnrollmentService.getAllEnrollments engine)
          (Rx.forkJoin2 (EnrollmentService.getEnrollmentStats engine)
             (Rx.forkJoin2 (CourseService.getPopularCourses engine 5)
                (EnrollmentService.getRecentEnrollments engine 5))))).

Definition getDashboardStats : Observable DashboardStats.t :=
  joinedSources
  |> Rx.map_effect dashboardStatsOf
  |> Rx.catchError (fun error w =>
       Rx.of_ getEmptyDashboardStats
         (console_error "Dashboard Stats Error:" error w)).

(** ** getCoursePerformance and getStudentPerformance *)

(** [enrollments.filter(e => e.status === literal).length]. *)
Definition countStatus (literal : string) (enrollments : list Enrollment.t) : nat :=
  List.length
    (filter (fun e => String.eqb (EnrollmentStatus_value (Enrollment.status e)) literal)
       enrollments).

(** [defined.length > 0 ? defined.reduce(...) / defined.length : 0] over
    the elements that carry the optional field. *)
Definition averageOfDefined (field : Enrollment.t -> option Q)
    (enrollments : list Enrollment.t) : Q :=
  let defined :=
    filter (fun e => match field e with Some _ => true | None => false end)
      enrollments in
  if (0 <? List.length defined)%nat
  then Js.reduce_sum (fun e => Js.opt_or_zero (field e)) defined / Js.len defined
  else 0.

Definition getCoursePerformance (courseId : Z) : Observable CoursePerformance.t :=
  Rx.forkJoin2 (CourseService.getCourseById engine courseId)
    (EnrollmentService.getEnrollmentsByCourse engine courseId)
  |> Rx.map (fun '(course, enrollments) =>
       let totalEnrollments := List.length enrollments in
       let completed := countStatus "Completed" enrollments in
       let inProgress := countStatus "In Progress" enrollments in
       let dropped := countStatus "Dropped" enrollments in
       let avgProgress :=
         if (0 <? totalEnrollments)%nat
         then Js.reduce_sum (fun e => Js.or_zero (Enrollment.progress e)) enrollments
              / Js.len enrollments
         else 0 in
       let avgGrade := averageOfDefined Enrollment.grade enrollments in
       let avgRating := averageOfDefined Enrollment.rating enrollments in
       {| CoursePerformance.course := course;
          CoursePerformance.totalEnrollments := totalEnrollments;
          CoursePerformance.completed := completed;
          CoursePerformance.inProgress := inProgress;
          CoursePerformance.dropped := dropped;
          CoursePerformance.completionRate :=
            if (0 <? totalEnrollments)%nat
            then (inject_Z (Z.of_nat completed) / Js.len enrollments) * 100 else 0;
          CoursePerformance.averageProgress := Js.round2 avgProgress;
          CoursePerformance.averageGrade := Js.round2 avgGrade;
          CoursePerformance.averageRating := Js.round2 avgRating;
          CoursePerformance.revenue := Js.len enrollments * Course.price course |}).

Definition getStudentPerformance (studentId : Z) : Observable StudentPerformance.t :=
  Rx.forkJoin2 (StudentService.getStudentById engine studentId)
    (EnrollmentService.getEnrollmentsByStudent engine studentId)
  |> Rx.map (fun '(student, enrollments) =>
       let totalCourses := List.length enrollments in
       let completed := countStatus "Completed" enrollments in
       let inProgress := countStatus "In Progress" enrollments in
       let avgProgress :=
         if (0 <? totalCourses)%nat
         then Js.reduce_sum (fun e => Js.or_zero (Enrollment.progress e)) enrollments
              / Js.len enrollments
         else 0 in
       let avgGrade := averageOfDefined Enrollment.grade enrollments in
       let totalHours :=
         Js.reduce_sum (fun e => Js.opt_or_zero (Enrollment.totalHoursSpent e))
           enrollments in
       {| StudentPerformance.student := student;
          StudentPerformance.totalCourses := totalCourses;
          StudentPerformance.completed := completed;
          StudentPerformance.inProgress := inProgress;
          StudentPerformance.completionRate :=
            if (0 <? totalCourses)%nat
            then (inject_Z (Z.of_nat completed) / Js.len enrollments) * 100 else 0;
          StudentPerformance.averageProgress := Js.round2 avgProgress;
          StudentPerformance.averageGrade := Js.round2 avgGrade;
          StudentPerformance.totalHoursSpent := totalHours;
          StudentPerformance.certificatesEarned :=
            List.length
              (filter
                 (fun e =>
                    match Enrollment.certificateIssued e with
                    | Some true => true
                    | _ => false
                    end)
                 enrollments) |}).

End WithEngine.
End DashboardService.

(* ================================================================== *)
(** * The aggregations in double precision
    (enrollment.service.ts, dashboard.service.ts) *)
(* ================================================================== *)

(** [getEnrollmentStats], [calculateCategoryDistribution] and
    [calculateEnrollmentTrends] with their sums, quotients and roundings
    carried out on doubles. *)
Module DoublePrecision.

Module EnrollmentStats.
Record t : Type := mk {
  totalEnrollments : nat;
  activeEnrollments : nat;
  completedEnrollments : nat;
  droppedEnrollments : nat;
  averageProgress : Double.t;
  averageGrade : Double.t;
  completionRate : Double.t
}.
End EnrollmentStats.

Module CategoryStats.
Record t : Type := mk {
  category : string;
  courseCount : nat;
  enrollmentCount : nat;
  revenue : Double.t
}.
End CategoryStats.

Module EnrollmentTrend.
Record t : Type := mk {
  month : string;
  enrollments : nat;
  completions : nat;
  revenue : Double.t
}.
End EnrollmentTrend.

(** [e.progress], [e.grade] and [course.price] as the program holds
    them. *)
Definition progress (e : Enrollment.t) : Double.t :=
  Double.of_Q (Enrollment.progress e).

Definition grade (e : Enrollment.t) : option Double.t :=
  option_map Double.of_Q (Enrollment.grade e).

Definition price (c : Course.t) : Double.t := Double.of_Q (Course.price c).

(** [x || 0] on an optional number. *)
Definition opt_or_zero (x : option Double.t) : Double.t :=
  match x with
  | Some v => Double.or_zero v
  | None => Double.zero
  end.

Section WithEngine.

Variable engine : Engine.

(** ** getEnrollmentStats *)

Definition enrollmentStats (enrollments : list Enrollment.t) : EnrollmentStats.t :=
  let total := List.length enrollments in
  let active := List.length (filter EnrollmentService.isActive enrollments) in
  let completed :=
    List.length (filter (fun e => status_eqb (Enrollment.status e) COMPLETED) enrollments) in
  let dropped :=
    List.length (filter (fun e => status_eqb (Enrollment.status e) DROPPED) enrollments) in
  let totalProgress :=
    fold_left (fun sum e => Double.add sum (Double.or_zero (progress e)))
      enrollments Double.zero in
  let avgProgress :=
    if (0 <? total)%nat then Double.div totalProgress (Double.of_nat total)
    else Double.zero in
  let gradedEnrollments := filter EnrollmentService.grade_defined enrollments in
  let totalGrade :=
    fold_left (fun sum e => Double.add sum (opt_or_zero (grade e)))
      gradedEnrollments Double.zero in
  let avgGrade :=
    if (0 <? List.length gradedEnrollments)%nat
    then Double.div totalGrade (Double.of_nat (List.length gradedEnrollments))
    else Double.zero in
  let completionRate :=
    if (0 <? total)%nat
    then Double.mul (Double.div (Double.of_nat completed) (Double.of_nat total))
           (Double.of_Z 100)
    else Double.zero in
  {| EnrollmentStats.totalEnrollments := total;
     EnrollmentStats.activeEnrollments := active;
     EnrollmentStats.completedEnrollments := completed;
     EnrollmentStats.droppedEnrollments := dropped;
     EnrollmentStats.averageProgress := Double.round2 avgProgress;
     EnrollmentStats.averageGrade := Double.round2 avgGrade;
     EnrollmentStats.completionRate := Double.round2 completionRate |}.

Definition getEnrollmentStats : Observable EnrollmentStats.t :=
  EnrollmentService.getAllEnrollments engine
  |> Rx.map enrollmentStats
  |> Rx.catchError EnrollmentService.handleError.

(** ** calculateCategoryDistribution *)

(** The body of [courses.forEach]: one course folded into the map. *)
Definition addCourse (enrollments : list Enrollment.t)
    (categoryMap : JsMap.t CategoryStats.t) (course : Course.t)
  : JsMap.t CategoryStats.t :=
  let category := Course.category course in
  let categoryMap :=
    if negb (JsMap.has categoryMap category)
    then JsMap.set categoryMap category
           {| CategoryStats.category := category;
              CategoryStats.courseCount := 0;
              CategoryStats.enrollmentCount := 0;
              CategoryStats.revenue := Double.zero |}
    else categoryMap in
  match JsMap.get categoryMap category with
  | None => categoryMap
  | Some stats =>
      let courseEnrollments :=
        filter (fun e => (Enrollment.courseId e =? Course.id course)%Z) enrollments in
      JsMap.set categoryMap category
        {| CategoryStats.category := CategoryStats.category stats;
           CategoryStats.courseCount := S (CategoryStats.courseCount stats);
           CategoryStats.enrollmentCount :=
             CategoryStats.enrollmentCount stats + List.length courseEnrollments;
           CategoryStats.revenue :=
             Double.add (CategoryStats.revenue stats)
               (Double.mul (Double.of_nat (List.length courseEnrollments))
                  (price course)) |}
  end.

Definition calculateCategoryDistribution
    (courses : list Course.t) (enrollments : list Enrollment.t)
  : list CategoryStats.t :=
  let categoryMap := fold_left (addCourse enrollments) courses JsMap.empty in
  List.map
    (fun stat =>
       {| CategoryStats.category := CategoryStats.category stat;
          CategoryStats.courseCount := CategoryStats.courseCount stat;
          CategoryStats.enrollmentCount := CategoryStats.enrollmentCount stat;
          CategoryStats.revenue := Double.round2 (CategoryStats.revenue stat) |})
    (JsArray.sort
       (fun a b =>
          inject_Z (Z.of_nat (CategoryStats.enrollmentCount b))
          - inject_Z (Z.of_nat (CategoryStats.enrollmentCount a)))
       (JsMap.values categoryMap)).

(** ** calculateEnrollmentTrends *)

(** [course ? course.price : 0] for
    [course = courses.find(c => c.id === enrollment.courseId)]. *)
Definition priceOf (courses : list Course.t) (enrollment : Enrollment.t) : Double.t :=
  match find (fun c => (Course.id c =? Enrollment.courseId enrollment)%Z) courses with
  | Some course => price course
  | None => Double.zero
  end.

(** The body of the loop for one value of [i]. *)
Definition trendOfMonth (now : LocalTime)
    (enrollments : list Enrollment.t) (courses : list Course.t) (i : nat)
  : EnrollmentTrend.t :=
  let monthDate := Date_local (getFullYear now) (getMonth now - Z.of_nat i)%Z 1 in
  let nextMonthDate :=
    Date_local (getFullYear now) (getMonth now - Z.of_nat i + 1)%Z 1 in
  let monthName := Date_toLocaleMonthYear engine monthDate in
  let monthEnrollments :=
    filter
      (fun e =>
         let enrollDate := new_Date engine (Enrollment.enrollmentDate e) in
         Date_ge enrollDate monthDate && Date_lt enrollDate nextMonthDate)
      enrollments in
  let completions :=
    List.length
      (filter
         (fun e => String.eqb (EnrollmentStatus_value (Enrollment.status e)) "Completed")
         monthEnrollments) in
  let revenue :=
    fold_left (fun sum enrollment => Double.add sum (priceOf courses enrollment))
      monthEnrollments Double.zero in
  {| EnrollmentTrend.month := monthName;
     EnrollmentTrend.enrollments := List.length monthEnrollments;
     EnrollmentTrend.completions := completions;
     EnrollmentTrend.revenue := Double.round2 revenue |}.

(** [for (let i = ...; i >= 0; i--) trends.push(...)]. *)
Fixpoint trendsLoop (now : LocalTime)
    (enrollments : list Enrollment.t) (courses : list Course.t)
    (i : nat) (trends : list EnrollmentTrend.t) : list EnrollmentTrend.t :=
  let trends := trends ++ [trendOfMonth now enrollments courses i] in
  match i with
  | O => trends
  | S i' => trendsLoop now enrollments courses i' trends
  end.

(** [calculateEnrollmentTrends(enrollments, courses)]: [now] is read from
    the clock, the loop starts at [i = 5] with an empty array. *)
Definition calculateEnrollmentTrends
    (enrollments : list Enrollment.t) (courses : list Course.t) (w : World)
  : list EnrollmentTrend.t * World :=
  let (now, w) := Date_now w in
  (trendsLoop now enrollments courses 5 [], w).

End WithEngine.
End DoublePrecision.

(* ================================================================== *)
(** * EnrollmentFormComponent: the duplicate check
    (features/enrollments/components/enrollment-form) *)
(* ================================================================== *)

Module EnrollmentFormComponent.

(** The value of a select control: [''] until a choice is made, the
    chosen id afterwards. *)
Inductive ControlValue : Type :=
| Unset
| Chosen (id : Z).

(** Truthiness of a control value: [''] and [0] are falsy. *)
Definition chosen (v : ControlValue) : option Z :=
  match v with
  | Chosen id => if (id =? 0)%Z then None else Some id
  | Unset => None
  end.

(** The form group's [errors]: [null], or [{ duplicate: true }]. *)
Inductive FormErrors : Type :=
| NoErrors
| Duplicate.

Record Form : Type := mkForm {
  courseId : ControlValue;
  studentId : ControlValue;
  errors : FormErrors;
  snackBar : list (string * string)
}.

(** [this.enrollmentForm.setErrors(e)] and [this.showMessage(m, type)]. *)
Definition setErrors (e : FormErrors) (form : Form) : Form :=
  mkForm (courseId form) (studentId form) e (snackBar form).

Definition showMessage (m type : string) (form : Form) : Form :=
  mkForm (courseId form) (studentId form) (errors form)
    (snackBar form ++ [(m, type)]).

Section WithEngine.

Variable engine : Engine.

(** The predicate of [enrollments.find(...)]. *)
Definition isDuplicate (courseId studentId : Z) (e : Enrollment.t) : bool :=
  (Enrollment.courseId e =? courseId)%Z
  && (Enrollment.studentId e =? studentId)%Z
  && (status_eqb (Enrollment.status e) IN_PROGRESS
      || status_eqb (Enrollment.status e) PENDING).

(** The [next] handler of the subscription. *)
Definition onEnrollments (courseId studentId : Z)
    (enrollments : list Enrollment.t) (form : Form) : Form :=
  match find (isDuplicate courseId studentId) enrollments with
  | Some duplicate =>
      showMessage "This student is already enrolled in this course" "error"
        (setErrors Duplicate form)
  | None => setErrors NoErrors form
  end.

(** [validateDuplicateEnrollment()]: the subscription has no [error]
    handler, a failed fetch leaves the form as it is. *)
Definition validateDuplicateEnrollment (form : Form) (w : World) : Form * World :=
  match chosen (courseId form), chosen (studentId form) with
  | Some courseId, Some studentId =>
      match EnrollmentService.getAllEnrollments engine w with
      | (Next enrollments, w') => (onEnrollments courseId studentId enrollments form, w')
      | (Error _, w') => (form, w')
      end
  | _, _ => (form, w)
  end.

End WithEngine.
End EnrollmentFormComponent.

(* ================================================================== *)
(** * An engine for worked examples *)
(* ================================================================== *)

(** A concrete [Engine] with UTC as the local time zone.  [Date.parse]
    reads the two ISO-8601 shapes the application writes itself
    ([YYYY-MM-DD] and [YYYY-MM-DDTHH:mm:ss.sssZ]) and rejects every other
    string. *)
Module ReferenceEngine.

Open Scope Z_scope.

(** The civil date of a day number (inverse of [daysFromCivil]). *)
Definition civilFromDays (z : Z) : Z * Z * Z :=
  let z := z + 719468 in
  let era := z / 146097 in
  let doe := z - era * 146097 in
  let yoe := (doe - doe / 1460 + doe / 36524 - doe / 146096) / 365 in
  let doy := doe - (365 * yoe + yoe / 4 - yoe / 100) in
  let mp := (5 * doy + 2) / 153 in
  let d := doy - (153 * mp + 2) / 5 + 1 in
  let m := if mp <? 10 then mp + 3 else mp - 9 in
  let y := yoe + era * 400 in
  ((if m <=? 2 then y + 1 else y), m, d).

Definition digits (n : Z) : string := Number_toString n.

(** [n] in decimal, padded with zeros to [width] characters. *)
Fixpoint zeros (k : nat) : string :=
  match k with
  | O => EmptyString
  | S k' => String.append "0" (zeros k')
  end.

Definition pad (width : nat) (n : Z) : string :=
  let s := digits n in
  String.append (zeros (width - String.length s)) s.

Definition toISOString (ms : Z) : string :=
  let '(y, m, d) := civilFromDays (ms / msPerDay) in
  let r := ms mod msPerDay in
  String.concat ""
    [pad 4 y; "-"; pad 2 m; "-"; pad 2 d; "T";
     pad 2 (r / 3600000); ":"; pad 2 (r / 60000 mod 60); ":";
     pad 2 (r / 1000 mod 60); "."; pad 3 (r mod 1000); "Z"].

(** The value of a string of decimal digits, [None] on any other
    character or on the empty string. *)
Definition digitValue (c : Ascii.ascii) : option Z :=
  let n := Z.of_nat (Ascii.nat_of_ascii c) in
  if (48 <=? n) && (n <=? 57) then Some (n - 48) else None.

Fixpoint numberFrom (acc : Z) (s : string) : option Z :=
  match s with
  | EmptyString => Some acc
  | String c s' =>
      match digitValue c with
      | Some v => numberFrom (acc * 10 + v) s'
      | None => None
      end
  end.

Definition field (s : string) (start len : nat) : option Z :=
  let f := String.substring start len s in
  if (String.length f =? len)%nat then numberFrom 0 f else None.

Definition literal (s : string) (start : nat) (expected : string) : bool :=
  String.eqb (String.substring start (String.length expected) s) expected.

Definition parseDay (s : string) : option Z :=
  match field s 0 4, field s 5 2, field s 8 2 with
  | Some y, Some m, Some d =>
      if literal s 4 "-" && literal s 7 "-"
         && (1 <=? m) && (m <=? 12) && (1 <=? d) && (d <=? 31)
      then Some (daysFromCivil y m d * msPerDay) else None
  | _, _, _ => None
  end.

Definition parseTime (s : string) : option Z :=
  match field s 11 2, field s 14 2, field s 17 2, field s 20 3 with
  | Some h, Some mi, Some sec, Some ms =>
      if literal s 10 "T" && literal s 13 ":" && literal s 16 ":"
         && literal s 19 "." && literal s 23 "Z"
         && (h <? 24) && (mi <? 60) && (sec <? 60)
      then Some (h * 3600000 + mi * 60000 + sec * 1000 + ms) else None
  | _, _, _, _ => None
  end.

Definition parse (s : string) : option Z :=
  if (String.length s =? 10)%nat then parseDay s
  else if (String.length s =? 24)%nat then
    match parseDay s, parseTime s with
    | Some day, Some time => Some (day + time)
    | _, _ => None
    end
  else None.

Definition monthNames : list string :=
  ["Jan"; "Feb"; "Mar"; "Apr"; "May"; "Jun";
   "Jul"; "Aug"; "Sep"; "Oct"; "Nov"; "Dec"].

Definition toLocaleMonthYear (d : Date) : string :=
  match getTime d with
  | Some ms =>
      let '(y, m, _) := civilFromDays (ms / msPerDay) in
      String.concat " " [nth (Z.to_nat (m - 1)) monthNames ""; digits y]
  | None => "Invalid Date"
  end.

(** Lower case of the letters A..Z. *)
Definition lowerAscii (c : Ascii.ascii) : Ascii.ascii :=
  let n := Ascii.nat_of_ascii c in
  if ((65 <=? n) && (n <=? 90))%nat then Ascii.ascii_of_nat (n + 32) else c.

Fixpoint lower (s : string) : string :=
  match s with
  | EmptyString => EmptyString
  | String c s' => String (lowerAscii c) (lower s')
  end.

Definition engine : Engine := mkEngine parse toISOString toLocaleMonthYear lower.

(** The clock reading of the instant [ms]. *)
Definition localTime (ms : Z) : LocalTime :=
  let '(y, m, _) := civilFromDays (ms / msPerDay) in
  mkLocalTime y (m - 1) ms.

Close Scope Z_scope.

End ReferenceEngine.

(* ================================================================== *)
(** * Sample data *)
(* ================================================================== *)

Module Example.

Definition date (s : string) : DateOrString := IsString s.

(** An enrollment with the optional fields absent. *)
Definition enrollment (id courseId studentId : Z) (enrollmentDate : string)
    (status : EnrollmentStatus) (progress : Q) (grade : option Q) : Enrollment.t :=
  Enrollment.mk id courseId studentId (date enrollmentDate) None status progress
    grade None None None None None None None.

Definition course (id : Z) (title category : string) (price : Q) : Course.t :=
  Course.mk id title "A course of the catalogue" category "Beginner" 10 price
    "Ada Lovelace" None (date "2024-01-10") None 50 0%Z true None None None None.

Definition student (id : Z) (name : string) (createdAt : string)
    (updatedAt : option DateOrString) : Student.t :=
  Student.mk id name "student@example.org" None None None [] (date createdAt)
    updatedAt ACTIVE None None None None None None.

Definition webBasics : Course.t := course 1 "Web Basics" "Web Development" (4999 # 100).
Definition webAdvanced : Course.t := course 2 "Web Advanced" "Web Development" 80.
Definition statistics : Course.t := course 3 "Statistics" "Data Science" 120.

Definition theCourses : list Course.t := [webBasics; webAdvanced; statistics].

Definition alice : Student.t := student 1 "Alice" "2024-02-01" None.
Definition bob : Student.t := student 2 "Bob" "2024-03-02" (Some (IsString "")).

Definition theStudents : list Student.t := [alice; bob].

Definition theEnrollments : list Enrollment.t :=
  [ enrollment 1 1 1 "2024-01-20" COMPLETED 100 (Some 90);
    enrollment 2 3 1 "2024-03-05" IN_PROGRESS 40 None;
    enrollment 3 1 2 "2024-03-09" ENROLLED 0 None;
    enrollment 4 2 2 "2023-12-31" DROPPED 10 (Some 55) ].

Definition lookup {A : Type} (key : A -> Z) (l : list A) (id : Z) : HttpResult A :=
  match find (fun x => (key x =? id)%Z) l with
  | Some x => HttpOk x
  | None => HttpFailure (mkErrorValue (Some "Http failure response: 404 Not Found"))
  end.

(** A backend that serves fixed collections and echoes a fixed record on
    every write. *)
Definition resource {A P : Type} (key : A -> Z) (l : list A) (echo : A)
  : Resource.t A P :=
  Resource.mk (fun _ => HttpOk l) (lookup key l) (fun _ => HttpOk echo)
    (fun _ _ => HttpOk echo) (fun _ _ => HttpOk echo) (fun _ => HttpOk tt).

Definition carol : Student.t := student 3 "Carol" "2024-03-15T09:00:00.000Z" None.

Definition praise : Feedback.t :=
  Feedback.mk 1 "Alice" "student@example.org" "Thanks" "A fine course"
    FeedbackCategory.COURSE_CONTENT FeedbackPriority.LOW FeedbackStatus.NEW
    (date "2024-03-01") None None (Some 1%Z).

Definition theServer : Server :=
  mkServer (resource Course.id theCourses webBasics)
    (resource Student.id theStudents carol)
    (resource Enrollment.id theEnrollments
       (enrollment 5 2 1 "2024-03-15" ENROLLED 0 None))
    (resource Feedback.id [praise] praise).

(** A class of which three students have an average grade, behind its
    own backend. *)
Definition graded (id : Z) (name : string) (averageGrade : option Q) : Student.t :=
  Student.mk id name "student@example.org" None None None [] (date "2024-02-01")
    None ACTIVE None None None None None averageGrade.

Definition theClass : list Student.t :=
  [ graded 4 "Dave" (Some 71); graded 5 "Erin" None;
    graded 6 "Frank" (Some 93); graded 7 "Grace" (Some 85) ].

Definition classServer : Server :=
  mkServer (courses theServer) (resource Student.id theClass carol)
    (enrollments theServer) (feedback theServer).


(** The double nearest to 1.335, which lies below 1.335. *)
Definition justBelow1335 : Q := 1503076375634903 # 1125899906842624.



(** A course at that price, and two courses that carry the same id. *)
Definition typography : Course.t := course 4 "Typography" "Design" justBelow1335.

Definition webBasicsAgain : Course.t := course 1 "Web Basics II" "Web Development" 10.

Definition unreachable : ErrorValue :=
  mkErrorValue (Some "Http failure response for http://localhost:3000: 0 Unknown Error").

Definition down {A P : Type} : Resource.t A P :=
  Resource.mk (fun _ => HttpFailure unreachable) (fun _ => HttpFailure unreachable)
    (fun _ => HttpFailure unreachable) (fun _ _ => HttpFailure unreachable)
    (fun _ _ => HttpFailure unreachable) (fun _ => HttpFailure unreachable).

(** A backend that fails every exchange. *)
Definition deadServer : Server := mkServer down down down down.

(** The sample backend with the students out of reach. *)
Definition studentsDown : Server :=
  mkServer (courses theServer) down (enrollments theServer) (feedback theServer).

(** 2024-03-15T09:00:00.000Z, the clock advancing one millisecond per
    reading. *)
Definition t0 : Z := 1710493200000.

Definition theClock (n : nat) : LocalTime :=
  ReferenceEngine.localTime (t0 + Z.of_nat n).

(** A freshly started application in front of a given backend. *)
Definition start (server : Server) : World :=
  mkWorld (fun _ => server) theClock (fun _ => false) (fun _ => false) [] [] 0 [] [] [].

(** The registration form of Carol. *)
Definition newcomer : StudentRegistration.t :=
  StudentRegistration.mk "Carol" "student@example.org" None None None None None.

End Example.

(* ================================================================== *)
(** * Vocabulary of the specification *)
(* ================================================================== *)

(** The [n]-th [new Date().toISOString()] read after [w]. *)
Definition iso_at (engine : Engine) (w : World) (n : nat) : string :=
  Date_toISOString engine (now_ms (clock w (n + ticks w)%nat)).

(** A date field converted by a transform step: a string becomes the
    [Date] built from it, a [Date] stays as it is. *)
Definition dateConverted (engine : Engine) (before after : DateOrString) : Prop :=
  match before with
  | IsString s => after = IsDate (mkDate (Date_parse engine s))
  | IsDate d => after = IsDate d
  end.

(** An optional date field converted by a transform step: a non-empty
    string becomes the [Date] built from it; an absent value, a [Date]
    and the empty string stay as they are. *)
Definition optionalDateConverted (engine : Engine)
    (before after : option DateOrString) : Prop :=
  match before with
  | None => after = None
  | Some (IsDate d) => after = Some (IsDate d)
  | Some (IsString s) =>
      if String.eqb s "" then after = Some (IsString "")
      else after = Some (IsDate (mkDate (Date_parse engine s)))
  end.

(** "Arrives as a string": the value of an optional date field is a
    string. *)
Definition arrivesAsString (v : option DateOrString) : Prop :=
  exists s, v = Some (IsString s).

(** "A structured Date value". *)
Definition isStructuredDate (v : option DateOrString) : Prop :=
  exists d, v = Some (IsDate d).

Definition EnrollmentStatus_eq_dec (a b : EnrollmentStatus) : {a = b} + {a <> b}.
Proof. decide equality. Defined.

(** "Has status s". *)
Definition hasStatus (s : EnrollmentStatus) (e : Enrollment.t) : bool :=
  if EnrollmentStatus_eq_dec (Enrollment.status e) s then true else false.

(** "The number of elements with property p". *)
Fixpoint numberOf {A : Type} (p : A -> bool) (l : list A) : nat :=
  match l with
  | [] => 0
  | x :: l' => if p x then S (numberOf p l') else numberOf p l'
  end.

(** The sum and the mean of a list of numbers; the mean of no number is
    taken to be [0]. *)
Fixpoint total (values : list Q) : Q :=
  match values with
  | [] => 0
  | v :: rest => v + total rest
  end.

Definition mean (values : list Q) : Q :=
  match values with
  | [] => 0
  | _ => total values / inject_Z (Z.of_nat (List.length values))
  end.

(** [r] is [x] rounded to two decimal places: a multiple of 1/100 at
    distance at most 1/200 of [x], the upper one at a tie. *)
Definition roundedToTwoDecimals (x r : Q) : Prop :=
  exists k : Z, r == inject_Z k / 100 /\ x - (1 # 200) < r /\ r <= x + (1 # 200).

(** [r] is [x] rounded to two decimal places whatever is done at a tie:
    a multiple of 1/100 at distance at most 1/200 of [x]. *)
Definition withinHalfACent (x r : Q) : Prop := x - (1 # 200) <= r /\ r <= x + (1 # 200).



(** The grades of the enrollments that have one. *)
Definition gradesOf (l : list Enrollment.t) : list Q :=
  flat_map (fun e => match Enrollment.grade e with Some g => [g] | None => [] end) l.

(** (completed / total) x 100, [0] for no enrollment. *)
Definition percentage (part whole : nat) : Q :=
  match whole with
  | O => 0
  | _ => inject_Z (Z.of_nat part) / inject_Z (Z.of_nat whole) * 100
  end.

(** The courses of a category, and the number of enrollments that
    reference a course. *)
Definition coursesOf (category : string) (courses : list Course.t) : list Course.t :=
  filter (fun c => String.eqb (Course.category c) category) courses.

Definition referencing (enrollments : list Enrollment.t) (course : Course.t) : nat :=
  numberOf (fun e => (Enrollment.courseId e =? Course.id course)%Z) enrollments.

(** The number of enrollments whose [courseId] is the id of some course
    of the category. *)
Definition enrolledInCategory (category : string)
    (courses : list Course.t) (enrollments : list Enrollment.t) : nat :=
  numberOf
    (fun e =>
       existsb (fun c => (Course.id c =? Enrollment.courseId e)%Z)
         (coursesOf category courses))
    enrollments.

(** The price of each course of the category times the number of
    enrollments referencing it, summed. *)
Definition categoryRevenue (category : string)
    (courses : list Course.t) (enrollments : list Enrollment.t) : Q :=
  total
    (List.map
       (fun c => Course.price c * inject_Z (Z.of_nat (referencing enrollments c)))
       (coursesOf category courses)).

(** A record of the distribution describes a category of a list of
    courses. *)
Definition describes (courses : list Course.t) (enrollments : list Enrollment.t)
    (k : string) (v : CategoryStats.t) : Prop :=
  CategoryStats.category v = k
  /\ CategoryStats.courseCount v = List.length (coursesOf k courses)
  /\ CategoryStats.enrollmentCount v
     = list_sum (List.map (referencing enrollments) (coursesOf k courses))
  /\ CategoryStats.revenue v == categoryRevenue k courses enrollments.

(** The map built from the courses seen so far. *)
Definition mapOf (courses : list Course.t) (enrollments : list Enrollment.t)
    (m : JsMap.t CategoryStats.t) : Prop :=
  NoDup (JsMap.keys m)
  /\ (forall k, In k (JsMap.keys m) <-> In k (List.map Course.category courses))
  /\ (forall k v, In (k, v) m -> describes courses enrollments k v).

(** The revenue of a category as the program adds it up on doubles: for
    each course of the category, in the order of the courses, the number
    of enrollments referencing it times its price, added from the left
    to [0]. *)
Definition categoryRevenueInDoubles (category : string)
    (courses : list Course.t) (enrollments : list Enrollment.t) : Double.t :=
  Double.sum
    (List.map
       (fun c =>
          Double.mul (Double.of_nat (referencing enrollments c)) (DoublePrecision.price c))
       (coursesOf category courses)).

Definition describesInDoubles (courses : list Course.t) (enrollments : list Enrollment.t)
    (k : string) (v : DoublePrecision.CategoryStats.t) : Prop :=
  DoublePrecision.CategoryStats.category v = k
  /\ DoublePrecision.CategoryStats.courseCount v = List.length (coursesOf k courses)
  /\ DoublePrecision.CategoryStats.enrollmentCount v
     = list_sum (List.map (referencing enrollments) (coursesOf k courses))
  /\ DoublePrecision.CategoryStats.revenue v
     = categoryRevenueInDoubles k courses enrollments.

Definition mapOfInDoubles (courses : list Course.t) (enrollments : list Enrollment.t)
    (m : JsMap.t DoublePrecision.CategoryStats.t) : Prop :=
  NoDup (JsMap.keys m)
  /\ (forall k, In k (JsMap.keys m) <-> In k (List.map Course.category courses))
  /\ (forall k v, In (k, v) m -> describesInDoubles courses enrollments k v).

(** The comparator [(a, b) => key(b) - key(a)]. *)
Definition descending {A : Type} (key : A -> Q) (a b : A) : Q := key b - key a.






(** A run that leaves the three caches as they were. *)
Definition cachesUnchanged (w w' : World) : Prop :=
  coursesCache w' = coursesCache w
  /\ studentsCache w' = studentsCache w
  /\ enrollmentsCache w' = enrollmentsCache w.

(** A backend on which every exchange fails with [e]. *)
Definition resourceFails {E P : Type} (r : Resource.t E P) (e : ErrorValue) : Prop :=
  (forall q, Resource.query r q = HttpFailure e)
  /\ (forall id, Resource.item r id = HttpFailure e)
  /\ (forall p, Resource.create r p = HttpFailure e)
  /\ (forall id p, Resource.replace r id p = HttpFailure e)
  /\ (forall id p, Resource.modify r id p = HttpFailure e)
  /\ (forall id, Resource.remove r id = HttpFailure e).

Definition serverFails (s : Server) (e : ErrorValue) : Prop :=
  resourceFails (courses s) e
  /\ resourceFails (students s) e
  /\ resourceFails (enrollments s) e
  /\ resourceFails (feedback s) e.

(** The error a service hands on for the failure [e]. *)
Definition handedOn (e : ErrorValue) : ErrorValue :=
  new_Error (message_or e "Server error").

(** A run that fails the way the collection services fail: the error is
    handed on to the caller, the console gained the lines [logged], one
    request was issued and the caches are as they were. *)
Definition propagates {A : Type} (run : Observable A) (w : World)
    (e : ErrorValue) (lines : list ConsoleEntry) : Prop :=
  fst (run w) = Error (handedOn e)
  /\ console (snd (run w)) = console w ++ lines
  /\ (exists request, requests (snd (run w)) = requests w ++ [request])
  /\ cachesUnchanged w (snd (run w)).

(** The two look-ups made for the details of one enrollment. *)
Definition detailRequests (e : Enrollment.t) : list HttpRequest :=
  [GET (item_url CourseService.apiUrl (Enrollment.courseId e)) [];
   GET (item_url StudentService.apiUrl (Enrollment.studentId e)) []].

(** The world after a sequence of requests was recorded. *)
Definition afterRequests (rs : list HttpRequest) (w : World) : World :=
  fold_left (fun w r => log_request r w) rs w.

(** A failed source: the error with which the exchange failed, and the
    lines the source has logged when the failure leaves it. *)
Record Failure : Type := mkFailure {
  cause : ErrorValue;
  logs : list ConsoleEntry
}.

(** The failure of one exchange under a handler that logs with [label];
    there is none when the exchange succeeds. *)
Definition failureOf {A : Type} (label : string) (answer : HttpResult A)
  : option Failure :=
  match answer with
  | HttpFailure e => Some (mkFailure e [mkConsoleEntry label e])
  | HttpOk _ => None
  end.

(** A failure that passes a second handler, the one of the enrollment
    service: it is logged again, as the error the first handler handed
    on. *)
Definition loggedAgain (failure : option Failure) : option Failure :=
  option_map
    (fun f =>
       mkFailure (cause f)
         (logs f ++ [mkConsoleEntry "EnrollmentService Error:" (handedOn (cause f))]))
    failure.

(** Of two sources subscribed one after the other, the failure that ends
    their join: the only one, or the one that arrives first. *)
Definition firstToArrive (secondFirst : bool) (first second : option Failure)
  : option Failure :=
  match first, second with
  | Some a, Some b => Some (if secondFirst then b else a)
  | Some a, None => Some a
  | None, _ => second
  end.

(** A run that fails with [failure]: the error is handed on to the
    caller, the console gained the lines of the failure, the requests
    [sent] were issued, no other, and the caches are as they were. *)
Definition failsWith {A : Type} (run : Observable A) (w : World)
    (failure : Failure) (sent : list HttpRequest) : Prop :=
  fst (run w) = Error (handedOn (cause failure))
  /\ console (snd (run w)) = console w ++ logs failure
  /\ requests (snd (run w)) = requests w ++ sent
  /\ cachesUnchanged w (snd (run w)).

(** The two lines of a load or refresh whose GET failed: the line of the
    service, then the line of the load with the error handed on. *)
Definition loadLines {A : Type} (service loading : string) (answer : HttpResult A)
  : list ConsoleEntry :=
  match answer with
  | HttpFailure e => [mkConsoleEntry service e; mkConsoleEntry loading (handedOn e)]
  | HttpOk _ => []
  end.

(** The lines of the two refreshes that follow a created or deleted
    enrollment, the GET of the courses being the [n]-th exchange and the
    GET of the students the next one. *)
Definition refreshLines (w : World) (n : nat) : list ConsoleEntry :=
  let ofCourses :=
    loadLines "CourseService Error:" "Error loading courses:"
      (Resource.query (courses (backend w n)) []) in
  let ofStudents :=
    loadLines "StudentService Error:" "Error loading students:"
      (Resource.query (students (backend w (S n))) []) in
  if overtakes w (S n) then ofStudents ++ ofCourses else ofCourses ++ ofStudents.

(** A run that sent [request] and then the two refreshes: the console
    gained the lines of the refreshes that failed, three requests were
    issued, and a refresh that failed left its cache as it was. *)
Definition refreshFollows {A : Type} (run : Observable A) (w : World)
    (request : HttpRequest) : Prop :=
  let n := List.length (requests w) in
  console (snd (run w)) = console w ++ refreshLines w (S n)
  /\ requests (snd (run w))
     = requests w
       ++ [request; GET CourseService.apiUrl []; GET StudentService.apiUrl []]
  /\ (forall e, Resource.query (courses (backend w (S n))) [] = HttpFailure e ->
        coursesCache (snd (run w)) = coursesCache w)
  /\ (forall e, Resource.query (students (backend w (S (S n)))) [] = HttpFailure e ->
        studentsCache (snd (run w)) = studentsCache w).

(** The failure of the join of the two look-ups that add the names to
    an enrollment, the look-up of the course being the [n]-th exchange and
    the look-up of the student the next one. *)
Definition lookupFailure (w : World) (n : nat) (e : Enrollment.t) : option Failure :=
  firstToArrive (overtakes w (S n))
    (failureOf "CourseService Error:"
       (Resource.item (courses (backend w n)) (Enrollment.courseId e)))
    (failureOf "StudentService Error:"
       (Resource.item (students (backend w (S n))) (Enrollment.studentId e))).

(** The failure of the join of the look-ups for a list of enrollments,
    the first look-up being the [n]-th exchange. *)
Fixpoint lookupsFailure (w : World) (n : nat) (enrollments : list Enrollment.t)
  : option Failure :=
  match enrollments with
  | [] => None
  | e :: rest =>
      firstToArrive (overtakes w (S (S n)))
        (lookupFailure w n e) (lookupsFailure w (S (S n)) rest)
  end.

(** [getEnrollmentWithDetails(id)] whose GET is the [n]-th exchange: the
    failure of the GET, or else of the look-ups, and the requests that
    follow the GET. *)
Definition detailFailure (engine : Engine) (w : World) (n : nat) (id : Z)
  : option Failure :=
  loggedAgain
    match Resource.item (enrollments (backend w n)) id with
    | HttpFailure e => failureOf "EnrollmentService Error:" (@HttpFailure unit e)
    | HttpOk found =>
        lookupFailure w (S n) (EnrollmentService.transformEnrollment engine found)
    end.

Definition detailFollowUp (engine : Engine) (w : World) (n : nat) (id : Z)
  : list HttpRequest :=
  match Resource.item (enrollments (backend w n)) id with
  | HttpFailure _ => []
  | HttpOk found => detailRequests (EnrollmentService.transformEnrollment engine found)
  end.

(** The same for [getAllEnrollmentsWithDetails()]. *)
Definition detailsFailure (engine : Engine) (w : World) (n : nat) : option Failure :=
  loggedAgain
    match Resource.query (enrollments (backend w n)) [] with
    | HttpFailure e => failureOf "EnrollmentService Error:" (@HttpFailure unit e)
    | HttpOk body =>
        lookupsFailure w (S n)
          (List.map (EnrollmentService.transformEnrollment engine) body)
    end.

Definition detailsFollowUp (engine : Engine) (w : World) (n : nat)
  : list HttpRequest :=
  match Resource.query (enrollments (backend w n)) [] with
  | HttpFailure _ => []
  | HttpOk body =>
      flat_map detailRequests
        (List.map (EnrollmentService.transformEnrollment engine) body)
  end.

(** The failure of the join of [getCoursePerformance(id)] and of
    [getStudentPerformance(id)], the first GET being the [n]-th
    exchange. *)
Definition coursePerformanceFailure (w : World) (n : nat) (id : Z) : option Failure :=
  firstToArrive (overtakes w (S n))
    (failureOf "CourseService Error:" (Resource.item (courses (backend w n)) id))
    (failureOf "EnrollmentService Error:"
       (Resource.query (enrollments (backend w (S n)))
          [("courseId", Number_toString id)])).

Definition studentPerformanceFailure (w : World) (n : nat) (id : Z) : option Failure :=
  firstToArrive (overtakes w (S n))
    (failureOf "StudentService Error:" (Resource.item (students (backend w n)) id))
    (failureOf "EnrollmentService Error:"
       (Resource.query (enrollments (backend w (S n)))
          [("studentId", Number_toString id)])).

(** The six GETs of [getDashboardStats()], and the failure of their join
    when the first of them is the [n]-th exchange: courses, students,
    enrollments, enrollments again for the statistics, courses again for
    the popular courses, enrollments again for the recent enrollments,
    which the look-ups follow. *)
Definition dashboardRequests : list HttpRequest :=
  [GET CourseService.apiUrl []; GET StudentService.apiUrl [];
   GET EnrollmentService.apiUrl []; GET EnrollmentService.apiUrl [];
   GET CourseService.apiUrl []; GET EnrollmentService.apiUrl []].

Definition dashboardFailure (engine : Engine) (w : World) (n : nat) : option Failure :=
  firstToArrive (overtakes w (1 + n))
    (failureOf "CourseService Error:" (Resource.query (courses (backend w n)) []))
    (firstToArrive (overtakes w (2 + n))
       (failureOf "StudentService Error:"
          (Resource.query (students (backend w (1 + n))) []))
       (firstToArrive (overtakes w (3 + n))
          (failureOf "EnrollmentService Error:"
             (Resource.query (enrollments (backend w (2 + n))) []))
          (firstToArrive (overtakes w (4 + n))
             (loggedAgain
                (failureOf "EnrollmentService Error:"
                   (Resource.query (enrollments (backend w (3 + n))) [])))
             (firstToArrive (overtakes w (5 + n))
                (failureOf "CourseService Error:"
                   (Resource.query (courses (backend w (4 + n))) []))
                (detailsFailure engine w (5 + n)))))).

(** A source that sends [sent] at its subscription and no request
    afterwards, and that changes nothing else when it emits. *)
Definition sendsAtOnce {A : Type} (source : Observable A) (sent : list HttpRequest)
  : Prop :=
  forall w,
    Rx.subscribed source w = afterRequests sent w
    /\ match source w with
       | (Next _, w') => w' = afterRequests sent w
       | (Error _, w') => requests w' = requests w ++ sent
       end.

(** A source subscribed in [w] ends in [failure], or emits and leaves the
    console as it was. *)
Definition endsIn {A : Type} (source : Observable A) (w : World)
    (failure : option Failure) : Prop :=
  match failure with
  | Some f =>
      fst (source w) = Error (handedOn (cause f))
      /\ console (snd (source w)) = console w ++ logs f
  | None => (exists v, fst (source w) = Next v) /\ console (snd (source w)) = console w
  end.

(** [sent] is what a source subscribed in [w] sends when it is run to
    its end, or what it sends at its subscription. *)
Definition sentBy {A : Type} (source : Observable A) (w : World)
    (sent : list HttpRequest) : Prop :=
  sent = requests (snd (source w)) \/ sent = requests (Rx.subscribed source w).

(** The cache after a refresh whose GET the backend answered with
    [answer]: the fetched array, transformed, or the cache as it was when
    the GET failed. *)
Definition refetched {E : Type} (transform : E -> E) (answer : HttpResult (list E))
    (before : list E) : list E :=
  match answer with
  | HttpOk body => List.map transform body
  | HttpFailure _ => before
  end.


(** An operation that leaves the three caches as they were, whatever the
    backend answers. *)
Definition leavesCaches {A : Type} (run : Observable A) : Prop :=
  forall w, cachesUnchanged w (snd (run w)).

(* ================================================================== *)
(** * Vocabulary of the further properties *)
(* ================================================================== *)

(** [top] holds the best elements of [l] by [key], best first, and
    [rest] the others: together they are [l] rearranged, [top] is in
    descending order of [key] and no element of [rest] beats one of
    [top]. *)
Definition topBy {A : Type} (key : A -> Q) (l top rest : list A) : Prop :=
  Permutation (top ++ rest) l
  /\ StronglySorted (fun a b => key b <= key a) top
  /\ (forall a b, In a top -> In b rest -> key b <= key a).

(** The average grade of a student, [0] for a student without one. *)
Definition gradeOf (s : Student.t) : Q :=
  match Student.averageGrade s with
  | Some g => g
  | None => 0
  end.

Definition hasGrade (s : Student.t) : bool :=
  match Student.averageGrade s with
  | Some _ => true
  | None => false
  end.

(** The time a [Date | string] value denotes, read as a rational, and
    whether it denotes one at all. *)
Definition timeOf (engine : Engine) (v : DateOrString) : Q :=
  match getTime (new_Date engine v) with
  | Some t => inject_Z t
  | None => 0
  end.

Definition isValidDate (engine : Engine) (v : DateOrString) : Prop :=
  getTime (new_Date engine v) <> None.

(** What [filterCourses] asks of a course on the client: the price
    bounds that are given, and the search term when it is not empty. *)
Definition passesCourseFilter (engine : Engine) (filter : CourseFilter.t)
    (c : Course.t) : bool :=
  match CourseFilter.minPrice filter with
  | Some minPrice => Qle_bool minPrice (Course.price c)
  | None => true
  end
  && match CourseFilter.maxPrice filter with
     | Some maxPrice => Qle_bool (Course.price c) maxPrice
     | None => true
     end
  && match CourseFilter.searchTerm filter with
     | Some k =>
         String.eqb k "" || CourseService.matchesTerm engine (toLowerCase engine k) c
     | None => true
     end.

(** What [filterEnrollments] asks of an enrollment on the client: its
    date within the bounds that are given and not empty. *)
Definition passesDateRange (engine : Engine) (filter : EnrollmentFilter.t)
    (e : Enrollment.t) : bool :=
  match EnrollmentFilter.dateFrom filter with
  | Some dateFrom =>
      negb (truthy dateFrom)
      || Date_ge (new_Date engine (Enrollment.enrollmentDate e))
           (new_Date engine dateFrom)
  | None => true
  end
  && match EnrollmentFilter.dateTo filter with
     | Some dateTo =>
         negb (truthy dateTo)
         || Date_le (new_Date engine (Enrollment.enrollmentDate e))
              (new_Date engine dateTo)
     | None => true
     end.

(** A filter that carries a search term and nothing else. *)
Definition courseTermOnly (k : string) : CourseFilter.t :=
  CourseFilter.mk None None None None (Some k) None.

Definition studentTermOnly (k : string) : StudentFilter.t :=
  StudentFilter.mk None (Some k) None.

(** An enrollment joined with the course and the student it refers to:
    the transformed enrollment with the names read from them. *)
Definition joinedWith (engine : Engine) (e : Enrollment.t) (c : Course.t)
    (s : Student.t) : EnrollmentWithDetails.t :=
  {| EnrollmentWithDetails.enrollment := EnrollmentService.transformEnrollment engine e;
     EnrollmentWithDetails.courseName := Some (Course.title c);
     EnrollmentWithDetails.courseCategory := Some (Course.category c);
     EnrollmentWithDetails.studentName := Some (Student.name s);
     EnrollmentWithDetails.studentEmail := Some (Student.email s) |}.

(* ================================================================== *)
(** * DashboardComponent: insights, card trends, growth, popularity, dates
    (features/dashboard/components/dashboard.component.ts) *)
(* ================================================================== *)

Module DashboardComponentMethods.

(** [type TrendDirection = 'up' | 'down' | 'flat'] and [interface StatTrend]. *)
Inductive TrendDirection : Type :=
| up | down | flat.

Record StatTrend : Type := mkStatTrend {
  text : string;
  direction : TrendDirection;
  label : string
}.

(** [{ text: '0%', direction: 'flat', label }]. *)
Definition flatTrend (label : string) : StatTrend := mkStatTrend "0%" flat label.

(** [buildTrend(value, label, isPercent)]; [value] is [number | null]. *)
Definition buildTrend (value : option Js.JsNumber) (label : string) (isPercent : bool)
  : StatTrend :=
  match value with
  | Some (Js.Finite v) =>
      let clamped := Z.max (Z.min (Js.Math_round v) 999) (-999) in
      let direction :=
        if (clamped >? 0)%Z then up else if (clamped <? 0)%Z then down else flat in
      let suffix := if isPercent then "%" else "" in
      let prefix := if (clamped >? 0)%Z then "+" else if (clamped <? 0)%Z then "" else "" in
      let text :=
        match direction with
        | flat => String.append "0" suffix
        | _ => String.append prefix (String.append (Number_toString clamped) suffix)
        end in
      mkStatTrend text direction label
  | _ => flatTrend label
  end.

(** The [field] argument of [buildTrendFromSeries]:
    ['enrollments' | 'revenue']. *)
Inductive SeriesField : Type :=
| enrollments_field | revenue_field.

(** [trend[field]]. *)
Definition read (field : SeriesField) (trend : EnrollmentTrend.t) : Q :=
  match field with
  | enrollments_field => inject_Z (Z.of_nat (EnrollmentTrend.enrollments trend))
  | revenue_field => EnrollmentTrend.revenue trend
  end.

(** [buildTrendFromSeries(trends, field, label)]; [trends] may be
    [undefined].  The two reads are inside the array once its length is at
    least 2. *)
Definition buildTrendFromSeries (trends : option (list EnrollmentTrend.t))
    (field : SeriesField) (label : string) : StatTrend :=
  match trends with
  | None => flatTrend label
  | Some trends =>
      if (List.length trends <? 2)%nat then flatTrend label
      else
        match nth_error trends (List.length trends - 1),
              nth_error trends (List.length trends - 2) with
        | Some latestTrend, Some previousTrend =>
            let latest := read field latestTrend in
            let previous := read field previousTrend in
            let percentChange :=
              DashboardComponent.calculatePercentChange previous latest in
            buildTrend (Some percentChange) label true
        | _, _ => flatTrend label
        end
  end.

(** [getGrowth()]; [this.dashboardStats] is [null] until the statistics
    are loaded. *)
Definition getGrowth (dashboardStats : option DashboardStats.t) : Q :=
  match dashboardStats with
  | None => 0
  | Some stats =>
      let trends := DashboardStats.enrollmentTrends stats in
      if (List.length trends <? 2)%nat then 0
      else
        match nth_error trends (List.length trends - 1),
              nth_error trends (List.length trends - 2) with
        | Some lastTrend, Some previousTrend =>
            let lastMonth := inject_Z (Z.of_nat (EnrollmentTrend.enrollments lastTrend)) in
            let previousMonth :=
              inject_Z (Z.of_nat (EnrollmentTrend.enrollments previousTrend)) in
            if Qeq_bool previousMonth 0 then (if Js.gt lastMonth 0 then 100 else 0)
            else ((lastMonth - previousMonth) / previousMonth) * 100
        | _, _ => 0
        end
  end.

(** [getPopularityPercentage(enrollmentCount)]: [Math.max(...counts)] is
    taken of a non-empty array. *)
Definition getPopularityPercentage (dashboardStats : option DashboardStats.t)
    (enrollmentCount : Z) : Z :=
  match dashboardStats with
  | None => 0%Z
  | Some stats =>
      match List.map CourseSummary.enrollmentCount (DashboardStats.popularCourses stats) with
      | [] => 0%Z
      | first :: rest =>
          let maxEnrollments := fold_left Z.max rest first in
          if (maxEnrollments >? 0)%Z
          then Js.Math_round
                 ((inject_Z enrollmentCount / inject_Z maxEnrollments) * 100)
          else 0%Z
      end
  end.

(** The three insight fields of the component. *)
Record Insights : Type := mkInsights {
  mostPopularCourse : string;
  topCategory : string;
  leastPopularCourse : string
}.

(** [calculateInsights(stats)]: the fields are assigned only when the
    lists are not empty. *)
Definition calculateInsights (stats : DashboardStats.t) (this : Insights) : Insights :=
  let this :=
    if (0 <? List.length (DashboardStats.popularCourses stats))%nat then
      let sorted :=
        JsArray.sort
          (fun a b =>
             inject_Z (CourseSummary.enrollmentCount b)
             - inject_Z (CourseSummary.enrollmentCount a))
          (DashboardStats.popularCourses stats) in
      match sorted with
      | first :: _ =>
          let active :=
            filter (fun c => (CourseSummary.enrollmentCount c >? 0)%Z) sorted in
          let least :=
            if (0 <? List.length active)%nat then
              match nth_error active (List.length active - 1) with
              | Some c => CourseSummary.title c
              | None => "N/A"
              end
            else "N/A" in
          mkInsights (CourseSummary.title first) (topCategory this) least
      | [] => this
      end
    else this in
  if (0 <? List.length (DashboardStats.categoryDistribution stats))%nat then
    let sortedCats :=
      JsArray.sort
        (fun a b =>
           inject_Z (Z.of_nat (CategoryStats.courseCount b))
           - inject_Z (Z.of_nat (CategoryStats.courseCount a)))
        (DashboardStats.categoryDistribution stats) in
    match sortedCats with
    | first :: _ =>
        mkInsights (mostPopularCourse this) (CategoryStats.category first)
          (leastPopularCourse this)
    | [] => this
    end
  else this.

Section WithEngine.

Variable engine : Engine.

(** [d.toLocaleDateString('en-US', { month: 'short', day: 'numeric',
    year: 'numeric' })], which the engine decides. *)
Variable Date_toLocaleDateString : Date -> string.

(** [formatDate(date)].  With an invalid date every comparison of
    [diffDays] is false. *)
Definition formatDate (date : DateOrString) (w : World) : string * World :=
  let d := new_Date engine date in
  let (now, w) := Date_now w in
  match getTime d with
  | Some time =>
      let diffTime := Z.abs (now_ms now - time) in
      let diffDays := Qceiling (inject_Z diffTime / inject_Z (1000 * 60 * 60 * 24)) in
      if (diffDays =? 0)%Z then ("Today", w)
      else if (diffDays =? 1)%Z then ("Yesterday", w)
      else if (diffDays <? 7)%Z
           then (String.append (Number_toString diffDays) " days ago", w)
           else (Date_toLocaleDateString d, w)
  | None => (Date_toLocaleDateString d, w)
  end.

End WithEngine.

End DashboardComponentMethods.

(* ================================================================== *)
(** * CourseFormComponent: the chip lists
    (features/courses/components/course-form) *)
(* ================================================================== *)

(** The array methods the chip handlers use, on arrays of strings. *)
Module StringArray.

(** [array.includes(value)]. *)
Definition includes (array : list string) (value : string) : bool :=
  existsb (String.eqb value) array.

(** [array.indexOf(value)], [None] for [-1]. *)
Fixpoint indexOf (array : list string) (value : string) : option nat :=
  match array with
  | [] => None
  | x :: rest =>
      if String.eqb x value then Some O else option_map S (indexOf rest value)
  end.

(** [array.splice(index, 1)]: the array without the element at [index]. *)
Fixpoint splice1 (array : list string) (index : nat) : list string :=
  match array, index with
  | [], _ => []
  | _ :: rest, O => rest
  | x :: rest, S i => x :: splice1 rest i
  end.

End StringArray.

Module CourseFormComponent.

(** A [MatChipInputEvent]: the typed text, and the text of the chip input
    it came from. *)
Record MatChipInputEvent : Type := mkMatChipInputEvent {
  value : option string;
  chipInput : string
}.

(** The chip lists of the component. *)
Record t : Type := mk {
  tags : list string;
  prerequisites : list string;
  learningOutcomes : list string
}.

Section WithTrim.

(** [String.prototype.trim]. *)
Variable trim : string -> string.

(** [(event.value || '').trim()]. *)
Definition typed (event : MatChipInputEvent) : string :=
  trim (match value event with
        | Some v => if String.eqb v "" then "" else v
        | None => ""
        end).

(** [if (value && !array.includes(value)) array.push(value)]. *)
Definition pushNew (array : list string) (value : string) : list string :=
  if negb (String.eqb value "") && negb (StringArray.includes array value)
  then array ++ [value] else array.

(** [const index = array.indexOf(item); if (index >= 0) array.splice(index, 1)]. *)
Definition removeFirst (array : list string) (item : string) : list string :=
  match StringArray.indexOf array item with
  | Some index => StringArray.splice1 array index
  | None => array
  end.

(** [event.chipInput!.clear()]. *)
Definition clear (event : MatChipInputEvent) : MatChipInputEvent :=
  mkMatChipInputEvent (value event) "".

Definition addTag (event : MatChipInputEvent) (this : t) : t * MatChipInputEvent :=
  let value := typed event in
  (mk (pushNew (tags this) value) (prerequisites this) (learningOutcomes this),
   clear event).

Definition removeTag (tag : string) (this : t) : t :=
  mk (removeFirst (tags this) tag) (prerequisites this) (learningOutcomes this).

Definition addPrerequisite (event : MatChipInputEvent) (this : t)
  : t * MatChipInputEvent :=
  let value := typed event in
  (mk (tags this) (pushNew (prerequisites this) value) (learningOutcomes this),
   clear event).

Definition removePrerequisite (prereq : string) (this : t) : t :=
  mk (tags this) (removeFirst (prerequisites this) prereq) (learningOutcomes this).

Definition addLearningOutcome (event : MatChipInputEvent) (this : t)
  : t * MatChipInputEvent :=
  let value := typed event in
  (mk (tags this) (prerequisites this) (pushNew (learningOutcomes this) value),
   clear event).

Definition removeLearningOutcome (outcome : string) (this : t) : t :=
  mk (tags this) (prerequisites this) (removeFirst (learningOutcomes this) outcome).

End WithTrim.

End CourseFormComponent.

(* ================================================================== *)
(** * CourseDetailComponent: the statistics of one course
    (features/courses/components/course-detail) *)
(* ================================================================== *)

Module CourseDetailComponent.

(** The [stats] object of the component. *)
Record Stats : Type := mkStats {
  totalEnrollments : nat;
  activeEnrollments : nat;
  completedEnrollments : nat;
  averageProgress : Q;
  averageGrade : Q;
  completionRate : Q
}.

(** Its initial value. *)
Definition initialStats : Stats := mkStats 0 0 0 0 0 0.

(** [calculateStats()]: the counts are assigned always, the averages and
    the rate only inside [if (this.enrollments.length > 0)], the average
    grade only when some enrollment is graded. *)
Definition calculateStats (enrollments : list Enrollment.t) (stats : Stats) : Stats :=
  let total := List.length enrollments in
  let active :=
    List.length
      (filter
         (fun e =>
            String.eqb (EnrollmentStatus_value (Enrollment.status e)) "Enrolled"
            || String.eqb (EnrollmentStatus_value (Enrollment.status e)) "In Progress")
         enrollments) in
  let completed :=
    List.length
      (filter
         (fun e => String.eqb (EnrollmentStatus_value (Enrollment.status e)) "Completed")
         enrollments) in
  let stats :=
    mkStats total active completed
      (averageProgress stats) (averageGrade stats) (completionRate stats) in
  if (0 <? List.length enrollments)%nat then
    let totalProgress :=
      Js.reduce_sum (fun e => Js.or_zero (Enrollment.progress e)) enrollments in
    let stats :=
      mkStats (totalEnrollments stats) (activeEnrollments stats)
        (completedEnrollments stats)
        (totalProgress / Js.len enrollments) (averageGrade stats) (completionRate stats) in
    let gradedEnrollments :=
      filter (fun e => match Enrollment.grade e with Some _ => true | None => false end)
        enrollments in
    let stats :=
      if (0 <? List.length gradedEnrollments)%nat then
        let totalGrade :=
          Js.reduce_sum (fun e => Js.opt_or_zero (Enrollment.grade e)) gradedEnrollments in
        mkStats (totalEnrollments stats) (activeEnrollments stats)
          (completedEnrollments stats) (averageProgress stats)
          (totalGrade / Js.len gradedEnrollments) (completionRate stats)
      else stats in
    mkStats (totalEnrollments stats) (activeEnrollments stats)
      (completedEnrollments stats) (averageProgress stats) (averageGrade stats)
      ((inject_Z (Z.of_nat (completedEnrollments stats))
        / inject_Z (Z.of_nat (totalEnrollments stats))) * 100)
  else stats.

End CourseDetailComponent.

(* ================================================================== *)
(** * EnrollmentListComponent: the options of the filter drop-downs
    (features/enrollments/components/enrollment-list) *)
(* ================================================================== *)

(** A [Map<number, V>]: the entries in insertion order, one per key. *)
Module NumberMap.

Definition t (V : Type) : Type := list (Z * V).

Definition empty {V : Type} : t V := [].

(** [map.set(k, v)]: an existing key keeps its place, a new key goes last. *)
Fixpoint set {V : Type} (m : t V) (k : Z) (v : V) : t V :=
  match m with
  | [] => [(k, v)]
  | (k', v') :: m' =>
      if (k' =? k)%Z then (k', v) :: m' else (k', v') :: set m' k v
  end.

(** [Array.from(map.entries())]. *)
Definition entries {V : Type} (m : t V) : list (Z * V) := m.

End NumberMap.

Module EnrollmentListComponent.

(** The elements of [this.courses] and [this.students]. *)
Record CourseOption : Type := mkCourseOption {
  courseOptionId : string;
  title : string
}.

Record StudentOption : Type := mkStudentOption {
  studentOptionId : string;
  name : string
}.

(** The body of [this.enrollments.forEach] on the two maps. *)
Definition noteEnrollment (maps : NumberMap.t string * NumberMap.t string)
    (enrollment : EnrollmentWithDetails.t) : NumberMap.t string * NumberMap.t string :=
  let (courseMap, studentMap) := maps in
  let base := EnrollmentWithDetails.enrollment enrollment in
  let courseMap :=
    match Js.truthy_string (EnrollmentWithDetails.courseName enrollment) with
    | Some courseName => NumberMap.set courseMap (Enrollment.courseId base) courseName
    | None => courseMap
    end in
  let studentMap :=
    match Js.truthy_string (EnrollmentWithDetails.studentName enrollment) with
    | Some studentName => NumberMap.set studentMap (Enrollment.studentId base) studentName
    | None => studentMap
    end in
  (courseMap, studentMap).

(** [extractFilterOptions()]: the new values of [this.courses] and
    [this.students]. *)
Definition extractFilterOptions (enrollments : list EnrollmentWithDetails.t)
  : list CourseOption * list StudentOption :=
  let (courseMap, studentMap) :=
    fold_left noteEnrollment enrollments (NumberMap.empty, NumberMap.empty) in
  (List.map (fun '(id, title) => mkCourseOption (Number_toString id) title)
     (NumberMap.entries courseMap),
   List.map (fun '(id, name) => mkStudentOption (Number_toString id) name)
     (NumberMap.entries studentMap)).

End EnrollmentListComponent.

(* ================================================================== *)
(** * Vocabulary of the properties of the components *)
(* ================================================================== *)

(** A clean chip list: no chip twice, no empty chip. *)
Definition cleanChips (chips : list string) : Prop :=
  NoDup chips /\ ~ In "" chips.

(** The name the enrollments of a list give to a key: that of the last
    enrollment that has the key and a non-empty name. *)
Definition lastNamed (key : EnrollmentWithDetails.t -> Z)
    (name : EnrollmentWithDetails.t -> option string) (k : Z)
    (enrollments : list EnrollmentWithDetails.t) : option string :=
  fold_left
    (fun found e =>
       match Js.truthy_string (name e) with
       | Some n => if (key e =? k)%Z then Some n else found
       | None => found
       end)
    enrollments None.

(** The course and the student an enrollment with details refers to. *)
Definition courseKey (e : EnrollmentWithDetails.t) : Z :=
  Enrollment.courseId (EnrollmentWithDetails.enrollment e).

Definition studentKey (e : EnrollmentWithDetails.t) : Z :=
  Enrollment.studentId (EnrollmentWithDetails.enrollment e).

(** What one of the two maps of [extractFilterOptions] holds after a list
    of enrollments: one entry per named key, with its last name. *)
Definition mapHolds (key : EnrollmentWithDetails.t -> Z)
    (name : EnrollmentWithDetails.t -> option string)
    (done : list EnrollmentWithDetails.t) (m : NumberMap.t string) : Prop :=
  NoDup (List.map fst m)
  /\ forall k n, In (k, n) m <-> lastNamed key name k done = Some n.


(* ================================================================== *)
(** * Properties *)
(* ================================================================== *)

(** ** Numbers *)

Lemma Qeq_bool_false_neq (x y : Q) : Qeq_bool x y = false -> ~ x == y.
Proof. intros H E. apply Qeq_bool_iff in E. congruence. Qed.

Lemma gt_true (x y : Q) : Js.gt x y = true <-> y < x.
Proof.
  unfold Js.gt. rewrite negb_true_iff. split.
  - intros H. apply Qnot_le_lt. intros L. apply Qle_bool_iff in L. congruence.
  - intros H. destruct (Qle_bool x y) eqn:E; [|reflexivity].
    apply Qle_bool_iff in E. exfalso. apply (Qlt_not_le _ _ H E).
Qed.

Lemma gt_false (x y : Q) : Js.gt x y = false <-> x <= y.
Proof. unfold Js.gt. rewrite negb_false_iff. apply Qle_bool_iff. Qed.

Lemma div_nonzero (x y : Q) : ~ y == 0 -> Js.div x y = Js.Finite (x / y).
Proof.
  intros H. unfold Js.div. destruct (Qeq_bool y 0) eqn:E; [|reflexivity].
  apply Qeq_bool_iff in E. contradiction.
Qed.

(** ** Doubles *)

Lemma Qpower_negative (e : Z) :
  (e < 0)%Z -> Qpower 2 e == / inject_Z (2 ^ (- e)).
Proof.
  intros H. rewrite Zpower_Qpower by lia.
  replace e with (- - e)%Z at 1 by lia. rewrite Qpower_opp. reflexivity.
Qed.

(** [Math.round] of a double with fractional bits is the integer nearest
    to its exact value, the upper one at a tie; the sign of a zero
    result is that of the argument. *)
Lemma Math_round_nearest (s : bool) (m : positive) (e : Z) :
  (e < 0)%Z ->
  exists (v : Q) (n : Z),
    Double.value (S754_finite s m e) = Some v
    /\ inject_Z n - (1 # 2) <= v /\ v < inject_Z n + (1 # 2)
    /\ Double.Math_round (S754_finite s m e)
       = (if (n =? 0)%Z then S754_zero s else Double.of_Z n).
Proof.
  intros He.
  set (z := if s then Zneg m else Zpos m).
  set (P := (2 ^ (- e))%Z).
  assert (Ppos : (0 < P)%Z) by (apply Z.pow_pos_nonneg; lia).
  assert (P2 : (2 ^ (1 - e) = 2 * P)%Z).
  { unfold P. replace (1 - e)%Z with (Z.succ (- e)) by lia.
    rewrite Z.pow_succ_r by lia. reflexivity. }
  set (n := ((z * 2 + P) / (2 * P))%Z).
  exists (inject_Z z * Qpower 2 e), n.
  split; [reflexivity|].
  assert (L : (2 * P * n <= z * 2 + P)%Z) by (apply Z.mul_div_le; lia).
  assert (U : (z * 2 + P < 2 * P * Z.succ n)%Z) by (apply Z.mul_succ_div_gt; lia).
  assert (V : inject_Z z * Qpower 2 e == inject_Z z / inject_Z P).
  { rewrite Qpower_negative by exact He. reflexivity. }
  assert (Pq : 0 < inject_Z P).
  { change 0 with (inject_Z 0). rewrite <- Zlt_Qlt. exact Ppos. }
  rewrite Zle_Qle in L. rewrite Zlt_Qlt in U.
  rewrite !inject_Z_plus, !inject_Z_mult in L, U.
  unfold Z.succ in U. rewrite inject_Z_plus in U.
  change (inject_Z 2) with 2 in L, U. change (inject_Z 1) with 1 in U.
  set (p := inject_Z P) in *. set (q := inject_Z z) in *. set (k := inject_Z n) in *.
  split; [|split].
  - rewrite V. apply Qle_shift_div_l; [exact Pq|]. nra.
  - rewrite V. apply Qlt_shift_div_r; [exact Pq|]. nra.
  - unfold Double.Math_round. destruct (Z.leb_spec 0 e); [lia|].
    fold z. fold P. rewrite P2. fold n. reflexivity.
Qed.

(** ** Statuses *)

Lemma status_eqb_eq (a b : EnrollmentStatus) : status_eqb a b = true <-> a = b.
Proof.
  split.
  - destruct a, b; intros H; try reflexivity; vm_compute in H; discriminate H.
  - intros ->. destruct b; reflexivity.
Qed.

Lemma status_eqb_neq (a b : EnrollmentStatus) : status_eqb a b = false <-> a <> b.
Proof.
  rewrite <- status_eqb_eq. destruct (status_eqb a b); split; congruence.
Qed.

(** ** Dashboard percentage helpers *)

Section PercentageHelpers.
Import DashboardComponent Js.




End PercentageHelpers.

(** ** Patches issued by the enrollment service *)

Section EnrollmentPatches.
Variable engine : Engine.
Import EnrollmentService.

Lemma patchEnrollment_requests (id : Z) (updates : PartialEnrollment.t) (w : World) :
  requests (snd (patchEnrollment engine id updates w))
  = requests w ++ [PATCH (item_url apiUrl id) (EnrollmentBody updates)].
Proof.
  unfold patchEnrollment, Rx.catchError, Rx.map, Rx.tap, exchange.
  destruct (Resource.modify _ id updates); simpl.
  - unfold cache_replace. destruct (JsArray.findIndex _ _); reflexivity.
  - reflexivity.
Qed.

Lemma progressUpdates_requests (progress : Q) (w : World) :
  requests (snd (progressUpdates engine progress w)) = requests w.
Proof.
  unfold progressUpdates, now_iso, Date_now. simpl.
  destruct (Qeq_bool progress 100); [reflexivity|].
  destruct (Js.gt progress 0); reflexivity.
Qed.

Lemma statusUpdates_requests (status : EnrollmentStatus) (w : World) :
  requests (snd (statusUpdates engine status w)) = requests w.
Proof.
  unfold statusUpdates, now_iso, Date_now. simpl.
  destruct (status_eqb status COMPLETED); reflexivity.
Qed.

Lemma progressUpdates_fields (progress : Q) (w : World) :
  let updates := fst (progressUpdates engine progress w) in
  PartialEnrollment.progress updates = Some progress
  /\ PartialEnrollment.lastAccessedDate updates = Some (IsString (iso_at engine w 0))
  /\ (progress == 100 ->
        PartialEnrollment.status updates = Some COMPLETED
        /\ PartialEnrollment.completionDate updates = Some (IsString (iso_at engine w 1))
        /\ PartialEnrollment.keys updates
           = ["completionDate"; "status"; "progress"; "lastAccessedDate"])
  /\ (0 < progress -> progress < 100 ->
        PartialEnrollment.status updates = Some IN_PROGRESS
        /\ PartialEnrollment.keys updates = ["status"; "progress"; "lastAccessedDate"])
  /\ (progress == 0 ->
        PartialEnrollment.status updates = None
        /\ PartialEnrollment.keys updates = ["progress"; "lastAccessedDate"]).
Proof.
  unfold progressUpdates, now_iso, Date_now, iso_at. simpl.
  destruct (Qeq_bool progress 100) eqn:E100.
  - apply Qeq_bool_iff in E100. simpl. repeat split; intros.
    + rewrite E100 in *. discriminate.
    + rewrite E100 in *. exfalso. apply (Qlt_irrefl 100). assumption.
    + rewrite E100 in *. discriminate.
    + rewrite E100 in *. discriminate.
  - apply Qeq_bool_false_neq in E100.
    destruct (Js.gt progress 0) eqn:G.
    + apply gt_true in G. simpl. repeat split; intros; try contradiction.
      * rewrite H in G. discriminate.
      * rewrite H in G. discriminate.
    + apply gt_false in G. simpl. repeat split; intros; try contradiction.
      * exfalso. apply (Qlt_not_le _ _ H G).
      * exfalso. apply (Qlt_not_le _ _ H G).
Qed.

Lemma statusUpdates_fields (status : EnrollmentStatus) (w : World) :
  let updates := fst (statusUpdates engine status w) in
  PartialEnrollment.status updates = Some status
  /\ (status = COMPLETED ->
        PartialEnrollment.progress updates = Some 100
        /\ PartialEnrollment.completionDate updates = Some (IsString (iso_at engine w 0))
        /\ PartialEnrollment.keys updates = ["completionDate"; "status"; "progress"])
  /\ (status <> COMPLETED -> PartialEnrollment.keys updates = ["status"]).
Proof.
  unfold statusUpdates, now_iso, Date_now, iso_at. simpl.
  destruct (status_eqb status COMPLETED) eqn:E.
  - apply status_eqb_eq in E. subst status. simpl. repeat split. intros H. congruence.
  - apply status_eqb_neq in E. simpl. repeat split; intros; contradiction.
Qed.

(** C9.  [updateProgress(id, p)] issues one PATCH on the enrollment whose
    body sets [progress] to [p] and [lastAccessedDate] to the current
    time; for p = 100 the body also sets [status] to 'Completed' and a
    [completionDate]; for 0 < p < 100 it sets [status] to 'In Progress';
    for p = 0 it has no [status] field.  [updateStatus(id, status)] issues
    one PATCH whose body, for 'Completed', also sets [progress] to 100 and
    a [completionDate], and for any other status has the [status] field
    only. *)
Theorem C9_progress_and_status_patches
    (enrollmentId : Z) (p : Q) (status : EnrollmentStatus) (w : World) :
  (exists updates : PartialEnrollment.t,
     requests (snd (updateProgress engine enrollmentId p w))
     = requests w ++ [PATCH (item_url apiUrl enrollmentId) (EnrollmentBody updates)]
     /\ PartialEnrollment.progress updates = Some p
     /\ PartialEnrollment.lastAccessedDate updates = Some (IsString (iso_at engine w 0))
     /\ (p == 100 ->
           PartialEnrollment.status updates = Some COMPLETED
           /\ PartialEnrollment.completionDate updates = Some (IsString (iso_at engine w 1))
           /\ PartialEnrollment.keys updates
              = ["completionDate"; "status"; "progress"; "lastAccessedDate"])
     /\ (0 < p -> p < 100 ->
           PartialEnrollment.status updates = Some IN_PROGRESS
           /\ PartialEnrollment.keys updates
              = ["status"; "progress"; "lastAccessedDate"])
     /\ (p == 0 ->
           PartialEnrollment.status updates = None
           /\ PartialEnrollment.keys updates = ["progress"; "lastAccessedDate"]))
  /\ (exists updates : PartialEnrollment.t,
        requests (snd (updateStatus engine enrollmentId status w))
        = requests w ++ [PATCH (item_url apiUrl enrollmentId) (EnrollmentBody updates)]
        /\ PartialEnrollment.status updates = Some status
        /\ (status = COMPLETED ->
              PartialEnrollment.progress updates = Some 100
              /\ PartialEnrollment.completionDate updates
                 = Some (IsString (iso_at engine w 0))
              /\ PartialEnrollment.keys updates
                 = ["completionDate"; "status"; "progress"])
        /\ (status <> COMPLETED -> PartialEnrollment.keys updates = ["status"])).
Proof.
  split.
  - exists (fst (progressUpdates engine p w)). split.
    + unfold updateProgress.
      destruct (progressUpdates engine p w) as [u w'] eqn:E.
      rewrite patchEnrollment_requests. simpl.
      f_equal. change w' with (snd (u, w')). rewrite <- E.
      apply progressUpdates_requests.
    + apply progressUpdates_fields.
  - exists (fst (statusUpdates engine status w)). split.
    + unfold updateStatus.
      destruct (statusUpdates engine status w) as [u w'] eqn:E.
      rewrite patchEnrollment_requests. simpl.
      f_equal. change w' with (snd (u, w')). rewrite <- E.
      apply statusUpdates_requests.
    + apply statusUpdates_fields.
Qed.

(** C10.  [submitGrade(id, g)] issues one PATCH on the enrollment whose
    body has exactly the fields [grade], equal to [g], and
    [certificateIssued], true when g >= 70 and false otherwise. *)
Theorem C10_submitGrade_patch (enrollmentId : Z) (grade : Q) (w : World) :
  exists updates : PartialEnrollment.t,
    requests (snd (submitGrade engine enrollmentId grade w))
    = requests w ++ [PATCH (item_url apiUrl enrollmentId) (EnrollmentBody updates)]
    /\ PartialEnrollment.grade updates = Some grade
    /\ (70 <= grade -> PartialEnrollment.certificateIssued updates = Some true)
    /\ (grade < 70 -> PartialEnrollment.certificateIssued updates = Some false)
    /\ PartialEnrollment.keys updates = ["grade"; "certificateIssued"].
Proof.
  eexists. split; [unfold submitGrade; apply patchEnrollment_requests|].
  simpl. repeat split.
  - intros H. apply Qle_bool_iff in H. rewrite H. reflexivity.
  - intros H. destruct (Qle_bool 70 grade) eqn:E; [|reflexivity].
    apply Qle_bool_iff in E. exfalso. apply (Qlt_not_le _ _ H E).
Qed.

End EnrollmentPatches.

(** [updateProgress(5, 100)] and [updateStatus(5, 'Dropped')] on a fresh
    application. *)
Lemma C9_progress_and_status_patches_witness :
  (exists updates : PartialEnrollment.t,
     requests (snd (EnrollmentService.updateProgress ReferenceEngine.engine 5 100
                      (Example.start Example.theServer)))
     = [PATCH "http://localhost:3000/enrollments/5" (EnrollmentBody updates)]
     /\ PartialEnrollment.status updates = Some COMPLETED
     /\ PartialEnrollment.completionDate updates
        = Some (IsString "2024-03-15T09:00:00.001Z"))
  /\ (exists updates : PartialEnrollment.t,
        requests (snd (EnrollmentService.updateStatus ReferenceEngine.engine 5 DROPPED
                         (Example.start Example.theServer)))
        = [PATCH "http://localhost:3000/enrollments/5" (EnrollmentBody updates)]
        /\ PartialEnrollment.keys updates = ["status"]).
Proof.
  destruct (C9_progress_and_status_patches ReferenceEngine.engine 5 100 DROPPED
              (Example.start Example.theServer))
    as [(u & Hreq & _ & _ & H100 & _) (v & Hreq' & _ & _ & Hother)].
  split.
  - exists u. split; [exact Hreq|].
    destruct (H100 ltac:(reflexivity)) as (Hs & Hc & _). split; [exact Hs|exact Hc].
  - exists v. split; [exact Hreq'|]. apply Hother. discriminate.
Defined.

(** [submitGrade(5, 85)] on a fresh application. *)
Lemma C10_submitGrade_patch_witness :
  exists updates : PartialEnrollment.t,
    requests (snd (EnrollmentService.submitGrade ReferenceEngine.engine 5 85
                     (Example.start Example.theServer)))
    = [PATCH "http://localhost:3000/enrollments/5" (EnrollmentBody updates)]
    /\ PartialEnrollment.grade updates = Some 85
    /\ PartialEnrollment.certificateIssued updates = Some true.
Proof.
  destruct (C10_submitGrade_patch ReferenceEngine.engine 5 85
              (Example.start Example.theServer))
    as (u & Hreq & Hg & Hpass & _ & _).
  exists u. split; [exact Hreq|]. split; [exact Hg|].
  apply Hpass. discriminate.
Defined.

(** ** The transform step *)

Section Transform.
Variable engine : Engine.

Lemma toDate_converted (v : DateOrString) : dateConverted engine v (toDate engine v).
Proof. destruct v; reflexivity. Qed.

Lemma toDateOpt_converted (v : option DateOrString) :
  optionalDateConverted engine v (toDateOpt engine v).
Proof.
  destruct v as [[d|s]|]; simpl; try reflexivity.
  destruct (String.eqb_spec s "") as [->|]; reflexivity.
Qed.

(** C7 (amended).  The transform step of each collection service turns
    the required date field ([createdAt] of a student or course,
    [enrollmentDate] of an enrollment) into a [Date] when it arrives as a
    string, and each optional date field ([updatedAt], [dateOfBirth];
    [completionDate], [lastAccessedDate]) into a [Date] when it arrives
    as a non-empty string; a field that already is a [Date], an absent
    optional field and an empty string in an optional field stay as they
    are, and every other field of the record is unchanged. *)
Theorem C7_transform_converts_date_fields
    (student : Student.t) (course : Course.t) (enrollment : Enrollment.t) :
  (let student' := StudentService.transformStudent engine student in
   dateConverted engine (Student.createdAt student) (Student.createdAt student')
   /\ optionalDateConverted engine
        (Student.updatedAt student) (Student.updatedAt student')
   /\ optionalDateConverted engine
        (Student.dateOfBirth student) (Student.dateOfBirth student')
   /\ student'
      = {| Student.id := Student.id student;
           Student.name := Student.name student;
           Student.email := Student.email student;
           Student.phone := Student.phone student;
           Student.dateOfBirth := Student.dateOfBirth student';
           Student.address := Student.address student;
           Student.enrolledCourses := Student.enrolledCourses student;
           Student.createdAt := Student.createdAt student';
           Student.updatedAt := Student.updatedAt student';
           Student.status := Student.status student;
           Student.profileImage := Student.profileImage student;
           Student.bio := Student.bio student;
           Student.educationLevel := Student.educationLevel student;
           Student.interests := Student.interests student;
           Student.totalCoursesCompleted := Student.totalCoursesCompleted student;
           Student.averageGrade := Student.averageGrade student |})
  /\ (let course' := CourseService.transformCourse engine course in
      dateConverted engine (Course.createdAt course) (Course.createdAt course')
      /\ optionalDateConverted engine
           (Course.updatedAt course) (Course.updatedAt course')
      /\ course'
         = {| Course.id := Course.id course;
              Course.title := Course.title course;
              Course.description := Course.description course;
              Course.category := Course.category course;
              Course.level := Course.level course;
              Course.duration := Course.duration course;
              Course.price := Course.price course;
              Course.instructor := Course.instructor course;
              Course.thumbnail := Course.thumbnail course;
              Course.createdAt := Course.createdAt course';
              Course.updatedAt := Course.updatedAt course';
              Course.popularity := Course.popularity course;
              Course.enrollmentCount := Course.enrollmentCount course;
              Course.isActive := Course.isActive course;
              Course.tags := Course.tags course;
              Course.prerequisites := Course.prerequisites course;
              Course.learningOutcomes := Course.learningOutcomes course;
              Course.maxStudents := Course.maxStudents course |})
  /\ (let enrollment' := EnrollmentService.transformEnrollment engine enrollment in
      dateConverted engine
        (Enrollment.enrollmentDate enrollment) (Enrollment.enrollmentDate enrollment')
      /\ optionalDateConverted engine
           (Enrollment.completionDate enrollment)
           (Enrollment.completionDate enrollment')
      /\ optionalDateConverted engine
           (Enrollment.lastAccessedDate enrollment)
           (Enrollment.lastAccessedDate enrollment')
      /\ enrollment'
         = {| Enrollment.id := Enrollment.id enrollment;
              Enrollment.courseId := Enrollment.courseId enrollment;
              Enrollment.studentId := Enrollment.studentId enrollment;
              Enrollment.enrollmentDate := Enrollment.enrollmentDate enrollment';
              Enrollment.completionDate := Enrollment.completionDate enrollment';
              Enrollment.status := Enrollment.status enrollment;
              Enrollment.progress := Enrollment.progress enrollment;
              Enrollment.grade := Enrollment.grade enrollment;
              Enrollment.certificateIssued := Enrollment.certificateIssued enrollment;
              Enrollment.lastAccessedDate := Enrollment.lastAccessedDate enrollment';
              Enrollment.totalHoursSpent := Enrollment.totalHoursSpent enrollment;
              Enrollment.completedModules := Enrollment.completedModules enrollment;
              Enrollment.totalModules := Enrollment.totalModules enrollment;
              Enrollment.feedback := Enrollment.feedback enrollment;
              Enrollment.rating := Enrollment.rating enrollment |}).
Proof.
  repeat split; simpl;
    first [ apply toDate_converted | apply toDateOpt_converted ].
Qed.

End Transform.

(** C7 as worded fails on a student whose [updatedAt] arrives as the
    empty string: the field is a string and the transform step leaves it
    a string. *)
Lemma C7_empty_string_not_converted :
  arrivesAsString (Student.updatedAt Example.bob)
  /\ Student.updatedAt
       (StudentService.transformStudent ReferenceEngine.engine Example.bob)
     = Some (IsString "")
  /\ ~ isStructuredDate
         (Student.updatedAt
            (StudentService.transformStudent ReferenceEngine.engine Example.bob)).
Proof.
  split; [exists ""; reflexivity|]. split; [reflexivity|].
  intros [d H]. discriminate H.
Qed.

(** The transform step on the three sample records. *)
Lemma C7_transform_converts_date_fields_witness :
  Student.createdAt (StudentService.transformStudent ReferenceEngine.engine Example.alice)
  = IsDate (mkDate (Some 1706745600000%Z))
  /\ Course.createdAt
       (CourseService.transformCourse ReferenceEngine.engine Example.webBasics)
     = IsDate (mkDate (Some 1704844800000%Z)).
Proof.
  destruct (C7_transform_converts_date_fields ReferenceEngine.engine
              Example.alice Example.webBasics
              (Example.enrollment 1 1 1 "2024-01-20" COMPLETED 100 None))
    as ((Hs & _) & (Hc & _) & _).
  split; [exact Hs | exact Hc].
Defined.

(** ** The duplicate check of the enrollment form *)

Section DuplicateCheck.
Variable engine : Engine.
Import EnrollmentFormComponent.

Lemma isDuplicate_true (c s : Z) (e : Enrollment.t) :
  isDuplicate c s e = true
  <-> Enrollment.courseId e = c /\ Enrollment.studentId e = s
      /\ (Enrollment.status e = IN_PROGRESS \/ Enrollment.status e = PENDING).
Proof.
  unfold isDuplicate.
  rewrite !andb_true_iff, orb_true_iff, !Z.eqb_eq, !status_eqb_eq. tauto.
Qed.

(** What the scan decides: the form is marked exactly when some fetched
    enrollment has the two selected ids and status 'In Progress' or
    'Pending'. *)
Lemma onEnrollments_marks (c s : Z) (l : list Enrollment.t) (form : Form) :
  errors (onEnrollments c s l form) = Duplicate
  <-> exists e, In e l /\ Enrollment.courseId e = c /\ Enrollment.studentId e = s
                /\ (Enrollment.status e = IN_PROGRESS
                    \/ Enrollment.status e = PENDING).
Proof.
  unfold onEnrollments.
  destruct (find (isDuplicate c s) l) as [d|] eqn:F; simpl.
  - split; [intros _|reflexivity].
    apply find_some in F. destruct F as [Hin Hd].
    exists d. split; [exact Hin|]. apply isDuplicate_true, Hd.
  - split; [discriminate|].
    intros (e & Hin & Hd). exfalso.
    assert (N := find_none _ _ F e Hin).
    assert (T : isDuplicate c s e = true) by (apply isDuplicate_true; exact Hd).
    congruence.
Qed.

Lemma validateDuplicateEnrollment_fetched (form : Form) (w : World)
    (c s : Z) (body : list Enrollment.t) :
  chosen (courseId form) = Some c ->
  chosen (studentId form) = Some s ->
  Resource.query (enrollments (backend w (List.length (requests w)))) [] = HttpOk body ->
  fst (validateDuplicateEnrollment engine form w)
  = onEnrollments c s (List.map (EnrollmentService.transformEnrollment engine) body) form.
Proof.
  intros Hc Hs Hq. unfold validateDuplicateEnrollment. rewrite Hc, Hs.
  unfold EnrollmentService.getAllEnrollments, Rx.catchError, Rx.map, exchange.
  rewrite Hq. reflexivity.
Qed.

End DuplicateCheck.

(** C1 (the code at the failing input).  Bob (student 2) holds an
    enrollment in course 1 whose status is 'Enrolled', which is an active
    status for [getEnrollmentStats] and the status [createEnrollment]
    gives; the duplicate check of the form, run with course 1 and
    student 2 selected, fetches that enrollment and clears the form's
    errors without a message. *)
Theorem C1_enrolled_duplicate_passes_the_check :
  let form :=
    EnrollmentFormComponent.mkForm
      (EnrollmentFormComponent.Chosen 1) (EnrollmentFormComponent.Chosen 2)
      EnrollmentFormComponent.NoErrors [] in
  (exists e, In e Example.theEnrollments
             /\ Enrollment.courseId e = 1%Z /\ Enrollment.studentId e = 2%Z
             /\ Enrollment.status e = ENROLLED
             /\ EnrollmentService.isActive e = true)
  /\ fst (EnrollmentFormComponent.validateDuplicateEnrollment ReferenceEngine.engine
            form (Example.start Example.theServer))
     = form.
Proof.
  split.
  - exists (Example.enrollment 3 1 2 "2024-03-09" ENROLLED 0 None).
    split; [simpl; tauto|]. repeat split.
  - reflexivity.
Qed.

(** The same check marks the form for an enrollment that is only
    'Pending'. *)
Lemma pending_enrollment_is_flagged :
  let form :=
    EnrollmentFormComponent.mkForm
      (EnrollmentFormComponent.Chosen 1) (EnrollmentFormComponent.Chosen 2)
      EnrollmentFormComponent.NoErrors [] in
  EnrollmentFormComponent.errors
    (EnrollmentFormComponent.onEnrollments 1 2
       [Example.enrollment 9 1 2 "2024-03-09" PENDING 0 None] form)
  = EnrollmentFormComponent.Duplicate.
Proof. reflexivity. Qed.

(** ** Rounding and sums *)

Lemma round2_rounded (x : Q) : roundedToTwoDecimals x (Js.round2 x).
Proof.
  unfold roundedToTwoDecimals, Js.round2, Js.Math_round.
  exists (Qfloor (x * 100 + (1 # 2))). split; [reflexivity|].
  assert (L := Qfloor_le (x * 100 + (1 # 2))).
  assert (U := Qlt_floor (x * 100 + (1 # 2))).
  rewrite inject_Z_plus in U.
  set (k := inject_Z (Qfloor (x * 100 + (1 # 2)))) in *.
  change (inject_Z 1) with 1 in U.
  split.
  - apply Qlt_shift_div_l; [reflexivity|]. lra.
  - apply Qle_shift_div_r; [reflexivity|]. lra.
Qed.

Lemma roundedToTwoDecimals_compat (x y r : Q) :
  x == y -> roundedToTwoDecimals x r -> roundedToTwoDecimals y r.
Proof.
  intros E (k & Hk & L & U). exists k. rewrite <- E. auto.
Qed.

Lemma round2_compat (x y : Q) : x == y -> Js.round2 x == Js.round2 y.
Proof.
  intros E. unfold Js.round2, Js.Math_round. rewrite E. reflexivity.
Qed.

Lemma fold_left_sum {A : Type} (f : A -> Q) (l : list A) (acc : Q) :
  fold_left (fun sum e => sum + f e) l acc == acc + total (List.map f l).
Proof.
  revert acc. induction l as [|x l IH]; intros acc; simpl.
  - lra.
  - rewrite IH. lra.
Qed.

Lemma reduce_sum_total {A : Type} (f : A -> Q) (l : list A) :
  Js.reduce_sum f l == total (List.map f l).
Proof. unfold Js.reduce_sum. rewrite fold_left_sum. lra. Qed.

Lemma total_ext (l l' : list Q) : Forall2 Qeq l l' -> total l == total l'.
Proof.
  induction 1 as [|x y l l' E _ IH]; simpl; [reflexivity|].
  rewrite E, IH. reflexivity.
Qed.

Lemma or_zero_id (x : Q) : Js.or_zero x == x.
Proof.
  unfold Js.or_zero. destruct (Qeq_bool x 0) eqn:E; [|reflexivity].
  apply Qeq_bool_iff in E. symmetry. exact E.
Qed.

Lemma filter_length_numberOf {A : Type} (p q : A -> bool) (l : list A) :
  (forall x, p x = q x) -> List.length (filter p l) = numberOf q l.
Proof.
  intros E. induction l as [|x l IH]; simpl; [reflexivity|].
  rewrite <- E. destruct (p x); simpl; congruence.
Qed.

Lemma filter_map_length {A B : Type} (f : A -> B) (p : B -> bool) (l : list A) :
  List.length (filter p (List.map f l)) = List.length (filter (fun x => p (f x)) l).
Proof.
  induction l as [|x l IH]; simpl; [reflexivity|].
  destruct (p (f x)); simpl; congruence.
Qed.

Lemma hasStatus_eqb (s : EnrollmentStatus) (e : Enrollment.t) :
  status_eqb (Enrollment.status e) s = hasStatus s e.
Proof.
  unfold hasStatus. destruct (EnrollmentStatus_eq_dec (Enrollment.status e) s) as [E|N].
  - apply status_eqb_eq, E.
  - apply status_eqb_neq, N.
Qed.

(** ** Enrollment statistics *)

Section EnrollmentStatistics.
Import EnrollmentService.

Lemma total_or_zero (l : list Enrollment.t) :
  total (List.map (fun e => Js.or_zero (Enrollment.progress e)) l)
  == total (List.map Enrollment.progress l).
Proof.
  apply total_ext. induction l; simpl; constructor; auto using or_zero_id.
Qed.


Lemma gradesOf_total (l : list Enrollment.t) :
  total (List.map (fun e => Js.opt_or_zero (Enrollment.grade e)) (filter grade_defined l))
  == total (gradesOf l).
Proof.
  unfold gradesOf. induction l as [|e l IH]; simpl; [reflexivity|].
  unfold grade_defined at 1. destruct (Enrollment.grade e) as [g|] eqn:G; simpl.
  - rewrite G. change (Js.opt_or_zero (Some g)) with (Js.or_zero g).
    rewrite IH, or_zero_id. reflexivity.
  - exact IH.
Qed.

Lemma mean_as_quotient (values : list Q) :
  values <> [] ->
  mean values = total values / inject_Z (Z.of_nat (List.length values)).
Proof. destruct values; [congruence|reflexivity]. Qed.

(** The function under [map] against the vocabulary of the
    specification. *)
Lemma enrollmentStats_counts (l : list Enrollment.t) :
  let stats := enrollmentStats l in
  EnrollmentStats.totalEnrollments stats = List.length l
  /\ EnrollmentStats.activeEnrollments stats
     = numberOf (fun e => hasStatus ENROLLED e || hasStatus IN_PROGRESS e) l
  /\ EnrollmentStats.completedEnrollments stats = numberOf (hasStatus COMPLETED) l
  /\ EnrollmentStats.droppedEnrollments stats = numberOf (hasStatus DROPPED) l.
Proof.
  simpl. repeat split.
  - apply filter_length_numberOf. intros e. unfold isActive.
    rewrite !hasStatus_eqb. reflexivity.
  - apply filter_length_numberOf. intros e. apply hasStatus_eqb.
  - apply filter_length_numberOf. intros e. apply hasStatus_eqb.
Qed.




Variable engine : Engine.






End EnrollmentStatistics.



(** ** Maps in insertion order *)

Section MapFacts.
Context {V : Type}.
Implicit Types (m : JsMap.t V) (k : string) (v : V).

Lemma has_keys m k : JsMap.has m k = true <-> In k (JsMap.keys m).
Proof.
  unfold JsMap.has, JsMap.keys. rewrite existsb_exists, in_map_iff. split.
  - intros (kv & Hin & E). apply String.eqb_eq in E. exists kv. auto.
  - intros (kv & E & Hin). exists kv. split; [exact Hin|]. apply String.eqb_eq, E.
Qed.

Lemma get_In m k v : JsMap.get m k = Some v -> In (k, v) m.
Proof.
  induction m as [|[k' v'] m IH]; simpl; [discriminate|].
  destruct (String.eqb_spec k' k) as [->|N].
  - intros [= ->]. left. reflexivity.
  - intros H. right. apply IH, H.
Qed.

Lemma keys_get m k : In k (JsMap.keys m) -> exists v, JsMap.get m k = Some v.
Proof.
  induction m as [|[k' v'] m IH]; simpl; [tauto|].
  destruct (String.eqb_spec k' k) as [->|N].
  - intros _. eexists. reflexivity.
  - intros [E|H]; [contradiction|]. apply IH, H.
Qed.

Lemma keys_set m k v :
  JsMap.keys (JsMap.set m k v)
  = if JsMap.has m k then JsMap.keys m else JsMap.keys m ++ [k].
Proof.
  induction m as [|[k' v'] m IH]; simpl; [reflexivity|].
  unfold JsMap.has in *. simpl.
  destruct (String.eqb_spec k' k) as [->|N]; simpl; [reflexivity|].
  fold (JsMap.keys (JsMap.set m k v)). rewrite IH.
  destruct (existsb _ m); reflexivity.
Qed.

Lemma In_set m k v k' v' :
  NoDup (JsMap.keys m) ->
  In (k', v') (JsMap.set m k v)
  <-> (k' = k /\ v' = v) \/ (k' <> k /\ In (k', v') m).
Proof.
  induction m as [|[k0 v0] m IH]; simpl; intros ND.
  - split.
    + intros [[= <- <-]|[]]. left. auto.
    + intros [[-> ->]|[_ []]]. left. reflexivity.
  - inversion ND as [|? ? Hnotin ND']; subst.
    destruct (String.eqb_spec k0 k) as [->|N]; simpl.
    + split.
      * intros [[= <- <-]|H]; [left; auto|].
        right. split; [|right; exact H].
        intros ->. apply Hnotin. apply (in_map fst) in H. exact H.
      * intros [[-> ->]|[Hne [[= <- <-]|H]]]; [left; reflexivity|congruence|right; exact H].
    + rewrite (IH ND'). split.
      * intros [[= <- <-]|[H|H]]; [right; split; [congruence|left; reflexivity]|left; exact H|].
        right. destruct H as [Hne H]. split; [exact Hne|right; exact H].
      * intros [H|[Hne [[= <- <-]|H]]]; [right; left; exact H|left; reflexivity|].
        right. right. split; assumption.
Qed.

Lemma NoDup_keys_set m k v : NoDup (JsMap.keys m) -> NoDup (JsMap.keys (JsMap.set m k v)).
Proof.
  intros ND. rewrite keys_set. destruct (JsMap.has m k) eqn:H; [exact ND|].
  apply NoDup_app; [exact ND|repeat constructor; simpl; tauto|].
  intros x Hx [<-|[]]. apply has_keys in Hx. congruence.
Qed.

Lemma In_values m v : In v (JsMap.values m) <-> exists k, In (k, v) m.
Proof.
  unfold JsMap.values. rewrite in_map_iff. split.
  - intros ([k v'] & E & H). simpl in E. subst v'. exists k. exact H.
  - intros (k & H). exists (k, v). auto.
Qed.

End MapFacts.

(** ** Category distribution *)

Section CategoryDistribution.
Import DashboardService.
Variable enrollments : list Enrollment.t.

Lemma total_app (l l' : list Q) : total (l ++ l') == total l + total l'.
Proof. induction l as [|x l IH]; simpl; [lra|]. rewrite IH. lra. Qed.

Lemma coursesOf_snoc (k : string) (done : list Course.t) (c : Course.t) :
  coursesOf k (done ++ [c])
  = coursesOf k done ++ (if String.eqb (Course.category c) k then [c] else []).
Proof. unfold coursesOf. rewrite filter_app. reflexivity. Qed.

Lemma coursesOf_absent (k : string) (done : list Course.t) :
  ~ In k (List.map Course.category done) -> coursesOf k done = [].
Proof.
  unfold coursesOf. induction done as [|c done IH]; simpl; [reflexivity|].
  intros H. destruct (String.eqb_spec (Course.category c) k) as [E|N].
  - exfalso. apply H. left. exact E.
  - apply IH. tauto.
Qed.

Lemma describes_other (k : string) (done : list Course.t) (c : Course.t)
    (v : CategoryStats.t) :
  Course.category c <> k ->
  describes done enrollments k v -> describes (done ++ [c]) enrollments k v.
Proof.
  intros N. unfold describes, categoryRevenue. rewrite coursesOf_snoc.
  apply String.eqb_neq in N. rewrite N, app_nil_r. tauto.
Qed.

Lemma describes_updated (done : list Course.t) (c : Course.t) (stats : CategoryStats.t) :
  describes done enrollments (Course.category c) stats ->
  describes (done ++ [c]) enrollments (Course.category c)
    {| CategoryStats.category := CategoryStats.category stats;
       CategoryStats.courseCount := S (CategoryStats.courseCount stats);
       CategoryStats.enrollmentCount :=
         CategoryStats.enrollmentCount stats
         + List.length
             (filter (fun e => (Enrollment.courseId e =? Course.id c)%Z) enrollments);
       CategoryStats.revenue :=
         CategoryStats.revenue stats
         + Js.len (filter (fun e => (Enrollment.courseId e =? Course.id c)%Z) enrollments)
           * Course.price c |}.
Proof.
  intros (Hc & Hn & He & Hr).
  assert (L : List.length
                (filter (fun e => (Enrollment.courseId e =? Course.id c)%Z) enrollments)
              = referencing enrollments c)
    by (apply filter_length_numberOf; reflexivity).
  unfold describes, categoryRevenue, Js.len. simpl.
  rewrite coursesOf_snoc, String.eqb_refl, L.
  repeat split.
  - exact Hc.
  - rewrite length_app, Hn. simpl. lia.
  - rewrite map_app, list_sum_app, He. simpl. lia.
  - rewrite map_app, total_app, Hr. unfold categoryRevenue. simpl. lra.
Qed.

Lemma addCourse_mapOf (done : list Course.t) (c : Course.t) (m : JsMap.t CategoryStats.t) :
  mapOf done enrollments m ->
  mapOf (done ++ [c]) enrollments (addCourse enrollments m c).
Proof.
  intros (ND & Hkeys & Hdesc).
  unfold addCourse.
  set (k := Course.category c).
  set (zero := {| CategoryStats.category := k; CategoryStats.courseCount := 0;
                  CategoryStats.enrollmentCount := 0; CategoryStats.revenue := 0 |}).
  set (m1 := if negb (JsMap.has m k) then JsMap.set m k zero else m).
  assert (ND1 : NoDup (JsMap.keys m1)).
  { unfold m1. destruct (JsMap.has m k); simpl; [exact ND|apply NoDup_keys_set, ND]. }
  assert (K1 : forall k', In k' (JsMap.keys m1) <-> In k' (JsMap.keys m) \/ k' = k).
  { intros k'. unfold m1. destruct (JsMap.has m k) eqn:H; simpl.
    - apply has_keys in H. split; [tauto|]. intros [?| ->]; assumption.
    - rewrite keys_set, H, in_app_iff. simpl. split; [intros [?|[<-|[]]]; tauto|].
      intros [?| ->]; tauto. }
  assert (D1 : forall k' v, In (k', v) m1 -> describes done enrollments k' v).
  { intros k' v. unfold m1. destruct (JsMap.has m k) eqn:H; simpl; [apply Hdesc|].
    rewrite (@In_set _ m k zero k' v ND). intros [[-> ->]|[_ Hin]]; [|apply Hdesc, Hin].
    assert (A : coursesOf k done = []).
    { apply coursesOf_absent. rewrite <- Hkeys, <- has_keys. congruence. }
    unfold describes, categoryRevenue. rewrite A. simpl. repeat split. }
  destruct (keys_get m1 k) as [stats G]; [apply K1; right; reflexivity|].
  rewrite G.
  assert (Ds := D1 _ _ (get_In _ _ G)).
  split; [apply NoDup_keys_set, ND1|]. split.
  - intros k'. rewrite keys_set.
    assert (H : JsMap.has m1 k = true) by (apply has_keys, K1; right; reflexivity).
    rewrite H, K1, Hkeys, map_app, in_app_iff. simpl. fold k.
    split; [intros [?| ->]; tauto|intros [?|[<-|[]]]; tauto].
  - intros k' v. rewrite (@In_set _ m1 k _ k' v ND1). intros [[-> ->]|[Hne Hin]].
    + apply describes_updated, Ds.
    + apply describes_other; [fold k; congruence|apply D1, Hin].
Qed.

Lemma fold_addCourse_mapOf (todo done : list Course.t) (m : JsMap.t CategoryStats.t) :
  mapOf done enrollments m ->
  mapOf (done ++ todo) enrollments (fold_left (addCourse enrollments) todo m).
Proof.
  revert done m. induction todo as [|c todo IH]; intros done m H; simpl.
  - rewrite app_nil_r. exact H.
  - replace (done ++ c :: todo) with ((done ++ [c]) ++ todo)
      by (rewrite <- app_assoc; reflexivity).
    apply IH, addCourse_mapOf, H.
Qed.

Lemma categoryMap_mapOf (courses : list Course.t) :
  mapOf courses enrollments (fold_left (addCourse enrollments) courses JsMap.empty).
Proof.
  apply (@fold_addCourse_mapOf courses [] JsMap.empty).
  split; [constructor|]. split; simpl; tauto.
Qed.

End CategoryDistribution.

(** ** Sorting *)

Section SortFacts.
Context {A : Type}.
Variable key : A -> Q.

Lemma insert_perm (compare : A -> A -> Q) (x : A) (l : list A) :
  Permutation (JsArray.insert compare x l) (x :: l).
Proof.
  induction l as [|y l IH]; simpl; [reflexivity|].
  destruct (Qle_bool (compare x y) 0); [reflexivity|].
  rewrite IH. apply perm_swap.
Qed.

Lemma sort_perm (compare : A -> A -> Q) (l : list A) :
  Permutation (JsArray.sort compare l) l.
Proof.
  induction l as [|x l IH]; simpl; [reflexivity|].
  rewrite insert_perm, IH. reflexivity.
Qed.

Lemma insert_sorted (x : A) (l : list A) :
  StronglySorted (fun a b => key b <= key a) l ->
  StronglySorted (fun a b => key b <= key a) (JsArray.insert (descending key) x l).
Proof.
  induction 1 as [|y l Hs IH Hall]; simpl.
  - repeat constructor.
  - unfold descending at 1. destruct (Qle_bool (key y - key x) 0) eqn:E.
    + apply Qle_bool_iff in E. constructor; [constructor; assumption|].
      constructor; [lra|].
      eapply Forall_impl; [|exact Hall]. simpl. intros z Hz. lra.
    + assert (L : key x <= key y).
      { apply Qlt_le_weak, Qnot_le_lt. intros C.
        assert (T : Qle_bool (key y - key x) 0 = true) by (apply Qle_bool_iff; lra).
        congruence. }
      constructor; [exact IH|].
      eapply Permutation_Forall; [symmetry; apply insert_perm|].
      constructor; assumption.
Qed.

Lemma sort_sorted (l : list A) :
  StronglySorted (fun a b => key b <= key a) (JsArray.sort (descending key) l).
Proof.
  induction l as [|x l IH]; simpl; [constructor|]. apply insert_sorted, IH.
Qed.

End SortFacts.

Lemma StronglySorted_map {A B : Type} (f : A -> B) (R : B -> B -> Prop) (l : list A) :
  StronglySorted (fun a b => R (f a) (f b)) l -> StronglySorted R (List.map f l).
Proof.
  induction 1 as [|x l Hs IH Hall]; simpl; constructor; [assumption|].
  apply Forall_map. exact Hall.
Qed.

Lemma StronglySorted_weaken {A : Type} (R R' : A -> A -> Prop) (l : list A) :
  (forall a b, R a b -> R' a b) -> StronglySorted R l -> StronglySorted R' l.
Proof.
  intros H. induction 1 as [|x l Hs IH Hall]; constructor; [assumption|].
  eapply Forall_impl; [|exact Hall]. intros b. apply H.
Qed.

Lemma numberOf_or_disjoint {A : Type} (p q : A -> bool) (l : list A) :
  (forall x, p x = true -> q x = false) ->
  numberOf (fun x => p x || q x) l = (numberOf p l + numberOf q l)%nat.
Proof.
  intros D. induction l as [|x l IH]; simpl; [reflexivity|].
  destruct (p x) eqn:P; simpl.
  - rewrite (D x P), IH. reflexivity.
  - destruct (q x); rewrite IH; lia.
Qed.

Lemma numberOf_ext {A : Type} (p q : A -> bool) (l : list A) :
  (forall x, p x = q x) -> numberOf p l = numberOf q l.
Proof.
  intros E. induction l as [|x l IH]; simpl; [reflexivity|]. rewrite E, IH. reflexivity.
Qed.

Lemma numberOf_false {A : Type} (l : list A) : numberOf (fun _ => false) l = 0%nat.
Proof. induction l; simpl; auto. Qed.

(** With pairwise distinct course ids no enrollment is counted twice. *)
Lemma referencing_distinct (enrollments : list Enrollment.t) (cs : list Course.t) :
  NoDup (List.map Course.id cs) ->
  list_sum (List.map (referencing enrollments) cs)
  = numberOf
      (fun e => existsb (fun c => (Course.id c =? Enrollment.courseId e)%Z) cs)
      enrollments.
Proof.
  induction cs as [|c cs IH]; simpl; intros ND.
  - symmetry. apply numberOf_false.
  - inversion ND as [|? ? Hnotin ND']; subst.
    rewrite (IH ND'), numberOf_or_disjoint.
    + f_equal. apply numberOf_ext. intros e. apply Z.eqb_sym.
    + intros e E. apply Z.eqb_eq in E.
      destruct (existsb _ cs) eqn:X; [|reflexivity].
      apply existsb_exists in X. destruct X as (c' & Hin & E').
      apply Z.eqb_eq in E'. exfalso. apply Hnotin.
      rewrite E, <- E'. apply in_map, Hin.
Qed.

Lemma NoDup_map_filter {A B : Type} (f : A -> B) (p : A -> bool) (l : list A) :
  NoDup (List.map f l) -> NoDup (List.map f (filter p l)).
Proof.
  induction l as [|x l IH]; simpl; intros ND; [constructor|].
  inversion ND as [|? ? Hnotin ND']; subst.
  destruct (p x); simpl; [|apply IH, ND'].
  constructor; [|apply IH, ND'].
  intros H. apply Hnotin. apply in_map_iff in H. destruct H as (y & E & Hy).
  apply filter_In in Hy. rewrite <- E. apply in_map, Hy.
Qed.

Section CategoryDistributionInDoubles.
Import DoublePrecision.
Variable enrollments : list Enrollment.t.

Lemma sum_snoc (l : list Double.t) (x : Double.t) :
  Double.sum (l ++ [x]) = Double.add (Double.sum l) x.
Proof. unfold Double.sum. rewrite fold_left_app. reflexivity. Qed.

Lemma describesInDoubles_other (k : string) (done : list Course.t) (c : Course.t)
    (v : CategoryStats.t) :
  Course.category c <> k ->
  describesInDoubles done enrollments k v ->
  describesInDoubles (done ++ [c]) enrollments k v.
Proof.
  intros N. unfold describesInDoubles, categoryRevenueInDoubles.
  rewrite coursesOf_snoc.
  apply String.eqb_neq in N. rewrite N, app_nil_r. tauto.
Qed.

Lemma describesInDoubles_updated (done : list Course.t) (c : Course.t)
    (stats : CategoryStats.t) :
  describesInDoubles done enrollments (Course.category c) stats ->
  describesInDoubles (done ++ [c]) enrollments (Course.category c)
    {| CategoryStats.category := CategoryStats.category stats;
       CategoryStats.courseCount := S (CategoryStats.courseCount stats);
       CategoryStats.enrollmentCount :=
         CategoryStats.enrollmentCount stats
         + List.length
             (filter (fun e => (Enrollment.courseId e =? Course.id c)%Z) enrollments);
       CategoryStats.revenue :=
         Double.add (CategoryStats.revenue stats)
           (Double.mul
              (Double.of_nat
                 (List.length
                    (filter (fun e => (Enrollment.courseId e =? Course.id c)%Z)
                       enrollments)))
              (price c)) |}.
Proof.
  intros (Hc & Hn & He & Hr).
  assert (L : List.length
                (filter (fun e => (Enrollment.courseId e =? Course.id c)%Z) enrollments)
              = referencing enrollments c)
    by (apply filter_length_numberOf; reflexivity).
  unfold describesInDoubles, categoryRevenueInDoubles. simpl.
  rewrite coursesOf_snoc, String.eqb_refl, L.
  repeat split.
  - exact Hc.
  - rewrite length_app, Hn. simpl. lia.
  - rewrite map_app, list_sum_app, He. simpl. lia.
  - rewrite map_app. cbn [List.map]. rewrite sum_snoc, Hr. reflexivity.
Qed.

Lemma addCourse_mapOfInDoubles (done : list Course.t) (c : Course.t)
    (m : JsMap.t CategoryStats.t) :
  mapOfInDoubles done enrollments m ->
  mapOfInDoubles (done ++ [c]) enrollments (addCourse enrollments m c).
Proof.
  intros (ND & Hkeys & Hdesc).
  unfold addCourse.
  set (k := Course.category c).
  set (zero := {| CategoryStats.category := k; CategoryStats.courseCount := 0;
                  CategoryStats.enrollmentCount := 0;
                  CategoryStats.revenue := Double.zero |}).
  set (m1 := if negb (JsMap.has m k) then JsMap.set m k zero else m).
  assert (ND1 : NoDup (JsMap.keys m1)).
  { unfold m1. destruct (JsMap.has m k); simpl; [exact ND|apply NoDup_keys_set, ND]. }
  assert (K1 : forall k', In k' (JsMap.keys m1) <-> In k' (JsMap.keys m) \/ k' = k).
  { intros k'. unfold m1. destruct (JsMap.has m k) eqn:H; simpl.
    - apply has_keys in H. split; [tauto|]. intros [?| ->]; assumption.
    - rewrite keys_set, H, in_app_iff. simpl. split; [intros [?|[<-|[]]]; tauto|].
      intros [?| ->]; tauto. }
  assert (D1 : forall k' v, In (k', v) m1 -> describesInDoubles done enrollments k' v).
  { intros k' v. unfold m1. destruct (JsMap.has m k) eqn:H; simpl; [apply Hdesc|].
    rewrite (@In_set _ m k zero k' v ND). intros [[-> ->]|[_ Hin]]; [|apply Hdesc, Hin].
    assert (A : coursesOf k done = []).
    { apply coursesOf_absent. rewrite <- Hkeys, <- has_keys. congruence. }
    unfold describesInDoubles, categoryRevenueInDoubles. rewrite A. simpl.
    repeat split. }
  destruct (keys_get m1 k) as [stats G]; [apply K1; right; reflexivity|].
  rewrite G.
  assert (Ds := D1 _ _ (get_In _ _ G)).
  split; [apply NoDup_keys_set, ND1|]. split.
  - intros k'. rewrite keys_set.
    assert (H : JsMap.has m1 k = true) by (apply has_keys, K1; right; reflexivity).
    rewrite H, K1, Hkeys, map_app, in_app_iff. simpl. fold k.
    split; [intros [?| ->]; tauto|intros [?|[<-|[]]]; tauto].
  - intros k' v. rewrite (@In_set _ m1 k _ k' v ND1). intros [[-> ->]|[Hne Hin]].
    + apply describesInDoubles_updated, Ds.
    + apply describesInDoubles_other; [fold k; congruence|apply D1, Hin].
Qed.

Lemma fold_addCourse_mapOfInDoubles (todo done : list Course.t)
    (m : JsMap.t CategoryStats.t) :
  mapOfInDoubles done enrollments m ->
  mapOfInDoubles (done ++ todo) enrollments (fold_left (addCourse enrollments) todo m).
Proof.
  revert done m. induction todo as [|c todo IH]; intros done m H; simpl.
  - rewrite app_nil_r. exact H.
  - replace (done ++ c :: todo) with ((done ++ [c]) ++ todo)
      by (rewrite <- app_assoc; reflexivity).
    apply IH, addCourse_mapOfInDoubles, H.
Qed.

Lemma categoryMap_mapOfInDoubles (courses : list Course.t) :
  mapOfInDoubles courses enrollments
    (fold_left (addCourse enrollments) courses JsMap.empty).
Proof.
  apply (@fold_addCourse_mapOfInDoubles courses [] JsMap.empty).
  split; [constructor|]. split; simpl; tauto.
Qed.

Lemma values_categories (courses : list Course.t) (m : JsMap.t CategoryStats.t) :
  mapOfInDoubles courses enrollments m ->
  List.map CategoryStats.category (JsMap.values m) = JsMap.keys m.
Proof.
  intros (_ & _ & D). unfold JsMap.values, JsMap.keys. rewrite map_map.
  apply map_ext_in. intros [k v] Hin. simpl. apply (D k v Hin).
Qed.

(** C4 (amended).  [calculateCategoryDistribution] returns one record per
    distinct category of the courses.  In the record of a category,
    [courseCount] is the number of courses of the category;
    [enrollmentCount] is the total, over these courses, of the number of
    enrollments whose [courseId] is the course's id, which with pairwise
    distinct course ids is the number of enrollments whose [courseId] is
    the id of some course of the category; [revenue] is
    [Math.round(x * 100) / 100] on doubles for x the sum, over these
    courses in their order, of the number of enrollments referencing the
    course times its price.  The records are in descending order of
    [enrollmentCount]. *)
Theorem C4_calculateCategoryDistribution (courses : list Course.t) :
  let result := calculateCategoryDistribution courses enrollments in
  NoDup (List.map CategoryStats.category result)
  /\ (forall c, In c (List.map CategoryStats.category result)
                <-> In c (List.map Course.category courses))
  /\ (forall r, In r result ->
        let c := CategoryStats.category r in
        CategoryStats.courseCount r = List.length (coursesOf c courses)
        /\ CategoryStats.enrollmentCount r
           = list_sum (List.map (referencing enrollments) (coursesOf c courses))
        /\ (NoDup (List.map Course.id courses) ->
            CategoryStats.enrollmentCount r = enrolledInCategory c courses enrollments)
        /\ CategoryStats.revenue r
           = Double.round2 (categoryRevenueInDoubles c courses enrollments))
  /\ StronglySorted
       (fun a b => (CategoryStats.enrollmentCount b <= CategoryStats.enrollmentCount a)%nat)
       result.
Proof.
  unfold calculateCategoryDistribution.
  set (m := fold_left (addCourse enrollments) courses JsMap.empty).
  set (compare := fun a b : CategoryStats.t => _).
  set (rounded := fun stat : CategoryStats.t => _).
  assert (M : mapOfInDoubles courses enrollments m) by apply categoryMap_mapOfInDoubles.
  assert (P : Permutation (JsArray.sort compare (JsMap.values m)) (JsMap.values m))
    by apply sort_perm.
  assert (C : List.map CategoryStats.category
                (List.map rounded (JsArray.sort compare (JsMap.values m)))
              = List.map CategoryStats.category (JsArray.sort compare (JsMap.values m))).
  { rewrite map_map. reflexivity. }
  assert (PC : Permutation
                 (List.map CategoryStats.category
                    (List.map rounded (JsArray.sort compare (JsMap.values m))))
                 (JsMap.keys m)).
  { rewrite C, <- (values_categories M). apply Permutation_map, P. }
  destruct M as (ND & Hkeys & Hdesc).
  cbv zeta. repeat split.
  - eapply Permutation_NoDup; [symmetry; exact PC|exact ND].
  - intros H. apply Hkeys. eapply Permutation_in; [exact PC|exact H].
  - intros H. eapply Permutation_in; [symmetry; exact PC|]. apply Hkeys, H.
  - apply in_map_iff in H. destruct H as (v & <- & Hv).
    apply (Permutation_in _ P), In_values in Hv. destruct Hv as (k & Hin).
    destruct (Hdesc k v Hin) as (Hc & Hn & _). simpl. rewrite Hc. exact Hn.
  - apply in_map_iff in H. destruct H as (v & <- & Hv).
    apply (Permutation_in _ P), In_values in Hv. destruct Hv as (k & Hin).
    destruct (Hdesc k v Hin) as (Hc & _ & He & _). simpl. rewrite Hc. exact He.
  - intros NDid. apply in_map_iff in H. destruct H as (v & <- & Hv).
    apply (Permutation_in _ P), In_values in Hv. destruct Hv as (k & Hin).
    destruct (Hdesc k v Hin) as (Hc & _ & He & _). simpl. rewrite Hc, He.
    apply referencing_distinct, NoDup_map_filter, NDid.
  - apply in_map_iff in H. destruct H as (v & <- & Hv).
    apply (Permutation_in _ P), In_values in Hv. destruct Hv as (k & Hin).
    destruct (Hdesc k v Hin) as (Hc & _ & _ & Hr). simpl. rewrite Hc, Hr.
    reflexivity.
  - apply StronglySorted_map. simpl.
    eapply StronglySorted_weaken;
      [|apply (sort_sorted
                 (fun s => inject_Z (Z.of_nat (CategoryStats.enrollmentCount s))))].
    simpl. intros a b H. rewrite <- Zle_Qle in H. lia.
Qed.

End CategoryDistributionInDoubles.

(** The distribution of the sample catalogue: two categories, the one
    with more enrollments first; three enrollments at 49.99, 49.99 and 80
    make 179.98, one at 120 makes 120. *)
Lemma C4_calculateCategoryDistribution_witness :
  let result :=
    DoublePrecision.calculateCategoryDistribution Example.theCourses
      Example.theEnrollments in
  List.map DoublePrecision.CategoryStats.category result
  = ["Web Development"; "Data Science"]
  /\ List.map DoublePrecision.CategoryStats.revenue result
     = [Double.of_Q (17998 # 100); Double.of_Z 120]
  /\ forall r, In r result ->
       DoublePrecision.CategoryStats.enrollmentCount r
       = enrolledInCategory (DoublePrecision.CategoryStats.category r)
           Example.theCourses Example.theEnrollments.
Proof.
  cbv zeta. split; [vm_compute; reflexivity|]. split; [vm_compute; reflexivity|].
  intros r Hr.
  destruct (C4_calculateCategoryDistribution Example.theEnrollments Example.theCourses)
    as (_ & _ & Hrec & _).
  destruct (Hrec r Hr) as (_ & _ & Hdistinct & _).
  apply Hdistinct. repeat constructor; simpl; intuition discriminate.
Defined.

(** C4 as worded fails in two ways.  Two courses of one category that
    carry the same id and one enrollment with that id: the enrollment is
    counted once for each of the two courses, so [enrollmentCount] is 2,
    while one enrollment has the id of some course of the category.  And
    one enrollment in a course whose price is the double nearest to 1.335,
    a number below 1.335: price times enrollments is that number, which
    rounded to two decimal places is 1.33, and the code answers 1.34. *)
Lemma C4_distribution_differs_from_the_claim :
  (let courses := [Example.webBasics; Example.webBasicsAgain] in
   let enrollments := [Example.enrollment 1 1 1 "2024-01-20" COMPLETED 100 None] in
   List.map Course.id courses = [1%Z; 1%Z]
   /\ List.map
        (fun r => (DoublePrecision.CategoryStats.category r,
                   DoublePrecision.CategoryStats.enrollmentCount r))
        (DoublePrecision.calculateCategoryDistribution courses enrollments)
      = [("Web Development", 2%nat)]
   /\ enrolledInCategory "Web Development" courses enrollments = 1%nat)
  /\ (let courses := [Example.typography] in
      let enrollments := [Example.enrollment 1 4 1 "2024-01-20" COMPLETED 100 None] in
      let exact := categoryRevenue "Design" courses enrollments in
      option_map Qred (Double.value (DoublePrecision.price Example.typography))
      = Some (Course.price Example.typography)
      /\ roundedToTwoDecimals exact (133 # 100)
      /\ exists answered,
           List.map DoublePrecision.CategoryStats.revenue
             (DoublePrecision.calculateCategoryDistribution courses enrollments)
           = [Double.of_Q (134 # 100)]
           /\ Double.value (Double.of_Q (134 # 100)) = Some answered
           /\ ~ withinHalfACent exact answered).
Proof.
  split.
  - cbv zeta. split; [reflexivity|]. split; vm_compute; reflexivity.
  - cbv zeta. split; [vm_compute; reflexivity|]. split.
    + exists 133%Z. vm_compute. repeat split; discriminate.
    + eexists. split; [vm_compute; reflexivity|]. split; [vm_compute; reflexivity|].
      intros [_ U]. vm_compute in U. apply U. reflexivity.
Qed.

(** ** The calendar *)

Section Calendar.
Open Scope Z_scope.






End Calendar.

(** ** Enrollment trends *)

Section EnrollmentTrends.
Import DoublePrecision.
Variable engine : Engine.








End EnrollmentTrends.



(** ** Operations that only read *)

Lemma cachesUnchanged_refl (w : World) : cachesUnchanged w w.
Proof. repeat split. Qed.

Lemma cachesUnchanged_trans (w1 w2 w3 : World) :
  cachesUnchanged w1 w2 -> cachesUnchanged w2 w3 -> cachesUnchanged w1 w3.
Proof.
  intros (C1 & S1 & E1) (C2 & S2 & E2). repeat split; congruence.
Qed.

Section LeavesCaches.
Context {A B : Type}.

Lemma leaves_exchange (request : HttpRequest) (answer : Server -> HttpResult A) :
  leavesCaches (exchange request answer).
Proof.
  intros w. unfold exchange. destruct (answer _); repeat split.
Qed.

Lemma leaves_of (a : A) : leavesCaches (Rx.of_ a).
Proof. intros w. apply cachesUnchanged_refl. Qed.

Lemma leaves_map (f : A -> B) (source : Observable A) :
  leavesCaches source -> leavesCaches (Rx.map f source).
Proof.
  intros H w. unfold Rx.map. specialize (H w).
  destruct (source w) as [[a|e] w']; exact H.
Qed.

Lemma leaves_map_effect (f : A -> World -> B * World) (source : Observable A) :
  leavesCaches source -> (forall a w, cachesUnchanged w (snd (f a w))) ->
  leavesCaches (Rx.map_effect f source).
Proof.
  intros H F w. unfold Rx.map_effect. specialize (H w).
  destruct (source w) as [[a|e] w']; [|exact H].
  specialize (F a w'). destruct (f a w') as [b w'']. simpl in *.
  eapply cachesUnchanged_trans; eassumption.
Qed.

Lemma leaves_switchMap (f : A -> Observable B) (source : Observable A) :
  leavesCaches source -> (forall a, leavesCaches (f a)) ->
  leavesCaches (Rx.switchMap f source).
Proof.
  intros H F w. unfold Rx.switchMap. specialize (H w).
  destruct (source w) as [[a|e] w']; [|exact H].
  eapply cachesUnchanged_trans; [exact H|apply F].
Qed.

Lemma leaves_catchError (handler : ErrorValue -> Observable A) (source : Observable A) :
  leavesCaches source -> (forall e, leavesCaches (handler e)) ->
  leavesCaches (Rx.catchError handler source).
Proof.
  intros H F w. unfold Rx.catchError. specialize (H w).
  destruct (source w) as [[a|e] w']; [exact H|].
  eapply cachesUnchanged_trans; [exact H|apply F].
Qed.

(** A source that is dropped has changed no cache. *)
Lemma subscribed_caches (a : Observable A) (w w' : World) :
  cachesUnchanged w w' -> cachesUnchanged w (Rx.subscribed a w').
Proof. intros H. exact H. Qed.

Lemma dropped_caches (late : bool) (b : Observable B) (w ws w' : World) :
  cachesUnchanged w w' -> cachesUnchanged w (Rx.dropped late b ws w').
Proof. intros H. exact H. Qed.

Lemma leaves_forkJoin2 (a : Observable A) (b : Observable B) :
  leavesCaches a -> leavesCaches b -> leavesCaches (Rx.forkJoin2 a b).
Proof.
  intros Ha Hb w. unfold Rx.forkJoin2.
  specialize (Ha w). destruct (a w) as [[x|e] w'].
  - specialize (Hb w'). destruct (b w') as [[y|e] w''];
      eapply cachesUnchanged_trans; eassumption.
  - assert (Hs := Hb (Rx.subscribed a w)).
    cbv zeta.
    destruct (b (Rx.subscribed a w)) as [[y|eb] wb];
      [apply dropped_caches; exact Ha|].
    destruct (overtakes w _); [exact Hs|apply dropped_caches; exact Ha].
Qed.

End LeavesCaches.

Lemma leaves_forkJoin {A : Type} (sources : list (Observable A)) :
  Forall leavesCaches sources -> leavesCaches (Rx.forkJoin sources).
Proof.
  induction 1 as [|s rest Hs _ IH]; simpl.
  - intros w. apply cachesUnchanged_refl.
  - apply leaves_map, leaves_forkJoin2; assumption.
Qed.

Lemma leaves_handleError_course {A : Type} (e : ErrorValue) :
  leavesCaches (@CourseService.handleError A e).
Proof. intros w. repeat split. Qed.

Lemma leaves_handleError_student {A : Type} (e : ErrorValue) :
  leavesCaches (@StudentService.handleError A e).
Proof. intros w. repeat split. Qed.

Lemma leaves_handleError_enrollment {A : Type} (e : ErrorValue) :
  leavesCaches (@EnrollmentService.handleError A e).
Proof. intros w. repeat split. Qed.

Create HintDb caches.

#[local] Hint Resolve leaves_exchange leaves_of leaves_map leaves_switchMap
  leaves_catchError leaves_forkJoin2 leaves_handleError_course
  leaves_handleError_student leaves_handleError_enrollment : caches.

Section ReadOperations.
Variable engine : Engine.

Lemma leaves_getCourseById (id : Z) : leavesCaches (CourseService.getCourseById engine id).
Proof. unfold CourseService.getCourseById. auto with caches. Qed.

Lemma leaves_getStudentById (id : Z) :
  leavesCaches (StudentService.getStudentById engine id).
Proof. unfold StudentService.getStudentById. auto with caches. Qed.

Lemma leaves_getAllCourses : leavesCaches (CourseService.getAllCourses engine).
Proof. unfold CourseService.getAllCourses. auto with caches. Qed.

Lemma leaves_getAllStudents : leavesCaches (StudentService.getAllStudents engine).
Proof. unfold StudentService.getAllStudents. auto with caches. Qed.

Lemma leaves_getAllEnrollments : leavesCaches (EnrollmentService.getAllEnrollments engine).
Proof. unfold EnrollmentService.getAllEnrollments. auto with caches. Qed.

Lemma leaves_getEnrollmentById (id : Z) :
  leavesCaches (EnrollmentService.getEnrollmentById engine id).
Proof. unfold EnrollmentService.getEnrollmentById. auto with caches. Qed.

Lemma leaves_withDetails (enrollment : Enrollment.t) :
  leavesCaches (EnrollmentService.withDetails engine enrollment).
Proof.
  unfold EnrollmentService.withDetails.
  auto 6 using leaves_getCourseById, leaves_getStudentById with caches.
Qed.

Lemma leaves_getAllEnrollmentsWithDetails :
  leavesCaches (EnrollmentService.getAllEnrollmentsWithDetails engine).
Proof.
  unfold EnrollmentService.getAllEnrollmentsWithDetails.
  apply leaves_catchError; [|auto with caches].
  apply leaves_switchMap; [apply leaves_getAllEnrollments|].
  intros enrollments. destruct (List.length enrollments =? 0)%nat; [auto with caches|].
  apply leaves_forkJoin, Forall_map, Forall_forall.
  intros e _. apply leaves_withDetails.
Qed.

Lemma dashboardStatsOf_caches (joined : DashboardService.Joined) (w : World) :
  cachesUnchanged w (snd (DashboardService.dashboardStatsOf engine joined w)).
Proof.
  destruct joined as (cs & ss & es & st & pc & re). repeat split.
Qed.

Lemma leaves_getDashboardStats : leavesCaches (DashboardService.getDashboardStats engine).
Proof.
  unfold DashboardService.getDashboardStats, DashboardService.joinedSources,
    EnrollmentService.getEnrollmentStats, CourseService.getPopularCourses,
    EnrollmentService.getRecentEnrollments.
  apply leaves_catchError; [|intros e w; repeat split].
  apply leaves_map_effect; [|apply dashboardStatsOf_caches].
  repeat first
    [ apply leaves_getAllCourses
    | apply leaves_getAllStudents
    | apply leaves_getAllEnrollments
    | apply leaves_getAllEnrollmentsWithDetails
    | apply leaves_forkJoin2
    | apply leaves_map
    | apply leaves_catchError
    | intros e; apply leaves_handleError_enrollment ].
Qed.

End ReadOperations.

(** Cache preservation, following the structure of the pipeline. *)
Ltac read_only :=
  repeat first
    [ apply leaves_getDashboardStats
    | apply leaves_getAllEnrollmentsWithDetails
    | apply leaves_withDetails
    | apply leaves_getAllCourses
    | apply leaves_getAllStudents
    | apply leaves_getAllEnrollments
    | apply leaves_getCourseById
    | apply leaves_getStudentById
    | apply leaves_getEnrollmentById
    | apply leaves_exchange
    | apply leaves_of
    | apply leaves_forkJoin2
    | apply leaves_map
    | apply leaves_switchMap
    | apply leaves_catchError
    | intros ?; apply leaves_handleError_course
    | intros ?; apply leaves_handleError_student
    | intros ?; apply leaves_handleError_enrollment ].

(** ** The caches *)


Section Caches.
Variable engine : Engine.




(** The two refreshes that follow a created or deleted enrollment leave
    the enrollment cache alone; each overwrites its cache with what its
    GET fetched, the GET of the courses being sent first. *)
Lemma refresh_both (w : World) :
  let n := List.length (requests w) in
  let w' := EnrollmentService.refreshRelated engine w in
  enrollmentsCache w' = enrollmentsCache w
  /\ coursesCache w'
     = refetched (CourseService.transformCourse engine)
         (Resource.query (courses (backend w n)) []) (coursesCache w)
  /\ studentsCache w'
     = refetched (StudentService.transformStudent engine)
         (Resource.query (students (backend w (S n))) []) (studentsCache w).
Proof.
  unfold EnrollmentService.refreshRelated,
    StudentService.refreshCache, CourseService.refreshCache,
    StudentService.loadAllStudents, CourseService.loadAllCourses, Rx.subscribe,
    StudentService.getAllStudents, CourseService.getAllCourses,
    Rx.catchError, Rx.map, exchange.
  cbv zeta.
  destruct (Resource.query (courses _) _) as [cs|ec]; simpl;
    rewrite !length_app, !Nat.add_1_r;
    destruct (Resource.query (students _) _) as [ss|es]; simpl;
    destruct (overtakes w _); repeat split.
Qed.




End Caches.



(** ** Failed exchanges *)

(** *** The request log *)

Lemma requests_afterRequests (rs : list HttpRequest) (w : World) :
  requests (afterRequests rs w) = requests w ++ rs.
Proof.
  revert w. induction rs as [|r rs IH]; intros w; simpl.
  - rewrite app_nil_r. reflexivity.
  - unfold afterRequests in *. simpl. rewrite IH. simpl.
    rewrite <- app_assoc. reflexivity.
Qed.

Lemma console_afterRequests (rs : list HttpRequest) (w : World) :
  console (afterRequests rs w) = console w.
Proof.
  revert w. induction rs as [|r rs IH]; intros w; simpl; [reflexivity|].
  unfold afterRequests in *. simpl. rewrite IH. reflexivity.
Qed.

Lemma backend_afterRequests (rs : list HttpRequest) (w : World) :
  backend (afterRequests rs w) = backend w.
Proof.
  revert w. induction rs as [|r rs IH]; intros w; simpl; [reflexivity|].
  unfold afterRequests in *. simpl. rewrite IH. reflexivity.
Qed.

Lemma afterRequests_app (rs rs' : list HttpRequest) (w : World) :
  afterRequests (rs ++ rs') w = afterRequests rs' (afterRequests rs w).
Proof. unfold afterRequests. apply fold_left_app. Qed.

Lemma overtakes_afterRequests (rs : list HttpRequest) (w : World) :
  overtakes (afterRequests rs w) = overtakes w.
Proof.
  revert w. induction rs as [|r rs IH]; intros w; simpl; [reflexivity|].
  unfold afterRequests in *. simpl. rewrite IH. reflexivity.
Qed.

Lemma lingers_afterRequests (rs : list HttpRequest) (w : World) :
  lingers (afterRequests rs w) = lingers w.
Proof.
  revert w. induction rs as [|r rs IH]; intros w; simpl; [reflexivity|].
  unfold afterRequests in *. simpl. rewrite IH. reflexivity.
Qed.

Lemma unanswered_afterRequests (rs : list HttpRequest) (w : World) :
  unanswered (afterRequests rs w) = afterRequests rs (unanswered w).
Proof.
  revert w. induction rs as [|r rs IH]; intros w; simpl; [reflexivity|].
  unfold afterRequests in *. simpl. rewrite IH. reflexivity.
Qed.

(** *** Errors that are handed on *)

Lemma message_or_nonempty (e : ErrorValue) (fallback : string) :
  fallback <> "" -> message_or e fallback <> "".
Proof.
  intros F. unfold message_or. destruct (message e) as [m|]; [|exact F].
  destruct (String.eqb_spec m ""); assumption.
Qed.

(** An error that was handed on once is handed on unchanged. *)
Lemma handedOn_again (e : ErrorValue) : handedOn (handedOn e) = handedOn e.
Proof.
  unfold handedOn at 1. unfold message_or. simpl.
  destruct (String.eqb_spec (message_or e "Server error") "") as [E|N]; [|reflexivity].
  exfalso. revert E. apply message_or_nonempty. discriminate.
Qed.

(** *** Joins *)

Section Joins.
Context {A B : Type}.
Variable a : Observable A.
Variable b : Observable B.
Variable sent : list HttpRequest.
Hypothesis atOnce : sendsAtOnce a sent.

(** The join of a source that sends at once with a second source fails
    with the failure of the two that arrives first, and emits when none
    fails. *)
Lemma join_endsIn (w : World) (first second : option Failure) :
  endsIn a w first -> endsIn b (afterRequests sent w) second ->
  endsIn (Rx.forkJoin2 a b) w
    (firstToArrive (overtakes w (List.length (requests w) + List.length sent))
       first second).
Proof.
  intros Ha Hb. destruct (atOnce w) as [Hs Hr].
  unfold endsIn in *. unfold Rx.forkJoin2. cbv beta zeta.
  rewrite console_afterRequests in Hb.
  rewrite Hs, requests_afterRequests, length_app.
  destruct (a w) as [[x|ea] wa].
  - subst wa. destruct first as [fa|].
    + destruct Ha as [Ha _]. discriminate Ha.
    + simpl. destruct second as [fb|];
        destruct (b (afterRequests sent w)) as [[y|eb] wb]; simpl in *.
      * destruct Hb as [Hb _]. discriminate Hb.
      * destruct Hb as [Hb Hc]. split; [congruence|exact Hc].
      * split; [eexists; reflexivity|apply Hb].
      * destruct Hb as [[v Hb] _]. discriminate Hb.
  - destruct first as [fa|].
    + simpl in Ha. destruct Ha as [Hea Hca].
      destruct second as [fb|];
        destruct (b (afterRequests sent w)) as [[y|eb] wb]; simpl in *.
      * destruct Hb as [Hb _]. discriminate Hb.
      * destruct Hb as [Hb Hc].
        destruct (overtakes w _); simpl; (split; [congruence|assumption]).
      * split; [congruence|exact Hca].
      * destruct Hb as [[v Hb] _]. discriminate Hb.
    + destruct Ha as [[v Ha] _]. discriminate Ha.
Qed.

(** What the join sends is what its first source sends, followed by what
    the second source sends. *)
Lemma join_sentBy (w : World) (rs : list HttpRequest) :
  sentBy (Rx.forkJoin2 a b) w rs -> sentBy b (afterRequests sent w) rs.
Proof.
  assert (G : forall u, sentBy b (afterRequests sent u)
                          (requests (snd (Rx.forkJoin2 a b u)))).
  { intros u. destruct (atOnce u) as [Hs Hr]. unfold sentBy, Rx.forkJoin2.
    destruct (a u) as [[x|ea] wa].
    - subst wa. left.
      destruct (b (afterRequests sent u)) as [[y|eb] wb]; reflexivity.
    - cbv zeta. rewrite Hs. unfold Rx.dropped.
      destruct (b (afterRequests sent u)) as [[y|eb] wb];
        [|destruct (overtakes u _)];
        try (left; reflexivity);
        destruct (lingers u _); simpl; [left|right|left|right]; reflexivity. }
  intros [-> | ->]; [apply G|].
  change (requests (Rx.subscribed (Rx.forkJoin2 a b) w))
    with (requests (snd (Rx.forkJoin2 a b (unanswered w)))).
  destruct (G (unanswered w)) as [E | E]; right; rewrite E.
  - unfold Rx.subscribed. simpl. rewrite unanswered_afterRequests. reflexivity.
  - unfold Rx.subscribed. simpl. rewrite !unanswered_afterRequests. reflexivity.
Qed.

End Joins.

Lemma afterRequests_world (rs : list HttpRequest) (w : World) :
  afterRequests rs w
  = mkWorld (backend w) (clock w) (overtakes w) (lingers w) (requests w ++ rs)
      (console w) (ticks w) (coursesCache w) (studentsCache w) (enrollmentsCache w).
Proof.
  revert w. induction rs as [|r rs IH]; intros w.
  - rewrite app_nil_r. destruct w; reflexivity.
  - change (afterRequests (r :: rs) w) with (afterRequests rs (log_request r w)).
    rewrite IH. simpl. rewrite <- app_assoc. reflexivity.
Qed.

Lemma subscribed_world {A : Type} (source : Observable A) (sent : list HttpRequest)
    (w : World) :
  requests (snd (source (unanswered w))) = requests w ++ sent ->
  Rx.subscribed source w = afterRequests sent w.
Proof.
  intros E. rewrite afterRequests_world. unfold Rx.subscribed. rewrite E. reflexivity.
Qed.

(** What a source that sends at once has sent when it ends, and when it
    was dropped. *)
Lemma sendsAtOnce_requests {A : Type} (source : Observable A) (sent : list HttpRequest) :
  sendsAtOnce source sent ->
  forall w, requests (snd (source w)) = requests w ++ sent.
Proof.
  intros S w. destruct (S w) as [_ R].
  destruct (source w) as [[v|e] w']; simpl; [|exact R].
  subst w'. apply requests_afterRequests.
Qed.

Lemma sendsAtOnce_of {A : Type} (v : A) : sendsAtOnce (Rx.of_ v) [].
Proof.
  intros w. split; [|reflexivity].
  apply subscribed_world. simpl. rewrite app_nil_r. reflexivity.
Qed.

Lemma sendsAtOnce_map {A B : Type} (f : A -> B) (source : Observable A)
    (sent : list HttpRequest) :
  sendsAtOnce source sent -> sendsAtOnce (Rx.map f source) sent.
Proof.
  intros S w. split.
  - apply subscribed_world. unfold Rx.map.
    assert (R := sendsAtOnce_requests S (unanswered w)).
    destruct (source (unanswered w)) as [[v|e] w']; exact R.
  - destruct (S w) as [_ R]. unfold Rx.map.
    destruct (source w) as [[v|e] w']; exact R.
Qed.

Lemma sendsAtOnce_join {A B : Type} (a : Observable A) (b : Observable B)
    (sa sb : list HttpRequest) :
  sendsAtOnce a sa -> sendsAtOnce b sb -> sendsAtOnce (Rx.forkJoin2 a b) (sa ++ sb).
Proof.
  intros Sa Sb.
  assert (G : forall u, requests (snd (Rx.forkJoin2 a b u)) = requests u ++ sa ++ sb).
  { intros u. destruct (join_sentBy (b := b) Sa (w := u) (or_introl eq_refl)) as [E|E];
      rewrite E.
    - rewrite (sendsAtOnce_requests Sb), requests_afterRequests, app_assoc.
      reflexivity.
    - destruct (Sb (afterRequests sa u)) as [-> _].
      rewrite !requests_afterRequests, app_assoc. reflexivity. }
  intros w. split.
  - apply subscribed_world. exact (G (unanswered w)).
  - assert (R := G w). destruct (Sa w) as [_ Ra]. unfold Rx.forkJoin2 in *.
    destruct (a w) as [[x|ea] wa].
    + subst wa. destruct (Sb (afterRequests sa w)) as [_ Rb].
      destruct (b (afterRequests sa w)) as [[y|eb] wb]; [|exact R].
      subst wb. rewrite afterRequests_app. reflexivity.
    + cbv zeta in *. destruct (b (Rx.subscribed a w)) as [[y|eb] wb];
        [exact R|]. destruct (overtakes w _); exact R.
Qed.

Lemma endsIn_of {A : Type} (v : A) (w : World) : endsIn (Rx.of_ v) w None.
Proof. split; [eexists|]; reflexivity. Qed.

Lemma endsIn_map {A B : Type} (f : A -> B) (source : Observable A) (w : World)
    (failure : option Failure) :
  endsIn source w failure -> endsIn (Rx.map f source) w failure.
Proof.
  unfold endsIn, Rx.map. destruct (source w) as [[v|e] w'], failure as [fl|]; simpl.
  - intros [H _]. discriminate H.
  - intros [_ H]. split; [eexists; reflexivity|exact H].
  - intros [H C]. split; [congruence|exact C].
  - intros [[v H] _]. discriminate H.
Qed.

(** The handler of the enrollment service logs a failure again and hands
    the same error on. *)
Lemma endsIn_handled {A : Type} (source : Observable A) (w : World)
    (failure : option Failure) :
  endsIn source w failure ->
  endsIn (Rx.catchError EnrollmentService.handleError source) w (loggedAgain failure).
Proof.
  unfold endsIn, Rx.catchError, EnrollmentService.handleError, Rx.throwError.
  destruct (source w) as [[v|e] w'], failure as [fl|]; simpl.
  - intros [H _]. discriminate H.
  - intros H. exact H.
  - intros [H C]. injection H as ->. fold (handedOn (handedOn (cause fl))).
    rewrite handedOn_again, C, <- app_assoc. split; reflexivity.
  - intros [[v H] _]. discriminate H.
Qed.

(** A run that ends in a failure, sends at once and changes no cache
    fails with that failure. *)
Lemma failsWith_intro {A : Type} (run : Observable A) (w : World) (f : Failure)
    (sent : list HttpRequest) :
  endsIn run w (Some f) -> sendsAtOnce run sent -> leavesCaches run ->
  failsWith run w f sent.
Proof.
  intros [E C] S L. split; [exact E|]. split; [exact C|].
  split; [apply (sendsAtOnce_requests S)|apply L].
Qed.

(** *** The sources of the joins *)

Section Sources.
Variable engine : Engine.

Ltac answered :=
  match goal with
  | |- context [match ?answer with HttpOk _ => _ | HttpFailure _ => _ end] =>
      destruct answer
  end.

Ltac at_once :=
  intros w; split;
  [ apply subscribed_world; reflexivity
  | unfold Rx.catchError, Rx.map, exchange; answered; reflexivity ].

Ltac ends_in :=
  intros w; unfold endsIn, failureOf, Rx.catchError, Rx.map, exchange;
  answered; simpl; split; try (eexists; reflexivity); reflexivity.

Lemma getCourseById_atOnce (id : Z) :
  sendsAtOnce (CourseService.getCourseById engine id)
    [GET (item_url CourseService.apiUrl id) []].
Proof. unfold CourseService.getCourseById. at_once. Qed.

Lemma getStudentById_atOnce (id : Z) :
  sendsAtOnce (StudentService.getStudentById engine id)
    [GET (item_url StudentService.apiUrl id) []].
Proof. unfold StudentService.getStudentById. at_once. Qed.

Lemma getAllCourses_atOnce :
  sendsAtOnce (CourseService.getAllCourses engine) [GET CourseService.apiUrl []].
Proof. unfold CourseService.getAllCourses. at_once. Qed.

Lemma getAllStudents_atOnce :
  sendsAtOnce (StudentService.getAllStudents engine) [GET StudentService.apiUrl []].
Proof. unfold StudentService.getAllStudents. at_once. Qed.

Lemma getAllEnrollments_atOnce :
  sendsAtOnce (EnrollmentService.getAllEnrollments engine)
    [GET EnrollmentService.apiUrl []].
Proof. unfold EnrollmentService.getAllEnrollments. at_once. Qed.

Lemma getEnrollmentStats_atOnce :
  sendsAtOnce (EnrollmentService.getEnrollmentStats engine)
    [GET EnrollmentService.apiUrl []].
Proof.
  unfold EnrollmentService.getEnrollmentStats, EnrollmentService.getAllEnrollments.
  at_once.
Qed.

Lemma getPopularCourses_atOnce (limit : nat) :
  sendsAtOnce (CourseService.getPopularCourses engine limit)
    [GET CourseService.apiUrl []].
Proof.
  unfold CourseService.getPopularCourses, CourseService.getAllCourses. at_once.
Qed.

Lemma getEnrollmentsByCourse_atOnce (id : Z) :
  sendsAtOnce (EnrollmentService.getEnrollmentsByCourse engine id)
    [GET EnrollmentService.apiUrl [("courseId", Number_toString id)]].
Proof. unfold EnrollmentService.getEnrollmentsByCourse. at_once. Qed.

Lemma getEnrollmentsByStudent_atOnce (id : Z) :
  sendsAtOnce (EnrollmentService.getEnrollmentsByStudent engine id)
    [GET EnrollmentService.apiUrl [("studentId", Number_toString id)]].
Proof. unfold EnrollmentService.getEnrollmentsByStudent. at_once. Qed.

Lemma getCourseById_endsIn (id : Z) :
  forall w,
    endsIn (CourseService.getCourseById engine id) w
      (failureOf "CourseService Error:"
         (Resource.item (courses (backend w (List.length (requests w)))) id)).
Proof. unfold CourseService.getCourseById. ends_in. Qed.

Lemma getStudentById_endsIn (id : Z) :
  forall w,
    endsIn (StudentService.getStudentById engine id) w
      (failureOf "StudentService Error:"
         (Resource.item (students (backend w (List.length (requests w)))) id)).
Proof. unfold StudentService.getStudentById. ends_in. Qed.

Lemma getAllCourses_endsIn :
  forall w,
    endsIn (CourseService.getAllCourses engine) w
      (failureOf "CourseService Error:"
         (Resource.query (courses (backend w (List.length (requests w)))) [])).
Proof. unfold CourseService.getAllCourses. ends_in. Qed.

Lemma getAllStudents_endsIn :
  forall w,
    endsIn (StudentService.getAllStudents engine) w
      (failureOf "StudentService Error:"
         (Resource.query (students (backend w (List.length (requests w)))) [])).
Proof. unfold StudentService.getAllStudents. ends_in. Qed.

Lemma getAllEnrollments_endsIn :
  forall w,
    endsIn (EnrollmentService.getAllEnrollments engine) w
      (failureOf "EnrollmentService Error:"
         (Resource.query (enrollments (backend w (List.length (requests w)))) [])).
Proof. unfold EnrollmentService.getAllEnrollments. ends_in. Qed.

Lemma getEnrollmentsByCourse_endsIn (id : Z) :
  forall w,
    endsIn (EnrollmentService.getEnrollmentsByCourse engine id) w
      (failureOf "EnrollmentService Error:"
         (Resource.query (enrollments (backend w (List.length (requests w))))
            [("courseId", Number_toString id)])).
Proof. unfold EnrollmentService.getEnrollmentsByCourse. ends_in. Qed.

Lemma getEnrollmentsByStudent_endsIn (id : Z) :
  forall w,
    endsIn (EnrollmentService.getEnrollmentsByStudent engine id) w
      (failureOf "EnrollmentService Error:"
         (Resource.query (enrollments (backend w (List.length (requests w))))
            [("studentId", Number_toString id)])).
Proof. unfold EnrollmentService.getEnrollmentsByStudent. ends_in. Qed.

Lemma getEnrollmentStats_endsIn (w : World) :
  endsIn (EnrollmentService.getEnrollmentStats engine) w
    (loggedAgain
       (failureOf "EnrollmentService Error:"
          (Resource.query (enrollments (backend w (List.length (requests w)))) []))).
Proof.
  unfold EnrollmentService.getEnrollmentStats.
  apply endsIn_handled, endsIn_map, getAllEnrollments_endsIn.
Qed.

Lemma getPopularCourses_endsIn (limit : nat) (w : World) :
  endsIn (CourseService.getPopularCourses engine limit) w
    (failureOf "CourseService Error:"
       (Resource.query (courses (backend w (List.length (requests w)))) [])).
Proof.
  unfold CourseService.getPopularCourses. apply endsIn_map, getAllCourses_endsIn.
Qed.

(** *** The look-ups *)

Lemma withDetails_atOnce (e : Enrollment.t) :
  sendsAtOnce (EnrollmentService.withDetails engine e) (detailRequests e).
Proof.
  unfold EnrollmentService.withDetails.
  apply sendsAtOnce_map.
  apply (sendsAtOnce_join (sendsAtOnce_of e)).
  apply (sendsAtOnce_join (getCourseById_atOnce _) (getStudentById_atOnce _)).
Qed.

Lemma withDetails_endsIn (e : Enrollment.t) (w : World) :
  endsIn (EnrollmentService.withDetails engine e) w
    (lookupFailure w (List.length (requests w)) e).
Proof.
  unfold EnrollmentService.withDetails. apply endsIn_map.
  assert (H := join_endsIn _ (getCourseById_atOnce (Enrollment.courseId e)) _ _ _
                 (getCourseById_endsIn (Enrollment.courseId e) w)
                 (getStudentById_endsIn (Enrollment.studentId e) _)).
  simpl in H. rewrite ?length_app in H. simpl in H. rewrite ?Nat.add_1_r in H.
  exact (join_endsIn _ (sendsAtOnce_of e) w None _ (endsIn_of e w) H).
Qed.

Lemma lookupsFailure_alike (w w' : World) (n : nat) (es : list Enrollment.t) :
  backend w' = backend w -> overtakes w' = overtakes w ->
  lookupsFailure w' n es = lookupsFailure w n es.
Proof.
  intros Eb Eo. revert n. induction es as [|e es IH]; intros n; simpl; [reflexivity|].
  unfold lookupFailure. rewrite IH, Eb, Eo. reflexivity.
Qed.

Lemma lookups_atOnce (es : list Enrollment.t) :
  sendsAtOnce (Rx.forkJoin (List.map (EnrollmentService.withDetails engine) es))
    (flat_map detailRequests es).
Proof.
  induction es as [|e es IH]; simpl flat_map; simpl List.map;
    [apply sendsAtOnce_of|].
  change (Rx.forkJoin (EnrollmentService.withDetails engine e
                       :: List.map (EnrollmentService.withDetails engine) es))
    with (Rx.map (fun joined => fst joined :: snd joined)
            (Rx.forkJoin2 (EnrollmentService.withDetails engine e)
               (Rx.forkJoin (List.map (EnrollmentService.withDetails engine) es)))).
  apply sendsAtOnce_map, (sendsAtOnce_join (withDetails_atOnce e) IH).
Qed.

Lemma lookups_endsIn (es : list Enrollment.t) (w : World) :
  endsIn (Rx.forkJoin (List.map (EnrollmentService.withDetails engine) es)) w
    (lookupsFailure w (List.length (requests w)) es).
Proof.
  revert w. induction es as [|e es IH]; intros w; [apply endsIn_of|].
  change (Rx.forkJoin (List.map (EnrollmentService.withDetails engine) (e :: es)))
    with (Rx.map (fun joined => fst joined :: snd joined)
            (Rx.forkJoin2 (EnrollmentService.withDetails engine e)
               (Rx.forkJoin (List.map (EnrollmentService.withDetails engine) es)))).
  apply endsIn_map.
  assert (H := join_endsIn _ (withDetails_atOnce e) _ _ _ (withDetails_endsIn e w)
                 (IH (afterRequests (detailRequests e) w))).
  rewrite (@lookupsFailure_alike w _ _ es (backend_afterRequests _ w)
             (overtakes_afterRequests _ w)) in H.
  rewrite requests_afterRequests, length_app in H. simpl in H.
  replace (List.length (requests w) + 2)%nat with (S (S (List.length (requests w))))
    in H by lia.
  exact H.
Qed.

End Sources.

(** *** Operations that join look-ups *)

Section JoinedOperations.
Variable engine : Engine.

Lemma detailsFailure_alike (w w' : World) (n : nat) :
  backend w' = backend w -> overtakes w' = overtakes w ->
  detailsFailure engine w' n = detailsFailure engine w n.
Proof.
  intros Eb Eo. unfold detailsFailure. rewrite Eb.
  destruct (Resource.query _ _) as [body|e]; [|reflexivity].
  rewrite (@lookupsFailure_alike w w' _ _ Eb Eo). reflexivity.
Qed.

(** A GET of the enrollment service followed by a source that depends on
    what was fetched. *)
Lemma endsIn_fetched {E A B : Type} (r : HttpRequest) (answer : Server -> HttpResult E)
    (g : E -> A) (f : A -> Observable B) (w : World) (o : E -> option Failure) :
  (forall body, endsIn (f (g body)) (log_request r w) (o body)) ->
  endsIn
    (exchange r answer |> Rx.map g |> Rx.catchError EnrollmentService.handleError
     |> Rx.switchMap f) w
    match answer (backend w (List.length (requests w))) with
    | HttpFailure e => failureOf "EnrollmentService Error:" (@HttpFailure unit e)
    | HttpOk body => o body
    end.
Proof.
  intros H. unfold endsIn, Rx.switchMap, Rx.catchError, Rx.map, exchange.
  cbv beta. destruct (answer _) as [body|e].
  - exact (H body).
  - split; reflexivity.
Qed.

Lemma getEnrollmentWithDetails_endsIn (id : Z) (w : World) :
  endsIn (EnrollmentService.getEnrollmentWithDetails engine id) w
    (detailFailure engine w (List.length (requests w)) id).
Proof.
  unfold EnrollmentService.getEnrollmentWithDetails, detailFailure.
  apply endsIn_handled.
  unfold EnrollmentService.getEnrollmentById.
  apply (endsIn_fetched _ (fun s => Resource.item (enrollments s) id)).
  intros found.
  assert (H := withDetails_endsIn engine
                 (EnrollmentService.transformEnrollment engine found)
                 (log_request (GET (item_url EnrollmentService.apiUrl id) []) w)).
  unfold lookupFailure in *. simpl in H. rewrite length_app, Nat.add_1_r in H.
  exact H.
Qed.

Lemma getEnrollmentWithDetails_requests (id : Z) (w : World) :
  requests (snd (EnrollmentService.getEnrollmentWithDetails engine id w))
  = requests w ++ GET (item_url EnrollmentService.apiUrl id) []
                  :: detailFollowUp engine w (List.length (requests w)) id.
Proof.
  unfold EnrollmentService.getEnrollmentWithDetails, detailFollowUp,
    EnrollmentService.getEnrollmentById, Rx.switchMap, Rx.catchError, Rx.map, exchange.
  destruct (Resource.item _ id) as [found|e]; [|reflexivity].
  assert (H := sendsAtOnce_requests
                 (withDetails_atOnce engine
                    (EnrollmentService.transformEnrollment engine found))
                 (log_request (GET (item_url EnrollmentService.apiUrl id) []) w)).
  destruct (EnrollmentService.withDetails engine _ _) as [[v|e] w']; simpl in *;
    rewrite H, <- app_assoc; reflexivity.
Qed.

Lemma getAllEnrollmentsWithDetails_endsIn (w : World) :
  endsIn (EnrollmentService.getAllEnrollmentsWithDetails engine) w
    (detailsFailure engine w (List.length (requests w))).
Proof.
  unfold EnrollmentService.getAllEnrollmentsWithDetails, detailsFailure.
  apply endsIn_handled.
  unfold EnrollmentService.getAllEnrollments.
  apply (endsIn_fetched _ (fun s => Resource.query (enrollments s) [])
           (List.map (EnrollmentService.transformEnrollment engine))
           (fun enrollments =>
              if (List.length enrollments =? 0)%nat then Rx.of_ []
              else Rx.forkJoin
                     (List.map (EnrollmentService.withDetails engine) enrollments))).
  intros body.
  destruct body as [|e body]; [split; [eexists|]; reflexivity|].
  assert (H := lookups_endsIn engine
                 (List.map (EnrollmentService.transformEnrollment engine) (e :: body))
                 (log_request (GET EnrollmentService.apiUrl []) w)).
  rewrite (@lookupsFailure_alike w (log_request (GET EnrollmentService.apiUrl []) w)
             _ _ eq_refl eq_refl) in H.
  simpl requests in H. rewrite length_app, Nat.add_1_r in H.
  exact H.
Qed.

Lemma getAllEnrollmentsWithDetails_requests (w : World) :
  requests (snd (EnrollmentService.getAllEnrollmentsWithDetails engine w))
  = requests w ++ GET EnrollmentService.apiUrl []
                  :: detailsFollowUp engine w (List.length (requests w)).
Proof.
  unfold EnrollmentService.getAllEnrollmentsWithDetails, detailsFollowUp,
    EnrollmentService.getAllEnrollments, Rx.switchMap, Rx.catchError, Rx.map, exchange.
  destruct (Resource.query _ []) as [body|e]; [|reflexivity].
  destruct body as [|e body]; [reflexivity|].
  assert (H := sendsAtOnce_requests
                 (lookups_atOnce engine
                    (List.map (EnrollmentService.transformEnrollment engine)
                       (e :: body)))
                 (log_request (GET EnrollmentService.apiUrl []) w)).
  set (es := List.map (EnrollmentService.transformEnrollment engine) (e :: body)) in *.
  assert (N : (List.length es =? 0)%nat = false) by reflexivity.
  rewrite N.
  destruct (Rx.forkJoin _ _) as [[v|e'] w']; simpl in *;
    rewrite H, <- app_assoc; reflexivity.
Qed.

Lemma getRecentEnrollments_endsIn (limit : nat) (w : World) :
  endsIn (EnrollmentService.getRecentEnrollments engine limit) w
    (detailsFailure engine w (List.length (requests w))).
Proof.
  unfold EnrollmentService.getRecentEnrollments.
  apply endsIn_map, getAllEnrollmentsWithDetails_endsIn.
Qed.

Lemma getRecentEnrollments_requests (limit : nat) (w : World) :
  requests (snd (EnrollmentService.getRecentEnrollments engine limit w))
  = requests w ++ GET EnrollmentService.apiUrl []
                  :: detailsFollowUp engine w (List.length (requests w)).
Proof.
  rewrite <- getAllEnrollmentsWithDetails_requests.
  unfold EnrollmentService.getRecentEnrollments, Rx.map.
  destruct (EnrollmentService.getAllEnrollmentsWithDetails engine w) as [[v|e] w'];
    reflexivity.
Qed.

Lemma leaves_getEnrollmentWithDetails (id : Z) :
  leavesCaches (EnrollmentService.getEnrollmentWithDetails engine id).
Proof. unfold EnrollmentService.getEnrollmentWithDetails. read_only. Qed.

Lemma leaves_getRecentEnrollments (limit : nat) :
  leavesCaches (EnrollmentService.getRecentEnrollments engine limit).
Proof. unfold EnrollmentService.getRecentEnrollments. read_only. Qed.

Lemma leaves_getCoursePerformance (id : Z) :
  leavesCaches (DashboardService.getCoursePerformance engine id).
Proof.
  unfold DashboardService.getCoursePerformance,
    EnrollmentService.getEnrollmentsByCourse.
  read_only.
Qed.

Lemma leaves_getStudentPerformance (id : Z) :
  leavesCaches (DashboardService.getStudentPerformance engine id).
Proof.
  unfold DashboardService.getStudentPerformance,
    EnrollmentService.getEnrollmentsByStudent.
  read_only.
Qed.

Lemma getCoursePerformance_fails (id : Z) (w : World) (f : Failure) :
  coursePerformanceFailure w (List.length (requests w)) id = Some f ->
  failsWith (DashboardService.getCoursePerformance engine id) w f
    [GET (item_url CourseService.apiUrl id) [];
     GET EnrollmentService.apiUrl [("courseId", Number_toString id)]].
Proof.
  intros F. apply failsWith_intro; [| |apply leaves_getCoursePerformance].
  - rewrite <- F. unfold DashboardService.getCoursePerformance. apply endsIn_map.
    assert (H := join_endsIn _ (getCourseById_atOnce engine id) _ _ _
                   (getCourseById_endsIn engine id w)
                   (getEnrollmentsByCourse_endsIn engine id _)).
    simpl in H. rewrite ?length_app in H. simpl in H. rewrite ?Nat.add_1_r in H.
    exact H.
  - unfold DashboardService.getCoursePerformance. apply sendsAtOnce_map.
    apply (sendsAtOnce_join (getCourseById_atOnce engine id)
             (getEnrollmentsByCourse_atOnce engine id)).
Qed.

Lemma getStudentPerformance_fails (id : Z) (w : World) (f : Failure) :
  studentPerformanceFailure w (List.length (requests w)) id = Some f ->
  failsWith (DashboardService.getStudentPerformance engine id) w f
    [GET (item_url StudentService.apiUrl id) [];
     GET EnrollmentService.apiUrl [("studentId", Number_toString id)]].
Proof.
  intros F. apply failsWith_intro; [| |apply leaves_getStudentPerformance].
  - rewrite <- F. unfold DashboardService.getStudentPerformance. apply endsIn_map.
    assert (H := join_endsIn _ (getStudentById_atOnce engine id) _ _ _
                   (getStudentById_endsIn engine id w)
                   (getEnrollmentsByStudent_endsIn engine id _)).
    simpl in H. rewrite ?length_app in H. simpl in H. rewrite ?Nat.add_1_r in H.
    exact H.
  - unfold DashboardService.getStudentPerformance. apply sendsAtOnce_map.
    apply (sendsAtOnce_join (getStudentById_atOnce engine id)
             (getEnrollmentsByStudent_atOnce engine id)).
Qed.

End JoinedOperations.

(** *** The dashboard statistics *)

Section DashboardFailures.
Variable engine : Engine.

Lemma joinedSources_endsIn (w : World) :
  endsIn (DashboardService.joinedSources engine) w
    (dashboardFailure engine w (List.length (requests w))).
Proof.
  set (n := List.length (requests w)).
  set (w1 := afterRequests [GET CourseService.apiUrl []] w).
  set (w2 := afterRequests [GET StudentService.apiUrl []] w1).
  set (w3 := afterRequests [GET EnrollmentService.apiUrl []] w2).
  set (w4 := afterRequests [GET EnrollmentService.apiUrl []] w3).
  set (w5 := afterRequests [GET CourseService.apiUrl []] w4).
  assert (L1 : List.length (requests w1) = (1 + n)%nat)
    by (simpl; rewrite length_app, Nat.add_1_r; reflexivity).
  assert (L2 : List.length (requests w2) = (2 + n)%nat)
    by (simpl; rewrite !length_app, !Nat.add_1_r; reflexivity).
  assert (L3 : List.length (requests w3) = (3 + n)%nat)
    by (simpl; rewrite !length_app, !Nat.add_1_r; reflexivity).
  assert (L4 : List.length (requests w4) = (4 + n)%nat)
    by (simpl; rewrite !length_app, !Nat.add_1_r; reflexivity).
  assert (L5 : List.length (requests w5) = (5 + n)%nat)
    by (simpl; rewrite !length_app, !Nat.add_1_r; reflexivity).
  assert (H6 := getRecentEnrollments_endsIn engine 5 w5).
  rewrite (@detailsFailure_alike engine w w5 _ eq_refl eq_refl), L5 in H6.
  assert (H5 := join_endsIn _ (getPopularCourses_atOnce engine 5) w4 _ _
                  (getPopularCourses_endsIn engine 5 w4) H6).
  change (backend w4) with (backend w) in H5.
  change (overtakes w4) with (overtakes w) in H5.
  rewrite L4 in H5.
  assert (H4 := join_endsIn _ (getEnrollmentStats_atOnce engine) w3 _ _
                  (getEnrollmentStats_endsIn engine w3) H5).
  change (backend w3) with (backend w) in H4.
  change (overtakes w3) with (overtakes w) in H4.
  rewrite L3 in H4.
  assert (H3 := join_endsIn _ (getAllEnrollments_atOnce engine) w2 _ _
                  (getAllEnrollments_endsIn engine w2) H4).
  change (backend w2) with (backend w) in H3.
  change (overtakes w2) with (overtakes w) in H3.
  rewrite L2 in H3.
  assert (H2 := join_endsIn _ (getAllStudents_atOnce engine) w1 _ _
                  (getAllStudents_endsIn engine w1) H3).
  change (backend w1) with (backend w) in H2.
  change (overtakes w1) with (overtakes w) in H2.
  rewrite L1 in H2.
  assert (H1 := join_endsIn _ (getAllCourses_atOnce engine) w _ _
                  (getAllCourses_endsIn engine w) H2).
  fold n in H1.
  change (List.length [GET CourseService.apiUrl []]) with 1%nat in *.
  change (List.length [GET StudentService.apiUrl []]) with 1%nat in *.
  change (List.length [GET EnrollmentService.apiUrl []]) with 1%nat in *.
  rewrite !Nat.add_1_r in H1.
  exact H1.
Qed.

(** The requests of the join: the six GETs, which the look-ups follow
    when the join had not ended before they were sent. *)
Lemma joinedSources_requests (w : World) :
  let sent := requests (snd (DashboardService.joinedSources engine w)) in
  sent = requests w ++ dashboardRequests
  \/ sent = requests w ++ dashboardRequests
            ++ detailsFollowUp engine w (5 + List.length (requests w)).
Proof.
  cbv zeta.
  set (w5 := afterRequests
               [GET CourseService.apiUrl []; GET StudentService.apiUrl [];
                GET EnrollmentService.apiUrl []; GET EnrollmentService.apiUrl [];
                GET CourseService.apiUrl []] w).
  assert (S : sentBy (EnrollmentService.getRecentEnrollments engine 5) w5
                (requests (snd (DashboardService.joinedSources engine w)))).
  { apply (join_sentBy (getPopularCourses_atOnce engine 5)).
    apply (join_sentBy (getEnrollmentStats_atOnce engine)).
    apply (join_sentBy (getAllEnrollments_atOnce engine)).
    apply (join_sentBy (getAllStudents_atOnce engine)).
    apply (join_sentBy (getAllCourses_atOnce engine)).
    left. reflexivity. }
  assert (L5 : List.length (requests w5) = (5 + List.length (requests w))%nat)
    by (simpl; rewrite !length_app, !Nat.add_1_r; reflexivity).
  destruct S as [S | S]; rewrite S.
  - right. rewrite getRecentEnrollments_requests, L5.
    unfold detailsFollowUp, dashboardRequests. simpl.
    rewrite <- !app_assoc. reflexivity.
  - left. unfold dashboardRequests. simpl. rewrite <- !app_assoc. reflexivity.
Qed.

(** [getDashboardStats()] never fails; when its join fails it logs the
    failure and emits the empty statistics. *)
Lemma getDashboardStats_emits (w : World) (e : ErrorValue) :
  fst (DashboardService.getDashboardStats engine w) <> Error e.
Proof.
  unfold DashboardService.getDashboardStats, Rx.catchError, Rx.map_effect, Rx.of_.
  destruct (DashboardService.joinedSources engine w) as [[joined|e'] w'];
    [destruct (DashboardService.dashboardStatsOf engine joined w')|];
    discriminate.
Qed.

Lemma getDashboardStats_falls_back (w : World) (f : Failure) :
  dashboardFailure engine w (List.length (requests w)) = Some f ->
  let run := DashboardService.getDashboardStats engine w in
  fst run = Next DashboardService.getEmptyDashboardStats
  /\ console (snd run)
     = console w ++ logs f
       ++ [mkConsoleEntry "Dashboard Stats Error:" (handedOn (cause f))]
  /\ (requests (snd run) = requests w ++ dashboardRequests
      \/ requests (snd run)
         = requests w ++ dashboardRequests
           ++ detailsFollowUp engine w (5 + List.length (requests w)))
  /\ cachesUnchanged w (snd run).
Proof.
  intros F. cbv zeta.
  assert (E := joinedSources_endsIn w). rewrite F in E. destruct E as [E C].
  assert (R := joinedSources_requests w). cbv zeta in R.
  assert (L := leaves_getDashboardStats engine w).
  split; [|split; [|split; [|exact L]]];
    unfold DashboardService.getDashboardStats, Rx.catchError, Rx.map_effect, Rx.of_;
    destruct (DashboardService.joinedSources engine w) as [[joined|e'] w'];
    simpl in E; try discriminate E; simpl in *.
  - reflexivity.
  - injection E as ->. rewrite C, <- app_assoc. reflexivity.
  - exact R.
Qed.

End DashboardFailures.

(** *** Operations of one exchange, loads and refreshes *)

Section FailedExchange.
Variable engine : Engine.
Variable w : World.
Variable e : ErrorValue.
Hypothesis down : serverFails (backend w (List.length (requests w))) e.

Ltac failing :=
  destruct down as
    ((Cq & Ci & Cc & Cr & Cm & Cd) & (Sq & Si & Sc & Sr & Sm & Sd)
     & (Eq & Ei & Ec & Er & Em & Ed) & (Fq & Fi & Fc & Fr & Fm & Fd));
  unfold propagates, cachesUnchanged, Rx.catchError,
    Rx.map, Rx.tap, Rx.subscribe, exchange, now_iso, Date_now;
  simpl;
  rewrite ?Cq, ?Ci, ?Cc, ?Cr, ?Cm, ?Cd, ?Sq, ?Si, ?Sc, ?Sr, ?Sm, ?Sd,
    ?Eq, ?Ei, ?Ec, ?Er, ?Em, ?Ed, ?Fq, ?Fi, ?Fc, ?Fr, ?Fm, ?Fd;
  simpl; fold (handedOn e); fold (handedOn (handedOn e));
  rewrite ?handedOn_again, <- ?app_assoc;
  repeat split; try (eexists; reflexivity); try reflexivity.

Lemma students_propagate (id : Z) (limit : nat) (keyword : string)
    (registration : StudentRegistration.t) (student : PartialStudent.t)
    (status : StudentStatus) (filter : StudentFilter.t) :
  let line := [mkConsoleEntry "StudentService Error:" e] in
  propagates (StudentService.getAllStudents engine) w e line
  /\ propagates (StudentService.getStudentById engine id) w e line
  /\ propagates (StudentService.createStudent engine registration) w e line
  /\ propagates (StudentService.updateStudent engine id student) w e line
  /\ propagates (StudentService.patchStudent engine id student) w e line
  /\ propagates (StudentService.deleteStudent id) w e line
  /\ propagates (StudentService.filterStudents engine filter) w e line
  /\ propagates (StudentService.searchStudents engine keyword) w e line
  /\ propagates (StudentService.getStudentsByStatus engine status) w e line
  /\ propagates (StudentService.getStudentsEnrolledInCourse engine id) w e line
  /\ propagates (StudentService.updateStudentStatus engine id status) w e line
  /\ propagates (StudentService.getStudentSummary engine id) w e line
  /\ propagates (StudentService.getRecentStudents engine limit) w e line
  /\ propagates (StudentService.getTopStudents engine limit) w e line.
Proof.
  cbv zeta.
  unfold StudentService.getTopStudents, StudentService.getRecentStudents,
    StudentService.getStudentSummary, StudentService.updateStudentStatus,
    StudentService.getStudentsEnrolledInCourse, StudentService.getStudentsByStatus,
    StudentService.searchStudents, StudentService.filterStudents,
    StudentService.getAllStudents, StudentService.getStudentById,
    StudentService.createStudent, StudentService.updateStudent,
    StudentService.patchStudent, StudentService.deleteStudent,
    StudentService.handleError.
  failing.
Qed.

Lemma courses_propagate (id : Z) (limit : nat) (keyword : string)
    (course : PartialCourse.t) (filter : CourseFilter.t) :
  let line := [mkConsoleEntry "CourseService Error:" e] in
  propagates (CourseService.getAllCourses engine) w e line
  /\ propagates (CourseService.getCourseById engine id) w e line
  /\ propagates (CourseService.createCourse engine course) w e line
  /\ propagates (CourseService.updateCourse engine id course) w e line
  /\ propagates (CourseService.patchCourse engine id course) w e line
  /\ propagates (CourseService.deleteCourse id) w e line
  /\ propagates (CourseService.getPopularCourses engine limit) w e line
  /\ propagates (CourseService.filterCourses engine filter) w e line
  /\ propagates (CourseService.searchCourses engine keyword) w e line
  /\ propagates (CourseService.getCoursesByCategory engine keyword) w e line
  /\ propagates (CourseService.getCoursesByLevel engine keyword) w e line
  /\ propagates (CourseService.getRecentCourses engine limit) w e line
  /\ propagates (CourseService.getCoursesByInstructor engine keyword) w e line.
Proof.
  cbv zeta.
  unfold CourseService.getCoursesByInstructor, CourseService.getRecentCourses,
    CourseService.getCoursesByLevel, CourseService.getCoursesByCategory,
    CourseService.searchCourses, CourseService.filterCourses,
    CourseService.getPopularCourses, CourseService.getAllCourses,
    CourseService.getCourseById, CourseService.createCourse,
    CourseService.updateCourse, CourseService.patchCourse,
    CourseService.deleteCourse, CourseService.handleError.
  failing.
Qed.

Lemma enrollments_propagate (id : Z) (request : EnrollmentRequest.t)
    (enrollment : PartialEnrollment.t) (progress grade : Q)
    (status : EnrollmentStatus) (filter : EnrollmentFilter.t) :
  let line := [mkConsoleEntry "EnrollmentService Error:" e] in
  propagates (EnrollmentService.getAllEnrollments engine) w e line
  /\ propagates (EnrollmentService.getEnrollmentById engine id) w e line
  /\ propagates (EnrollmentService.createEnrollment engine request) w e line
  /\ propagates (EnrollmentService.updateEnrollment engine id enrollment) w e line
  /\ propagates (EnrollmentService.patchEnrollment engine id enrollment) w e line
  /\ propagates (EnrollmentService.deleteEnrollment engine id) w e line
  /\ propagates (EnrollmentService.getEnrollmentsByCourse engine id) w e line
  /\ propagates (EnrollmentService.getEnrollmentsByStudent engine id) w e line
  /\ propagates (EnrollmentService.updateProgress engine id progress) w e line
  /\ propagates (EnrollmentService.updateStatus engine id status) w e line
  /\ propagates (EnrollmentService.submitGrade engine id grade) w e line
  /\ propagates (EnrollmentService.filterEnrollments engine filter) w e line
  /\ propagates (EnrollmentService.getEnrollmentsByStatus engine status) w e line.
Proof.
  cbv zeta.
  assert (Hcreate : propagates (EnrollmentService.createEnrollment engine request) w e
                      [mkConsoleEntry "EnrollmentService Error:" e]).
  { unfold EnrollmentService.createEnrollment, EnrollmentService.requestedDate,
      EnrollmentService.handleError.
    destruct (EnrollmentRequest.enrollmentDate request) as [d|];
      [destruct (truthy d)|]; failing. }
  assert (Hprogress : propagates (EnrollmentService.updateProgress engine id progress)
                        w e [mkConsoleEntry "EnrollmentService Error:" e]).
  { unfold EnrollmentService.updateProgress, EnrollmentService.progressUpdates,
      EnrollmentService.patchEnrollment, EnrollmentService.handleError.
    destruct (Qeq_bool progress 100); destruct (Js.gt progress 0); failing. }
  assert (Hstatus : propagates (EnrollmentService.updateStatus engine id status) w e
                      [mkConsoleEntry "EnrollmentService Error:" e]).
  { unfold EnrollmentService.updateStatus, EnrollmentService.statusUpdates,
      EnrollmentService.patchEnrollment, EnrollmentService.handleError.
    destruct (status_eqb status COMPLETED); failing. }
  refine (conj _ (conj _ (conj Hcreate (conj _ (conj _ (conj _ (conj _ (conj _
            (conj Hprogress (conj Hstatus (conj _ (conj _ _))))))))))));
    clear Hcreate Hprogress Hstatus;
    unfold EnrollmentService.getEnrollmentsByStatus, EnrollmentService.filterEnrollments,
      EnrollmentService.submitGrade,
      EnrollmentService.getAllEnrollments, EnrollmentService.getEnrollmentById,
      EnrollmentService.updateEnrollment, EnrollmentService.patchEnrollment,
      EnrollmentService.deleteEnrollment, EnrollmentService.getEnrollmentsByCourse,
      EnrollmentService.getEnrollmentsByStudent, EnrollmentService.handleError;
    failing.
Qed.

Lemma feedback_propagates (id : Z) (submission : FeedbackSubmission.t)
    (status : FeedbackStatus.t) (category : FeedbackCategory.t) (response : string) :
  let line := [mkConsoleEntry "FeedbackService Error:" e] in
  propagates (FeedbackService.getAllFeedback engine) w e line
  /\ propagates (FeedbackService.getFeedbackById engine id) w e line
  /\ propagates (FeedbackService.submitFeedback engine submission) w e line
  /\ propagates (FeedbackService.updateFeedbackStatus engine id status) w e line
  /\ propagates (FeedbackService.respondToFeedback engine id response) w e line
  /\ propagates (FeedbackService.deleteFeedback id) w e line
  /\ propagates (FeedbackService.getFeedbackByStatus engine status) w e line
  /\ propagates (FeedbackService.getFeedbackByCategory engine category) w e line
  /\ propagates (FeedbackService.getHighPriorityFeedback engine) w e line.
Proof.
  cbv zeta.
  unfold FeedbackService.getHighPriorityFeedback, FeedbackService.getFeedbackByCategory,
    FeedbackService.getFeedbackByStatus, FeedbackService.deleteFeedback,
    FeedbackService.respondToFeedback, FeedbackService.updateFeedbackStatus,
    FeedbackService.feedbackStatusUpdates, FeedbackService.submitFeedback,
    FeedbackService.getFeedbackById, FeedbackService.getAllFeedback,
    FeedbackService.handleError.
  destruct status; failing.
Qed.

Lemma logged_twice (id id' : Z) :
  propagates (EnrollmentService.getEnrollmentStats engine) w e
    [mkConsoleEntry "EnrollmentService Error:" e;
     mkConsoleEntry "EnrollmentService Error:" (handedOn e)]
  /\ (let lines :=
        [mkConsoleEntry "StudentService Error:" e;
         mkConsoleEntry "StudentService Error:" (handedOn e)] in
      propagates (StudentService.enrollInCourse engine id id') w e lines
      /\ propagates (StudentService.unenrollFromCourse engine id id') w e lines).
Proof.
  cbv zeta.
  unfold EnrollmentService.getEnrollmentStats, EnrollmentService.getAllEnrollments,
    EnrollmentService.handleError,
    StudentService.enrollInCourse, StudentService.unenrollFromCourse,
    StudentService.getStudentById, StudentService.handleError.
  failing.
Qed.

Lemma loads_log_twice :
  (let w' := StudentService.loadAllStudents engine w in
   console w'
   = console w ++ [mkConsoleEntry "StudentService Error:" e;
                   mkConsoleEntry "Error loading students:" (handedOn e)]
   /\ requests w' = requests w ++ [GET StudentService.apiUrl []]
   /\ cachesUnchanged w w')
  /\ (let w' := CourseService.loadAllCourses engine w in
      console w'
      = console w ++ [mkConsoleEntry "CourseService Error:" e;
                      mkConsoleEntry "Error loading courses:" (handedOn e)]
      /\ requests w' = requests w ++ [GET CourseService.apiUrl []]
      /\ cachesUnchanged w w')
  /\ (let w' := EnrollmentService.loadAllEnrollments engine w in
      console w'
      = console w ++ [mkConsoleEntry "EnrollmentService Error:" e;
                      mkConsoleEntry "Error loading enrollments:" (handedOn e)]
      /\ requests w' = requests w ++ [GET EnrollmentService.apiUrl []]
      /\ cachesUnchanged w w').
Proof.
  cbv zeta.
  unfold StudentService.loadAllStudents, CourseService.loadAllCourses,
    EnrollmentService.loadAllEnrollments,
    StudentService.getAllStudents, CourseService.getAllCourses,
    EnrollmentService.getAllEnrollments,
    StudentService.handleError, CourseService.handleError,
    EnrollmentService.handleError.
  failing.
Qed.

End FailedExchange.

Section Refreshes.
Variable engine : Engine.

Lemma skipn_own_length {A : Type} (l tail : list A) :
  skipn (List.length l) (l ++ tail) = tail.
Proof. induction l as [|x l IH]; [reflexivity|exact IH]. Qed.

Lemma skipn_own_length2 {A : Type} (l tail tail' : list A) :
  skipn (List.length l) ((l ++ tail) ++ tail') = tail ++ tail'.
Proof. rewrite <- app_assoc. apply skipn_own_length. Qed.

(** The two refreshes log the lines of [refreshLines] and send their two
    GETs. *)
Lemma refreshRelated_console (w : World) :
  console (EnrollmentService.refreshRelated engine w)
  = console w ++ refreshLines w (List.length (requests w)).
Proof.
  unfold refreshLines, loadLines, EnrollmentService.refreshRelated,
    StudentService.refreshCache, CourseService.refreshCache,
    StudentService.loadAllStudents, CourseService.loadAllCourses, Rx.subscribe,
    StudentService.getAllStudents, CourseService.getAllCourses,
    StudentService.handleError, CourseService.handleError,
    Rx.catchError, Rx.map, Rx.throwError, exchange.
  cbv zeta.
  destruct (Resource.query (courses _) []) as [cs|ec]; simpl;
    rewrite (length_app (requests w)), Nat.add_1_r;
    destruct (Resource.query (students _) []) as [ss|es]; simpl;
    destruct (overtakes w _); simpl;
    rewrite ?skipn_own_length2, ?skipn_own_length, ?skipn_all, ?app_nil_r,
      <- ?app_assoc;
    reflexivity.
Qed.

Lemma refreshRelated_requests (w : World) :
  requests (EnrollmentService.refreshRelated engine w)
  = requests w ++ [GET CourseService.apiUrl []; GET StudentService.apiUrl []].
Proof.
  unfold EnrollmentService.refreshRelated,
    StudentService.refreshCache, CourseService.refreshCache,
    StudentService.loadAllStudents, CourseService.loadAllCourses, Rx.subscribe,
    StudentService.getAllStudents, CourseService.getAllCourses,
    StudentService.handleError, CourseService.handleError,
    Rx.catchError, Rx.map, Rx.throwError, exchange.
  cbv zeta.
  destruct (Resource.query (courses _) []) as [cs|ec]; simpl;
    destruct (Resource.query (students _) []) as [ss|es]; simpl;
    destruct (overtakes w _); simpl; rewrite <- app_assoc; reflexivity.
Qed.

Lemma refreshRelated_follows (w0 w : World) (request : HttpRequest) :
  backend w0 = backend w -> overtakes w0 = overtakes w ->
  console w0 = console w -> requests w0 = requests w ++ [request] ->
  coursesCache w0 = coursesCache w -> studentsCache w0 = studentsCache w ->
  let n := List.length (requests w) in
  let w' := EnrollmentService.refreshRelated engine w0 in
  console w' = console w ++ refreshLines w (S n)
  /\ requests w'
     = requests w
       ++ [request; GET CourseService.apiUrl []; GET StudentService.apiUrl []]
  /\ (forall e, Resource.query (courses (backend w (S n))) [] = HttpFailure e ->
        coursesCache w' = coursesCache w)
  /\ (forall e, Resource.query (students (backend w (S (S n)))) [] = HttpFailure e ->
        studentsCache w' = studentsCache w).
Proof.
  intros Eb Eo Ec Er Ecc Esc. cbv zeta.
  assert (L : List.length (requests w0) = S (List.length (requests w)))
    by (rewrite Er, length_app, Nat.add_1_r; reflexivity).
  destruct (refresh_both engine w0) as (_ & Hc & Hs). cbv zeta in Hc, Hs.
  rewrite L, Eb in Hc, Hs.
  split; [|split; [|split]].
  - rewrite refreshRelated_console, L, Ec. unfold refreshLines.
    rewrite Eb, Eo. reflexivity.
  - rewrite refreshRelated_requests, Er, <- app_assoc. reflexivity.
  - intros e F. rewrite Hc, F. exact Ecc.
  - intros e F. rewrite Hs, F. exact Esc.
Qed.

(** A created enrollment is emitted whatever becomes of the two
    refreshes. *)
Lemma createEnrollment_refreshes (request : EnrollmentRequest.t) (w : World)
    (created : Enrollment.t) :
  let body :=
    EnrollmentService.newEnrollmentBody request
      (fst (EnrollmentService.requestedDate engine request w)) in
  Resource.create (enrollments (backend w (List.length (requests w)))) body
  = HttpOk created ->
  fst (EnrollmentService.createEnrollment engine request w)
  = Next (EnrollmentService.transformEnrollment engine created)
  /\ refreshFollows (EnrollmentService.createEnrollment engine request) w
       (POST EnrollmentService.apiUrl (EnrollmentBody body)).
Proof.
  cbv zeta. unfold EnrollmentService.createEnrollment, refreshFollows.
  unfold EnrollmentService.requestedDate, now_iso, Date_now.
  destruct (EnrollmentRequest.enrollmentDate request) as [d|];
    [destruct (truthy d)|];
    cbn [fst snd]; intros C;
    unfold Rx.catchError, Rx.map, Rx.tap, exchange; cbn [fst snd];
    cbn [backend requests tick] in *; rewrite C; cbn [fst snd];
    (split; [reflexivity|]);
    unfold EnrollmentService.cache_append;
    apply refreshRelated_follows; reflexivity.
Qed.

Lemma deleteEnrollment_refreshes (id : Z) (w : World) (done : unit) :
  Resource.remove (enrollments (backend w (List.length (requests w)))) id = HttpOk done ->
  fst (EnrollmentService.deleteEnrollment engine id w) = Next done
  /\ refreshFollows (EnrollmentService.deleteEnrollment engine id) w
       (DELETE (item_url EnrollmentService.apiUrl id)).
Proof.
  unfold EnrollmentService.deleteEnrollment, refreshFollows.
  intros C.
  unfold Rx.catchError, Rx.map, Rx.tap, exchange; cbn [fst snd]; rewrite C;
    cbn [fst snd];
    (split; [reflexivity|]);
    unfold EnrollmentService.cache_remove;
    apply refreshRelated_follows; reflexivity.
Qed.

End Refreshes.

(** *** The claim *)

(** C6 (amended).  A failed HTTP exchange is logged to the console and
    handed on to the caller as [new Error(error.message || 'Server error')],
    with no retry and the three caches left as they were, by every
    operation of the course, student, enrollment and feedback services
    and by [getCoursePerformance] and [getStudentPerformance]; it is not
    handed on by [getDashboardStats], which logs it and emits the empty
    statistics, nor by a load or a refresh, which has no caller.  In
    detail, for a call made when [n] requests have been sent:
    - when the backend fails the [n]-th exchange with [e], every operation
      that makes one exchange fails with the error handed on for [e],
      having logged one line and sent one request ([getEnrollmentStats],
      [enrollInCourse] and [unenrollFromCourse] log a second line), and a
      load logs two lines, sends one request and changes no cache;
    - [getEnrollmentWithDetails], [getAllEnrollmentsWithDetails] and
      [getRecentEnrollments] fail when their GET fails or, after it, a
      look-up of a course or of a student fails: with the failure that
      arrives first, logged by the service of the look-up and again by
      the enrollment service, all look-ups having been sent;
    - [getCoursePerformance] and [getStudentPerformance] send both their
      GETs and fail with the failure that arrives first;
    - [createEnrollment] and [deleteEnrollment] whose own exchange
      succeeded emit their value whatever becomes of the two refreshes
      that follow: a refresh that fails logs two lines and leaves its
      cache as it was;
    - [getDashboardStats] never fails: when one of its six GETs or a
      look-up fails it logs the failure that arrives first, logs it again
      as a dashboard error and emits the empty statistics, having sent
      the six GETs and possibly the look-ups, no cache changed. *)
Theorem C6_failed_exchange (engine : Engine) (w : World) (id id' : Z) (limit : nat)
    (keyword : string)
    (registration : StudentRegistration.t) (student : PartialStudent.t)
    (studentStatus : StudentStatus) (studentFilter : StudentFilter.t)
    (course : PartialCourse.t) (courseFilter : CourseFilter.t)
    (request : EnrollmentRequest.t) (enrollment : PartialEnrollment.t)
    (progress grade : Q) (status : EnrollmentStatus)
    (enrollmentFilter : EnrollmentFilter.t)
    (submission : FeedbackSubmission.t) (feedbackStatus : FeedbackStatus.t)
    (feedbackCategory : FeedbackCategory.t) (response : string) :
  let n := List.length (requests w) in
  (forall e, serverFails (backend w n) e ->
     (let line := [mkConsoleEntry "StudentService Error:" e] in
      propagates (StudentService.getAllStudents engine) w e line
      /\ propagates (StudentService.getStudentById engine id) w e line
      /\ propagates (StudentService.createStudent engine registration) w e line
      /\ propagates (StudentService.updateStudent engine id student) w e line
      /\ propagates (StudentService.patchStudent engine id student) w e line
      /\ propagates (StudentService.deleteStudent id) w e line
      /\ propagates (StudentService.filterStudents engine studentFilter) w e line
      /\ propagates (StudentService.searchStudents engine keyword) w e line
      /\ propagates (StudentService.getStudentsByStatus engine studentStatus) w e line
      /\ propagates (StudentService.getStudentsEnrolledInCourse engine id) w e line
      /\ propagates (StudentService.updateStudentStatus engine id studentStatus) w e line
      /\ propagates (StudentService.getStudentSummary engine id) w e line
      /\ propagates (StudentService.getRecentStudents engine limit) w e line
      /\ propagates (StudentService.getTopStudents engine limit) w e line)
     /\ (let line := [mkConsoleEntry "CourseService Error:" e] in
         propagates (CourseService.getAllCourses engine) w e line
         /\ propagates (CourseService.getCourseById engine id) w e line
         /\ propagates (CourseService.createCourse engine course) w e line
         /\ propagates (CourseService.updateCourse engine id course) w e line
         /\ propagates (CourseService.patchCourse engine id course) w e line
         /\ propagates (CourseService.deleteCourse id) w e line
         /\ propagates (CourseService.getPopularCourses engine limit) w e line
         /\ propagates (CourseService.filterCourses engine courseFilter) w e line
         /\ propagates (CourseService.searchCourses engine keyword) w e line
         /\ propagates (CourseService.getCoursesByCategory engine keyword) w e line
         /\ propagates (CourseService.getCoursesByLevel engine keyword) w e line
         /\ propagates (CourseService.getRecentCourses engine limit) w e line
         /\ propagates (CourseService.getCoursesByInstructor engine keyword) w e line)
     /\ (let line := [mkConsoleEntry "EnrollmentService Error:" e] in
         propagates (EnrollmentService.getAllEnrollments engine) w e line
         /\ propagates (EnrollmentService.getEnrollmentById engine id) w e line
         /\ propagates (EnrollmentService.createEnrollment engine request) w e line
         /\ propagates (EnrollmentService.updateEnrollment engine id enrollment) w e line
         /\ propagates (EnrollmentService.patchEnrollment engine id enrollment) w e line
         /\ propagates (EnrollmentService.deleteEnrollment engine id) w e line
         /\ propagates (EnrollmentService.getEnrollmentsByCourse engine id) w e line
         /\ propagates (EnrollmentService.getEnrollmentsByStudent engine id) w e line
         /\ propagates (EnrollmentService.updateProgress engine id progress) w e line
         /\ propagates (EnrollmentService.updateStatus engine id status) w e line
         /\ propagates (EnrollmentService.submitGrade engine id grade) w e line
         /\ propagates (EnrollmentService.filterEnrollments engine enrollmentFilter)
              w e line
         /\ propagates (EnrollmentService.getEnrollmentsByStatus engine status) w e line)
     /\ (let line := [mkConsoleEntry "FeedbackService Error:" e] in
         propagates (FeedbackService.getAllFeedback engine) w e line
         /\ propagates (FeedbackService.getFeedbackById engine id) w e line
         /\ propagates (FeedbackService.submitFeedback engine submission) w e line
         /\ propagates (FeedbackService.updateFeedbackStatus engine id feedbackStatus)
              w e line
         /\ propagates (FeedbackService.respondToFeedback engine id response) w e line
         /\ propagates (FeedbackService.deleteFeedback id) w e line
         /\ propagates (FeedbackService.getFeedbackByStatus engine feedbackStatus)
              w e line
         /\ propagates (FeedbackService.getFeedbackByCategory engine feedbackCategory)
              w e line
         /\ propagates (FeedbackService.getHighPriorityFeedback engine) w e line)
     /\ (propagates (EnrollmentService.getEnrollmentStats engine) w e
           [mkConsoleEntry "EnrollmentService Error:" e;
            mkConsoleEntry "EnrollmentService Error:" (handedOn e)]
         /\ (let lines :=
               [mkConsoleEntry "StudentService Error:" e;
                mkConsoleEntry "StudentService Error:" (handedOn e)] in
             propagates (StudentService.enrollInCourse engine id id') w e lines
             /\ propagates (StudentService.unenrollFromCourse engine id id') w e lines))
     /\ ((let w' := StudentService.loadAllStudents engine w in
          console w'
          = console w ++ [mkConsoleEntry "StudentService Error:" e;
                          mkConsoleEntry "Error loading students:" (handedOn e)]
          /\ requests w' = requests w ++ [GET StudentService.apiUrl []]
          /\ cachesUnchanged w w')
         /\ (let w' := CourseService.loadAllCourses engine w in
             console w'
             = console w ++ [mkConsoleEntry "CourseService Error:" e;
                             mkConsoleEntry "Error loading courses:" (handedOn e)]
             /\ requests w' = requests w ++ [GET CourseService.apiUrl []]
             /\ cachesUnchanged w w')
         /\ (let w' := EnrollmentService.loadAllEnrollments engine w in
             console w'
             = console w ++ [mkConsoleEntry "EnrollmentService Error:" e;
                             mkConsoleEntry "Error loading enrollments:" (handedOn e)]
             /\ requests w' = requests w ++ [GET EnrollmentService.apiUrl []]
             /\ cachesUnchanged w w')))
  /\ (forall f, detailFailure engine w n id = Some f ->
        failsWith (EnrollmentService.getEnrollmentWithDetails engine id) w f
          (GET (item_url EnrollmentService.apiUrl id) []
           :: detailFollowUp engine w n id))
  /\ (forall f, detailsFailure engine w n = Some f ->
        failsWith (EnrollmentService.getAllEnrollmentsWithDetails engine) w f
          (GET EnrollmentService.apiUrl [] :: detailsFollowUp engine w n)
        /\ failsWith (EnrollmentService.getRecentEnrollments engine limit) w f
             (GET EnrollmentService.apiUrl [] :: detailsFollowUp engine w n))
  /\ (forall f, coursePerformanceFailure w n id = Some f ->
        failsWith (DashboardService.getCoursePerformance engine id) w f
          [GET (item_url CourseService.apiUrl id) [];
           GET EnrollmentService.apiUrl [("courseId", Number_toString id)]])
  /\ (forall f, studentPerformanceFailure w n id = Some f ->
        failsWith (DashboardService.getStudentPerformance engine id) w f
          [GET (item_url StudentService.apiUrl id) [];
           GET EnrollmentService.apiUrl [("studentId", Number_toString id)]])
  /\ (let body :=
        EnrollmentService.newEnrollmentBody request
          (fst (EnrollmentService.requestedDate engine request w)) in
      forall created,
        Resource.create (enrollments (backend w n)) body = HttpOk created ->
        fst (EnrollmentService.createEnrollment engine request w)
        = Next (EnrollmentService.transformEnrollment engine created)
        /\ refreshFollows (EnrollmentService.createEnrollment engine request) w
             (POST EnrollmentService.apiUrl (EnrollmentBody body)))
  /\ (forall done,
        Resource.remove (enrollments (backend w n)) id = HttpOk done ->
        fst (EnrollmentService.deleteEnrollment engine id w) = Next done
        /\ refreshFollows (EnrollmentService.deleteEnrollment engine id) w
             (DELETE (item_url EnrollmentService.apiUrl id)))
  /\ (forall e, fst (DashboardService.getDashboardStats engine w) <> Error e)
  /\ (forall f, dashboardFailure engine w n = Some f ->
        let run := DashboardService.getDashboardStats engine w in
        fst run = Next DashboardService.getEmptyDashboardStats
        /\ console (snd run)
           = console w ++ logs f
             ++ [mkConsoleEntry "Dashboard Stats Error:" (handedOn (cause f))]
        /\ (requests (snd run) = requests w ++ dashboardRequests
            \/ requests (snd run)
               = requests w ++ dashboardRequests ++ detailsFollowUp engine w (5 + n))
        /\ cachesUnchanged w (snd run)).
Proof.
  intros n.
  split; [|split; [|split; [|split; [|split; [|split; [|split; [|split]]]]]]].
  - intros e down.
    split; [exact (@students_propagate engine w e down id limit keyword registration
                     student studentStatus studentFilter)|].
    split; [exact (@courses_propagate engine w e down id limit keyword course
                     courseFilter)|].
    split; [exact (@enrollments_propagate engine w e down id request enrollment progress
                     grade status enrollmentFilter)|].
    split; [exact (@feedback_propagates engine w e down id submission feedbackStatus
                     feedbackCategory response)|].
    split; [exact (@logged_twice engine w e down id id')|].
    exact (@loads_log_twice engine w e down).
  - intros f F.
    split; [|split; [|split]].
    + assert (E := getEnrollmentWithDetails_endsIn engine id w).
      fold n in E. rewrite F in E. apply E.
    + assert (E := getEnrollmentWithDetails_endsIn engine id w).
      fold n in E. rewrite F in E. apply E.
    + apply getEnrollmentWithDetails_requests.
    + apply leaves_getEnrollmentWithDetails.
  - intros f F.
    assert (E := getAllEnrollmentsWithDetails_endsIn engine w).
    assert (E' := getRecentEnrollments_endsIn engine limit w).
    fold n in E, E'. rewrite F in E, E'.
    split; (split; [|split; [|split]]).
    + apply E.
    + apply E.
    + apply getAllEnrollmentsWithDetails_requests.
    + apply leaves_getAllEnrollmentsWithDetails.
    + apply E'.
    + apply E'.
    + apply getRecentEnrollments_requests.
    + apply leaves_getRecentEnrollments.
  - intros f F. apply getCoursePerformance_fails. exact F.
  - intros f F. apply getStudentPerformance_fails. exact F.
  - cbv zeta. intros created C. apply createEnrollment_refreshes. exact C.
  - intros done C. apply deleteEnrollment_refreshes. exact C.
  - intros e. apply getDashboardStats_emits.
  - intros f F. apply getDashboardStats_falls_back. exact F.
Qed.

(** C6 as worded fails for [getDashboardStats]: with the backend down the
    call hands no failure to its caller, it emits the empty statistics. *)
Lemma C6_dashboard_stats_fall_back :
  serverFails (backend (Example.start Example.deadServer) 0) Example.unreachable
  /\ fst (DashboardService.getDashboardStats ReferenceEngine.engine
            (Example.start Example.deadServer))
     = Next DashboardService.getEmptyDashboardStats
  /\ forall error,
       fst (DashboardService.getDashboardStats ReferenceEngine.engine
              (Example.start Example.deadServer))
       <> Error error.
Proof.
  split; [repeat split|]. split; [reflexivity|].
  intros error H. discriminate H.
Qed.

(** With the backend down, a student look-up fails and a load leaves the
    cache empty.  With only the students out of reach, the details of
    enrollment 1 fail at the look-up of the student, after three
    requests; a created enrollment is emitted although the refresh of
    the students fails; the dashboard statistics fall back on the empty
    statistics. *)
Lemma C6_failed_exchange_witness :
  let engine := ReferenceEngine.engine in
  let dead := Example.start Example.deadServer in
  let w := Example.start Example.studentsDown in
  let lost := Example.unreachable in
  serverFails (backend dead 0) lost
  /\ propagates (StudentService.getStudentById engine 1) dead lost
       [mkConsoleEntry "StudentService Error:" lost]
  /\ studentsCache (StudentService.loadAllStudents engine dead) = []
  /\ failsWith (EnrollmentService.getEnrollmentWithDetails engine 1) w
       (mkFailure lost
          [mkConsoleEntry "StudentService Error:" lost;
           mkConsoleEntry "EnrollmentService Error:" (handedOn lost)])
       [GET "http://localhost:3000/enrollments/1" [];
        GET "http://localhost:3000/courses/1" [];
        GET "http://localhost:3000/students/1" []]
  /\ (exists created,
        fst (EnrollmentService.createEnrollment engine (EnrollmentRequest.mk 2 1 None) w)
        = Next created)
  /\ console (snd (EnrollmentService.createEnrollment engine
                     (EnrollmentRequest.mk 2 1 None) w))
     = [mkConsoleEntry "StudentService Error:" lost;
        mkConsoleEntry "Error loading students:" (handedOn lost)]
  /\ fst (DashboardService.getDashboardStats engine w)
     = Next DashboardService.getEmptyDashboardStats
  /\ console (snd (DashboardService.getDashboardStats engine w))
     = [mkConsoleEntry "StudentService Error:" lost;
        mkConsoleEntry "Dashboard Stats Error:" (handedOn lost)].
Proof.
  cbv zeta.
  assert (D : serverFails (backend (Example.start Example.deadServer) 0)
                Example.unreachable) by (repeat split).
  pose (noStudent := PartialStudent.mk None None None None None None None None None
                       None None None None None None None).
  pose (noCourse := PartialCourse.mk None None None None None None None None None
                      None None None None None None None None None).
  pose (submission := FeedbackSubmission.mk "Alice" "student@example.org" "Thanks"
                        "A fine course" FeedbackCategory.COURSE_CONTENT
                        FeedbackPriority.LOW None None None).
  destruct (@C6_failed_exchange ReferenceEngine.engine
              (Example.start Example.deadServer) 1 2 5 "ada" Example.newcomer
              noStudent GRADUATED (StudentFilter.mk None None None) noCourse
              (CourseFilter.mk None None None None None None)
              (EnrollmentRequest.mk 2 1 None) PartialEnrollment.empty 50 80 DROPPED
              (EnrollmentFilter.mk None None None None None)
              submission FeedbackStatus.NEW FeedbackCategory.COURSE_CONTENT "Thanks")
    as (Hdead & _).
  destruct (Hdead Example.unreachable D)
    as ((_ & Hlookup & _) & _ & _ & _ & _ & ((_ & _ & _ & Hcache & _) & _)).
  destruct (@C6_failed_exchange ReferenceEngine.engine
              (Example.start Example.studentsDown) 1 2 5 "ada" Example.newcomer
              noStudent GRADUATED (StudentFilter.mk None None None) noCourse
              (CourseFilter.mk None None None None None None)
              (EnrollmentRequest.mk 2 1 None) PartialEnrollment.empty 50 80 DROPPED
              (EnrollmentFilter.mk None None None None None)
              submission FeedbackStatus.NEW FeedbackCategory.COURSE_CONTENT "Thanks")
    as (_ & Hdetail & _ & _ & _ & Hcreate & _ & _ & Hstats).
  destruct (Hcreate (Example.enrollment 5 2 1 "2024-03-15" ENROLLED 0 None) eq_refl)
    as (Hemit & Hlines & _).
  destruct (Hstats (mkFailure Example.unreachable
                      [mkConsoleEntry "StudentService Error:" Example.unreachable])
              eq_refl) as (Hempty & Hlog & _).
  split; [exact D|]. split; [exact Hlookup|]. split; [exact Hcache|].
  split; [exact (Hdetail _ eq_refl)|].
  split; [eexists; exact Hemit|]. split; [exact Hlines|].
  split; [exact Hempty|exact Hlog].
Defined.

(* ================================================================== *)
(** * Further properties of the services *)
(* ================================================================== *)

(** ** Sorted prefixes *)

Lemma StronglySorted_app_inv {A : Type} (R : A -> A -> Prop) (l1 l2 : list A) :
  StronglySorted R (l1 ++ l2) ->
  StronglySorted R l1 /\ (forall a b, In a l1 -> In b l2 -> R a b).
Proof.
  induction l1 as [|x l1 IH]; simpl; intros H.
  - split; [constructor|]. intros a b [].
  - apply StronglySorted_inv in H. destruct H as [Hs Hall].
    destruct (IH Hs) as [H1 H2]. split.
    + constructor; [exact H1|].
      apply Forall_app in Hall. tauto.
    + intros a b [->|Ha] Hb.
      * rewrite Forall_forall in Hall. apply Hall, in_or_app. right. exact Hb.
      * apply H2; assumption.
Qed.

Lemma In_slice0 {A : Type} (limit : nat) (l : list A) (x : A) :
  In x (JsArray.slice0 limit l) -> In x l.
Proof.
  unfold JsArray.slice0. intros H.
  rewrite <- (firstn_skipn limit l). apply in_or_app. left. exact H.
Qed.

Lemma slice_sort_topBy {A : Type} (key : A -> Q) (limit : nat) (l : list A) :
  let sorted := JsArray.sort (descending key) l in
  topBy key l (JsArray.slice0 limit sorted) (skipn limit sorted)
  /\ List.length (JsArray.slice0 limit sorted) = Nat.min limit (List.length l).
Proof.
  intros sorted. unfold JsArray.slice0, topBy.
  assert (P : Permutation sorted l) by apply sort_perm.
  assert (S : StronglySorted (fun a b => key b <= key a) sorted) by apply sort_sorted.
  rewrite <- (firstn_skipn limit sorted) in S.
  apply StronglySorted_app_inv in S. destruct S as [S1 S2].
  repeat split.
  - rewrite firstn_skipn. exact P.
  - exact S1.
  - exact S2.
  - rewrite length_firstn. rewrite (Permutation_length P). reflexivity.
Qed.

Lemma topBy_ext {A : Type} (key key' : A -> Q) (l top rest : list A) :
  (forall a, key a == key' a) -> topBy key l top rest -> topBy key' l top rest.
Proof.
  intros E (P & S & C). repeat split.
  - exact P.
  - eapply StronglySorted_weaken; [|exact S]. simpl. intros a b H.
    rewrite <- (E a), <- (E b). exact H.
  - intros a b Ha Hb. rewrite <- (E a), <- (E b). apply C; assumption.
Qed.

Section Rankings.

Variable engine : Engine.

(** X1.  When the fetch of the courses succeeds, [getPopularCourses(limit)]
    issues that one GET and emits [min(limit, n)] of the [n] fetched,
    transformed courses: they are in descending order of popularity and no
    course left out is more popular than a course kept. *)
Theorem X1_getPopularCourses_ranks (limit : nat) (w : World) (body : list Course.t) :
  Resource.query (courses (backend w (List.length (requests w)))) [] = HttpOk body ->
  exists popular rest : list Course.t,
    CourseService.getPopularCourses engine limit w
    = (Next popular, log_request (GET CourseService.apiUrl []) w)
    /\ List.length popular = Nat.min limit (List.length body)
    /\ topBy Course.popularity
         (List.map (CourseService.transformCourse engine) body) popular rest.
Proof.
  intros H.
  set (fetched := List.map (CourseService.transformCourse engine) body).
  destruct (slice_sort_topBy Course.popularity limit fetched) as [T L].
  eexists. eexists. split; [|split; [|exact T]].
  - unfold CourseService.getPopularCourses, CourseService.getAllCourses,
      Rx.catchError, Rx.map, exchange.
    rewrite H. reflexivity.
  - rewrite L. unfold fetched. rewrite length_map. reflexivity.
Qed.

(** X2.  When the fetch of the students succeeds, [getTopStudents(limit)]
    emits only students that have an average grade, [min(limit, g)] of the
    [g] graded ones, in descending order of grade, and no graded student
    left out has a better grade than a student kept. *)
Theorem X2_getTopStudents_ranks (limit : nat) (w : World) (body : list Student.t) :
  Resource.query (students (backend w (List.length (requests w)))) [] = HttpOk body ->
  exists top rest : list Student.t,
    StudentService.getTopStudents engine limit w
    = (Next top, log_request (GET StudentService.apiUrl []) w)
    /\ (forall s, In s top -> exists g, Student.averageGrade s = Some g)
    /\ List.length top = Nat.min limit (numberOf hasGrade body)
    /\ topBy gradeOf
         (filter hasGrade (List.map (StudentService.transformStudent engine) body))
         top rest.
Proof.
  intros H.
  set (graded :=
         filter hasGrade (List.map (StudentService.transformStudent engine) body)).
  destruct (slice_sort_topBy (fun s => Js.opt_or_zero (Student.averageGrade s))
              limit graded) as [T L].
  eexists. eexists. split; [|split; [|split]].
  - unfold StudentService.getTopStudents, StudentService.getAllStudents,
      Rx.catchError, Rx.map, exchange.
    rewrite H. reflexivity.
  - intros s Hs. apply In_slice0 in Hs.
    apply (Permutation_in _ (sort_perm _ _)) in Hs.
    apply filter_In in Hs. destruct Hs as [_ Hs].
    destruct (Student.averageGrade s) as [g|]; [exists g; reflexivity|discriminate].
  - change (List.length
              (JsArray.slice0 limit
                 (JsArray.sort
                    (descending (fun s => Js.opt_or_zero (Student.averageGrade s)))
                    graded))
            = Nat.min limit (numberOf hasGrade body)).
    rewrite L. unfold graded. f_equal.
    rewrite filter_map_length.
    apply filter_length_numberOf. intros x. reflexivity.
  - eapply topBy_ext; [|exact T].
    intros s. unfold gradeOf. destruct (Student.averageGrade s) as [g|]; simpl.
    + apply or_zero_id.
    + reflexivity.
Qed.

End Rankings.

(** The three sample courses are equally popular: asking for two of
    them gives the first two fetched. *)
Lemma X1_getPopularCourses_ranks_witness :
  exists popular rest : list Course.t,
    CourseService.getPopularCourses ReferenceEngine.engine 2
      (Example.start Example.theServer)
    = (Next popular,
       log_request (GET CourseService.apiUrl []) (Example.start Example.theServer))
    /\ List.length popular = 2%nat
    /\ topBy Course.popularity
         (List.map (CourseService.transformCourse ReferenceEngine.engine)
            Example.theCourses) popular rest.
Proof.
  exact (X1_getPopularCourses_ranks ReferenceEngine.engine 2
           (Example.start Example.theServer) (body := Example.theCourses) eq_refl).
Defined.

(** The two best of a class of four, one of whom has no grade: Frank
    (93) before Grace (85); Dave (71) is left out and Erin is not
    ranked. *)
Lemma X2_getTopStudents_ranks_witness :
  exists top rest : list Student.t,
    StudentService.getTopStudents ReferenceEngine.engine 2
      (Example.start Example.classServer)
    = (Next top,
       log_request (GET StudentService.apiUrl []) (Example.start Example.classServer))
    /\ List.map Student.name top = ["Frank"; "Grace"]
    /\ List.map Student.averageGrade top = [Some 93; Some 85]
    /\ List.length top = 2%nat
    /\ List.length rest = 1%nat
    /\ topBy gradeOf
         (filter hasGrade
            (List.map (StudentService.transformStudent ReferenceEngine.engine)
               Example.theClass))
         top rest.
Proof.
  destruct (X2_getTopStudents_ranks ReferenceEngine.engine 2
              (Example.start Example.classServer) (body := Example.theClass) eq_refl)
    as (top & rest & R & _ & L & T).
  assert (F : fst (StudentService.getTopStudents ReferenceEngine.engine 2
                     (Example.start Example.classServer))
              = Next (List.map (StudentService.transformStudent ReferenceEngine.engine)
                        [Example.graded 6 "Frank" (Some 93);
                         Example.graded 7 "Grace" (Some 85)]))
    by (vm_compute; reflexivity).
  rewrite R in F. simpl in F. injection F as F.
  exists top, rest. split; [exact R|].
  split; [rewrite F; reflexivity|]. split; [rewrite F; reflexivity|].
  split; [exact L|]. split; [|exact T].
  destruct T as (P & _). apply Permutation_length in P.
  rewrite length_app, L in P. simpl in P. lia.
Defined.

(** ** Newest first *)

Lemma Qle_bool_compat (x y : Q) : x == y -> Qle_bool x 0 = Qle_bool y 0.
Proof.
  intros E. destruct (Qle_bool y 0) eqn:Y.
  - apply Qle_bool_iff. apply Qle_bool_iff in Y. rewrite E. exact Y.
  - destruct (Qle_bool x 0) eqn:X; [|reflexivity].
    apply Qle_bool_iff in X. rewrite E in X. apply Qle_bool_iff in X. congruence.
Qed.

Lemma insert_agree {A : Type} (compare compare' : A -> A -> Q) (x : A) (l : list A) :
  (forall y, In y l -> compare x y == compare' x y) ->
  JsArray.insert compare x l = JsArray.insert compare' x l.
Proof.
  induction l as [|y l IH]; simpl; intros H; [reflexivity|].
  rewrite (Qle_bool_compat (H y (or_introl eq_refl))).
  rewrite IH; [reflexivity|]. intros z Hz. apply H. right. exact Hz.
Qed.

Lemma sort_agree {A : Type} (compare compare' : A -> A -> Q) (l : list A) :
  (forall x y, In x l -> In y l -> compare x y == compare' x y) ->
  JsArray.sort compare l = JsArray.sort compare' l.
Proof.
  induction l as [|x l IH]; simpl; intros H; [reflexivity|].
  rewrite IH by (intros a b Ha Hb; apply H; right; assumption).
  apply insert_agree. intros y Hy. apply H; [left; reflexivity|].
  right. apply (Permutation_in _ (sort_perm compare' l)). exact Hy.
Qed.

Section NewestFirst.

Variable engine : Engine.

Lemma new_Date_toDate (v : DateOrString) :
  new_Date engine (toDate engine v) = new_Date engine v.
Proof. destruct v as [[t]|s]; reflexivity. Qed.

Lemma time_diff_descending (a b : DateOrString) :
  isValidDate engine a -> isValidDate engine b ->
  time_diff (new_Date engine b) (new_Date engine a)
  == timeOf engine b - timeOf engine a.
Proof.
  unfold isValidDate, time_diff, timeOf. intros Ha Hb.
  destruct (getTime (new_Date engine b)) as [x|]; [|congruence].
  destruct (getTime (new_Date engine a)) as [y|]; [|congruence].
  unfold Zminus. rewrite inject_Z_plus, inject_Z_opp. reflexivity.
Qed.

(** The [sort(...).slice(0, limit)] of the three "recent" operations on a
    list whose dates are all valid. *)
Lemma recent_topBy {A : Type} (date : A -> DateOrString) (limit : nat) (l : list A) :
  Forall (fun x => isValidDate engine (date x)) l ->
  let recent :=
    JsArray.slice0 limit
      (JsArray.sort
         (fun a b =>
            let dateA := new_Date engine (date a) in
            let dateB := new_Date engine (date b) in
            time_diff dateB dateA)
         l) in
  List.length recent = Nat.min limit (List.length l)
  /\ topBy (fun x => timeOf engine (date x)) l recent
       (skipn limit (JsArray.sort (descending (fun x => timeOf engine (date x))) l)).
Proof.
  intros V recent. rewrite Forall_forall in V.
  destruct (slice_sort_topBy (fun x => timeOf engine (date x)) limit l) as [T L].
  unfold recent.
  rewrite (@sort_agree A _ (descending (fun x => timeOf engine (date x)))).
  - split; [exact L|exact T].
  - intros x y Hx Hy. simpl. unfold descending.
    apply time_diff_descending; apply V; assumption.
Qed.

(** X3.  On records whose dates are all valid, [getRecentCourses],
    [getRecentStudents] and [getRecentEnrollments] emit [min(limit, n)] of
    the [n] fetched records, newest first by [createdAt] (by
    [enrollmentDate] for enrollments), and no record left out is newer than
    a record kept. *)
Theorem X3_recent_lists_newest_first (limit : nat) (w : World) :
  (forall body : list Course.t,
     Resource.query (courses (backend w (List.length (requests w)))) [] = HttpOk body ->
     Forall (fun c => isValidDate engine (Course.createdAt c)) body ->
     exists recent rest : list Course.t,
       CourseService.getRecentCourses engine limit w
       = (Next recent, log_request (GET CourseService.apiUrl []) w)
       /\ List.length recent = Nat.min limit (List.length body)
       /\ topBy (fun c => timeOf engine (Course.createdAt c))
            (List.map (CourseService.transformCourse engine) body) recent rest)
  /\ (forall body : list Student.t,
        Resource.query (students (backend w (List.length (requests w)))) []
        = HttpOk body ->
        Forall (fun s => isValidDate engine (Student.createdAt s)) body ->
        exists recent rest : list Student.t,
          StudentService.getRecentStudents engine limit w
          = (Next recent, log_request (GET StudentService.apiUrl []) w)
          /\ List.length recent = Nat.min limit (List.length body)
          /\ topBy (fun s => timeOf engine (Student.createdAt s))
               (List.map (StudentService.transformStudent engine) body) recent rest)
  /\ (forall (details : list EnrollmentWithDetails.t) (w' : World),
        EnrollmentService.getAllEnrollmentsWithDetails engine w = (Next details, w') ->
        Forall
          (fun d =>
             isValidDate engine
               (Enrollment.enrollmentDate (EnrollmentWithDetails.enrollment d)))
          details ->
        exists recent rest : list EnrollmentWithDetails.t,
          EnrollmentService.getRecentEnrollments engine limit w = (Next recent, w')
          /\ List.length recent = Nat.min limit (List.length details)
          /\ topBy
               (fun d =>
                  timeOf engine
                    (Enrollment.enrollmentDate (EnrollmentWithDetails.enrollment d)))
               details recent rest).
Proof.
  split; [|split].
  - intros body H V.
    assert (V' : Forall (fun c => isValidDate engine (Course.createdAt c))
                   (List.map (CourseService.transformCourse engine) body)).
    { rewrite Forall_map. eapply Forall_impl; [|exact V].
      intros c Hc. unfold isValidDate. simpl. rewrite new_Date_toDate. exact Hc. }
    destruct (recent_topBy Course.createdAt limit V') as [L T].
    eexists. eexists. split; [|split; [|exact T]].
    + unfold CourseService.getRecentCourses, CourseService.getAllCourses,
        Rx.catchError, Rx.map, exchange.
      rewrite H. reflexivity.
    + rewrite L. rewrite length_map. reflexivity.
  - intros body H V.
    assert (V' : Forall (fun s => isValidDate engine (Student.createdAt s))
                   (List.map (StudentService.transformStudent engine) body)).
    { rewrite Forall_map. eapply Forall_impl; [|exact V].
      intros s Hs. unfold isValidDate. simpl. rewrite new_Date_toDate. exact Hs. }
    destruct (recent_topBy Student.createdAt limit V') as [L T].
    eexists. eexists. split; [|split; [|exact T]].
    + unfold StudentService.getRecentStudents, StudentService.getAllStudents,
        Rx.catchError, Rx.map, exchange.
      rewrite H. reflexivity.
    + rewrite L. rewrite length_map. reflexivity.
  - intros details w' H V.
    destruct (recent_topBy
                (fun d => Enrollment.enrollmentDate (EnrollmentWithDetails.enrollment d))
                limit V) as [L T].
    eexists. eexists. split; [|split; [exact L|exact T]].
    unfold EnrollmentService.getRecentEnrollments, Rx.map.
    rewrite H. reflexivity.
Qed.

End NewestFirst.

(** The sample records carry ISO dates: the two most recent of the three
    courses, of the two students and of the four enrollments. *)
Lemma X3_recent_lists_newest_first_witness :
  (exists recent rest : list Course.t,
     CourseService.getRecentCourses ReferenceEngine.engine 2
       (Example.start Example.theServer)
     = (Next recent,
        log_request (GET CourseService.apiUrl []) (Example.start Example.theServer))
     /\ List.length recent = 2%nat
     /\ topBy (fun c => timeOf ReferenceEngine.engine (Course.createdAt c))
          (List.map (CourseService.transformCourse ReferenceEngine.engine)
             Example.theCourses) recent rest)
  /\ (exists recent rest : list Student.t,
        StudentService.getRecentStudents ReferenceEngine.engine 2
          (Example.start Example.theServer)
        = (Next recent,
           log_request (GET StudentService.apiUrl []) (Example.start Example.theServer))
        /\ List.length recent = 2%nat
        /\ topBy (fun s => timeOf ReferenceEngine.engine (Student.createdAt s))
             (List.map (StudentService.transformStudent ReferenceEngine.engine)
                Example.theStudents) recent rest)
  /\ (exists recent : list EnrollmentWithDetails.t,
        fst (EnrollmentService.getRecentEnrollments ReferenceEngine.engine 2
               (Example.start Example.theServer))
        = Next recent
        /\ List.map (fun d => Enrollment.id (EnrollmentWithDetails.enrollment d)) recent
           = [3%Z; 2%Z]).
Proof.
  destruct (X3_recent_lists_newest_first ReferenceEngine.engine 2
              (Example.start Example.theServer)) as (C & S & E).
  split; [|split].
  - apply (C Example.theCourses eq_refl).
    repeat (constructor; [intros H; vm_compute in H; discriminate|]). constructor.
  - apply (S Example.theStudents eq_refl).
    repeat (constructor; [intros H; vm_compute in H; discriminate|]). constructor.
  - destruct (EnrollmentService.getAllEnrollmentsWithDetails ReferenceEngine.engine
                (Example.start Example.theServer)) as [[details|e] w'] eqn:R.
    + assert (F : fst (EnrollmentService.getAllEnrollmentsWithDetails
                         ReferenceEngine.engine (Example.start Example.theServer))
                  = Next details) by (rewrite R; reflexivity).
      vm_compute in F. injection F as <-.
      destruct (E _ _ eq_refl) as (recent & rest & Hrun & _).
      * repeat (constructor; [intros H; vm_compute in H; discriminate|]). constructor.
      * exists recent. rewrite Hrun. split; [reflexivity|].
        assert (G : fst (EnrollmentService.getRecentEnrollments
                           ReferenceEngine.engine 2 (Example.start Example.theServer))
                    = Next recent) by (rewrite Hrun; reflexivity).
        vm_compute in G. injection G as <-. reflexivity.
    + assert (F : fst (EnrollmentService.getAllEnrollmentsWithDetails
                         ReferenceEngine.engine (Example.start Example.theServer))
                  = Error e) by (rewrite R; reflexivity).
      vm_compute in F. discriminate.
Defined.

(** ** Filters *)

Lemma filter_filter {A : Type} (p q : A -> bool) (l : list A) :
  filter q (filter p l) = filter (fun x => p x && q x) l.
Proof.
  induction l as [|x l IH]; simpl; [reflexivity|].
  destruct (p x); simpl; [destruct (q x)|]; rewrite IH; reflexivity.
Qed.

Lemma filter_all {A : Type} (p : A -> bool) (l : list A) :
  (forall x, In x l -> p x = true) -> filter p l = l.
Proof.
  induction l as [|x l IH]; simpl; intros H; [reflexivity|].
  rewrite (H x (or_introl eq_refl)). f_equal. apply IH. intros y Hy. apply H. right. exact Hy.
Qed.

Lemma filter_none {A : Type} (p : A -> bool) (l : list A) :
  (forall x, In x l -> p x = false) -> filter p l = [].
Proof.
  induction l as [|x l IH]; simpl; intros H; [reflexivity|].
  rewrite (H x (or_introl eq_refl)). apply IH. intros y Hy. apply H. right. exact Hy.
Qed.

Lemma filter_optional {A B : Type} (o : option B) (p : B -> A -> bool) (l : list A) :
  match o with
  | Some x => filter (p x) l
  | None => l
  end
  = filter (fun a => match o with Some x => p x a | None => true end) l.
Proof.
  destruct o as [x|]; [reflexivity|].
  symmetry. apply filter_all. intros; reflexivity.
Qed.

Lemma truthy_string_Some (v : option string) (k : string) :
  Js.truthy_string v = Some k <-> v = Some k /\ k <> "".
Proof.
  destruct v as [s|]; simpl.
  - destruct (String.eqb_spec s ""); split.
    + discriminate.
    + intros [E N]. injection E as ->. contradiction.
    + intros E. injection E as ->. split; [reflexivity|assumption].
    + intros [E _]. exact E.
  - split; [discriminate|]. intros [E _]. discriminate.
Qed.

Lemma truthy_number_Some (v : option Z) (n : Z) :
  Js.truthy_number v = Some n <-> v = Some n /\ n <> 0%Z.
Proof.
  destruct v as [m|]; simpl.
  - destruct (Z.eqb_spec m 0); split.
    + discriminate.
    + intros [E N]. injection E as ->. contradiction.
    + intros E. injection E as ->. split; [reflexivity|assumption].
    + intros [E _]. exact E.
  - split; [discriminate|]. intros [E _]. discriminate.
Qed.

Lemma In_param (name : string) (value : option string) (n v : string) :
  In (n, v) (param name value) <-> n = name /\ value = Some v.
Proof.
  destruct value as [x|]; simpl.
  - split.
    + intros [E|[]]. injection E as <- <-. split; reflexivity.
    + intros [-> E]. injection E as ->. left. reflexivity.
  - split; [intros []|]. intros [_ E]. discriminate.
Qed.

Section Filters.

Variable engine : Engine.

Lemma filterOnClient_passes (filter : CourseFilter.t) (l : list Course.t) :
  CourseService.filterOnClient engine filter l
  = List.filter (passesCourseFilter engine filter)
      (List.map (CourseService.transformCourse engine) l).
Proof.
  unfold CourseService.filterOnClient.
  set (fetched := List.map (CourseService.transformCourse engine) l).
  rewrite (filter_optional (CourseFilter.minPrice filter)
             (fun minPrice c => Qle_bool minPrice (Course.price c)) fetched).
  rewrite (filter_optional (CourseFilter.maxPrice filter)
             (fun maxPrice c => Qle_bool (Course.price c) maxPrice)).
  rewrite (filter_optional (Js.truthy_string (CourseFilter.searchTerm filter))
             (fun searchTerm => CourseService.matchesTerm engine
                                  (toLowerCase engine searchTerm))).
  rewrite !filter_filter. apply filter_ext. intros c.
  unfold passesCourseFilter. rewrite <- andb_assoc. f_equal. f_equal.
  destruct (CourseFilter.searchTerm filter) as [k|]; simpl; [|reflexivity].
  destruct (String.eqb k ""); reflexivity.
Qed.

(** X4.  When the fetch succeeds, [filterCourses(filter)] emits, in the
    fetched order, exactly the fetched, transformed courses that satisfy
    every client-side criterion that is given: price at least [minPrice]
    and at most [maxPrice] (a bound of [0] counts as given) and, for a
    non-empty search term, title, description or instructor containing it
    in lower case.  The query carries [category] and [level] when they are
    non-empty and [isActive] whenever it is defined, also when it is
    [false]. *)
Theorem X4_filterCourses_result (filter : CourseFilter.t) (w : World)
    (body : list Course.t) :
  Resource.query (courses (backend w (List.length (requests w))))
    (CourseService.courseParams filter) = HttpOk body ->
  CourseService.filterCourses engine filter w
  = (Next (List.filter (passesCourseFilter engine filter)
             (List.map (CourseService.transformCourse engine) body)),
     log_request (GET CourseService.apiUrl (CourseService.courseParams filter)) w)
  /\ (forall c : Course.t,
        passesCourseFilter engine filter c = true
        <-> (forall lo, CourseFilter.minPrice filter = Some lo -> lo <= Course.price c)
            /\ (forall hi, CourseFilter.maxPrice filter = Some hi -> Course.price c <= hi)
            /\ (forall k, CourseFilter.searchTerm filter = Some k -> k <> "" ->
                  let term := toLowerCase engine k in
                  Js.includes (toLowerCase engine (Course.title c)) term = true
                  \/ Js.includes (toLowerCase engine (Course.description c)) term = true
                  \/ Js.includes (toLowerCase engine (Course.instructor c)) term = true))
  /\ (forall name value : string,
        In (name, value) (CourseService.courseParams filter)
        <-> (name = "category" /\ CourseFilter.category filter = Some value
             /\ value <> "")
            \/ (name = "level" /\ CourseFilter.level filter = Some value /\ value <> "")
            \/ (name = "isActive"
                /\ exists b, CourseFilter.isActive filter = Some b
                             /\ value = Boolean_toString b)).
Proof.
  intros H. split; [|split].
  - unfold CourseService.filterCourses, Rx.catchError, Rx.map, exchange.
    rewrite H. rewrite filterOnClient_passes. reflexivity.
  - intros c. unfold passesCourseFilter, CourseService.matchesTerm.
    rewrite !andb_true_iff. split.
    + intros [[Hlo Hhi] Hk]. repeat split.
      * intros lo E. rewrite E in Hlo. apply Qle_bool_iff. exact Hlo.
      * intros hi E. rewrite E in Hhi. apply Qle_bool_iff. exact Hhi.
      * intros k E N. rewrite E in Hk.
        apply orb_true_iff in Hk. destruct Hk as [Hk|Hk].
        -- apply String.eqb_eq in Hk. contradiction.
        -- simpl. rewrite !orb_true_iff in Hk. tauto.
    + intros (Hlo & Hhi & Hk). repeat split.
      * destruct (CourseFilter.minPrice filter) as [lo|]; [|reflexivity].
        apply Qle_bool_iff. apply Hlo. reflexivity.
      * destruct (CourseFilter.maxPrice filter) as [hi|]; [|reflexivity].
        apply Qle_bool_iff. apply Hhi. reflexivity.
      * destruct (CourseFilter.searchTerm filter) as [k|]; [|reflexivity].
        destruct (String.eqb_spec k ""); [reflexivity|]. simpl.
        specialize (Hk k eq_refl n). simpl in Hk.
        rewrite !orb_true_iff. tauto.
  - intros name value. unfold CourseService.courseParams.
    rewrite !in_app_iff, !In_param, !truthy_string_Some. split.
    + intros [[-> [E N]]|[[-> [E N]]|[-> E]]].
      * left. tauto.
      * right. left. tauto.
      * right. right. split; [reflexivity|].
        destruct (CourseFilter.isActive filter) as [b|]; [|discriminate].
        exists b. simpl in E. injection E as <-. split; reflexivity.
    + intros [(-> & E & N)|[(-> & E & N)|(-> & b & E & ->)]].
      * left. tauto.
      * right. left. tauto.
      * right. right. rewrite E. split; reflexivity.
Qed.

Lemma filterByDates_passes (filter : EnrollmentFilter.t) (l : list Enrollment.t) :
  EnrollmentService.filterByDates engine filter l
  = List.filter (passesDateRange engine filter)
      (List.map (EnrollmentService.transformEnrollment engine) l).
Proof.
  unfold EnrollmentService.filterByDates.
  set (fetched := List.map (EnrollmentService.transformEnrollment engine) l).
  rewrite (filter_optional (EnrollmentService.truthy_date (EnrollmentFilter.dateFrom filter))
             (fun dateFrom e =>
                Date_ge (new_Date engine (Enrollment.enrollmentDate e))
                  (new_Date engine dateFrom)) fetched).
  rewrite (filter_optional (EnrollmentService.truthy_date (EnrollmentFilter.dateTo filter))
             (fun dateTo e =>
                Date_le (new_Date engine (Enrollment.enrollmentDate e))
                  (new_Date engine dateTo))).
  rewrite filter_filter. apply filter_ext. intros e.
  unfold passesDateRange, EnrollmentService.truthy_date. f_equal.
  - destruct (EnrollmentFilter.dateFrom filter) as [lo|]; [|reflexivity].
    destruct (truthy lo); reflexivity.
  - destruct (EnrollmentFilter.dateTo filter) as [hi|]; [|reflexivity].
    destruct (truthy hi); reflexivity.
Qed.

(** X5.  When the fetch succeeds, [filterEnrollments(filter)] emits, in
    the fetched order, exactly the fetched, transformed enrollments whose
    enrollment date lies within the bounds that are given and not empty;
    an enrollment whose date is invalid never passes a bound, and a
    non-empty [dateFrom] that does not parse as a date leaves no
    enrollment at all.  The query carries [courseId] and [studentId] only
    when they are defined and not [0]. *)
Theorem X5_filterEnrollments_result (filter : EnrollmentFilter.t) (w : World)
    (body : list Enrollment.t) :
  Resource.query (enrollments (backend w (List.length (requests w))))
    (EnrollmentService.enrollmentParams filter) = HttpOk body ->
  EnrollmentService.filterEnrollments engine filter w
  = (Next (List.filter (passesDateRange engine filter)
             (List.map (EnrollmentService.transformEnrollment engine) body)),
     log_request
       (GET EnrollmentService.apiUrl (EnrollmentService.enrollmentParams filter)) w)
  /\ (forall e : Enrollment.t,
        passesDateRange engine filter e = true
        <-> (forall lo, EnrollmentFilter.dateFrom filter = Some lo -> truthy lo = true ->
               exists t t0,
                 getTime (new_Date engine (Enrollment.enrollmentDate e)) = Some t
                 /\ getTime (new_Date engine lo) = Some t0 /\ (t0 <= t)%Z)
            /\ (forall hi, EnrollmentFilter.dateTo filter = Some hi -> truthy hi = true ->
                  exists t t1,
                    getTime (new_Date engine (Enrollment.enrollmentDate e)) = Some t
                    /\ getTime (new_Date engine hi) = Some t1 /\ (t <= t1)%Z))
  /\ (forall s : string,
        EnrollmentFilter.dateFrom filter = Some (IsString s) -> s <> "" ->
        Date_parse engine s = None ->
        fst (EnrollmentService.filterEnrollments engine filter w) = Next [])
  /\ (forall name value : string,
        In (name, value) (EnrollmentService.enrollmentParams filter)
        <-> (name = "courseId"
             /\ exists id, EnrollmentFilter.courseId filter = Some id /\ id <> 0%Z
                           /\ value = Number_toString id)
            \/ (name = "studentId"
                /\ exists id, EnrollmentFilter.studentId filter = Some id /\ id <> 0%Z
                              /\ value = Number_toString id)
            \/ (name = "status"
                /\ exists s, EnrollmentFilter.status filter = Some s
                             /\ value = EnrollmentStatus_value s)).
Proof.
  intros H.
  assert (R : EnrollmentService.filterEnrollments engine filter w
              = (Next (List.filter (passesDateRange engine filter)
                         (List.map (EnrollmentService.transformEnrollment engine) body)),
                 log_request
                   (GET EnrollmentService.apiUrl
                      (EnrollmentService.enrollmentParams filter)) w)).
  { unfold EnrollmentService.filterEnrollments, Rx.catchError, Rx.map, exchange.
    rewrite H. rewrite filterByDates_passes. reflexivity. }
  split; [exact R|split; [|split]].
  - intros e. unfold passesDateRange, Date_ge, Date_le.
    rewrite andb_true_iff. split.
    + intros [Hlo Hhi]. split.
      * intros lo E T. rewrite E, T in Hlo. simpl in Hlo.
        destruct (getTime (new_Date engine (Enrollment.enrollmentDate e))) as [t|];
          [|discriminate].
        destruct (getTime (new_Date engine lo)) as [t0|]; [|discriminate].
        exists t, t0. repeat split. apply Z.leb_le. exact Hlo.
      * intros hi E T. rewrite E, T in Hhi. simpl in Hhi.
        destruct (getTime (new_Date engine (Enrollment.enrollmentDate e))) as [t|];
          [|discriminate].
        destruct (getTime (new_Date engine hi)) as [t1|]; [|discriminate].
        exists t, t1. repeat split. apply Z.leb_le. exact Hhi.
    + intros [Hlo Hhi]. split.
      * destruct (EnrollmentFilter.dateFrom filter) as [lo|]; [|reflexivity].
        destruct (truthy lo) eqn:T; [|reflexivity]. simpl.
        destruct (Hlo lo eq_refl T) as (t & t0 & -> & -> & L).
        apply Z.leb_le. exact L.
      * destruct (EnrollmentFilter.dateTo filter) as [hi|]; [|reflexivity].
        destruct (truthy hi) eqn:T; [|reflexivity]. simpl.
        destruct (Hhi hi eq_refl T) as (t & t1 & -> & -> & L).
        apply Z.leb_le. exact L.
  - intros s E N P. rewrite R. simpl. f_equal.
    apply filter_none. intros e _. unfold passesDateRange. rewrite E. simpl.
    destruct (String.eqb_spec s ""); [contradiction|]. simpl.
    unfold Date_ge. simpl. rewrite P.
    destruct (getTime (new_Date engine (Enrollment.enrollmentDate e))); reflexivity.
  - intros name value. unfold EnrollmentService.enrollmentParams.
    rewrite !in_app_iff, !In_param. split.
    + intros [[-> E]|[[-> E]|[-> E]]].
      * left. split; [reflexivity|].
        destruct (Js.truthy_number (EnrollmentFilter.courseId filter)) as [id|] eqn:T;
          [|discriminate].
        apply truthy_number_Some in T. injection E as <-. exists id. tauto.
      * right. left. split; [reflexivity|].
        destruct (Js.truthy_number (EnrollmentFilter.studentId filter)) as [id|] eqn:T;
          [|discriminate].
        apply truthy_number_Some in T. injection E as <-. exists id. tauto.
      * right. right. split; [reflexivity|].
        destruct (EnrollmentFilter.status filter) as [s|]; [|discriminate].
        injection E as <-. exists s. split; reflexivity.
    + intros [(-> & id & E & N & ->)|[(-> & id & E & N & ->)|(-> & s & E & ->)]].
      * left. split; [reflexivity|].
        assert (T : Js.truthy_number (EnrollmentFilter.courseId filter) = Some id)
          by (apply truthy_number_Some; tauto).
        rewrite T. reflexivity.
      * right. left. split; [reflexivity|].
        assert (T : Js.truthy_number (EnrollmentFilter.studentId filter) = Some id)
          by (apply truthy_number_Some; tauto).
        rewrite T. reflexivity.
      * right. right. rewrite E. split; reflexivity.
Qed.

End Filters.

(** Courses between 50 and 100; enrollments since the first of March,
    and since a day that is no date. *)
Lemma X4_filterCourses_result_witness :
  fst (CourseService.filterCourses ReferenceEngine.engine
         (CourseFilter.mk None None (Some 50) (Some 100) (Some "") (Some false))
         (Example.start Example.theServer))
  = Next [CourseService.transformCourse ReferenceEngine.engine Example.webAdvanced]
  /\ requests
       (snd (CourseService.filterCourses ReferenceEngine.engine
               (CourseFilter.mk None None (Some 50) (Some 100) (Some "") (Some false))
               (Example.start Example.theServer)))
     = [GET "http://localhost:3000/courses" [("isActive", "false")]].
Proof.
  destruct (X4_filterCourses_result ReferenceEngine.engine
              (CourseFilter.mk None None (Some 50) (Some 100) (Some "") (Some false))
              (Example.start Example.theServer) (body := Example.theCourses) eq_refl)
    as (R & _).
  rewrite R. split; reflexivity.
Defined.

Lemma X5_filterEnrollments_result_witness :
  (exists kept,
     fst (EnrollmentService.filterEnrollments ReferenceEngine.engine
            (EnrollmentFilter.mk (Some 0%Z) None None
               (Some (IsString "2024-03-01")) None)
            (Example.start Example.theServer))
     = Next kept
     /\ List.map Enrollment.id kept = [2%Z; 3%Z])
  /\ requests
       (snd (EnrollmentService.filterEnrollments ReferenceEngine.engine
               (EnrollmentFilter.mk (Some 0%Z) None None
                  (Some (IsString "2024-03-01")) None)
               (Example.start Example.theServer)))
     = [GET "http://localhost:3000/enrollments" []]
  /\ fst (EnrollmentService.filterEnrollments ReferenceEngine.engine
            (EnrollmentFilter.mk None None None (Some (IsString "soon")) None)
            (Example.start Example.theServer))
     = Next [].
Proof.
  split; [|split].
  - destruct (X5_filterEnrollments_result ReferenceEngine.engine
                (EnrollmentFilter.mk (Some 0%Z) None None
                   (Some (IsString "2024-03-01")) None)
                (Example.start Example.theServer) (body := Example.theEnrollments)
                eq_refl) as (R & _).
    rewrite R. eexists. split; reflexivity.
  - reflexivity.
  - destruct (X5_filterEnrollments_result ReferenceEngine.engine
                (EnrollmentFilter.mk None None None (Some (IsString "soon")) None)
                (Example.start Example.theServer) (body := Example.theEnrollments)
                eq_refl) as (_ & _ & E & _).
    apply (E "soon"); [reflexivity|discriminate|reflexivity].
Defined.

(** ** Searching through a filter and through a search *)

Section Searching.

Variable engine : Engine.

(** X6.  A non-empty keyword gives the same students through
    [filterStudents({ searchTerm })] as through [searchStudents]: same
    request, same result, same log.  For courses the two differ:
    [searchCourses] also looks at the category, so what
    [filterCourses({ searchTerm })] emits is what [searchCourses] emits
    with the courses dropped that match by their category only. *)
Theorem X6_search_and_filter_by_term (k : string) (w : World) :
  k <> "" ->
  StudentService.filterStudents engine (studentTermOnly k) w
  = StudentService.searchStudents engine k w
  /\ snd (CourseService.filterCourses engine (courseTermOnly k) w)
     = snd (CourseService.searchCourses engine k w)
  /\ (forall found : list Course.t,
        fst (CourseService.searchCourses engine k w) = Next found ->
        fst (CourseService.filterCourses engine (courseTermOnly k) w)
        = Next (List.filter
                  (CourseService.matchesTerm engine (toLowerCase engine k)) found))
  /\ (forall e : ErrorValue,
        fst (CourseService.searchCourses engine k w) = Error e ->
        fst (CourseService.filterCourses engine (courseTermOnly k) w) = Error e).
Proof.
  intros N.
  assert (T : String.eqb k "" = false) by (apply String.eqb_neq; exact N).
  split; [|split; [|split]].
  - unfold StudentService.filterStudents, StudentService.searchStudents,
      StudentService.getAllStudents, StudentService.studentParams,
      Rx.catchError, Rx.map, exchange. simpl. rewrite T.
    destruct (Resource.query (students (backend w (List.length (requests w)))) []);
      reflexivity.
  - unfold CourseService.filterCourses, CourseService.searchCourses,
      CourseService.getAllCourses, CourseService.courseParams,
      Rx.catchError, Rx.map, exchange. simpl.
    destruct (Resource.query (courses (backend w (List.length (requests w)))) []);
      reflexivity.
  - intros found.
    unfold CourseService.filterCourses, CourseService.searchCourses,
      CourseService.getAllCourses, CourseService.courseParams,
      CourseService.filterOnClient, Rx.catchError, Rx.map, exchange. simpl. rewrite T.
    destruct (Resource.query (courses (backend w (List.length (requests w)))) [])
      as [body|e]; simpl; [|discriminate].
    intros E. injection E as <-. f_equal.
    rewrite filter_filter. apply filter_ext. intros c.
    unfold CourseService.matchesTerm.
    destruct (Js.includes (toLowerCase engine (Course.title c)) (toLowerCase engine k));
      destruct (Js.includes (toLowerCase engine (Course.description c))
                  (toLowerCase engine k));
      destruct (Js.includes (toLowerCase engine (Course.category c))
                  (toLowerCase engine k));
      destruct (Js.includes (toLowerCase engine (Course.instructor c))
                  (toLowerCase engine k)); reflexivity.
  - intros e.
    unfold CourseService.filterCourses, CourseService.searchCourses,
      CourseService.getAllCourses, CourseService.courseParams,
      Rx.catchError, Rx.map, exchange. simpl.
    destruct (Resource.query (courses (backend w (List.length (requests w)))) [])
      as [body|e']; simpl; [discriminate|].
    intros E. exact E.
Qed.

End Searching.

(** Searching the sample catalogue for "web": both ways find the two web
    courses, whose titles carry the word. *)
Lemma X6_search_and_filter_by_term_witness :
  StudentService.filterStudents ReferenceEngine.engine (studentTermOnly "ali")
    (Example.start Example.theServer)
  = StudentService.searchStudents ReferenceEngine.engine "ali"
      (Example.start Example.theServer)
  /\ (exists found,
        fst (CourseService.filterCourses ReferenceEngine.engine (courseTermOnly "Web")
               (Example.start Example.theServer))
        = Next found
        /\ List.map Course.id found = [1%Z; 2%Z]).
Proof.
  destruct (X6_search_and_filter_by_term ReferenceEngine.engine
              (k := "ali") (Example.start Example.theServer)) as (S & _);
    [discriminate|].
  split; [exact S|].
  destruct (X6_search_and_filter_by_term ReferenceEngine.engine
              (k := "Web") (Example.start Example.theServer)) as (_ & _ & F & _);
    [discriminate|].
  eexists. split.
  - apply F. reflexivity.
  - reflexivity.
Defined.

(** ** Operations that only read *)

Section OnlyReads.

Variable engine : Engine.

Lemma includesId_In (ids : list Z) (id : Z) :
  StudentService.includesId ids id = true <-> In id ids.
Proof.
  unfold StudentService.includesId. rewrite existsb_exists. split.
  - intros (x & Hx & E). apply Z.eqb_eq in E. subst. exact Hx.
  - intros H. exists id. split; [exact H|apply Z.eqb_refl].
Qed.

(** X7.  [enrollInCourse] and [unenrollFromCourse] never write: whatever
    the backend answers, the one request they issue is the GET of the
    student.  On a fetched student they emit that student, transformed,
    with a changed array of course ids only: [enrollInCourse] adds the
    course at the end unless it is there already, [unenrollFromCourse]
    drops every occurrence of it. *)
Theorem X7_enrollInCourse_only_reads (studentId courseId : Z) (w : World) :
  let enrolled := StudentService.enrollInCourse engine studentId courseId w in
  let unenrolled := StudentService.unenrollFromCourse engine studentId courseId w in
  let request := GET (item_url StudentService.apiUrl studentId) [] in
  requests (snd enrolled) = requests w ++ [request]
  /\ requests (snd unenrolled) = requests w ++ [request]
  /\ (forall fetched : Student.t,
        Resource.item (students (backend w (List.length (requests w)))) studentId
        = HttpOk fetched ->
        exists ids ids' : list Z,
          fst enrolled
          = Next (StudentService.withEnrolledCourses
                    (StudentService.transformStudent engine fetched) ids)
          /\ fst unenrolled
             = Next (StudentService.withEnrolledCourses
                       (StudentService.transformStudent engine fetched) ids')
          /\ (In courseId (Student.enrolledCourses fetched) ->
              ids = Student.enrolledCourses fetched)
          /\ (~ In courseId (Student.enrolledCourses fetched) ->
              ids = Student.enrolledCourses fetched ++ [courseId])
          /\ (forall id, In id ids' <->
                         id <> courseId /\ In id (Student.enrolledCourses fetched))).
Proof.
  intros enrolled unenrolled request.
  unfold enrolled, unenrolled, StudentService.enrollInCourse,
    StudentService.unenrollFromCourse, StudentService.getStudentById,
    StudentService.handleError, Rx.catchError, Rx.map, Rx.throwError, exchange.
  destruct (Resource.item (students (backend w (List.length (requests w)))) studentId)
    as [student|e]; simpl.
  - split; [reflexivity|split; [reflexivity|]].
    intros fetched E. injection E as ->.
    destruct (StudentService.includesId (Student.enrolledCourses fetched) courseId)
      eqn:I; simpl.
    + exists (Student.enrolledCourses fetched). eexists.
      split; [|split; [reflexivity|split; [reflexivity|split]]].
      * reflexivity.
      * intros N. apply includesId_In in I. contradiction.
      * intros id. rewrite filter_In, negb_true_iff, Z.eqb_neq. tauto.
    + exists (Student.enrolledCourses fetched ++ [courseId]). eexists.
      split; [reflexivity|split; [reflexivity|split; [|split; [reflexivity|]]]].
      * intros Y. apply includesId_In in Y. congruence.
      * intros id. rewrite filter_In, negb_true_iff, Z.eqb_neq. tauto.
  - split; [reflexivity|split; [reflexivity|]]. intros fetched E. discriminate.
Qed.

(** ** Enrollments with details *)

Lemma withDetails_found (e : Enrollment.t) (c : Course.t) (s : Student.t) (w : World) :
  Resource.item (courses (backend w (List.length (requests w)))) (Enrollment.courseId e)
  = HttpOk c ->
  Resource.item (students (backend w (S (List.length (requests w)))))
    (Enrollment.studentId e) = HttpOk s ->
  EnrollmentService.withDetails engine
    (EnrollmentService.transformEnrollment engine e) w
  = (Next (joinedWith engine e c s), afterRequests (detailRequests e) w).
Proof.
  intros Hc Hs.
  unfold EnrollmentService.withDetails, CourseService.getCourseById,
    StudentService.getStudentById.
  unfold Rx.forkJoin2, Rx.switchMap, Rx.map, Rx.of_, Rx.catchError, exchange.
  simpl. rewrite Hc. simpl. rewrite length_app. simpl.
  rewrite Nat.add_1_r. rewrite Hs. simpl.
  reflexivity.
Qed.

Lemma forkJoin_details (server : Server) (body : list Enrollment.t)
    (courseOf : Z -> Course.t) (studentOf : Z -> Student.t) (w : World) :
  (forall n, backend w n = server) ->
  (forall e, In e body ->
     Resource.item (courses server) (Enrollment.courseId e)
     = HttpOk (courseOf (Enrollment.courseId e))) ->
  (forall e, In e body ->
     Resource.item (students server) (Enrollment.studentId e)
     = HttpOk (studentOf (Enrollment.studentId e))) ->
  Rx.forkJoin
    (List.map (EnrollmentService.withDetails engine)
       (List.map (EnrollmentService.transformEnrollment engine) body)) w
  = (Next (List.map
             (fun e => joinedWith engine e (courseOf (Enrollment.courseId e))
                         (studentOf (Enrollment.studentId e)))
             body),
     afterRequests (flat_map detailRequests body) w).
Proof.
  revert w. induction body as [|e body IH]; intros w B Hc Hs; simpl; [reflexivity|].
  unfold Rx.map, Rx.forkJoin2.
  rewrite (@withDetails_found e (courseOf (Enrollment.courseId e))
             (studentOf (Enrollment.studentId e)) w).
  - rewrite IH.
    + rewrite <- afterRequests_app. reflexivity.
    + intros n. rewrite backend_afterRequests. apply B.
    + intros x Hx. apply Hc. right. exact Hx.
    + intros x Hx. apply Hs. right. exact Hx.
  - rewrite B. apply Hc. left. reflexivity.
  - rewrite B. apply Hs. left. reflexivity.
Qed.

Lemma getAllEnrollmentsWithDetails_stable (server : Server)
    (body : list Enrollment.t) (courseOf : Z -> Course.t) (studentOf : Z -> Student.t)
    (w : World) :
  (forall n, backend w n = server) ->
  Resource.query (enrollments server) [] = HttpOk body ->
  (forall e, In e body ->
     Resource.item (courses server) (Enrollment.courseId e)
     = HttpOk (courseOf (Enrollment.courseId e))) ->
  (forall e, In e body ->
     Resource.item (students server) (Enrollment.studentId e)
     = HttpOk (studentOf (Enrollment.studentId e))) ->
  EnrollmentService.getAllEnrollmentsWithDetails engine w
  = (Next (List.map
             (fun e => joinedWith engine e (courseOf (Enrollment.courseId e))
                         (studentOf (Enrollment.studentId e)))
             body),
     afterRequests (flat_map detailRequests body)
       (log_request (GET EnrollmentService.apiUrl []) w)).
Proof.
  intros B Hq Hc Hs.
  unfold EnrollmentService.getAllEnrollmentsWithDetails,
    EnrollmentService.getAllEnrollments, Rx.catchError, Rx.switchMap, Rx.map, exchange.
  rewrite B, Hq. rewrite length_map.
  destruct body as [|e body]; [reflexivity|].
  change (List.length (e :: body) =? 0)%nat with false. cbv iota.
  rewrite (@forkJoin_details server (e :: body) courseOf studentOf); auto.
Qed.

Lemma length_detailRequests (body : list Enrollment.t) :
  List.length (flat_map detailRequests body) = (2 * List.length body)%nat.
Proof.
  induction body as [|e body IH]; simpl; [reflexivity|]. rewrite IH. lia.
Qed.

(** X8.  In front of a backend that answers the same throughout and
    knows the course and the student of every enrollment,
    [getAllEnrollmentsWithDetails] emits one record per enrollment, in
    the fetched order: the transformed enrollment with the title and
    category of the course that has its [courseId] and the name and email
    of the student that has its [studentId].  It issues one GET for the
    collection and then, enrollment by enrollment, one GET for the course
    and one for the student: 1 + 2n requests for n enrollments.  Nothing
    is logged. *)
Theorem X8_getAllEnrollmentsWithDetails_joins (server : Server)
    (body : list Enrollment.t) (courseOf : Z -> Course.t) (studentOf : Z -> Student.t)
    (w : World) :
  (forall n, backend w n = server) ->
  Resource.query (enrollments server) [] = HttpOk body ->
  (forall e, In e body ->
     Resource.item (courses server) (Enrollment.courseId e)
     = HttpOk (courseOf (Enrollment.courseId e))) ->
  (forall e, In e body ->
     Resource.item (students server) (Enrollment.studentId e)
     = HttpOk (studentOf (Enrollment.studentId e))) ->
  let run := EnrollmentService.getAllEnrollmentsWithDetails engine w in
  fst run
  = Next (List.map
            (fun e => joinedWith engine e (courseOf (Enrollment.courseId e))
                        (studentOf (Enrollment.studentId e)))
            body)
  /\ requests (snd run)
     = requests w ++ GET EnrollmentService.apiUrl [] :: flat_map detailRequests body
  /\ List.length (requests (snd run))
     = (List.length (requests w) + 1 + 2 * List.length body)%nat
  /\ console (snd run) = console w.
Proof.
  intros B Hq Hc Hs run.
  unfold run.
  rewrite (@getAllEnrollmentsWithDetails_stable server body courseOf studentOf w B Hq Hc Hs).
  simpl.
  assert (Q : requests
                (afterRequests (flat_map detailRequests body)
                   (log_request (GET EnrollmentService.apiUrl []) w))
              = requests w ++ GET EnrollmentService.apiUrl [] :: flat_map detailRequests body).
  { rewrite requests_afterRequests. simpl. rewrite <- app_assoc. reflexivity. }
  split; [reflexivity|split; [exact Q|split]].
  - rewrite Q. rewrite length_app. simpl. rewrite length_detailRequests. lia.
  - rewrite console_afterRequests. reflexivity.
Qed.

(** X9.  When the three look-ups succeed, [getEnrollmentWithDetails(id)]
    fetches the enrollment, then the course by the enrollment's
    [courseId], then the student by its [studentId], and emits the
    transformed enrollment with the names read from those two records. *)
Theorem X9_getEnrollmentWithDetails_joins (id : Z) (w : World)
    (e : Enrollment.t) (c : Course.t) (s : Student.t) :
  let n := List.length (requests w) in
  Resource.item (enrollments (backend w n)) id = HttpOk e ->
  Resource.item (courses (backend w (S n))) (Enrollment.courseId e) = HttpOk c ->
  Resource.item (students (backend w (S (S n)))) (Enrollment.studentId e) = HttpOk s ->
  let run := EnrollmentService.getEnrollmentWithDetails engine id w in
  fst run = Next (joinedWith engine e c s)
  /\ requests (snd run)
     = requests w
       ++ [GET (item_url EnrollmentService.apiUrl id) [];
           GET (item_url CourseService.apiUrl (Enrollment.courseId e)) [];
           GET (item_url StudentService.apiUrl (Enrollment.studentId e)) []]
  /\ console (snd run) = console w.
Proof.
  intros n He Hc Hs run.
  assert (R : run
              = (Next (joinedWith engine e c s),
                 afterRequests (detailRequests e)
                   (log_request (GET (item_url EnrollmentService.apiUrl id) []) w))).
  { unfold run, EnrollmentService.getEnrollmentWithDetails,
      EnrollmentService.getEnrollmentById, Rx.catchError, Rx.switchMap, Rx.map, exchange.
    fold n. rewrite He.
    rewrite (@withDetails_found e c s).
    - reflexivity.
    - simpl. rewrite length_app. simpl. rewrite Nat.add_1_r. exact Hc.
    - simpl. rewrite length_app. simpl. rewrite Nat.add_1_r. exact Hs. }
  rewrite R. simpl. split; [reflexivity|split; [|reflexivity]].
  rewrite <- !app_assoc. reflexivity.
Qed.

End OnlyReads.

(** Enrolling Alice in the statistics course and unenrolling her again
    issue one GET each and leave the backend as it was. *)
Lemma X7_enrollInCourse_only_reads_witness :
  requests
    (snd (StudentService.enrollInCourse ReferenceEngine.engine 1 3
            (Example.start Example.theServer)))
  = [GET "http://localhost:3000/students/1" []]
  /\ exists ids ids' : list Z,
       fst (StudentService.enrollInCourse ReferenceEngine.engine 1 3
              (Example.start Example.theServer))
       = Next (StudentService.withEnrolledCourses
                 (StudentService.transformStudent ReferenceEngine.engine Example.alice)
                 ids)
       /\ fst (StudentService.unenrollFromCourse ReferenceEngine.engine 1 3
                 (Example.start Example.theServer))
          = Next (StudentService.withEnrolledCourses
                    (StudentService.transformStudent ReferenceEngine.engine Example.alice)
                    ids')
       /\ ids = [3%Z] /\ ids' = [].
Proof.
  destruct (X7_enrollInCourse_only_reads ReferenceEngine.engine 1 3
              (Example.start Example.theServer)) as (R & _ & F).
  split; [exact R|].
  destruct (F Example.alice eq_refl) as (ids & ids' & E & U & _ & A & D).
  exists ids, ids'. split; [exact E|split; [exact U|split]].
  - apply A. intros [].
  - destruct ids' as [|x ids']; [reflexivity|].
    destruct (D x) as [D' _]. destruct D' as [_ []]. left. reflexivity.
Defined.

(** The four sample enrollments joined with the sample courses and
    students: nine requests. *)
Lemma X8_getAllEnrollmentsWithDetails_joins_witness :
  let run :=
    EnrollmentService.getAllEnrollmentsWithDetails ReferenceEngine.engine
      (Example.start Example.theServer) in
  (exists details,
     fst run = Next details
     /\ List.map EnrollmentWithDetails.courseName details
        = [Some "Web Basics"; Some "Statistics"; Some "Web Basics"; Some "Web Advanced"]
     /\ List.map EnrollmentWithDetails.studentName details
        = [Some "Alice"; Some "Alice"; Some "Bob"; Some "Bob"])
  /\ List.length (requests (snd run)) = 9%nat.
Proof.
  intros run.
  destruct (X8_getAllEnrollmentsWithDetails_joins ReferenceEngine.engine
              (server := Example.theServer) (body := Example.theEnrollments)
              (fun id => if (id =? 1)%Z then Example.webBasics
                         else if (id =? 2)%Z then Example.webAdvanced
                         else Example.statistics)
              (fun id => if (id =? 1)%Z then Example.alice else Example.bob)
              (Example.start Example.theServer))
    as (R & _ & L & _).
  - intros n. reflexivity.
  - reflexivity.
  - intros e [<-|[<-|[<-|[<-|[]]]]]; reflexivity.
  - intros e [<-|[<-|[<-|[<-|[]]]]]; reflexivity.
  - split.
    + eexists. split; [exact R|]. split; reflexivity.
    + exact L.
Defined.

Lemma X9_getEnrollmentWithDetails_joins_witness :
  let run :=
    EnrollmentService.getEnrollmentWithDetails ReferenceEngine.engine 2
      (Example.start Example.theServer) in
  (exists details,
     fst run = Next details
     /\ EnrollmentWithDetails.courseName details = Some "Statistics"
     /\ EnrollmentWithDetails.studentName details = Some "Alice")
  /\ requests (snd run)
     = [GET "http://localhost:3000/enrollments/2" [];
        GET "http://localhost:3000/courses/3" [];
        GET "http://localhost:3000/students/1" []].
Proof.
  intros run.
  destruct (X9_getEnrollmentWithDetails_joins ReferenceEngine.engine 2
              (Example.start Example.theServer)
              (e := Example.enrollment 2 3 1 "2024-03-05" IN_PROGRESS 40 None)
              (c := Example.statistics) (s := Example.alice)
              eq_refl eq_refl eq_refl) as (R & Q & _).
  split.
  - eexists. split; [exact R|]. split; reflexivity.
  - exact Q.
Defined.

(** ** Creating an enrollment *)

Section Creating.

Variable engine : Engine.

(** X10.  Whatever the request and the backend, [createEnrollment] first
    POSTs a body with the course and student ids of the request, status
    'Enrolled' and progress 0, dated with the request's date when it is
    given and not empty and with the current instant in ISO form
    otherwise.  If the POST fails nothing else is requested; if it
    succeeds the collections of courses and of students are fetched
    again, in this order. *)
Theorem X10_createEnrollment_requests (request : EnrollmentRequest.t) (w : World) :
  let run := EnrollmentService.createEnrollment engine request w in
  exists (body : PartialEnrollment.t) (tail : list HttpRequest),
    requests (snd run)
    = requests w ++ POST EnrollmentService.apiUrl (EnrollmentBody body) :: tail
    /\ PartialEnrollment.courseId body = Some (EnrollmentRequest.courseId request)
    /\ PartialEnrollment.studentId body = Some (EnrollmentRequest.studentId request)
    /\ PartialEnrollment.status body = Some ENROLLED
    /\ PartialEnrollment.progress body = Some 0
    /\ PartialEnrollment.keys body
       = ["courseId"; "studentId"; "enrollmentDate"; "status"; "progress"]
    /\ (forall d, EnrollmentRequest.enrollmentDate request = Some d -> truthy d = true ->
          PartialEnrollment.enrollmentDate body = Some d)
    /\ ((EnrollmentRequest.enrollmentDate request = None
         \/ EnrollmentRequest.enrollmentDate request = Some (IsString "")) ->
        PartialEnrollment.enrollmentDate body = Some (IsString (iso_at engine w 0)))
    /\ (forall e, fst run = Error e -> tail = [])
    /\ (forall created, fst run = Next created ->
          tail = [GET CourseService.apiUrl []; GET StudentService.apiUrl []]).
Proof.
  intros run. unfold run, EnrollmentService.createEnrollment.
  destruct (EnrollmentService.requestedDate engine request w) as [date w0] eqn:D.
  assert (Rq : requests w0 = requests w).
  { unfold EnrollmentService.requestedDate, now_iso, Date_now in D.
    destruct (EnrollmentRequest.enrollmentDate request) as [d|];
      [destruct (truthy d)|]; injection D as <- <-; reflexivity. }
  exists (EnrollmentService.newEnrollmentBody request date).
  unfold Rx.catchError, Rx.map, Rx.tap, exchange.
  destruct (Resource.create (enrollments (backend w0 (List.length (requests w0))))
              (EnrollmentService.newEnrollmentBody request date)) as [created|e].
  - exists [GET CourseService.apiUrl []; GET StudentService.apiUrl []].
    split; [|repeat split].
    + simpl. unfold EnrollmentService.cache_append, EnrollmentService.refreshRelated,
        StudentService.refreshCache,
        CourseService.refreshCache, StudentService.loadAllStudents,
        CourseService.loadAllCourses, Rx.subscribe,
        StudentService.getAllStudents, CourseService.getAllCourses,
        StudentService.handleError, CourseService.handleError,
        Rx.catchError, Rx.map, Rx.throwError, exchange.
      simpl.
      destruct (Resource.query (courses _) []); simpl;
        destruct (Resource.query (students _) []); simpl;
        destruct (overtakes w0 _);
        simpl; rewrite Rq, <- !app_assoc; reflexivity.
    + intros d E T. unfold EnrollmentService.requestedDate in D. rewrite E, T in D.
      injection D as <- _. reflexivity.
    + intros [E|E]; unfold EnrollmentService.requestedDate in D; rewrite E in D;
        simpl in D; unfold now_iso, Date_now in D; injection D as <- _; reflexivity.
    + intros e E. discriminate.
  - exists []. split; [|repeat split].
    + simpl. rewrite Rq. reflexivity.
    + intros d E T. unfold EnrollmentService.requestedDate in D. rewrite E, T in D.
      injection D as <- _. reflexivity.
    + intros [E|E]; unfold EnrollmentService.requestedDate in D; rewrite E in D;
        simpl in D; unfold now_iso, Date_now in D; injection D as <- _; reflexivity.
    + intros created E. discriminate.
Qed.

End Creating.

(** An enrollment without a date, created at 09:00 on the fifteenth of
    March. *)
Lemma X10_createEnrollment_requests_witness :
  exists body : PartialEnrollment.t,
    requests
      (snd (EnrollmentService.createEnrollment ReferenceEngine.engine
              (EnrollmentRequest.mk 2 1 None) (Example.start Example.theServer)))
    = [POST "http://localhost:3000/enrollments" (EnrollmentBody body);
       GET "http://localhost:3000/courses" [];
       GET "http://localhost:3000/students" []]
    /\ PartialEnrollment.enrollmentDate body
       = Some (IsString "2024-03-15T09:00:00.000Z").
Proof.
  destruct (X10_createEnrollment_requests ReferenceEngine.engine
              (EnrollmentRequest.mk 2 1 None) (Example.start Example.theServer))
    as (body & tail & R & _ & _ & _ & _ & _ & _ & D & _ & T).
  exists body. split.
  - rewrite R. rewrite (T (EnrollmentService.transformEnrollment ReferenceEngine.engine
                             (Example.enrollment 5 2 1 "2024-03-15" ENROLLED 0 None)));
      reflexivity.
  - rewrite D; [reflexivity|]. left. reflexivity.
Defined.

(** ** Invariants of the statistics *)

Lemma round2_between (x : Q) : 0 <= x -> x <= 100 -> 0 <= Js.round2 x <= 100.
Proof.
  intros L U. unfold Js.round2, Js.Math_round.
  assert (F0 : (0 <= Qfloor (x * 100 + (1 # 2)))%Z).
  { change 0%Z with (Qfloor 0). apply Qfloor_resp_le. lra. }
  assert (F1 : (Qfloor (x * 100 + (1 # 2)) <= 10000)%Z).
  { change 10000%Z with (Qfloor (10000 + (1 # 2))). apply Qfloor_resp_le. lra. }
  assert (I0 : 0 <= inject_Z (Qfloor (x * 100 + (1 # 2)))).
  { change 0 with (inject_Z 0). rewrite <- Zle_Qle. exact F0. }
  assert (I1 : inject_Z (Qfloor (x * 100 + (1 # 2))) <= 10000).
  { change 10000 with (inject_Z 10000). rewrite <- Zle_Qle. exact F1. }
  split.
  - apply Qle_shift_div_l; [reflexivity|]. lra.
  - apply Qle_shift_div_r; [reflexivity|]. lra.
Qed.

Lemma round2_zero : Js.round2 0 == 0.
Proof. reflexivity. Qed.

Lemma total_between (lo hi : Q) (values : list Q) :
  Forall (fun v => lo <= v <= hi) values ->
  lo * inject_Z (Z.of_nat (List.length values)) <= total values
  /\ total values <= hi * inject_Z (Z.of_nat (List.length values)).
Proof.
  induction 1 as [|v values [Hl Hh] _ [IHl IHh]].
  - cbn [total List.length Z.of_nat]. change (inject_Z 0) with 0. split; lra.
  - cbn [total List.length]. rewrite Nat2Z.inj_succ. unfold Z.succ.
    rewrite inject_Z_plus. split.
    + rewrite Qmult_plus_distr_r. change (inject_Z 1) with 1. lra.
    + rewrite Qmult_plus_distr_r. change (inject_Z 1) with 1. lra.
Qed.

Lemma mean_between (lo hi : Q) (values : list Q) :
  lo <= 0 -> 0 <= hi ->
  Forall (fun v => lo <= v <= hi) values -> lo <= mean values <= hi.
Proof.
  intros L U F. destruct values as [|v values]; [simpl; split; assumption|].
  rewrite mean_as_quotient by discriminate.
  destruct (total_between F) as [Tl Th].
  set (n := inject_Z (Z.of_nat (List.length (v :: values)))) in *.
  assert (P : 0 < n).
  { unfold n. change 0 with (inject_Z 0). rewrite <- Zlt_Qlt. simpl. lia. }
  split.
  - apply Qle_shift_div_l; [exact P|]. exact Tl.
  - apply Qle_shift_div_r; [exact P|]. exact Th.
Qed.

Lemma numberOf_le {A : Type} (p : A -> bool) (l : list A) :
  (numberOf p l <= List.length l)%nat.
Proof.
  induction l as [|x l IH]; simpl; [lia|]. destruct (p x); lia.
Qed.

Lemma numberOf_by_status (l : list Enrollment.t) :
  (numberOf (hasStatus ENROLLED) l + numberOf (hasStatus IN_PROGRESS) l
   + numberOf (hasStatus COMPLETED) l + numberOf (hasStatus DROPPED) l
   + numberOf (hasStatus SUSPENDED) l + numberOf (hasStatus PENDING) l
   = List.length l)%nat.
Proof.
  induction l as [|e l IH]; [reflexivity|].
  cbn [numberOf List.length].
  assert (H : forall s, hasStatus s e = true <-> Enrollment.status e = s).
  { intros s. unfold hasStatus.
    destruct (EnrollmentStatus_eq_dec (Enrollment.status e) s); split;
      congruence. }
  destruct (Enrollment.status e) eqn:S;
    repeat match goal with
      | |- context [hasStatus ?s e] =>
          let B := fresh "B" in
          destruct (hasStatus s e) eqn:B;
          [apply H in B; try discriminate B|]
      end;
    try lia;
    match goal with
    | B : hasStatus ?s e = false |- _ =>
        exfalso; assert (T : hasStatus s e = true) by (apply H; reflexivity);
        congruence
    end.
Qed.

Lemma len_positive {A : Type} (l : list A) : (0 <? List.length l)%nat = true -> 0 < Js.len l.
Proof.
  intros N. apply Nat.ltb_lt in N. unfold Js.len.
  change 0 with (inject_Z 0). rewrite <- Zlt_Qlt. lia.
Qed.

(** [total > 0 ? (part / total) * 100 : 0] for a part of the list. *)
Lemma rate_between {A : Type} (part : nat) (l : list A) :
  (part <= List.length l)%nat ->
  0 <= (if (0 <? List.length l)%nat
        then inject_Z (Z.of_nat part) / Js.len l * 100 else 0) <= 100.
Proof.
  intros H. destruct (0 <? List.length l)%nat eqn:N; [|split; lra].
  pose proof (len_positive l N) as P.
  assert (L : 0 <= inject_Z (Z.of_nat part)).
  { change 0 with (inject_Z 0). rewrite <- Zle_Qle. lia. }
  assert (U : inject_Z (Z.of_nat part) <= Js.len l).
  { unfold Js.len. rewrite <- Zle_Qle. lia. }
  assert (Q0 : 0 <= inject_Z (Z.of_nat part) / Js.len l).
  { apply Qle_shift_div_l; [exact P|]. lra. }
  assert (Q1 : inject_Z (Z.of_nat part) / Js.len l <= 1).
  { apply Qle_shift_div_r; [exact P|]. lra. }
  split; lra.
Qed.

(** [n > 0 ? sum / n : 0] for values between [0] and [hi]. *)
Lemma average_between {A : Type} (f : A -> Q) (hi : Q) (l : list A) :
  0 <= hi ->
  Forall (fun x => 0 <= f x <= hi) l ->
  0 <= (if (0 <? List.length l)%nat then Js.reduce_sum f l / Js.len l else 0) <= hi.
Proof.
  intros U F. destruct (0 <? List.length l)%nat eqn:N; [|split; lra].
  pose proof (len_positive l N) as P.
  assert (F' : Forall (fun v => 0 <= v <= hi) (List.map f l))
    by (rewrite Forall_map; exact F).
  destruct (total_between F') as [Tl Th]. rewrite length_map in Tl, Th.
  fold (Js.len l) in Tl, Th.
  split.
  - apply Qle_shift_div_l; [exact P|]. rewrite reduce_sum_total. lra.
  - apply Qle_shift_div_r; [exact P|]. rewrite reduce_sum_total. lra.
Qed.

Lemma or_zero_between (x hi : Q) : 0 <= x <= hi -> 0 <= Js.or_zero x <= hi.
Proof. intros H. rewrite or_zero_id. exact H. Qed.

(** X11.  The statistics [getEnrollmentStats] computes from a list of
    enrollments keep their counts and rates in bounds: active, completed,
    dropped, suspended and pending enrollments add up to the total; the
    completion rate lies between 0 and 100; when every progress (every
    grade) lies between 0 and 100, so does the average progress (the
    average grade); and for no enrollment all three rates are 0. *)
Theorem X11_enrollmentStats_invariants (l : list Enrollment.t) :
  let stats := EnrollmentService.enrollmentStats l in
  (EnrollmentStats.activeEnrollments stats + EnrollmentStats.completedEnrollments stats
   + EnrollmentStats.droppedEnrollments stats
   + numberOf (hasStatus SUSPENDED) l + numberOf (hasStatus PENDING) l
   = EnrollmentStats.totalEnrollments stats)%nat
  /\ 0 <= EnrollmentStats.completionRate stats <= 100
  /\ (Forall (fun e => 0 <= Enrollment.progress e <= 100) l ->
      0 <= EnrollmentStats.averageProgress stats <= 100)
  /\ (Forall (fun e => forall g, Enrollment.grade e = Some g -> 0 <= g <= 100) l ->
      0 <= EnrollmentStats.averageGrade stats <= 100)
  /\ (l = [] ->
      EnrollmentStats.completionRate stats == 0
      /\ EnrollmentStats.averageProgress stats == 0
      /\ EnrollmentStats.averageGrade stats == 0).
Proof.
  intros stats.
  destruct (enrollmentStats_counts l) as (Ht & Ha & Hc & Hd).
  fold stats in Ht, Ha, Hc, Hd.
  split; [|split; [|split; [|split]]].
  - rewrite Ht, Ha, Hc, Hd.
    rewrite numberOf_or_disjoint.
    + pose proof (numberOf_by_status l). lia.
    + intros e. unfold hasStatus.
      destruct (EnrollmentStatus_eq_dec (Enrollment.status e) ENROLLED) as [E|E];
        [|discriminate].
      intros _. rewrite E.
      destruct (EnrollmentStatus_eq_dec ENROLLED IN_PROGRESS); [discriminate|reflexivity].
  - unfold stats, EnrollmentService.enrollmentStats. cbn [EnrollmentStats.completionRate].
    pose proof (@rate_between _
                  (List.length
                     (filter (fun e => status_eqb (Enrollment.status e) COMPLETED) l))
                  l (filter_length_le _ l)) as [R0 R1].
    apply round2_between; assumption.
  - intros F.
    unfold stats, EnrollmentService.enrollmentStats.
    cbn [EnrollmentStats.averageProgress].
    assert (B : 0 <= (if (0 <? List.length l)%nat
                      then Js.reduce_sum (fun e => Js.or_zero (Enrollment.progress e)) l
                           / Js.len l
                      else 0) <= 100).
    { apply average_between; [lra|].
      eapply Forall_impl; [|exact F]. intros e He. apply or_zero_between. exact He. }
    destruct B as [B0 B1]. apply round2_between; assumption.
  - intros F.
    unfold stats, EnrollmentService.enrollmentStats.
    cbn [EnrollmentStats.averageGrade].
    assert (B : 0 <= (if (0 <? List.length (filter EnrollmentService.grade_defined l))%nat
                      then Js.reduce_sum (fun e => Js.opt_or_zero (Enrollment.grade e))
                             (filter EnrollmentService.grade_defined l)
                           / Js.len (filter EnrollmentService.grade_defined l)
                      else 0) <= 100).
    { apply average_between; [lra|].
      apply Forall_forall. intros e He. apply filter_In in He. destruct He as [He _].
      rewrite Forall_forall in F. specialize (F e He).
      destruct (Enrollment.grade e) as [g|]; simpl; [|split; lra].
      apply or_zero_between. apply F. reflexivity. }
    destruct B as [B0 B1]. apply round2_between; assumption.
  - intros ->. unfold stats. simpl. repeat split; reflexivity.
Qed.

(** The sample enrollments have progress 100, 40, 0, 10 and grades 90, 55. *)
Lemma X11_enrollmentStats_invariants_witness :
  let stats := EnrollmentService.enrollmentStats Example.theEnrollments in
  0 <= EnrollmentStats.averageProgress stats <= 100
  /\ 0 <= EnrollmentStats.averageGrade stats <= 100
  /\ ([] = Example.theEnrollments -> EnrollmentStats.completionRate stats == 0).
Proof.
  intros stats.
  destruct (X11_enrollmentStats_invariants Example.theEnrollments)
    as (_ & _ & P & G & E).
  split; [|split].
  - apply P. unfold Example.theEnrollments.
    repeat (apply Forall_cons; [simpl; lra|]). apply Forall_nil.
  - apply G. unfold Example.theEnrollments.
    repeat (apply Forall_cons;
            [intros g H; simpl in H; try discriminate H; injection H as <-; lra|]).
    apply Forall_nil.
  - intros H. apply E. symmetry. exact H.
Defined.

(** ** Performance of a course and of a student *)

Section Performance.

Variable engine : Engine.

(** X12.  When its two fetches succeed, [getCoursePerformance(courseId)]
    emits the transformed course with figures that agree with what
    [getEnrollmentStats] computes from the same enrollments: the same
    total, completed and dropped counts, the same average progress and
    average grade, and a completion rate that is the unrounded form of the
    statistics' one.  Its 'In Progress' count is at most the statistics'
    active count, its completion rate lies between 0 and 100, and its
    revenue is the number of enrollments times the price of the course.
    [getStudentPerformance(studentId)] agrees in the same way, and counts
    no more certificates than enrollments. *)
Theorem X12_performance_agrees_with_statistics (id : Z) (w : World)
    (course : Course.t) (student : Student.t) (body : list Enrollment.t) :
  let n := List.length (requests w) in
  let fetched := List.map (EnrollmentService.transformEnrollment engine) body in
  let stats := EnrollmentService.enrollmentStats fetched in
  (Resource.item (courses (backend w n)) id = HttpOk course ->
   Resource.query (enrollments (backend w (S n))) [("courseId", Number_toString id)]
   = HttpOk body ->
   exists p : CoursePerformance.t,
     fst (DashboardService.getCoursePerformance engine id w) = Next p
     /\ CoursePerformance.course p = CourseService.transformCourse engine course
     /\ CoursePerformance.totalEnrollments p = EnrollmentStats.totalEnrollments stats
     /\ CoursePerformance.completed p = EnrollmentStats.completedEnrollments stats
     /\ CoursePerformance.dropped p = EnrollmentStats.droppedEnrollments stats
     /\ (CoursePerformance.inProgress p <= EnrollmentStats.activeEnrollments stats)%nat
     /\ CoursePerformance.averageProgress p = EnrollmentStats.averageProgress stats
     /\ CoursePerformance.averageGrade p = EnrollmentStats.averageGrade stats
     /\ Js.round2 (CoursePerformance.completionRate p)
        = EnrollmentStats.completionRate stats
     /\ 0 <= CoursePerformance.completionRate p <= 100
     /\ CoursePerformance.revenue p
        == inject_Z (Z.of_nat (List.length body)) * Course.price course)
  /\ (Resource.item (students (backend w n)) id = HttpOk student ->
      Resource.query (enrollments (backend w (S n))) [("studentId", Number_toString id)]
      = HttpOk body ->
      exists p : StudentPerformance.t,
        fst (DashboardService.getStudentPerformance engine id w) = Next p
        /\ StudentPerformance.student p = StudentService.transformStudent engine student
        /\ StudentPerformance.totalCourses p = EnrollmentStats.totalEnrollments stats
        /\ StudentPerformance.completed p = EnrollmentStats.completedEnrollments stats
        /\ (StudentPerformance.inProgress p <= EnrollmentStats.activeEnrollments stats)%nat
        /\ StudentPerformance.averageProgress p = EnrollmentStats.averageProgress stats
        /\ StudentPerformance.averageGrade p = EnrollmentStats.averageGrade stats
        /\ Js.round2 (StudentPerformance.completionRate p)
           = EnrollmentStats.completionRate stats
        /\ 0 <= StudentPerformance.completionRate p <= 100
        /\ (StudentPerformance.certificatesEarned p
            <= StudentPerformance.totalCourses p)%nat).
Proof.
  intros n fetched stats.
  assert (Active : forall l : list Enrollment.t,
             (DashboardService.countStatus "In Progress" l
              <= List.length (filter EnrollmentService.isActive l))%nat).
  { intros l. unfold DashboardService.countStatus.
    induction l as [|e l IH]; simpl; [lia|].
    unfold EnrollmentService.isActive at 1, status_eqb.
    destruct (Enrollment.status e); simpl; lia. }
  split.
  - intros Hc Hq. eexists. split.
    + unfold DashboardService.getCoursePerformance, CourseService.getCourseById,
        EnrollmentService.getEnrollmentsByCourse.
      unfold Rx.forkJoin2, Rx.switchMap, Rx.map, Rx.catchError, exchange.
      fold n. rewrite Hc. simpl. rewrite length_app. simpl.
      rewrite Nat.add_1_r. fold n. rewrite Hq. reflexivity.
    + repeat split; try reflexivity.
      * apply Active.
      * cbn [CoursePerformance.completionRate].
        apply (@rate_between _ (DashboardService.countStatus "Completed" fetched) fetched).
        apply filter_length_le.
      * cbn [CoursePerformance.completionRate].
        apply (@rate_between _ (DashboardService.countStatus "Completed" fetched) fetched).
        apply filter_length_le.
      * cbn [CoursePerformance.revenue]. unfold Js.len, fetched.
        rewrite length_map. reflexivity.
  - intros Hs Hq. eexists. split.
    + unfold DashboardService.getStudentPerformance, StudentService.getStudentById,
        EnrollmentService.getEnrollmentsByStudent.
      unfold Rx.forkJoin2, Rx.switchMap, Rx.map, Rx.catchError, exchange.
      fold n. rewrite Hs. simpl. rewrite length_app. simpl.
      rewrite Nat.add_1_r. fold n. rewrite Hq. reflexivity.
    + repeat split; try reflexivity.
      * apply Active.
      * cbn [StudentPerformance.completionRate].
        apply (@rate_between _ (DashboardService.countStatus "Completed" fetched) fetched).
        apply filter_length_le.
      * cbn [StudentPerformance.completionRate].
        apply (@rate_between _ (DashboardService.countStatus "Completed" fetched) fetched).
        apply filter_length_le.
      * cbn [StudentPerformance.certificatesEarned StudentPerformance.totalCourses].
        apply filter_length_le.
Qed.

End Performance.

(** The performance of the first sample course in front of the sample
    backend, which answers every enrollment query with the four sample
    enrollments. *)
Lemma X12_performance_agrees_with_statistics_witness :
  exists p : CoursePerformance.t,
    fst (DashboardService.getCoursePerformance ReferenceEngine.engine 1
           (Example.start Example.theServer)) = Next p
    /\ CoursePerformance.totalEnrollments p = 4%nat
    /\ CoursePerformance.completed p = 1%nat
    /\ CoursePerformance.revenue p == 4 * (4999 # 100).
Proof.
  destruct (X12_performance_agrees_with_statistics ReferenceEngine.engine 1
              (Example.start Example.theServer) Example.webBasics Example.alice
              Example.theEnrollments) as (C & _).
  destruct (C eq_refl eq_refl) as (p & R & _ & T & K & _ & _ & _ & _ & _ & _ & V).
  exists p. split; [exact R|]. split; [|split].
  - rewrite T. reflexivity.
  - rewrite K. reflexivity.
  - rewrite V. reflexivity.
Defined.

(** ** Transforming twice *)

Section TransformTwice.

Variable engine : Engine.

Lemma toDate_again (v : DateOrString) :
  toDate engine (toDate engine v) = toDate engine v.
Proof. destruct v; reflexivity. Qed.

Lemma toDateOpt_again (v : option DateOrString) :
  toDateOpt engine (toDateOpt engine v) = toDateOpt engine v.
Proof.
  destruct v as [[d|s]|]; simpl; try reflexivity.
  destruct (String.eqb s "") eqn:E; simpl; [rewrite E|]; reflexivity.
Qed.

(** X13.  The three transform steps are idempotent: a record that went
    through [transformStudent], [transformCourse] or [transformEnrollment]
    comes out of a second pass unchanged.  A pass changes no date either:
    the required date field denotes the same instant before and after. *)
Theorem X13_transform_is_idempotent
    (student : Student.t) (course : Course.t) (enrollment : Enrollment.t) :
  StudentService.transformStudent engine (StudentService.transformStudent engine student)
  = StudentService.transformStudent engine student
  /\ CourseService.transformCourse engine (CourseService.transformCourse engine course)
     = CourseService.transformCourse engine course
  /\ EnrollmentService.transformEnrollment engine
       (EnrollmentService.transformEnrollment engine enrollment)
     = EnrollmentService.transformEnrollment engine enrollment
  /\ new_Date engine
       (Student.createdAt (StudentService.transformStudent engine student))
     = new_Date engine (Student.createdAt student)
  /\ new_Date engine (Course.createdAt (CourseService.transformCourse engine course))
     = new_Date engine (Course.createdAt course)
  /\ new_Date engine
       (Enrollment.enrollmentDate
          (EnrollmentService.transformEnrollment engine enrollment))
     = new_Date engine (Enrollment.enrollmentDate enrollment).
Proof.
  repeat split.
  - unfold StudentService.transformStudent. simpl.
    rewrite toDate_again, !toDateOpt_again. reflexivity.
  - unfold CourseService.transformCourse. simpl.
    rewrite toDate_again, toDateOpt_again. reflexivity.
  - unfold EnrollmentService.transformEnrollment. simpl.
    rewrite toDate_again, !toDateOpt_again. reflexivity.
  - apply new_Date_toDate.
  - apply new_Date_toDate.
  - apply new_Date_toDate.
Qed.

End TransformTwice.

(** ** Totals of the category distribution *)

Lemma coursesOf_cons (k : string) (c : Course.t) (cs : list Course.t) :
  coursesOf k (c :: cs)
  = (if String.eqb (Course.category c) k then [c] else []) ++ coursesOf k cs.
Proof.
  unfold coursesOf. simpl. destruct (String.eqb (Course.category c) k); reflexivity.
Qed.

(** Summing a weight over the courses of each category, category by
    category, is summing it over all the courses. *)
Lemma list_sum_cons (x : nat) (l : list nat) : list_sum (x :: l) = (x + list_sum l)%nat.
Proof. reflexivity. Qed.

Lemma sum_by_category (f : Course.t -> nat) (keys : list string) (cs : list Course.t) :
  NoDup keys ->
  (forall c, In c cs -> In (Course.category c) keys) ->
  list_sum (List.map (fun k => list_sum (List.map f (coursesOf k cs))) keys)
  = list_sum (List.map f cs).
Proof.
  intros ND. induction cs as [|c cs IH]; intros Hin.
  - clear. induction keys as [|k keys IHk]; [reflexivity|].
    simpl. exact IHk.
  - rewrite map_cons, list_sum_cons.
    rewrite <- IH by (intros x Hx; apply Hin; right; exact Hx).
    assert (Hc : In (Course.category c) keys) by (apply Hin; left; reflexivity).
    clear IH Hin. revert ND Hc.
    induction keys as [|k keys IHk]; intros ND Hc; [destruct Hc|].
    inversion ND as [|? ? Hnot ND']; subst.
    rewrite !map_cons, !list_sum_cons. rewrite coursesOf_cons.
    rewrite map_app, list_sum_app.
    destruct (String.eqb_spec (Course.category c) k) as [E|E].
    + assert (Z : list_sum
                    (List.map (fun k0 => list_sum (List.map f (coursesOf k0 (c :: cs)))) keys)
                  = list_sum
                      (List.map (fun k0 => list_sum (List.map f (coursesOf k0 cs))) keys)).
      { f_equal. apply map_ext_in. intros k0 Hk0. rewrite coursesOf_cons.
        destruct (String.eqb_spec (Course.category c) k0) as [E0|E0]; [|reflexivity].
        exfalso. apply Hnot. congruence. }
      rewrite Z. simpl. lia.
    + destruct Hc as [Hc|Hc]; [congruence|].
      rewrite (IHk ND' Hc). simpl. lia.
Qed.

Section CategoryTotals.

Variables (courses : list Course.t) (enrollments : list Enrollment.t).

(** X14.  The category distribution loses no course and no enrollment
    count: the course counts of its records add up to the number of
    courses, and the enrollment counts to the sum, over all courses, of
    the number of enrollments that reference the course. *)
Theorem X14_category_distribution_totals :
  let result := DashboardService.calculateCategoryDistribution courses enrollments in
  list_sum (List.map CategoryStats.courseCount result) = List.length courses
  /\ list_sum (List.map CategoryStats.enrollmentCount result)
     = list_sum (List.map (referencing enrollments) courses).
Proof.
  intros result.
  set (m := fold_left (DashboardService.addCourse enrollments) courses JsMap.empty).
  destruct (categoryMap_mapOf enrollments courses) as (ND & Keys & Desc).
  fold m in ND, Keys, Desc.
  assert (P : Permutation
                (JsArray.sort
                   (fun a b =>
                      inject_Z (Z.of_nat (CategoryStats.enrollmentCount b))
                      - inject_Z (Z.of_nat (CategoryStats.enrollmentCount a)))
                   (JsMap.values m))
                (JsMap.values m)) by apply sort_perm.
  assert (Sum : forall (g : CategoryStats.t -> nat) (f : Course.t -> nat),
             (forall k v, In (k, v) m -> g v = list_sum (List.map f (coursesOf k courses))) ->
             list_sum (List.map g (JsMap.values m)) = list_sum (List.map f courses)).
  { intros g f H.
    rewrite <- (@sum_by_category f (JsMap.keys m) courses ND).
    - unfold JsMap.values, JsMap.keys. rewrite !map_map. f_equal.
      apply map_ext_in. intros [k v] Hkv. simpl. apply H. exact Hkv.
    - intros c Hc. apply Keys. apply in_map. exact Hc. }
  assert (C : List.map CategoryStats.courseCount result
              = List.map CategoryStats.courseCount
                  (JsArray.sort
                     (fun a b =>
                        inject_Z (Z.of_nat (CategoryStats.enrollmentCount b))
                        - inject_Z (Z.of_nat (CategoryStats.enrollmentCount a)))
                     (JsMap.values m))).
  { unfold result, DashboardService.calculateCategoryDistribution. fold m.
    rewrite map_map. reflexivity. }
  assert (E : List.map CategoryStats.enrollmentCount result
              = List.map CategoryStats.enrollmentCount
                  (JsArray.sort
                     (fun a b =>
                        inject_Z (Z.of_nat (CategoryStats.enrollmentCount b))
                        - inject_Z (Z.of_nat (CategoryStats.enrollmentCount a)))
                     (JsMap.values m))).
  { unfold result, DashboardService.calculateCategoryDistribution. fold m.
    rewrite map_map. reflexivity. }
  rewrite C, E.
  split.
  - rewrite (Permutation_list_sum (Permutation_map CategoryStats.courseCount P)).
    rewrite (Sum CategoryStats.courseCount (fun _ => 1%nat)).
    + clear. induction courses as [|c cs IH]; simpl; [reflexivity|]. rewrite IH. reflexivity.
    + intros k v Hkv. destruct (Desc k v Hkv) as (_ & Hc & _). rewrite Hc.
      clear. induction (coursesOf k courses) as [|c cs IH]; simpl; [reflexivity|].
      rewrite <- IH. reflexivity.
  - rewrite (Permutation_list_sum (Permutation_map CategoryStats.enrollmentCount P)).
    apply Sum. intros k v Hkv. destruct (Desc k v Hkv) as (_ & _ & He & _). exact He.
Qed.

End CategoryTotals.

(** ** The dashboard statistics as a whole *)

Section WholeDashboard.

Variable engine : Engine.

Lemma getAllCourses_stable (server : Server) (body : list Course.t) (w : World) :
  (forall n, backend w n = server) ->
  Resource.query (courses server) [] = HttpOk body ->
  CourseService.getAllCourses engine w
  = (Next (List.map (CourseService.transformCourse engine) body),
     log_request (GET CourseService.apiUrl []) w).
Proof.
  intros B H.
  unfold CourseService.getAllCourses, Rx.catchError, Rx.map, exchange.
  rewrite B, H. reflexivity.
Qed.

Lemma getAllStudents_stable (server : Server) (body : list Student.t) (w : World) :
  (forall n, backend w n = server) ->
  Resource.query (students server) [] = HttpOk body ->
  StudentService.getAllStudents engine w
  = (Next (List.map (StudentService.transformStudent engine) body),
     log_request (GET StudentService.apiUrl []) w).
Proof.
  intros B H.
  unfold StudentService.getAllStudents, Rx.catchError, Rx.map, exchange.
  rewrite B, H. reflexivity.
Qed.

Lemma getAllEnrollments_stable (server : Server) (body : list Enrollment.t) (w : World) :
  (forall n, backend w n = server) ->
  Resource.query (enrollments server) [] = HttpOk body ->
  EnrollmentService.getAllEnrollments engine w
  = (Next (List.map (EnrollmentService.transformEnrollment engine) body),
     log_request (GET EnrollmentService.apiUrl []) w).
Proof.
  intros B H.
  unfold EnrollmentService.getAllEnrollments, Rx.catchError, Rx.map, exchange.
  rewrite B, H. reflexivity.
Qed.

Lemma forkJoin2_next {A B : Type} (a : Observable A) (b : Observable B)
    (x : A) (y : B) (w w1 w2 : World) :
  a w = (Next x, w1) -> b w1 = (Next y, w2) ->
  Rx.forkJoin2 a b w = (Next (x, y), w2).
Proof.
  intros Ha Hb. unfold Rx.forkJoin2, Rx.switchMap, Rx.map.
  rewrite Ha, Hb. reflexivity.
Qed.

(** X24.  In front of a backend that answers the same throughout and
    knows the course and the student of every enrollment,
    [getDashboardStats] does not fall back: it emits statistics built from
    the three fetched collections, after 6 + 2n GETs for n enrollments (the
    courses twice, the enrollments three times, the students once and the
    two look-ups per enrollment) and without logging.  In them the totals
    are the sizes of the collections it hands on, active and completed
    enrollments together do not exceed the total, the new students of the
    month do not exceed the students, at most five popular courses and
    five recent enrollments are listed, and the trend has six months. *)
Theorem X24_getDashboardStats_is_consistent (server : Server)
    (courseBody : list Course.t) (studentBody : list Student.t)
    (enrollmentBody : list Enrollment.t)
    (courseOf : Z -> Course.t) (studentOf : Z -> Student.t) (w : World) :
  (forall n, backend w n = server) ->
  Resource.query (courses server) [] = HttpOk courseBody ->
  Resource.query (students server) [] = HttpOk studentBody ->
  Resource.query (enrollments server) [] = HttpOk enrollmentBody ->
  (forall e, In e enrollmentBody ->
     Resource.item (courses server) (Enrollment.courseId e)
     = HttpOk (courseOf (Enrollment.courseId e))) ->
  (forall e, In e enrollmentBody ->
     Resource.item (students server) (Enrollment.studentId e)
     = HttpOk (studentOf (Enrollment.studentId e))) ->
  exists (stats : DashboardStats.t) (w' : World),
    DashboardService.getDashboardStats engine w = (Next stats, w')
    /\ List.length (requests w')
       = (List.length (requests w) + 6 + 2 * List.length enrollmentBody)%nat
    /\ console w' = console w
    /\ DashboardStats.courses stats
       = Some (List.map (CourseService.transformCourse engine) courseBody)
    /\ DashboardStats.students stats
       = Some (List.map (StudentService.transformStudent engine) studentBody)
    /\ DashboardStats.allEnrollments stats
       = Some (List.map (EnrollmentService.transformEnrollment engine) enrollmentBody)
    /\ DashboardStats.totalCourses stats = List.length courseBody
    /\ DashboardStats.totalStudents stats = List.length studentBody
    /\ DashboardStats.totalEnrollments stats = List.length enrollmentBody
    /\ (DashboardStats.activeEnrollments stats + DashboardStats.completedEnrollments stats
        <= DashboardStats.totalEnrollments stats)%nat
    /\ (DashboardStats.newStudentsThisMonth stats <= DashboardStats.totalStudents stats)%nat
    /\ List.length (DashboardStats.popularCourses stats)
       = Nat.min 5 (List.length courseBody)
    /\ List.length (DashboardStats.recentEnrollments stats)
       = Nat.min 5 (List.length enrollmentBody)
    /\ List.length (DashboardStats.enrollmentTrends stats) = 6%nat.
Proof.
  intros B Hc Hs He Ic Is.
  set (courses := List.map (CourseService.transformCourse engine) courseBody).
  set (students := List.map (StudentService.transformStudent engine) studentBody).
  set (enrollments :=
         List.map (EnrollmentService.transformEnrollment engine) enrollmentBody).
  set (w1 := log_request (GET CourseService.apiUrl []) w).
  set (w2 := log_request (GET StudentService.apiUrl []) w1).
  set (w3 := log_request (GET EnrollmentService.apiUrl []) w2).
  set (w4 := log_request (GET EnrollmentService.apiUrl []) w3).
  set (w5 := log_request (GET CourseService.apiUrl []) w4).
  set (w6 := afterRequests (flat_map detailRequests enrollmentBody)
               (log_request (GET EnrollmentService.apiUrl []) w5)).
  set (details :=
         List.map
           (fun e => joinedWith engine e (courseOf (Enrollment.courseId e))
                       (studentOf (Enrollment.studentId e)))
           enrollmentBody).
  assert (J : DashboardService.joinedSources engine w
              = (Next (courses, (students, (enrollments,
                       (EnrollmentService.enrollmentStats enrollments,
                        (JsArray.slice0 5
                           (JsArray.sort
                              (fun a b => Course.popularity b - Course.popularity a)
                              courses),
                         JsArray.slice0 5
                           (JsArray.sort
                              (fun a b =>
                                 let dateA :=
                                   new_Date engine
                                     (Enrollment.enrollmentDate
                                        (EnrollmentWithDetails.enrollment a)) in
                                 let dateB :=
                                   new_Date engine
                                     (Enrollment.enrollmentDate
                                        (EnrollmentWithDetails.enrollment b)) in
                                 time_diff dateB dateA)
                              details)))))),
                 w6)).
  { unfold DashboardService.joinedSources.
    apply forkJoin2_next with (w1 := w1);
      [exact (@getAllCourses_stable server courseBody w B Hc)|].
    apply forkJoin2_next with (w1 := w2);
      [exact (@getAllStudents_stable server studentBody w1 B Hs)|].
    apply forkJoin2_next with (w1 := w3);
      [exact (@getAllEnrollments_stable server enrollmentBody w2 B He)|].
    apply forkJoin2_next with (w1 := w4).
    { unfold EnrollmentService.getEnrollmentStats, Rx.catchError, Rx.map.
      rewrite (@getAllEnrollments_stable server enrollmentBody w3 B He).
      reflexivity. }
    apply forkJoin2_next with (w1 := w5).
    { unfold CourseService.getPopularCourses, Rx.map.
      rewrite (@getAllCourses_stable server courseBody w4 B Hc).
      reflexivity. }
    unfold EnrollmentService.getRecentEnrollments, Rx.map.
    rewrite (@getAllEnrollmentsWithDetails_stable engine server enrollmentBody
               courseOf studentOf w5 B He Ic Is).
    reflexivity. }
  assert (R6 : requests w6
               = requests w
                 ++ [GET CourseService.apiUrl []; GET StudentService.apiUrl [];
                     GET EnrollmentService.apiUrl []; GET EnrollmentService.apiUrl [];
                     GET CourseService.apiUrl []; GET EnrollmentService.apiUrl []]
                 ++ flat_map detailRequests enrollmentBody).
  { unfold w6. rewrite requests_afterRequests. unfold w5, w4, w3, w2, w1. simpl.
    rewrite <- !app_assoc. reflexivity. }
  assert (C6 : console w6 = console w).
  { unfold w6. rewrite console_afterRequests. reflexivity. }
  eexists. eexists. split.
  - unfold DashboardService.getDashboardStats, Rx.catchError, Rx.map_effect.
    rewrite J. unfold DashboardService.dashboardStatsOf,
                 DashboardService.calculateEnrollmentTrends, Date_now.
    reflexivity.
  - cbn [DashboardStats.courses DashboardStats.students DashboardStats.allEnrollments
           DashboardStats.totalCourses DashboardStats.totalStudents
           DashboardStats.totalEnrollments DashboardStats.activeEnrollments
           DashboardStats.completedEnrollments DashboardStats.newStudentsThisMonth
           DashboardStats.popularCourses DashboardStats.recentEnrollments
           DashboardStats.enrollmentTrends requests console tick].
    split; [|split; [|split; [|split; [|split; [|split; [|split; [|split;
      [|split; [|split; [|split; [|split]]]]]]]]]]].
    + rewrite R6. rewrite !length_app. simpl. rewrite length_detailRequests. lia.
    + exact C6.
    + reflexivity.
    + reflexivity.
    + reflexivity.
    + unfold courses. apply length_map.
    + unfold students. apply length_map.
    + cbn [EnrollmentService.enrollmentStats EnrollmentStats.totalEnrollments].
      unfold enrollments. apply length_map.
    + destruct (enrollmentStats_counts enrollments) as (Ht & Ha & Hk & _).
      rewrite Ht, Ha, Hk.
      rewrite numberOf_or_disjoint.
      * pose proof (numberOf_by_status enrollments). lia.
      * intros e. unfold hasStatus.
        destruct (EnrollmentStatus_eq_dec (Enrollment.status e) ENROLLED) as [E|E];
          [|discriminate].
        intros _. rewrite E.
        destruct (EnrollmentStatus_eq_dec ENROLLED IN_PROGRESS);
          [discriminate|reflexivity].
    + apply filter_length_le.
    + rewrite length_map. unfold JsArray.slice0. rewrite length_firstn.
      rewrite (Permutation_length (sort_perm _ courses)).
      unfold courses. rewrite length_map. reflexivity.
    + rewrite length_map. unfold JsArray.slice0. rewrite length_firstn.
      rewrite (Permutation_length (sort_perm _ details)).
      unfold details. rewrite length_map. reflexivity.
    + reflexivity.
Qed.

End WholeDashboard.

(** The dashboard of the sample backend: fourteen requests for its four
    enrollments, three courses and two students. *)
Lemma X24_getDashboardStats_is_consistent_witness :
  exists (stats : DashboardStats.t) (w' : World),
    DashboardService.getDashboardStats ReferenceEngine.engine
      (Example.start Example.theServer) = (Next stats, w')
    /\ List.length (requests w') = 14%nat
    /\ DashboardStats.totalCourses stats = 3%nat
    /\ DashboardStats.totalStudents stats = 2%nat
    /\ DashboardStats.totalEnrollments stats = 4%nat
    /\ List.length (DashboardStats.popularCourses stats) = 3%nat
    /\ List.length (DashboardStats.recentEnrollments stats) = 4%nat.
Proof.
  destruct (@X24_getDashboardStats_is_consistent ReferenceEngine.engine
              Example.theServer Example.theCourses Example.theStudents
              Example.theEnrollments
              (fun id => if (id =? 1)%Z then Example.webBasics
                         else if (id =? 2)%Z then Example.webAdvanced
                         else Example.statistics)
              (fun id => if (id =? 1)%Z then Example.alice else Example.bob)
              (Example.start Example.theServer))
    as (stats & w' & R & Q & _ & _ & _ & _ & C & S & E & _ & _ & P & N & _).
  - intros n. reflexivity.
  - reflexivity.
  - reflexivity.
  - reflexivity.
  - intros e [<-|[<-|[<-|[<-|[]]]]]; reflexivity.
  - intros e [<-|[<-|[<-|[<-|[]]]]]; reflexivity.
  - exists stats, w'. repeat split; assumption.
Defined.

(* ================================================================== *)
(** * Further properties of the components *)
(* ================================================================== *)

(** ** Rounding to integers *)

Lemma Qfloor_ge (z : Z) (x : Q) : (z <= Qfloor x)%Z <-> inject_Z z <= x.
Proof.
  split.
  - intros H. apply Qle_trans with (inject_Z (Qfloor x)).
    + rewrite <- Zle_Qle. exact H.
    + apply Qfloor_le.
  - intros H. rewrite <- (Qfloor_Z z). apply Qfloor_resp_le. exact H.
Qed.

Lemma Qfloor_lt (z : Z) (x : Q) : (Qfloor x < z)%Z <-> x < inject_Z z.
Proof.
  split.
  - intros H. apply Qnot_le_lt. intros C. apply Qfloor_ge in C. lia.
  - intros H. apply Z.nle_gt. intros C. apply Qfloor_ge in C.
    apply (Qlt_not_le _ _ H). exact C.
Qed.

Lemma Math_round_ge (z : Z) (x : Q) :
  (z <= Js.Math_round x)%Z <-> inject_Z z - (1 # 2) <= x.
Proof.
  unfold Js.Math_round. rewrite Qfloor_ge. split; intros H; lra.
Qed.

Lemma Math_round_lt (z : Z) (x : Q) :
  (Js.Math_round x < z)%Z <-> x < inject_Z z - (1 # 2).
Proof.
  unfold Js.Math_round. rewrite Qfloor_lt. split; intros H; lra.
Qed.

(** ** Card trends *)

Section CardTrends.

Import DashboardComponentMethods.

(** X15.  [buildTrend] shows a finite change rounded to the nearest whole
    number and kept within -999 and 999.  From one half upwards the trend
    is 'up' and its text is "+", the number and the suffix; below minus
    one half it is 'down' and its text is the (negative) number and the
    suffix; in between it is 'flat' with text "0" and the suffix.  A
    missing or non-finite change gives the flat trend with text "0%",
    with or without [isPercent]. *)
Theorem X15_buildTrend_rounds_and_clamps (v : Q) (label : string) (isPercent : bool) :
  let trend := buildTrend (Some (Js.Finite v)) label isPercent in
  let shown := Z.max (Z.min (Js.Math_round v) 999) (-999) in
  let suffix := if isPercent then "%" else "" in
  (-999 <= shown <= 999)%Z
  /\ DashboardComponentMethods.label trend = label
  /\ (1 # 2 <= v ->
      direction trend = up /\ (1 <= shown)%Z
      /\ text trend = String.append "+" (String.append (Number_toString shown) suffix))
  /\ (v < - (1 # 2) ->
      direction trend = down /\ (shown <= -1)%Z
      /\ text trend = String.append (Number_toString shown) suffix)
  /\ (- (1 # 2) <= v -> v < 1 # 2 ->
      direction trend = flat /\ text trend = String.append "0" suffix)
  /\ (forall other : Js.JsNumber, Js.isFinite other = false ->
        buildTrend (Some other) label isPercent = mkStatTrend "0%" flat label)
  /\ buildTrend None label isPercent = mkStatTrend "0%" flat label.
Proof.
  intros trend shown suffix.
  split; [unfold shown; lia|]. split; [reflexivity|].
  split; [|split; [|split; [|split]]].
  - intros H.
    assert (R : (1 <= Js.Math_round v)%Z).
    { apply Math_round_ge. change (inject_Z 1) with 1. lra. }
    assert (S : (1 <= shown)%Z) by (unfold shown; lia).
    unfold trend, buildTrend. fold shown.
    assert (G : (shown >? 0)%Z = true) by (apply Z.gtb_lt; lia).
    rewrite G. repeat split. exact S.
  - intros H.
    assert (R : (Js.Math_round v < 0)%Z).
    { apply Math_round_lt. change (inject_Z 0) with 0. lra. }
    assert (S : (shown <= -1)%Z) by (unfold shown; lia).
    unfold trend, buildTrend. fold shown.
    assert (G : (shown >? 0)%Z = false) by (rewrite Z.gtb_ltb; apply Z.ltb_ge; lia).
    assert (L : (shown <? 0)%Z = true) by (apply Z.ltb_lt; lia).
    rewrite G, L. repeat split. exact S.
  - intros L U.
    assert (R0 : (0 <= Js.Math_round v)%Z).
    { apply Math_round_ge. change (inject_Z 0) with 0. lra. }
    assert (R1 : (Js.Math_round v < 1)%Z).
    { apply Math_round_lt. change (inject_Z 1) with 1. lra. }
    assert (S : shown = 0%Z) by (unfold shown; lia).
    unfold trend, buildTrend. fold shown. rewrite S. split; reflexivity.
  - intros other F. destruct other; [discriminate| | |]; reflexivity.
  - reflexivity.
Qed.

Lemma count_nonnegative (n : nat) : 0 <= inject_Z (Z.of_nat n).
Proof. change 0 with (inject_Z 0). rewrite <- Zle_Qle. lia. Qed.

(** X16.  The trend on the enrollments card follows [getGrowth()]: built
    from the monthly series of the statistics it is the trend that
    [buildTrend] makes of the growth figure, for a series of any length
    (a series of fewer than two months gives no growth and a flat card).
    Before the statistics are loaded the growth is 0, and it is never
    below -100. *)
Theorem X16_enrollment_card_follows_growth (stats : DashboardStats.t) (label : string) :
  buildTrendFromSeries (Some (DashboardStats.enrollmentTrends stats))
    enrollments_field label
  = buildTrend (Some (Js.Finite (getGrowth (Some stats)))) label true
  /\ getGrowth None = 0
  /\ - (100) <= getGrowth (Some stats).
Proof.
  unfold buildTrendFromSeries, getGrowth.
  set (trends := DashboardStats.enrollmentTrends stats).
  destruct (List.length trends <? 2)%nat.
  { split; [reflexivity|split; [reflexivity|lra]]. }
  destruct (nth_error trends (List.length trends - 1)) as [lastTrend|];
    [|split; [reflexivity|split; [reflexivity|lra]]].
  destruct (nth_error trends (List.length trends - 2)) as [previousTrend|];
    [|split; [reflexivity|split; [reflexivity|lra]]].
  cbn [read].
  set (lastMonth := inject_Z (Z.of_nat (EnrollmentTrend.enrollments lastTrend))).
  set (previousMonth := inject_Z (Z.of_nat (EnrollmentTrend.enrollments previousTrend))).
  assert (L : 0 <= lastMonth) by apply count_nonnegative.
  assert (P : 0 <= previousMonth) by apply count_nonnegative.
  unfold DashboardComponent.calculatePercentChange.
  destruct (Qeq_bool previousMonth 0) eqn:E.
  - destruct (Js.gt lastMonth 0) eqn:G.
    + apply gt_true in G.
      assert (N : Qeq_bool lastMonth 0 = false).
      { destruct (Qeq_bool lastMonth 0) eqn:Z; [|reflexivity].
        apply Qeq_bool_iff in Z. lra. }
      rewrite N. split; [reflexivity|split; [reflexivity|lra]].
    + apply gt_false in G.
      assert (Z : Qeq_bool lastMonth 0 = true) by (apply Qeq_bool_iff; lra).
      rewrite Z. split; [reflexivity|split; [reflexivity|lra]].
  - apply Qeq_bool_false_neq in E.
    rewrite (div_nonzero (lastMonth - previousMonth) E).
    split; [reflexivity|split; [reflexivity|]].
    assert (Pos : 0 < previousMonth) by lra.
    assert (Q : - (1) <= (lastMonth - previousMonth) / previousMonth).
    { apply Qle_shift_div_l; [exact Pos|]. lra. }
    lra.
Qed.

Lemma fold_max_ge (rest : list Z) (first : Z) :
  (first <= fold_left Z.max rest first)%Z
  /\ forall x, In x rest -> (x <= fold_left Z.max rest first)%Z.
Proof.
  revert first. induction rest as [|y rest IH]; intros first; simpl.
  - split; [lia|]. intros x [].
  - destruct (IH (Z.max first y)) as [H1 H2]. split; [lia|].
    intros x [<-|Hx]; [lia|]. apply H2. exact Hx.
Qed.

Lemma fold_max_in (rest : list Z) (first : Z) :
  In (fold_left Z.max rest first) (first :: rest).
Proof.
  revert first. induction rest as [|y rest IH]; intros first; simpl.
  - left. reflexivity.
  - destruct (IH (Z.max first y)) as [H|H].
    + destruct (Z.max_spec first y) as [[_ E]|[_ E]].
      * right. left. congruence.
      * left. congruence.
    + right. right. exact H.
Qed.

(** X17.  The popularity bar of a course of the list never exceeds 100:
    [getPopularityPercentage] of the enrollment count of any popular course
    is at most 100, it is exactly 100 for a course with the largest count
    when that count is positive, it is not negative for a count that is
    not negative, and it is 0 before the statistics are loaded and when no
    course has an enrollment. *)
Theorem X17_popularity_percentage_bounds (stats : DashboardStats.t) (c : CourseSummary.t) :
  In c (DashboardStats.popularCourses stats) ->
  let shown := getPopularityPercentage (Some stats) (CourseSummary.enrollmentCount c) in
  (shown <= 100)%Z
  /\ ((0 <= CourseSummary.enrollmentCount c)%Z -> (0 <= shown)%Z)
  /\ ((forall c', In c' (DashboardStats.popularCourses stats) ->
         (CourseSummary.enrollmentCount c' <= CourseSummary.enrollmentCount c)%Z) ->
      (0 < CourseSummary.enrollmentCount c)%Z -> shown = 100%Z)
  /\ ((forall c', In c' (DashboardStats.popularCourses stats) ->
         (CourseSummary.enrollmentCount c' <= 0)%Z) -> shown = 0%Z)
  /\ getPopularityPercentage None (CourseSummary.enrollmentCount c) = 0%Z.
Proof.
  intros Hin shown. unfold shown, getPopularityPercentage.
  set (count := CourseSummary.enrollmentCount c).
  assert (Hc : In count (List.map CourseSummary.enrollmentCount
                           (DashboardStats.popularCourses stats)))
    by (apply in_map; exact Hin).
  assert (All : forall x,
             In x (List.map CourseSummary.enrollmentCount
                     (DashboardStats.popularCourses stats)) ->
             exists c', In c' (DashboardStats.popularCourses stats)
                        /\ CourseSummary.enrollmentCount c' = x).
  { intros x Hx. apply in_map_iff in Hx. destruct Hx as (c' & E & Hc').
    exists c'. split; assumption. }
  destruct (List.map CourseSummary.enrollmentCount (DashboardStats.popularCourses stats))
    as [|first rest]; [destruct Hc|].
  set (maxEnrollments := fold_left Z.max rest first).
  destruct (fold_max_ge rest first) as [Mf Mr]. fold maxEnrollments in Mf, Mr.
  pose proof (fold_max_in rest first) as Min. fold maxEnrollments in Min.
  assert (Le : (count <= maxEnrollments)%Z).
  { destruct Hc as [<-|Hc]; [exact Mf|apply Mr; exact Hc]. }
  destruct (maxEnrollments >? 0)%Z eqn:G.
  - apply Z.gtb_lt in G.
    assert (Pos : 0 < inject_Z maxEnrollments).
    { change 0 with (inject_Z 0). rewrite <- Zlt_Qlt. exact G. }
    assert (Q1 : inject_Z count / inject_Z maxEnrollments <= 1).
    { apply Qle_shift_div_r; [exact Pos|]. rewrite Qmult_1_l. rewrite <- Zle_Qle. exact Le. }
    split; [|split; [|split; [|split]]].
    + apply Z.lt_succ_r. apply Math_round_lt.
      change (inject_Z (Z.succ 100)) with 101. lra.
    + intros N. apply Math_round_ge. change (inject_Z 0) with 0.
      assert (Q0 : 0 <= inject_Z count / inject_Z maxEnrollments).
      { apply Qle_shift_div_l; [exact Pos|]. rewrite Qmult_0_l.
        change 0 with (inject_Z 0). rewrite <- Zle_Qle. exact N. }
      lra.
    + intros Top _.
      assert (E : maxEnrollments = count).
      { apply Z.le_antisymm; [|exact Le].
        destruct (All maxEnrollments Min) as (c' & Hc' & <-). apply Top. exact Hc'. }
      rewrite E.
      assert (One : inject_Z count / inject_Z count * 100 == 100).
      { rewrite E in Pos. field. lra. }
      unfold Js.Math_round. rewrite (Qfloor_comp _ _ (Qplus_comp _ _ One _ _ (Qeq_refl _))).
      reflexivity.
    + intros None0. exfalso.
      destruct (All maxEnrollments Min) as (c' & Hc' & E).
      specialize (None0 c' Hc'). lia.
    + reflexivity.
  - split; [lia|]. split; [lia|]. split; [|split; [reflexivity|reflexivity]].
    intros _ P. rewrite Z.gtb_ltb in G. apply Z.ltb_ge in G. lia.
Qed.

End CardTrends.

(** A change of 1234.5 per cent is shown as +999%, one of -12.3 per cent
    as -12%. *)
Lemma X15_buildTrend_rounds_and_clamps_witness :
  DashboardComponentMethods.buildTrend (Some (Js.Finite (2469 # 2))) "vs last month" true
  = DashboardComponentMethods.mkStatTrend "+999%" DashboardComponentMethods.up
      "vs last month"
  /\ DashboardComponentMethods.text
       (DashboardComponentMethods.buildTrend (Some (Js.Finite (- (123 # 10))))
          "vs last month" true)
     = "-12%".
Proof.
  destruct (X15_buildTrend_rounds_and_clamps (2469 # 2) "vs last month" true)
    as (_ & L & U & _).
  destruct (X15_buildTrend_rounds_and_clamps (- (123 # 10)) "vs last month" true)
    as (_ & _ & _ & D & _).
  split.
  - destruct U as (Hd & _ & Ht); [lra|].
    destruct (DashboardComponentMethods.buildTrend (Some (Js.Finite (2469 # 2)))
                "vs last month" true) as [t d l].
    simpl in *. subst. reflexivity.
  - destruct D as (_ & _ & Ht); [lra|]. rewrite Ht. reflexivity.
Defined.

(** Two popular courses with 40 and 10 enrollments: the bars are at 100
    and at 25. *)
Lemma X17_popularity_percentage_bounds_witness :
  let first := CourseSummary.mk 1 "Web Basics" "Web Development" 40 None in
  let second := CourseSummary.mk 2 "Statistics" "Data Science" 10 None in
  let stats :=
    DashboardStats.mk 2 0 0 0 0 0 0 0 [first; second] [] [] [] None None None in
  DashboardComponentMethods.getPopularityPercentage (Some stats) 40 = 100%Z
  /\ (DashboardComponentMethods.getPopularityPercentage (Some stats) 10 <= 100)%Z.
Proof.
  intros first second stats.
  destruct (@X17_popularity_percentage_bounds stats first) as (_ & _ & T & _);
    [left; reflexivity|].
  destruct (@X17_popularity_percentage_bounds stats second) as (B & _);
    [right; left; reflexivity|].
  split.
  - apply T; [|reflexivity].
    intros c' [<-|[<-|[]]]; simpl; lia.
  - exact B.
Defined.

(** ** Relative dates *)

Lemma Qceiling_eq (n : Z) (x : Q) :
  inject_Z n - 1 < x -> x <= inject_Z n -> Qceiling x = n.
Proof.
  intros L U. apply Z.le_antisymm.
  - rewrite <- (Qceiling_Z n). apply Qceiling_resp_le. exact U.
  - assert (H : inject_Z (n - 1) < inject_Z (Qceiling x)).
    { apply Qlt_le_trans with x; [|apply Qle_ceiling].
      unfold Zminus. rewrite inject_Z_plus, inject_Z_opp. exact L. }
    rewrite <- Zlt_Qlt in H. lia.
Qed.

Lemma Qceiling_gt (n : Z) (x : Q) : inject_Z n < x -> (n < Qceiling x)%Z.
Proof.
  intros H. rewrite Zlt_Qlt. apply Qlt_le_trans with x; [exact H|apply Qle_ceiling].
Qed.

Section RelativeDates.

Import DashboardComponentMethods.

Variable engine : Engine.
Variable Date_toLocaleDateString : Date -> string.

(** X18.  [formatDate] labels a date by its distance from now in either
    direction, in days rounded up: "Today" only for the very instant of
    now, "Yesterday" for any other instant up to 24 hours before or after
    now, "n days ago" for n from 2 to 6, and the locale's date from more
    than six days on and for an invalid date.  It reads the clock once. *)
Theorem X18_formatDate_by_distance (date : DateOrString) (w : World) :
  let d := new_Date engine date in
  let now := now_ms (clock w (ticks w)) in
  let shown := fst (formatDate engine Date_toLocaleDateString date w) in
  let day := 86400000%Z in
  (getTime d = None -> shown = Date_toLocaleDateString d)
  /\ (forall time : Z, getTime d = Some time ->
        let distance := Z.abs (now - time) in
        (distance = 0%Z -> shown = "Today")
        /\ ((0 < distance <= day)%Z -> shown = "Yesterday")
        /\ (forall n : Z, (2 <= n <= 6)%Z -> ((n - 1) * day < distance <= n * day)%Z ->
              shown = String.append (Number_toString n) " days ago")
        /\ ((6 * day < distance)%Z -> shown = Date_toLocaleDateString d))
  /\ ticks (snd (formatDate engine Date_toLocaleDateString date w)) = S (ticks w).
Proof.
  intros d now shown day.
  assert (Ceil : forall distance n : Z,
             ((n - 1) * day < distance <= n * day)%Z ->
             Qceiling (inject_Z distance / inject_Z (1000 * 60 * 60 * 24)) = n).
  { intros distance n [L U]. apply Qceiling_eq.
    - apply Qlt_shift_div_l; [reflexivity|].
      change (inject_Z (1000 * 60 * 60 * 24)) with (inject_Z day).
      assert (E : (inject_Z n - 1) * inject_Z day == inject_Z ((n - 1) * day)).
      { rewrite inject_Z_mult. unfold Zminus. rewrite inject_Z_plus, inject_Z_opp.
        reflexivity. }
      rewrite E. rewrite <- Zlt_Qlt. exact L.
    - apply Qle_shift_div_r; [reflexivity|].
      change (inject_Z (1000 * 60 * 60 * 24)) with (inject_Z day).
      rewrite <- inject_Z_mult. rewrite <- Zle_Qle. exact U. }
  split; [|split].
  - intros H. unfold shown, formatDate, Date_now. fold d. rewrite H. reflexivity.
  - intros time H distance.
    assert (Run : forall n : Z,
               Qceiling (inject_Z distance / inject_Z (1000 * 60 * 60 * 24)) = n ->
               shown
               = if (n =? 0)%Z then "Today"
                 else if (n =? 1)%Z then "Yesterday"
                 else if (n <? 7)%Z then String.append (Number_toString n) " days ago"
                 else Date_toLocaleDateString d).
    { intros n E. unfold shown, formatDate, Date_now. fold d. rewrite H.
      fold now. fold distance. rewrite E.
      destruct (n =? 0)%Z; [reflexivity|].
      destruct (n =? 1)%Z; [reflexivity|].
      destruct (n <? 7)%Z; reflexivity. }
    split; [|split; [|split]].
    + intros Z0. rewrite (Run 0%Z); [reflexivity|]. apply Ceil. unfold day. lia.
    + intros B. rewrite (Run 1%Z); [reflexivity|]. apply Ceil. unfold day. lia.
    + intros n N B. rewrite (Run n (Ceil distance n B)).
      assert (E0 : (n =? 0)%Z = false) by (apply Z.eqb_neq; lia).
      assert (E1 : (n =? 1)%Z = false) by (apply Z.eqb_neq; lia).
      assert (E7 : (n <? 7)%Z = true) by (apply Z.ltb_lt; lia).
      rewrite E0, E1, E7. reflexivity.
    + intros Far.
      set (n := Qceiling (inject_Z distance / inject_Z (1000 * 60 * 60 * 24))).
      assert (N : (6 < n)%Z).
      { apply Qceiling_gt. apply Qlt_shift_div_l; [reflexivity|].
        change (inject_Z (1000 * 60 * 60 * 24)) with (inject_Z day).
        rewrite <- inject_Z_mult. rewrite <- Zlt_Qlt. exact Far. }
      rewrite (Run n eq_refl).
      assert (E0 : (n =? 0)%Z = false) by (apply Z.eqb_neq; lia).
      assert (E1 : (n =? 1)%Z = false) by (apply Z.eqb_neq; lia).
      assert (E7 : (n <? 7)%Z = false) by (apply Z.ltb_ge; lia).
      rewrite E0, E1, E7. reflexivity.
  - unfold formatDate, Date_now.
    destruct (getTime (new_Date engine date)) as [time|]; [|reflexivity].
    destruct (_ =? 0)%Z; [reflexivity|].
    destruct (_ =? 1)%Z; [reflexivity|].
    destruct (_ <? 7)%Z; reflexivity.
Qed.

End RelativeDates.

(** At 09:00 on the fifteenth of March the fourteenth is "2 days ago";
    the sixteenth, which lies ahead, is "Yesterday", and so is the instant
    one millisecond after now. *)
Lemma X18_formatDate_by_distance_witness :
  let show :=
    fun date =>
      fst (DashboardComponentMethods.formatDate ReferenceEngine.engine
             ReferenceEngine.toLocaleMonthYear (IsString date)
             (Example.start Example.theServer)) in
  show "2024-03-14" = "2 days ago"
  /\ show "2024-03-16" = "Yesterday"
  /\ show "2024-03-15T09:00:00.001Z" = "Yesterday"
  /\ show "2024-03-15T09:00:00.000Z" = "Today".
Proof.
  intros show.
  assert (At : forall s time,
             Date_parse ReferenceEngine.engine s = Some time ->
             getTime (new_Date ReferenceEngine.engine (IsString s)) = Some time)
    by (intros s time H; exact H).
  split; [|split; [|split]].
  - destruct (X18_formatDate_by_distance ReferenceEngine.engine
                ReferenceEngine.toLocaleMonthYear (IsString "2024-03-14")
                (Example.start Example.theServer)) as (_ & V & _).
    destruct (V 1710374400000%Z (At "2024-03-14" 1710374400000%Z eq_refl)) as (_ & _ & N & _).
    apply (N 2%Z); vm_compute; split; congruence.
  - destruct (X18_formatDate_by_distance ReferenceEngine.engine
                ReferenceEngine.toLocaleMonthYear (IsString "2024-03-16")
                (Example.start Example.theServer)) as (_ & V & _).
    destruct (V 1710547200000%Z (At "2024-03-16" 1710547200000%Z eq_refl)) as (_ & Y & _).
    apply Y. vm_compute. split; congruence.
  - destruct (X18_formatDate_by_distance ReferenceEngine.engine
                ReferenceEngine.toLocaleMonthYear (IsString "2024-03-15T09:00:00.001Z")
                (Example.start Example.theServer)) as (_ & V & _).
    destruct (V 1710493200001%Z (At "2024-03-15T09:00:00.001Z" 1710493200001%Z eq_refl)) as (_ & Y & _).
    apply Y. vm_compute. split; congruence.
  - destruct (X18_formatDate_by_distance ReferenceEngine.engine
                ReferenceEngine.toLocaleMonthYear (IsString "2024-03-15T09:00:00.000Z")
                (Example.start Example.theServer)) as (_ & V & _).
    destruct (V 1710493200000%Z (At "2024-03-15T09:00:00.000Z" 1710493200000%Z eq_refl)) as (T & _).
    apply T. reflexivity.
Defined.

(** ** Chip lists *)

Lemma includes_In (array : list string) (value : string) :
  StringArray.includes array value = true <-> In value array.
Proof.
  unfold StringArray.includes. rewrite existsb_exists. split.
  - intros (x & Hx & E). apply String.eqb_eq in E. subst. exact Hx.
  - intros H. exists value. split; [exact H|apply String.eqb_refl].
Qed.

Lemma indexOf_None (array : list string) (item : string) :
  StringArray.indexOf array item = None <-> ~ In item array.
Proof.
  induction array as [|x rest IH]; simpl.
  - split; [intros _ []|reflexivity].
  - destruct (String.eqb_spec x item) as [E|E].
    + split; [discriminate|]. intros H. exfalso. apply H. left. exact E.
    + destruct (StringArray.indexOf rest item) as [i|]; simpl.
      * split; [discriminate|]. intros H. exfalso.
        assert (N : ~ In item rest) by (intros C; apply H; right; exact C).
        apply IH in N. discriminate.
      * split; [|reflexivity]. intros _ [C|C]; [contradiction|].
        destruct IH as [IH _]. apply (IH eq_refl). exact C.
Qed.

Section ChipLists.

Variable trim : string -> string.

Lemma pushNew_spec (array : list string) (value : string) :
  CourseFormComponent.pushNew array value
  = if String.eqb value "" then array
    else if StringArray.includes array value then array else array ++ [value].
Proof.
  unfold CourseFormComponent.pushNew.
  destruct (String.eqb value ""); [reflexivity|].
  destruct (StringArray.includes array value); reflexivity.
Qed.

Lemma pushNew_clean (array : list string) (value : string) :
  cleanChips array -> cleanChips (CourseFormComponent.pushNew array value).
Proof.
  intros [ND NE]. rewrite pushNew_spec.
  destruct (String.eqb_spec value "") as [E|E]; [split; assumption|].
  destruct (StringArray.includes array value) eqn:I; [split; assumption|].
  split.
  - apply NoDup_app; [exact ND|repeat constructor; intros []|].
    intros x Hx [<-|[]]. apply includes_In in Hx. congruence.
  - intros C. apply in_app_or in C. destruct C as [C|[C|[]]]; [contradiction|].
    apply E. exact C.
Qed.

Lemma removeFirst_incl (array : list string) (item x : string) :
  In x (CourseFormComponent.removeFirst array item) -> In x array.
Proof.
  unfold CourseFormComponent.removeFirst.
  induction array as [|y rest IH]; simpl; [intros []|].
  destruct (String.eqb y item).
  - simpl. intros H. right. exact H.
  - destruct (StringArray.indexOf rest item) as [i|]; simpl.
    + intros [<-|H]; [left; reflexivity|right; apply IH; exact H].
    + intros H. exact H.
Qed.

Lemma removeFirst_NoDup (array : list string) (item : string) :
  NoDup array -> NoDup (CourseFormComponent.removeFirst array item).
Proof.
  unfold CourseFormComponent.removeFirst.
  induction array as [|y rest IH]; simpl; intros ND; [constructor|].
  inversion ND as [|? ? Hy ND']; subst.
  destruct (String.eqb y item); simpl; [exact ND'|].
  destruct (StringArray.indexOf rest item) as [i|] eqn:I; simpl; [|exact ND].
  constructor; [|apply IH; exact ND'].
  intros C. apply Hy.
  assert (H : In y (CourseFormComponent.removeFirst rest item)).
  { unfold CourseFormComponent.removeFirst. rewrite I. exact C. }
  apply removeFirst_incl in H. exact H.
Qed.

Lemma removeFirst_clean (array : list string) (item : string) :
  cleanChips array -> cleanChips (CourseFormComponent.removeFirst array item).
Proof.
  intros [ND NE]. split; [apply removeFirst_NoDup; exact ND|].
  intros C. apply NE. apply removeFirst_incl in C. exact C.
Qed.

Lemma removeFirst_absent (array : list string) (item : string) :
  ~ In item array -> CourseFormComponent.removeFirst array item = array.
Proof.
  intros H. unfold CourseFormComponent.removeFirst.
  apply indexOf_None in H. rewrite H. reflexivity.
Qed.

Lemma removeFirst_gone (array : list string) (item : string) :
  NoDup array -> ~ In item (CourseFormComponent.removeFirst array item).
Proof.
  unfold CourseFormComponent.removeFirst.
  induction array as [|y rest IH]; simpl; intros ND; [intros []|].
  inversion ND as [|? ? Hy ND']; subst.
  destruct (String.eqb_spec y item) as [E|E]; simpl.
  - subst. exact Hy.
  - destruct (StringArray.indexOf rest item) as [i|] eqn:I; simpl.
    + intros [C|C]; [contradiction|]. exact (IH ND' C).
    + intros [C|C]; [contradiction|]. apply indexOf_None in I. contradiction.
Qed.

Lemma removeFirst_snoc (array : list string) (item : string) :
  ~ In item array -> CourseFormComponent.removeFirst (array ++ [item]) item = array.
Proof.
  unfold CourseFormComponent.removeFirst.
  induction array as [|y rest IH]; simpl; intros H.
  - rewrite String.eqb_refl. reflexivity.
  - destruct (String.eqb_spec y item) as [E|E].
    + exfalso. apply H. left. exact E.
    + assert (N : ~ In item rest) by (intros C; apply H; right; exact C).
      specialize (IH N).
      destruct (StringArray.indexOf (rest ++ [item]) item) as [i|]; simpl.
      * f_equal. exact IH.
      * exfalso. clear - IH. assert (L : List.length (rest ++ [item]) = List.length rest)
          by (rewrite IH; reflexivity).
        rewrite length_app in L. simpl in L. lia.
Qed.

Lemma pushNew_again (array : list string) (value : string) :
  CourseFormComponent.pushNew (CourseFormComponent.pushNew array value) value
  = CourseFormComponent.pushNew array value.
Proof.
  rewrite (pushNew_spec array value).
  destruct (String.eqb value "") eqn:E.
  - rewrite pushNew_spec, E. reflexivity.
  - destruct (StringArray.includes array value) eqn:I.
    + rewrite pushNew_spec, E, I. reflexivity.
    + rewrite pushNew_spec, E.
      assert (J : StringArray.includes (array ++ [value]) value = true).
      { apply includes_In. apply in_or_app. right. left. reflexivity. }
      rewrite J. reflexivity.
Qed.

Lemma removeFirst_pushNew (array : list string) (value : string) :
  ~ In value array ->
  CourseFormComponent.removeFirst (CourseFormComponent.pushNew array value) value = array.
Proof.
  intros H. rewrite pushNew_spec.
  destruct (String.eqb value ""); [apply removeFirst_absent; exact H|].
  destruct (StringArray.includes array value) eqn:I.
  - apply includes_In in I. contradiction.
  - apply removeFirst_snoc. exact H.
Qed.

(** X19.  The chip handlers of the course form keep a clean list clean:
    when a list of tags, prerequisites or learning outcomes holds no chip
    twice and no empty chip, it still does after any [add...] and any
    [remove...] event.  An [add...] handler clears the chip input, and
    every handler leaves the two other lists as they are. *)
Theorem X19_chip_lists_stay_clean
    (event : CourseFormComponent.MatChipInputEvent) (item : string)
    (this : CourseFormComponent.t) :
  let tagged := CourseFormComponent.addTag trim event this in
  let untagged := CourseFormComponent.removeTag item this in
  let required := CourseFormComponent.addPrerequisite trim event this in
  let unrequired := CourseFormComponent.removePrerequisite item this in
  let promised := CourseFormComponent.addLearningOutcome trim event this in
  let unpromised := CourseFormComponent.removeLearningOutcome item this in
  (cleanChips (CourseFormComponent.tags this) ->
   cleanChips (CourseFormComponent.tags (fst tagged))
   /\ cleanChips (CourseFormComponent.tags untagged))
  /\ (cleanChips (CourseFormComponent.prerequisites this) ->
      cleanChips (CourseFormComponent.prerequisites (fst required))
      /\ cleanChips (CourseFormComponent.prerequisites unrequired))
  /\ (cleanChips (CourseFormComponent.learningOutcomes this) ->
      cleanChips (CourseFormComponent.learningOutcomes (fst promised))
      /\ cleanChips (CourseFormComponent.learningOutcomes unpromised))
  /\ CourseFormComponent.chipInput (snd tagged) = ""
  /\ CourseFormComponent.chipInput (snd required) = ""
  /\ CourseFormComponent.chipInput (snd promised) = ""
  /\ (CourseFormComponent.prerequisites (fst tagged)
      = CourseFormComponent.prerequisites this
      /\ CourseFormComponent.learningOutcomes (fst tagged)
         = CourseFormComponent.learningOutcomes this
      /\ CourseFormComponent.prerequisites untagged
         = CourseFormComponent.prerequisites this
      /\ CourseFormComponent.learningOutcomes untagged
         = CourseFormComponent.learningOutcomes this)
  /\ (CourseFormComponent.tags (fst required) = CourseFormComponent.tags this
      /\ CourseFormComponent.learningOutcomes (fst required)
         = CourseFormComponent.learningOutcomes this
      /\ CourseFormComponent.tags unrequired = CourseFormComponent.tags this
      /\ CourseFormComponent.learningOutcomes unrequired
         = CourseFormComponent.learningOutcomes this)
  /\ (CourseFormComponent.tags (fst promised) = CourseFormComponent.tags this
      /\ CourseFormComponent.prerequisites (fst promised)
         = CourseFormComponent.prerequisites this
      /\ CourseFormComponent.tags unpromised = CourseFormComponent.tags this
      /\ CourseFormComponent.prerequisites unpromised
         = CourseFormComponent.prerequisites this).
Proof.
  intros tagged untagged required unrequired promised unpromised.
  split; [|split; [|split]].
  - intros C. split; [apply pushNew_clean|apply removeFirst_clean]; exact C.
  - intros C. split; [apply pushNew_clean|apply removeFirst_clean]; exact C.
  - intros C. split; [apply pushNew_clean|apply removeFirst_clean]; exact C.
  - repeat split; reflexivity.
Qed.

(** X20.  Adding and removing chips of the course form undo each other:
    removing the chip an [add...] event just added to a list that did not
    hold it gives the list back; the same event a second time changes
    nothing; removing a chip the list does not hold changes nothing;
    and after a chip is removed from a list without duplicates the list
    does not hold it.  An event whose text is empty after trimming adds
    nothing. *)
Theorem X20_chips_added_and_removed
    (event : CourseFormComponent.MatChipInputEvent) (item : string)
    (this : CourseFormComponent.t) :
  let value := CourseFormComponent.typed trim event in
  let tagged := fst (CourseFormComponent.addTag trim event this) in
  let required := fst (CourseFormComponent.addPrerequisite trim event this) in
  let promised := fst (CourseFormComponent.addLearningOutcome trim event this) in
  (fst (CourseFormComponent.addTag trim event tagged) = tagged
   /\ fst (CourseFormComponent.addPrerequisite trim event required) = required
   /\ fst (CourseFormComponent.addLearningOutcome trim event promised) = promised)
  /\ (~ In value (CourseFormComponent.tags this) ->
      CourseFormComponent.removeTag value tagged = this)
  /\ (~ In value (CourseFormComponent.prerequisites this) ->
      CourseFormComponent.removePrerequisite value required = this)
  /\ (~ In value (CourseFormComponent.learningOutcomes this) ->
      CourseFormComponent.removeLearningOutcome value promised = this)
  /\ (~ In item (CourseFormComponent.tags this) ->
      CourseFormComponent.removeTag item this = this)
  /\ (NoDup (CourseFormComponent.tags this) ->
      ~ In item (CourseFormComponent.tags (CourseFormComponent.removeTag item this)))
  /\ (NoDup (CourseFormComponent.prerequisites this) ->
      ~ In item
          (CourseFormComponent.prerequisites
             (CourseFormComponent.removePrerequisite item this)))
  /\ (NoDup (CourseFormComponent.learningOutcomes this) ->
      ~ In item
          (CourseFormComponent.learningOutcomes
             (CourseFormComponent.removeLearningOutcome item this)))
  /\ (value = "" -> tagged = this /\ required = this /\ promised = this).
Proof.
  intros value tagged required promised.
  destruct this as [tags prerequisites learningOutcomes].
  unfold tagged, required, promised, CourseFormComponent.addTag,
    CourseFormComponent.addPrerequisite, CourseFormComponent.addLearningOutcome,
    CourseFormComponent.removeTag, CourseFormComponent.removePrerequisite,
    CourseFormComponent.removeLearningOutcome.
  cbn [fst CourseFormComponent.tags CourseFormComponent.prerequisites
         CourseFormComponent.learningOutcomes].
  fold value.
  split; [|split; [|split; [|split; [|split; [|split; [|split; [|split]]]]]]].
  - rewrite !pushNew_again. repeat split; reflexivity.
  - intros H. rewrite removeFirst_pushNew by exact H. reflexivity.
  - intros H. rewrite removeFirst_pushNew by exact H. reflexivity.
  - intros H. rewrite removeFirst_pushNew by exact H. reflexivity.
  - intros H. rewrite removeFirst_absent by exact H. reflexivity.
  - apply removeFirst_gone.
  - apply removeFirst_gone.
  - apply removeFirst_gone.
  - intros E. rewrite E. rewrite !pushNew_spec. simpl. repeat split; reflexivity.
Qed.

End ChipLists.

(** The chip " rust " typed into a form that holds the tag "coq", with a
    [trim] that drops blanks at both ends of this text. *)
Lemma X19_chip_lists_stay_clean_witness :
  let trim := fun s : string => if String.eqb s " rust " then "rust" else s in
  let this := CourseFormComponent.mk ["coq"] [] [] in
  let event := CourseFormComponent.mkMatChipInputEvent (Some " rust ") " rust " in
  CourseFormComponent.tags (fst (CourseFormComponent.addTag trim event this))
  = ["coq"; "rust"]
  /\ cleanChips (CourseFormComponent.tags (fst (CourseFormComponent.addTag trim event this))).
Proof.
  intros trim this event.
  destruct (X19_chip_lists_stay_clean trim event "coq" this) as (T & _).
  split; [reflexivity|]. apply T.
  split.
  - repeat constructor. intros [].
  - intros [C|[]]. discriminate.
Defined.

Lemma X20_chips_added_and_removed_witness :
  let trim := fun s : string => if String.eqb s " rust " then "rust" else s in
  let this := CourseFormComponent.mk ["coq"] [] [] in
  let event := CourseFormComponent.mkMatChipInputEvent (Some " rust ") " rust " in
  CourseFormComponent.removeTag "rust"
    (fst (CourseFormComponent.addTag trim event this)) = this
  /\ ~ In "coq" (CourseFormComponent.tags (CourseFormComponent.removeTag "coq" this)).
Proof.
  intros trim this event.
  destruct (X20_chips_added_and_removed trim event "coq" this)
    as (_ & R & _ & _ & _ & G & _).
  split.
  - apply R. intros [C|[]]. discriminate.
  - apply G. repeat constructor. intros [].
Defined.

(** ** The options of the enrollment filters *)

Section NumberMapFacts.

Context {V : Type}.

Lemma NumberMap_keys_set (m : NumberMap.t V) (k : Z) (v : V) :
  List.map fst (NumberMap.set m k v)
  = if existsb (fun kv => (fst kv =? k)%Z) m
    then List.map fst m else List.map fst m ++ [k].
Proof.
  induction m as [|[k' v'] m IH]; simpl; [reflexivity|].
  destruct (Z.eqb_spec k' k); simpl; [reflexivity|].
  rewrite IH. destruct (existsb _ m); reflexivity.
Qed.

Lemma NumberMap_has_keys (m : NumberMap.t V) (k : Z) :
  existsb (fun kv => (fst kv =? k)%Z) m = true <-> In k (List.map fst m).
Proof.
  rewrite existsb_exists, in_map_iff. split.
  - intros ([k' v'] & H & E). apply Z.eqb_eq in E. exists (k', v'). split; assumption.
  - intros ([k' v'] & E & H). exists (k', v'). split; [exact H|apply Z.eqb_eq; exact E].
Qed.

Lemma NumberMap_NoDup_set (m : NumberMap.t V) (k : Z) (v : V) :
  NoDup (List.map fst m) -> NoDup (List.map fst (NumberMap.set m k v)).
Proof.
  intros ND. rewrite NumberMap_keys_set.
  destruct (existsb _ m) eqn:H; [exact ND|].
  apply NoDup_app; [exact ND|repeat constructor; intros []|].
  intros x Hx [<-|[]].
  apply NumberMap_has_keys in Hx. congruence.
Qed.

Lemma NumberMap_In_set (m : NumberMap.t V) (k : Z) (v : V) (k' : Z) (v' : V) :
  NoDup (List.map fst m) ->
  In (k', v') (NumberMap.set m k v)
  <-> (k' = k /\ v' = v) \/ (k' <> k /\ In (k', v') m).
Proof.
  induction m as [|[k0 v0] m IH]; simpl; intros ND.
  - split.
    + intros [E|[]]. injection E as <- <-. left. split; reflexivity.
    + intros [[-> ->]|[_ []]]. left. reflexivity.
  - inversion ND as [|? ? Hk0 ND']; subst.
    destruct (Z.eqb_spec k0 k) as [E|E]; simpl.
    + subst k0. split.
      * intros [H|H].
        -- injection H as <- <-. left. split; reflexivity.
        -- right. split; [|right; exact H].
           intros ->. apply Hk0. apply in_map_iff. exists (k, v'). split; [reflexivity|exact H].
      * intros [[-> ->]|[N [H|H]]].
        -- left. reflexivity.
        -- injection H as <- _. contradiction.
        -- right. exact H.
    + rewrite (IH ND'). split.
      * intros [H|[[-> ->]|[N H]]].
        -- injection H as <- <-. right. split; [exact E|left; reflexivity].
        -- left. split; reflexivity.
        -- right. split; [exact N|right; exact H].
      * intros [[-> ->]|[N [H|H]]].
        -- right. left. split; reflexivity.
        -- left. exact H.
        -- right. right. split; assumption.
Qed.

End NumberMapFacts.

Section FilterOptions.

Import EnrollmentListComponent.

Lemma lastNamed_snoc (key : EnrollmentWithDetails.t -> Z)
    (name : EnrollmentWithDetails.t -> option string) (k : Z)
    (done : list EnrollmentWithDetails.t) (e : EnrollmentWithDetails.t) :
  lastNamed key name k (done ++ [e])
  = match Js.truthy_string (name e) with
    | Some n => if (key e =? k)%Z then Some n else lastNamed key name k done
    | None => lastNamed key name k done
    end.
Proof. unfold lastNamed. rewrite fold_left_app. reflexivity. Qed.

Lemma mapHolds_step (key : EnrollmentWithDetails.t -> Z)
    (name : EnrollmentWithDetails.t -> option string)
    (done : list EnrollmentWithDetails.t) (e : EnrollmentWithDetails.t)
    (m : NumberMap.t string) :
  mapHolds key name done m ->
  mapHolds key name (done ++ [e])
    match Js.truthy_string (name e) with
    | Some n => NumberMap.set m (key e) n
    | None => m
    end.
Proof.
  intros [ND H]. unfold mapHolds.
  destruct (Js.truthy_string (name e)) as [n|] eqn:T.
  - split; [apply NumberMap_NoDup_set; exact ND|].
    intros k n'. rewrite lastNamed_snoc, T.
    rewrite (@NumberMap_In_set _ m (key e) n k n' ND).
    destruct (Z.eqb_spec (key e) k) as [E|E].
    + split.
      * intros [[_ ->]|[N _]]; [reflexivity|]. congruence.
      * intros S. injection S as <-. left. split; [symmetry; exact E|reflexivity].
    + rewrite <- H. split.
      * intros [[-> _]|[_ I]]; [congruence|exact I].
      * intros I. right. split; [congruence|exact I].
  - split; [exact ND|]. intros k n'. rewrite lastNamed_snoc, T. apply H.
Qed.

Lemma fold_noteEnrollment (enrollments : list EnrollmentWithDetails.t) :
  let maps := fold_left noteEnrollment enrollments (NumberMap.empty, NumberMap.empty) in
  mapHolds courseKey EnrollmentWithDetails.courseName enrollments (fst maps)
  /\ mapHolds studentKey EnrollmentWithDetails.studentName enrollments (snd maps).
Proof.
  induction enrollments as [|e done IH] using rev_ind.
  - unfold mapHolds, NumberMap.empty. simpl.
    split; (split; [apply NoDup_nil|intros k n; split; [intros []|discriminate]]).
  - rewrite fold_left_app. simpl.
    destruct (fold_left noteEnrollment done (NumberMap.empty, NumberMap.empty))
      as [courseMap studentMap].
    destruct IH as [C S]. simpl in C, S. unfold noteEnrollment. simpl. split.
    + apply (@mapHolds_step courseKey EnrollmentWithDetails.courseName done e courseMap C).
    + apply (@mapHolds_step studentKey EnrollmentWithDetails.studentName done e
               studentMap S).
Qed.

(** X21.  The course options that [extractFilterOptions] offers are the
    entries of a map from course ids to names, each id shown through
    [toString]: no id is offered twice, an id is offered exactly when some
    enrollment with that course id carries a non-empty course name, and
    its title is the name the last such enrollment carries.  The student
    options are built the same way from the student ids and names. *)
Theorem X21_filter_options_are_unique (enrollments : list EnrollmentWithDetails.t) :
  exists courseEntries studentEntries : list (Z * string),
    fst (extractFilterOptions enrollments)
    = List.map (fun '(id, title) => mkCourseOption (Number_toString id) title)
        courseEntries
    /\ snd (extractFilterOptions enrollments)
       = List.map (fun '(id, name) => mkStudentOption (Number_toString id) name)
           studentEntries
    /\ NoDup (List.map fst courseEntries)
    /\ NoDup (List.map fst studentEntries)
    /\ (forall id title,
          In (id, title) courseEntries
          <-> lastNamed courseKey EnrollmentWithDetails.courseName id enrollments
              = Some title)
    /\ (forall id name,
          In (id, name) studentEntries
          <-> lastNamed studentKey EnrollmentWithDetails.studentName id enrollments
              = Some name).
Proof.
  destruct (fold_noteEnrollment enrollments) as [[NDc Hc] [NDs Hs]].
  unfold extractFilterOptions.
  destruct (fold_left noteEnrollment enrollments (NumberMap.empty, NumberMap.empty))
    as [courseMap studentMap].
  exists courseMap, studentMap. simpl in *.
  repeat split; try assumption; try apply Hc; try apply Hs.
Qed.

End FilterOptions.

(** Three enrollments in two courses: the course renamed by the later
    enrollment is offered once, under the later name. *)
Lemma X21_filter_options_are_unique_witness :
  let row := fun id courseId studentId courseName =>
    EnrollmentWithDetails.mk
      (Example.enrollment id courseId studentId "2024-03-05" ENROLLED 0 None)
      (Some courseName) None (Some "Alice") None in
  let rows := [row 1%Z 7%Z 1%Z "Web"; row 2%Z 8%Z 1%Z "Data"; row 3%Z 7%Z 1%Z "Web II"] in
  fst (EnrollmentListComponent.extractFilterOptions rows)
  = [EnrollmentListComponent.mkCourseOption "7" "Web II";
     EnrollmentListComponent.mkCourseOption "8" "Data"]
  /\ exists courseEntries : list (Z * string),
       In (7%Z, "Web II") courseEntries /\ ~ In (7%Z, "Web") courseEntries.
Proof.
  intros row rows.
  destruct (X21_filter_options_are_unique rows)
    as (courseEntries & _ & _ & _ & _ & _ & C & _).
  split; [reflexivity|].
  exists courseEntries. split.
  - apply C. reflexivity.
  - intros H. apply C in H. discriminate.
Defined.

(** ** The statistics of the course page *)

Section CoursePage.

Import CourseDetailComponent.

(** X22.  The statistics [CourseDetailComponent.calculateStats] leaves on
    the page agree with [getEnrollmentStats] on the same enrollments in
    the three counts; for at least one enrollment its average progress and
    completion rate are the unrounded forms of the service's, and for at
    least one graded enrollment so is its average grade.  What it does
    not compute it does not reset: for no enrollment the average progress,
    the average grade and the completion rate keep the values they had
    before the call, and without a graded enrollment the average grade
    does. *)
Theorem X22_course_page_statistics (enrollments : list Enrollment.t) (stats : Stats) :
  let shown := calculateStats enrollments stats in
  let service := EnrollmentService.enrollmentStats enrollments in
  totalEnrollments shown = EnrollmentStats.totalEnrollments service
  /\ activeEnrollments shown = EnrollmentStats.activeEnrollments service
  /\ completedEnrollments shown = EnrollmentStats.completedEnrollments service
  /\ (enrollments <> [] ->
      Js.round2 (averageProgress shown) = EnrollmentStats.averageProgress service
      /\ Js.round2 (completionRate shown) = EnrollmentStats.completionRate service)
  /\ ((exists e g, In e enrollments /\ Enrollment.grade e = Some g) ->
      Js.round2 (averageGrade shown) = EnrollmentStats.averageGrade service)
  /\ (enrollments = [] ->
      averageProgress shown = averageProgress stats
      /\ averageGrade shown = averageGrade stats
      /\ completionRate shown = completionRate stats)
  /\ ((forall e, In e enrollments -> Enrollment.grade e = None) ->
      averageGrade shown = averageGrade stats).
Proof.
  intros shown service.
  assert (Graded : forall l : list Enrollment.t,
             (0 <? List.length (filter EnrollmentService.grade_defined l))%nat = true
             <-> exists e g, In e l /\ Enrollment.grade e = Some g).
  { intros l. rewrite Nat.ltb_lt. split.
    - intros H. destruct (filter EnrollmentService.grade_defined l) as [|e r] eqn:F;
        [simpl in H; lia|].
      assert (I : In e (filter EnrollmentService.grade_defined l))
        by (rewrite F; left; reflexivity).
      apply filter_In in I. destruct I as [I G].
      unfold EnrollmentService.grade_defined in G.
      destruct (Enrollment.grade e) as [g|] eqn:E; [|discriminate].
      exists e, g. split; assumption.
    - intros (e & g & I & E).
      assert (J : In e (filter EnrollmentService.grade_defined l)).
      { apply filter_In. split; [exact I|].
        unfold EnrollmentService.grade_defined. rewrite E. reflexivity. }
      destruct (filter EnrollmentService.grade_defined l); [destruct J|simpl; lia]. }
  unfold shown, service, calculateStats, EnrollmentService.enrollmentStats.
  change (fun e : Enrollment.t =>
            match Enrollment.grade e with Some _ => true | None => false end)
    with EnrollmentService.grade_defined.
  destruct (0 <? List.length enrollments)%nat eqn:N.
  - destruct (0 <? List.length (filter EnrollmentService.grade_defined enrollments))%nat
      eqn:G; cbn -[Js.round2 Js.reduce_sum Js.len filter List.length].
    + split; [reflexivity|]. split; [reflexivity|]. split; [reflexivity|].
      split; [intros _; split; reflexivity|].
      split; [intros _; reflexivity|].
      split; [intros E; subst; discriminate N|].
      intros None0. apply Graded in G. destruct G as (e & g & I & E).
      rewrite (None0 e I) in E. discriminate E.
    + split; [reflexivity|]. split; [reflexivity|]. split; [reflexivity|].
      split; [intros _; split; reflexivity|].
      split; [intros H; apply Graded in H; congruence|].
      split; [intros E; subst; discriminate N|].
      intros _. reflexivity.
  - assert (E : enrollments = []).
    { destruct enrollments; [reflexivity|discriminate]. }
    subst. cbn -[Js.round2].
    split; [reflexivity|]. split; [reflexivity|]. split; [reflexivity|].
    split; [intros C; congruence|].
    split; [intros (e & g & [] & _)|].
    split; [intros _; repeat split; reflexivity|].
    intros _. reflexivity.
Qed.

End CoursePage.

(** The page of a course is opened after the page of a course whose
    enrollments averaged 55 in progress and 70 in grade: the new course
    has no enrollment, and the page still shows 55 and 70. *)
Lemma X22_course_page_statistics_witness :
  let before := CourseDetailComponent.mkStats 4 2 1 55 70 25 in
  let shown := CourseDetailComponent.calculateStats [] before in
  CourseDetailComponent.totalEnrollments shown = 0%nat
  /\ CourseDetailComponent.averageProgress shown = 55
  /\ CourseDetailComponent.averageGrade shown = 70
  /\ CourseDetailComponent.completionRate shown = 25.
Proof.
  intros before shown.
  destruct (X22_course_page_statistics [] before) as (T & _ & _ & _ & _ & S & _).
  destruct (S eq_refl) as (P & G & R).
  split; [exact T|]. split; [exact P|]. split; [exact G|exact R].
Defined.

(** ** Insights *)

Lemma StronglySorted_filter {A : Type} (R : A -> A -> Prop) (p : A -> bool) (l : list A) :
  StronglySorted R l -> StronglySorted R (filter p l).
Proof.
  induction 1 as [|x l Hs IH Hall]; simpl; [constructor|].
  destruct (p x); [|exact IH].
  constructor; [exact IH|].
  rewrite Forall_forall in *. intros y Hy. apply filter_In in Hy. apply Hall, Hy.
Qed.

Lemma sorted_last {A : Type} (R : A -> A -> Prop) (l : list A) (z : A) :
  StronglySorted R l ->
  nth_error l (List.length l - 1) = Some z ->
  In z l /\ forall x, In x l -> x = z \/ R x z.
Proof.
  induction 1 as [|x l Hs IH Hall]; simpl; [discriminate|].
  rewrite Nat.sub_0_r. destruct l as [|y l'].
  - simpl. intros E. injection E as <-. split; [left; reflexivity|].
    intros x' [<-|[]]. left. reflexivity.
  - intros E.
    assert (E' : nth_error (y :: l') (List.length (y :: l') - 1) = Some z).
    { simpl. rewrite Nat.sub_0_r. exact E. }
    destruct (IH E') as [Hz Hle]. split; [right; exact Hz|].
    intros x' [<-|Hx'].
    + right. rewrite Forall_forall in Hall. apply Hall. exact Hz.
    + apply Hle. exact Hx'.
Qed.

Lemma sorted_first {A : Type} (key : A -> Q) (l : list A) :
  l <> [] ->
  exists first rest,
    JsArray.sort (descending key) l = first :: rest
    /\ In first l
    /\ forall x, In x l -> key x <= key first.
Proof.
  intros N.
  pose proof (sort_perm (descending key) l) as P.
  pose proof (sort_sorted key l) as S.
  destruct (JsArray.sort (descending key) l) as [|first rest].
  - apply Permutation_nil in P. congruence.
  - exists first, rest. split; [reflexivity|]. split.
    + apply (Permutation_in _ P). left. reflexivity.
    + intros x Hx. apply (Permutation_in _ (Permutation_sym P)) in Hx.
      destruct Hx as [<-|Hx]; [apply Qle_refl|].
      apply StronglySorted_inv in S. destruct S as [_ Hall].
      rewrite Forall_forall in Hall. apply Hall. exact Hx.
Qed.

Section Insights.

Import DashboardComponentMethods.

(** X23.  [calculateInsights] names as most popular a course of the list
    with the largest enrollment count, as least popular one with the
    smallest count among those that have an enrollment ("N/A" when none
    has), and as top category a record of the distribution with the
    largest course count.  For an empty list of courses the two course
    names, and for an empty distribution the category, keep the value they
    had before the call. *)
Theorem X23_insights_name_the_extremes (stats : DashboardStats.t) (this : Insights) :
  let found := calculateInsights stats this in
  let popular := DashboardStats.popularCourses stats in
  let distribution := DashboardStats.categoryDistribution stats in
  (popular = [] ->
   mostPopularCourse found = mostPopularCourse this
   /\ leastPopularCourse found = leastPopularCourse this)
  /\ (popular <> [] ->
      exists c, In c popular /\ mostPopularCourse found = CourseSummary.title c
        /\ forall c', In c' popular ->
             (CourseSummary.enrollmentCount c' <= CourseSummary.enrollmentCount c)%Z)
  /\ (popular <> [] ->
      (forall c, In c popular -> (CourseSummary.enrollmentCount c <= 0)%Z) ->
      leastPopularCourse found = "N/A")
  /\ ((exists c, In c popular /\ (0 < CourseSummary.enrollmentCount c)%Z) ->
      exists c, In c popular /\ (0 < CourseSummary.enrollmentCount c)%Z
        /\ leastPopularCourse found = CourseSummary.title c
        /\ forall c', In c' popular -> (0 < CourseSummary.enrollmentCount c')%Z ->
             (CourseSummary.enrollmentCount c <= CourseSummary.enrollmentCount c')%Z)
  /\ (distribution = [] -> topCategory found = topCategory this)
  /\ (distribution <> [] ->
      exists r, In r distribution /\ topCategory found = CategoryStats.category r
        /\ forall r', In r' distribution ->
             (CategoryStats.courseCount r' <= CategoryStats.courseCount r)%nat).
Proof.
  intros found popular distribution.
  (* the second step of the function leaves the two course names as they are *)
  set (named :=
         if (0 <? List.length popular)%nat then
           let sorted :=
             JsArray.sort
               (descending (fun c => inject_Z (CourseSummary.enrollmentCount c)))
               popular in
           match sorted with
           | first :: _ =>
               let active :=
                 filter (fun c => (CourseSummary.enrollmentCount c >? 0)%Z) sorted in
               let least :=
                 if (0 <? List.length active)%nat then
                   match nth_error active (List.length active - 1) with
                   | Some c => CourseSummary.title c
                   | None => "N/A"
                   end
                 else "N/A" in
               mkInsights (CourseSummary.title first) (topCategory this) least
           | [] => this
           end
         else this).
  assert (Most : mostPopularCourse found = mostPopularCourse named
                 /\ leastPopularCourse found = leastPopularCourse named).
  { unfold found, calculateInsights. fold popular. fold distribution.
    change (fun a b : CourseSummary.t =>
              inject_Z (CourseSummary.enrollmentCount b)
              - inject_Z (CourseSummary.enrollmentCount a))
      with (descending (fun c => inject_Z (CourseSummary.enrollmentCount c))).
    fold named.
    destruct (0 <? List.length distribution)%nat; [|split; reflexivity].
    destruct (JsArray.sort _ distribution); split; reflexivity. }
  destruct Most as [Most Least].
  assert (Top : topCategory named = topCategory this).
  { unfold named. destruct (0 <? List.length popular)%nat; [|reflexivity].
    destruct (JsArray.sort _ popular); reflexivity. }
  split; [|split; [|split; [|split; [|split]]]].
  - intros E. rewrite Most, Least. unfold named. rewrite E. split; reflexivity.
  - intros N. rewrite Most. unfold named.
    destruct popular as [|c0 cs] eqn:P; [congruence|].
    change (0 <? List.length (c0 :: cs))%nat with true. cbv iota.
    destruct (@sorted_first _ (fun c => inject_Z (CourseSummary.enrollmentCount c))
                (c0 :: cs) N) as (first & rest & S & I & M).
    rewrite S. exists first. split; [exact I|]. split; [reflexivity|].
    intros c' Hc'. rewrite Zle_Qle. apply M. exact Hc'.
  - intros N All. rewrite Least. unfold named.
    destruct popular as [|c0 cs] eqn:P; [congruence|].
    change (0 <? List.length (c0 :: cs))%nat with true. cbv iota.
    destruct (@sorted_first _ (fun c => inject_Z (CourseSummary.enrollmentCount c))
                (c0 :: cs) N) as (first & rest & S & I & M).
    rewrite S. cbv zeta.
    rewrite <- S.
    rewrite filter_none; [reflexivity|].
    intros c Hc.
    apply (Permutation_in _ (sort_perm _ (c0 :: cs))) in Hc.
    rewrite Z.gtb_ltb. apply Z.ltb_ge. apply All. exact Hc.
  - intros (c1 & I1 & P1). rewrite Least. unfold named.
    assert (N : popular <> []) by (intros E; rewrite E in I1; destruct I1).
    destruct popular as [|c0 cs] eqn:P; [congruence|].
    change (0 <? List.length (c0 :: cs))%nat with true. cbv iota.
    destruct (@sorted_first _ (fun c => inject_Z (CourseSummary.enrollmentCount c))
                (c0 :: cs) N) as (first & rest & S & I & M).
    rewrite S. cbv zeta. rewrite <- S.
    set (sorted := JsArray.sort
                     (descending (fun c => inject_Z (CourseSummary.enrollmentCount c)))
                     (c0 :: cs)).
    set (active := filter (fun c => (CourseSummary.enrollmentCount c >? 0)%Z) sorted).
    assert (Perm : Permutation sorted (c0 :: cs)) by apply sort_perm.
    assert (Act : forall c, In c active
                            <-> In c (c0 :: cs) /\ (0 < CourseSummary.enrollmentCount c)%Z).
    { intros c. unfold active. rewrite filter_In, Z.gtb_ltb, Z.ltb_lt. split.
      - intros [H Q]. split; [apply (Permutation_in _ Perm); exact H|exact Q].
      - intros [H Q]. split; [apply (Permutation_in _ (Permutation_sym Perm)); exact H|exact Q]. }
    assert (Sorted : StronglySorted
                       (fun a b => inject_Z (CourseSummary.enrollmentCount b)
                                   <= inject_Z (CourseSummary.enrollmentCount a))
                       active).
    { apply StronglySorted_filter.
      apply (sort_sorted (fun c => inject_Z (CourseSummary.enrollmentCount c))). }
    assert (In1 : In c1 active) by (apply Act; split; assumption).
    destruct active as [|a0 act] eqn:A; [destruct In1|].
    change (0 <? List.length (a0 :: act))%nat with true. cbv iota.
    destruct (nth_error (a0 :: act) (List.length (a0 :: act) - 1)) as [z|] eqn:Z.
    + destruct (sorted_last Sorted Z) as [Hz Hle].
      exists z. apply Act in Hz. destruct Hz as [Hz Pz].
      split; [exact Hz|]. split; [exact Pz|]. split; [reflexivity|].
      intros c' Hc' Pc'.
      assert (Ic' : In c' (a0 :: act)) by (apply Act; split; assumption).
      destruct (Hle c' Ic') as [->|Q]; [lia|].
      rewrite Zle_Qle. exact Q.
    + exfalso. apply nth_error_None in Z. simpl in Z. lia.
  - intros E. unfold found, calculateInsights. fold distribution. rewrite E.
    cbn [List.length Nat.ltb Nat.leb]. fold popular.
    change (fun a b : CourseSummary.t =>
              inject_Z (CourseSummary.enrollmentCount b)
              - inject_Z (CourseSummary.enrollmentCount a))
      with (descending (fun c => inject_Z (CourseSummary.enrollmentCount c))).
    fold named. exact Top.
  - intros N. unfold found, calculateInsights. fold distribution.
    destruct distribution as [|r0 rs] eqn:D; [congruence|].
    change (0 <? List.length (r0 :: rs))%nat with true. cbv iota.
    change (fun a b : CategoryStats.t =>
              inject_Z (Z.of_nat (CategoryStats.courseCount b))
              - inject_Z (Z.of_nat (CategoryStats.courseCount a)))
      with (descending (fun r => inject_Z (Z.of_nat (CategoryStats.courseCount r)))).
    destruct (@sorted_first _ (fun r => inject_Z (Z.of_nat (CategoryStats.courseCount r)))
                (r0 :: rs) N) as (first & rest & S & I & M).
    rewrite S. exists first. split; [exact I|]. split; [reflexivity|].
    intros r' Hr'. apply Nat2Z.inj_le. rewrite Zle_Qle. apply M. exact Hr'.
Qed.

End Insights.

(** Three popular courses with 12, 0 and 30 enrollments. *)
Lemma X23_insights_name_the_extremes_witness :
  let popular :=
    [CourseSummary.mk 1 "Web Basics" "Web Development" 12 None;
     CourseSummary.mk 2 "Web Advanced" "Web Development" 0 None;
     CourseSummary.mk 3 "Statistics" "Data Science" 30 None] in
  let stats := DashboardStats.mk 3 0 0 0 0 0 0 0 popular [] [] [] None None None in
  let found :=
    DashboardComponentMethods.calculateInsights stats
      (DashboardComponentMethods.mkInsights "" "Design" "") in
  DashboardComponentMethods.mostPopularCourse found = "Statistics"
  /\ DashboardComponentMethods.leastPopularCourse found = "Web Basics"
  /\ DashboardComponentMethods.topCategory found = "Design".
Proof.
  intros popular stats found.
  destruct (X23_insights_name_the_extremes stats
              (DashboardComponentMethods.mkInsights "" "Design" ""))
    as (_ & _ & _ & _ & T & _).
  split; [reflexivity|]. split; [reflexivity|]. apply T. reflexivity.
Defined.
